(** * The CSV virtual table of csv.c: line reader, field tokenizer,
      field materializer and cursor, as a shallow embedding.

    C [int] and [long] values are integers of [Z]; the row buffer and the
    column arrays are lists indexed by such integers; a [char *] into the
    row buffer is its offset; [NULL] is [None].  The stdio stream is the
    file's bytes and a position.  The host (SQLite) is a record holding the
    two limits the code asks for and the behaviour of the allocator. *)

From Stdlib Require Import Ascii String ZArith List Bool Lia Sorted.
From Stdlib Require DecimalString.
Import ListNotations.
Local Open Scope Z_scope.

(** ** Bytes *)

Definition NUL : ascii := "000"%char.
Definition LF : ascii := "010"%char.
Definition CR : ascii := "013"%char.
Definition DQUOTE : ascii := "034"%char.
Definition COMMA : ascii := ","%char.

(** ** Result codes of SQLite *)

Definition SQLITE_OK : Z := 0.
Definition SQLITE_ERROR : Z := 1.
Definition SQLITE_NOMEM : Z := 7.

(** ** Arrays: cells read and written at an integer index *)

Section Arrays.
Context {A : Type}.

(** [a[i]], with [d] where the index is past the end. *)
Definition aget (a : list A) (i : Z) (d : A) : A := nth (Z.to_nat i) a d.

(** [a[i] = v]; a store outside the array (undefined in C) changes nothing. *)
Definition aset (a : list A) (i : Z) (v : A) : list A :=
  if (0 <=? i) && (i <? Z.of_nat (length a))
  then firstn (Z.to_nat i) a ++ v :: skipn (S (Z.to_nat i)) a
  else a.

(** [realloc(a, n)]: the old cells are kept, cells past them are [fresh]. *)
Definition realloc_cells (a : list A) (n : Z) (fresh : A) : list A :=
  firstn (Z.to_nat n) a ++ repeat fresh (Z.to_nat n - length a).

(** The cells [bytes] written from index [i] on. *)
Definition write_at (a : list A) (i : Z) (bytes : list A) : list A :=
  firstn (Z.to_nat i) a ++ bytes ++ skipn (Z.to_nat i + length bytes) a.

End Arrays.

Definition load (buf : list ascii) (i : Z) : ascii := aget buf i NUL.

(** ** C strings in a buffer *)

(** The bytes of the string that starts a list: all of them up to the first NUL. *)
Fixpoint cstr (l : list ascii) : list ascii :=
  match l with
  | [] => []
  | c :: l' => if (c =? NUL)%char then [] else c :: cstr l'
  end.

(** The string at offset [s] of [buf]. *)
Definition string_at (buf : list ascii) (s : Z) : list ascii :=
  cstr (skipn (Z.to_nat s) buf).

Definition strlen (buf : list ascii) (s : Z) : Z :=
  Z.of_nat (length (string_at buf s)).

(** Index of the first byte of the string starting [l] that satisfies [p]. *)
Fixpoint span_until (p : ascii -> bool) (l : list ascii) : option nat :=
  match l with
  | [] => None
  | c :: l' =>
      if (c =? NUL)%char then None
      else if p c then Some O
      else option_map S (span_until p l')
  end.

(** [strchr(s, c)] for a [c] other than NUL: a pointer is an offset, [None] is NULL. *)
Definition strchr (buf : list ascii) (s : Z) (c : ascii) : option Z :=
  option_map (fun k => s + Z.of_nat k)
             (span_until (fun x => (x =? c)%char) (skipn (Z.to_nat s) buf)).

(** [strpbrk(s, accept)], [accept] being the bytes of a C string. *)
Definition strpbrk (buf : list ascii) (s : Z) (accept : list ascii) : option Z :=
  option_map (fun k => s + Z.of_nat k)
             (span_until (fun x => existsb (fun a => (x =? a)%char) accept)
                         (skipn (Z.to_nat s) buf)).

(** ** The stdio stream *)

Record FILE := mkFILE { fdata : list ascii; fpos : Z }.

(** At most [k] bytes, stopping after a newline. *)
Fixpoint take_line (k : nat) (l : list ascii) : list ascii :=
  match k, l with
  | S k', c :: l' => if (c =? LF)%char then [c] else c :: take_line k' l'
  | _, _ => []
  end.

(** [fgets(buf, size, fp)]: the bytes read (the caller stores them followed
    by a NUL), or [None] for a NULL result, and the stream afterwards. *)
Definition fgets (size : Z) (fp : FILE) : option (list ascii) * FILE :=
  if size <=? 0 then (None, fp)
  else if size =? 1 then (Some [], fp)
  else
    match take_line (Z.to_nat (size - 1)) (skipn (Z.to_nat (fpos fp)) (fdata fp)) with
    | [] => (None, fp)
    | chunk => (Some chunk, mkFILE (fdata fp) (fpos fp + Z.of_nat (length chunk)))
    end.

Definition ftell (fp : FILE) : Z := fpos fp.

(** [fseek(fp, pos, SEEK_SET)]; a negative position is refused. *)
Definition fseek (fp : FILE) (pos : Z) : FILE :=
  if pos <? 0 then fp else mkFILE (fdata fp) pos.

(** ** The host *)

Record sqlite3 := mk_sqlite3 {
  limit_length : Z;        (* sqlite3_limit(db, SQLITE_LIMIT_LENGTH, -1) *)
  limit_column : Z;        (* sqlite3_limit(db, SQLITE_LIMIT_COLUMN, -1) *)
  malloc_ok : Z -> bool;   (* does the allocator grant a request of that size *)
  fresh_byte : ascii;      (* what freshly allocated cells hold *)
  fresh_int : Z;
  fresh_ptr : option Z
}.

(** [sqlite3_malloc(n)] and [sqlite3_realloc(p, n)] give NULL for [n <= 0]. *)
Definition sqlite3_alloc (db : sqlite3) (n : Z) : bool := (0 <? n) && malloc_ok db n.

Definition sizeof_ptr : Z := 8.
Definition sizeof_int : Z := 4.

(** ** The table and the cursor *)

Record CSV := mkCSV {
  db : sqlite3;                       (* Host database connection *)
  nBusy : Z;                          (* Current number of users of this structure *)
  f : FILE;                           (* File pointer for source CSV file *)
  offsetFirstRow : Z;                 (* ftell position of first row *)
  eof : Z;                            (* True when at end of file *)
  maxRow : Z;                         (* Size of zRow buffer *)
  zRow : option (list ascii);         (* Buffer for current CSV row *)
  cDelim : ascii;                     (* Character to use for delimiting columns *)
  nCol : Z;                           (* Number of columns in current row *)
  maxCol : Z;                         (* Size of aCols array *)
  aCols : option (list (option Z));   (* Array of parsed columns *)
  aEscapedQuotes : option (list Z)    (* Number of escaped quotes for each column *)
}.

Record CSVCursor := mkCursor {
  csvpos : Z                          (* ftell position of current zRow *)
}.

Definition set_nBusy (p : CSV) (v : Z) : CSV :=
  mkCSV (db p) v (f p) (offsetFirstRow p) (eof p) (maxRow p) (zRow p) (cDelim p)
        (nCol p) (maxCol p) (aCols p) (aEscapedQuotes p).
Definition set_f (p : CSV) (v : FILE) : CSV :=
  mkCSV (db p) (nBusy p) v (offsetFirstRow p) (eof p) (maxRow p) (zRow p) (cDelim p)
        (nCol p) (maxCol p) (aCols p) (aEscapedQuotes p).
Definition set_offsetFirstRow (p : CSV) (v : Z) : CSV :=
  mkCSV (db p) (nBusy p) (f p) v (eof p) (maxRow p) (zRow p) (cDelim p)
        (nCol p) (maxCol p) (aCols p) (aEscapedQuotes p).
Definition set_eof (p : CSV) (v : Z) : CSV :=
  mkCSV (db p) (nBusy p) (f p) (offsetFirstRow p) v (maxRow p) (zRow p) (cDelim p)
        (nCol p) (maxCol p) (aCols p) (aEscapedQuotes p).
Definition set_maxRow (p : CSV) (v : Z) : CSV :=
  mkCSV (db p) (nBusy p) (f p) (offsetFirstRow p) (eof p) v (zRow p) (cDelim p)
        (nCol p) (maxCol p) (aCols p) (aEscapedQuotes p).
Definition set_zRow (p : CSV) (v : option (list ascii)) : CSV :=
  mkCSV (db p) (nBusy p) (f p) (offsetFirstRow p) (eof p) (maxRow p) v (cDelim p)
        (nCol p) (maxCol p) (aCols p) (aEscapedQuotes p).
Definition set_nCol (p : CSV) (v : Z) : CSV :=
  mkCSV (db p) (nBusy p) (f p) (offsetFirstRow p) (eof p) (maxRow p) (zRow p) (cDelim p)
        v (maxCol p) (aCols p) (aEscapedQuotes p).
Definition set_maxCol (p : CSV) (v : Z) : CSV :=
  mkCSV (db p) (nBusy p) (f p) (offsetFirstRow p) (eof p) (maxRow p) (zRow p) (cDelim p)
        (nCol p) v (aCols p) (aEscapedQuotes p).
Definition set_aCols (p : CSV) (v : option (list (option Z))) : CSV :=
  mkCSV (db p) (nBusy p) (f p) (offsetFirstRow p) (eof p) (maxRow p) (zRow p) (cDelim p)
        (nCol p) (maxCol p) v (aEscapedQuotes p).
Definition set_aEscapedQuotes (p : CSV) (v : option (list Z)) : CSV :=
  mkCSV (db p) (nBusy p) (f p) (offsetFirstRow p) (eof p) (maxRow p) (zRow p) (cDelim p)
        (nCol p) (maxCol p) (aCols p) v.

(** The cells behind a pointer that the code has found not to be NULL. *)
Definition row (p : CSV) : list ascii := match zRow p with Some b => b | None => [] end.
Definition cols (p : CSV) : list (option Z) := match aCols p with Some a => a | None => [] end.
Definition escs (p : CSV) : list Z := match aEscapedQuotes p with Some a => a | None => [] end.

(** ** Abstract out file io routines for porting *)

Definition csv_seek (pCSV : CSV) (pos : Z) : CSV := set_f pCSV (fseek (f pCSV) pos).
Definition csv_tell (pCSV : CSV) : Z := ftell (f pCSV).

(** ** csv_getline: the line reader *)

(** The inner loop [while( pCSV->zRow[n] )]: it looks for the end of the
    bytes just read, following quoted columns. *)
Fixpoint scan_quotes (fuel : nat) (buf : list ascii) (delim : ascii)
         (n : Z) (bQuotedCol : bool) : Z * bool :=
  match fuel with
  | O => (n, bQuotedCol)
  | S fuel' =>
      if (load buf n =? NUL)%char then (n, bQuotedCol)
      else if (load buf n =? DQUOTE)%char then
        if bQuotedCol then
          if (load buf (n + 1) =? DQUOTE)%char
          then scan_quotes fuel' buf delim (n + 1 + 1) bQuotedCol   (* escaped *)
          else scan_quotes fuel' buf delim (n + 1) false
        else if (n =? 0) || (load buf (n - 1) =? delim)%char
          then scan_quotes fuel' buf delim (n + 1) true
          else scan_quotes fuel' buf delim (n + 1) bQuotedCol
      else scan_quotes fuel' buf delim (n + 1) bQuotedCol
  end.

(** Where csv_getline stops: with the row, or with NULL at the end of the
    file, for a row that is too long, or for want of memory. *)
Inductive line_status := LineRead | LineEnd | LineTooLong | LineNoMem.

(** How the loop [while( !bEol )] is left: by a [return 0] inside it, or by
    its [break]s and its test, with [bEol] as it then is. *)
Inductive loop_exit := Returned (st : line_status) | LeftLoop (bEol : bool).

Fixpoint getline_loop (fuel : nat) (pCSV : CSV) (n : Z) (bShrink bQuotedCol : bool)
  : option (loop_exit * CSV * Z * bool) :=
  match fuel with
  | O => None
  | S fuel' =>
      (* grow row buffer as needed *)
      let grown :=
        if n + 100 >? maxRow pCSV then
          let newSize := maxRow pCSV * 2 + 100 in
          if newSize >=? limit_length (db pCSV) then inl LineTooLong
          else if negb (sqlite3_alloc (db pCSV) newSize) then inl LineNoMem
          else inr (set_zRow (set_maxRow pCSV newSize)
                      (Some (realloc_cells (row pCSV) newSize (fresh_byte (db pCSV)))),
                    true)
        else inr (pCSV, bShrink) in
      match grown with
      | inl st => Some (Returned st, pCSV, n, bShrink)
      | inr (pCSV, bShrink) =>
          match fgets (maxRow pCSV - n) (f pCSV) with
          | (None, _) =>
              if n =? 0 then Some (LeftLoop false, pCSV, n, bShrink)
              else Some (LeftLoop true, set_zRow pCSV (Some (aset (row pCSV) n NUL)), n, bShrink)
          | (Some chunk, fp) =>
              let pCSV :=
                set_f (set_zRow pCSV (Some (write_at (row pCSV) n (chunk ++ [NUL])))) fp in
              (* look for line delimiter *)
              let '(n, bQuotedCol) :=
                scan_quotes (S (length (row pCSV))) (row pCSV) (cDelim pCSV) n bQuotedCol in
              (* uniform line ending *)
              if (n >? 0)
                 && ((load (row pCSV) (n - 1) =? LF)%char || (load (row pCSV) (n - 1) =? CR)%char)
                 && negb bQuotedCol
              then
                if (n >? 1) && (load (row pCSV) (n - 1) =? LF)%char
                   && (load (row pCSV) (n - 2) =? CR)%char
                then Some (LeftLoop true,
                           set_zRow pCSV (Some (aset (aset (row pCSV) (n - 2) LF) (n - 1) NUL)),
                           n, bShrink)
                else Some (LeftLoop true,
                           set_zRow pCSV (Some (aset (aset (row pCSV) (n - 1) LF) n NUL)),
                           n, bShrink)
              else getline_loop fuel' pCSV n bShrink bQuotedCol
          end
      end
  end.

(** The whole of csv_getline.  Every turn of the loop that does not leave
    it has read at least one byte, so the bytes of the file bound the turns;
    [None] stands for a loop that has not ended within that bound. *)
Definition csv_getline (pCSV : CSV) : option (line_status * CSV) :=
  (* allocate initial row buffer *)
  let pCSV :=
    if maxRow pCSV <? 1 then
      if sqlite3_alloc (db pCSV) 100
      then set_maxRow (set_zRow pCSV (Some (repeat (fresh_byte (db pCSV)) 100))) 100
      else set_zRow pCSV None
    else pCSV in
  match zRow pCSV with
  | None => Some (LineNoMem, pCSV)
  | Some _ =>
      (* read until eol *)
      match getline_loop (S (length (fdata (f pCSV)))) pCSV 0 false false with
      | None => None
      | Some (Returned st, pCSV, _, _) => Some (st, pCSV)
      | Some (LeftLoop bEol, pCSV, n, bShrink) =>
          let pCSV :=
            if bShrink then
              set_maxRow
                (set_zRow pCSV
                   (if sqlite3_alloc (db pCSV) (n + 1)
                    then Some (realloc_cells (row pCSV) (n + 1) (fresh_byte (db pCSV)))
                    else None))
                (n + 1)
            else pCSV in
          if bEol
          then match zRow pCSV with
               | Some _ => Some (LineRead, pCSV)
               | None => Some (LineNoMem, pCSV)
               end
          else Some (LineEnd, pCSV)
      end
  end.

(** ** csvNext: the field tokenizer and the xNext method *)

(** The return statement csvNext leaves by. *)
Inductive exit_site :=
| AtEnd                          (* pCSV->eof was already set *)
| NoLine (st : line_status)      (* csv_getline gave NULL: "and error or eof occured" *)
| NoColumnArray                  (* the first column arrays could not be allocated *)
| NoClosingQuote                 (* "no closing quote" *)
| NoColDelimiter                 (* "no col delimiter" *)
| ColumnLimit                    (* nCol >= SQLITE_LIMIT_COLUMN *)
| NoGrowth                       (* "out of memory" while growing the column arrays *)
| Parsed.                        (* the row was split into columns *)

Record next_result := mkNext {
  site : exit_site;
  rc : Z;
  vtab : CSV;
  cursor : CSVCursor
}.

(** The loop [while( 1 )] that finds the closing quote of a quoted column:
    the pointer to it (NULL when there is none) and the counters. *)
Fixpoint closing_quote (fuel : nat) (buf : list ascii) (esc : list Z) (nCol : Z) (s : Z)
  : option (option Z * list Z) :=
  match fuel with
  | O => None
  | S fuel' =>
      match strchr buf s DQUOTE with
      | None => Some (None, esc)                         (* no closing quote *)
      | Some s =>
          if (load buf (s + 1) =? DQUOTE)%char
          then (* escaped quote *)
            closing_quote fuel' buf (aset esc nCol (aget esc nCol 0 + 1)) nCol (s + 2)
          else Some (Some s, esc)
      end
  end.

(** The local array [zDelims], a C string: the table's delimiter and the newline. *)
Definition zDelims (pCSV : CSV) : list ascii := cstr [cDelim pCSV; LF; NUL].

(** The loop [do{ ... }while( *s )] that parses zRow into columns. *)
Fixpoint parse_cols (fuel : nat) (pCSV : CSV) (s : Z) (nCol : Z)
  : option (exit_site * Z * CSV) :=
  match fuel with
  | O => None
  | S fuel' =>
      (* if it begins with a quote, assume it's a quoted col *)
      let column :=
        if (load (row pCSV) s =? DQUOTE)%char then
          let s := s + 1 in   (* skip quote *)
          let pCSV := set_aCols pCSV (Some (aset (cols pCSV) nCol (Some s))) in
          let pCSV := set_aEscapedQuotes pCSV (Some (aset (escs pCSV) nCol 0)) in
          (* find closing quote *)
          match closing_quote (S (length (row pCSV))) (row pCSV) (escs pCSV) nCol s with
          | None => None
          | Some (None, esc) =>
              Some (inl (set_eof (set_aEscapedQuotes pCSV (Some esc)) (-1)))
          | Some (Some s, esc) =>
              let pCSV := set_aEscapedQuotes pCSV (Some esc) in
              (* null terminate this col *)
              let pCSV := set_zRow pCSV (Some (aset (row pCSV) s NUL)) in
              Some (inr (pCSV, s + 1))
          end
        else
          let pCSV := set_aCols pCSV (Some (aset (cols pCSV) nCol (Some s))) in
          let pCSV := set_aEscapedQuotes pCSV (Some (aset (escs pCSV) nCol 0)) in
          Some (inr (pCSV, s)) in
      match column with
      | None => None
      | Some (inl pCSV) => Some (NoClosingQuote, SQLITE_ERROR, pCSV)
      | Some (inr (pCSV, s)) =>
          match strpbrk (row pCSV) s (zDelims pCSV) with
          | None => Some (NoColDelimiter, SQLITE_ERROR, set_eof pCSV (-1))
          | Some s =>
              let cDelim := load (row pCSV) s in
              (* null terminate the column by overwriting the delimiter *)
              let pCSV := set_zRow pCSV (Some (aset (row pCSV) s NUL)) in
              let nCol := nCol + 1 in
              (* if end of zRow, stop parsing cols *)
              if (cDelim =? LF)%char then Some (Parsed, SQLITE_OK, set_nCol pCSV nCol)
              else
                (* move to start of next col *)
                let s := s + 1 in
                let grown :=
                  if nCol >=? maxCol pCSV then
                    if nCol >=? limit_column (db pCSV) then inl (ColumnLimit, pCSV)
                    else if negb (sqlite3_alloc (db pCSV) (sizeof_ptr * (nCol + 5)))
                    then inl (NoGrowth, pCSV)
                    else
                      let pCSV :=
                        set_aCols (set_maxCol pCSV (nCol + 5))
                          (Some (realloc_cells (cols pCSV) (nCol + 5) (fresh_ptr (db pCSV)))) in
                      if negb (sqlite3_alloc (db pCSV) (sizeof_int * (nCol + 5)))
                      then inl (NoGrowth, pCSV)
                      else inr (set_aEscapedQuotes pCSV
                                  (Some (realloc_cells (escs pCSV) (nCol + 5)
                                           (fresh_int (db pCSV)))))
                  else inr pCSV in
                match grown with
                | inl (st, pCSV) => Some (st, SQLITE_ERROR, pCSV)
                | inr pCSV =>
                    if (load (row pCSV) s =? NUL)%char
                    then Some (Parsed, SQLITE_OK, set_nCol pCSV nCol)
                    else parse_cols fuel' pCSV s nCol
                end
          end
      end
  end.

(** CSV virtual table module xNext method. *)
Definition csvNext (pCSV : CSV) (pCsr : CSVCursor) : option next_result :=
  if negb (eof pCSV =? 0) then Some (mkNext AtEnd SQLITE_ERROR pCSV pCsr)
  else
    (* update the cursor *)
    let pCsr := mkCursor (csv_tell pCSV) in
    (* read the next row of data *)
    match csv_getline pCSV with
    | None => None
    | Some (LineRead, pCSV) =>
        (* allocate initial space for the column pointers *)
        let pCSV :=
          if maxCol pCSV <? 1 then
            (* take a guess *)
            let guess := strlen (row pCSV) 0 / 5 + 1 in
            let a := if sqlite3_alloc (db pCSV) (sizeof_ptr * guess)
                     then Some (repeat (fresh_ptr (db pCSV)) (Z.to_nat guess)) else None in
            let e := if sqlite3_alloc (db pCSV) (sizeof_int * guess)
                     then Some (repeat (fresh_int (db pCSV)) (Z.to_nat guess)) else None in
            let pCSV := set_aEscapedQuotes (set_aCols pCSV a) e in
            match a with Some _ => set_maxCol pCSV guess | None => pCSV end
          else pCSV in
        match aCols pCSV, aEscapedQuotes pCSV with
        | Some _, Some _ =>
            (* parse the zRow into individual columns *)
            match parse_cols (S (length (row pCSV))) pCSV 0 0 with
            | None => None
            | Some (st, r, pCSV) => Some (mkNext st r pCSV pCsr)
            end
        | _, _ => Some (mkNext NoColumnArray SQLITE_NOMEM pCSV pCsr)
        end
    | Some (st, pCSV) => Some (mkNext (NoLine st) SQLITE_OK (set_eof pCSV (-1)) pCsr)
    end.

(** CSV virtual table module xEof method. *)
Definition csvEof (pCSV : CSV) (pCsr : CSVCursor) : Z := eof pCSV.

(** ** csvColumn: the field materializer *)

Inductive destructor := SQLITE_TRANSIENT | sqlite3_free.

(** What the method hands to the host's context. *)
Inductive sqlite3_result :=
| result_null
| result_text (z : list ascii) (d : destructor)
| result_error_toobig
| result_error_nomem.

(** The copy loop [for(j=0, k=0; col[j]; j++)]: the bytes stored in [z]. *)
Fixpoint unescape (col : list ascii) : list ascii :=
  match col with
  | [] => []
  | c :: rest =>
      if (c =? NUL)%char then []
      else c :: (if (c =? DQUOTE)%char
                 then match rest with [] => [] | _ :: rest' => unescape rest' end
                 else unescape rest)
  end.

(** CSV virtual table module xColumn method: the result code, the value
    given to the host, and the sizes asked of sqlite3_malloc. *)
Definition csvColumn (pCSV : CSV) (i : Z) : Z * sqlite3_result * list Z :=
  if (i <? 0) || (i >=? nCol pCSV) then (SQLITE_OK, result_null, [])
  else
    match aget (cols pCSV) i None with
    | None => (SQLITE_OK, result_null, [])
    | Some col =>
        if negb (aget (escs pCSV) i 0 =? 0) then
          let nByte := strlen (row pCSV) col - aget (escs pCSV) i 0 + 1 in
          if nByte >? limit_length (db pCSV) then (SQLITE_OK, result_error_toobig, [])
          else if negb (sqlite3_alloc (db pCSV) nByte)
          then (SQLITE_OK, result_error_nomem, [nByte])
          else (SQLITE_OK,
                result_text (unescape (skipn (Z.to_nat col) (row pCSV))) sqlite3_free,
                [nByte])
        else (SQLITE_OK, result_text (string_at (row pCSV) col) SQLITE_TRANSIENT, [])
    end.

(** CSV virtual table module xRowid method. *)
Definition csvRowid (pCsr : CSVCursor) : Z * Z := (SQLITE_OK, csvpos pCsr).

(** ** Reference counting, cursors and scans *)

(** Increment the CSV reference count. *)
Definition csvReference (pCSV : CSV) : CSV := set_nBusy pCSV (nBusy pCSV + 1).

(** Decrement the CSV reference count.  When it falls below one the file is
    closed and the buffers and the structure are freed: [None]. *)
Definition csvRelease (pCSV : CSV) : Z * option CSV :=
  let pCSV := set_nBusy pCSV (nBusy pCSV - 1) in
  if nBusy pCSV <? 1 then (0, None) else (0, Some pCSV).

(** CSV virtual table module xDisconnect and xDestroy methods. *)
Definition csvDisconnect (pVtab : CSV) : Z * option CSV := csvRelease pVtab.
Definition csvDestroy (pVtab : CSV) : Z * option CSV := csvDisconnect pVtab.

Definition sizeof_CSVCursor : Z := 16.

(** CSV virtual table module xOpen method: the table is only pointed to. *)
Definition csvOpen (pVtab : CSV) : Z * CSV * option CSVCursor :=
  if sqlite3_alloc (db pVtab) sizeof_CSVCursor
  then (SQLITE_OK, pVtab, Some (mkCursor 0))
  else (SQLITE_NOMEM, pVtab, None).

(** CSV virtual table module xClose method: the cursor is freed. *)
Definition csvClose (pVtab : CSV) (pCsr : CSVCursor) : Z * CSV := (SQLITE_OK, pVtab).

Record filter_result := mkFilter {
  fsite : exit_site;
  frc : Z;
  fvtab : option CSV;      (* [None] once csvRelease has freed the table *)
  fcursor : CSVCursor
}.

(** CSV virtual table module xFilter method. *)
Definition csvFilter (pCSV : CSV) (pCsr : CSVCursor) : option filter_result :=
  let pCSV := csvReference pCSV in
  (* seek back to start of first zRow *)
  let pCSV := set_eof pCSV 0 in
  let pCSV := csv_seek pCSV (offsetFirstRow pCSV) in
  (* read and parse next line *)
  match csvNext pCSV pCsr with
  | None => None
  | Some r => Some (mkFilter (site r) (rc r) (snd (csvRelease (vtab r))) (cursor r))
  end.

Definition sizeof_CSV : Z := 128.

(** csvInit, the xCreate and xConnect methods, from the point where the
    arguments have been taken apart: [nNames] is the room for the three
    names, [file] the bytes of the file ([None] when fopen fails), [delim]
    the delimiter, [bUseHeaderRow] the header flag.  The schema statement
    and its declaration belong to the host and are taken to succeed. *)
Definition csvInit (db : sqlite3) (nNames : Z) (file : option (list ascii))
           (delim : ascii) (bUseHeaderRow : bool) : option (Z * option CSV) :=
  if negb (sqlite3_alloc db (sizeof_CSV + nNames)) then Some (SQLITE_NOMEM, None)
  else
    match file with
    | None => Some (SQLITE_ERROR, None)
    | Some bytes =>
        let pCSV := mkCSV db 1 (mkFILE bytes 0) 0 0 0 None delim 0 0 None None in
        (* Read first zRow to obtain column names/number *)
        match csvNext pCSV (mkCursor 0) with
        | None => None
        | Some r =>
            let pCSV := vtab r in
            if negb (rc r =? SQLITE_OK) || (nCol pCSV <=? 0) then Some (SQLITE_ERROR, None)
            else
              let pCSV := if bUseHeaderRow
                          then set_offsetFirstRow pCSV (csv_tell pCSV) else pCSV in
              Some (SQLITE_OK, Some pCSV)
        end
    end.

(** ** A full scan, as the host drives the methods *)

Record scan_row := mkRow {
  row_id : Z;                          (* what xRowid gave *)
  row_values : list sqlite3_result     (* what xColumn gave for each declared column *)
}.

Definition read_row (nDecl : nat) (pCSV : CSV) (pCsr : CSVCursor) : scan_row :=
  mkRow (snd (csvRowid pCsr))
        (map (fun i => snd (fst (csvColumn pCSV (Z.of_nat i)))) (seq 0 nDecl)).

(** After xFilter: while xEof is false, read the row, then call xNext; a
    result code other than SQLITE_OK ends the statement. *)
Fixpoint scan_rows (fuel : nat) (nDecl : nat) (pCSV : CSV) (pCsr : CSVCursor)
  : option (list scan_row * Z * CSV * CSVCursor) :=
  match fuel with
  | O => None
  | S fuel' =>
      if negb (csvEof pCSV pCsr =? 0) then Some ([], SQLITE_OK, pCSV, pCsr)
      else
        let r := read_row nDecl pCSV pCsr in
        match csvNext pCSV pCsr with
        | None => None
        | Some res =>
            if rc res =? SQLITE_OK then
              match scan_rows fuel' nDecl (vtab res) (cursor res) with
              | None => None
              | Some (rows, e, t, c) => Some (r :: rows, e, t, c)
              end
            else Some ([r], rc res, vtab res, cursor res)
        end
  end.

(** xFilter and then the loop: the rows, the last result code, and the
    table ([None] if it was freed) and cursor as they are left. *)
Definition full_scan (nDecl : nat) (pCSV : CSV) (pCsr : CSVCursor)
  : option (list scan_row * Z * option CSV * CSVCursor) :=
  match csvFilter pCSV pCsr with
  | None => None
  | Some fr =>
      match fvtab fr with
      | None => Some ([], frc fr, None, fcursor fr)
      | Some t =>
          if frc fr =? SQLITE_OK then
            match scan_rows (S (S (length (fdata (f t))))) nDecl t (fcursor fr) with
            | None => None
            | Some (rows, e, t, c) => Some (rows, e, Some t, c)
            end
          else Some ([], frc fr, Some t, fcursor fr)
      end
  end.

(** ** What a writer of CSV does to a field it quotes *)

(** Every quote of the field is doubled. *)
Definition escape_quotes (content : list ascii) : list ascii :=
  flat_map (fun c => if (c =? DQUOTE)%char then [DQUOTE; DQUOTE] else [c]) content.

Definition count_quotes (content : list ascii) : Z :=
  Z.of_nat (length (filter (fun c => (c =? DQUOTE)%char) content)).

(** The fields of a row joined by the delimiter. *)
Fixpoint join (delim : ascii) (fields : list (list ascii)) : list ascii :=
  match fields with
  | [] => []
  | [x] => x
  | x :: rest => x ++ delim :: join delim rest
  end.

(** ** The stream and the invariants of a table *)

(** The bytes of the file that have not been read. *)
Definition unread (fp : FILE) : list ascii := skipn (Z.to_nat (fpos fp)) (fdata fp).

(** How many bytes of the file are still to be read. *)
Definition left_in (fp : FILE) : Z := Z.of_nat (length (unread fp)).

(** The row buffer has [maxRow] cells, [n] is an index into it, and the
    position in the file is not negative. *)
Definition row_ok (p : CSV) (n : Z) : Prop :=
  Z.of_nat (length (row p)) = maxRow p /\ 0 <= n < maxRow p /\ 0 <= fpos (f p).

(** The invariant of a table: the position in its file is not negative, and
    a row buffer that is there has [maxRow] cells. *)
Definition table_ok (p : CSV) : Prop :=
  0 <= fpos (f p) /\
  (1 <= maxRow p -> zRow p <> None -> Z.of_nat (length (row p)) = maxRow p).

(** A table as the code leaves it when no allocation has failed: besides
    [table_ok], buffers whose size is recorded are there, with that size. *)
Definition table_ready (p : CSV) : Prop :=
  0 <= fpos (f p) /\
  (1 <= maxRow p -> zRow p <> None /\ Z.of_nat (length (row p)) = maxRow p) /\
  (1 <= maxCol p ->
   aCols p <> None /\ aEscapedQuotes p <> None /\
   Z.of_nat (length (cols p)) = maxCol p /\ Z.of_nat (length (escs p)) = maxCol p).

(** The two column arrays are there and have [maxCol] cells each. *)
Definition arrays_ok (p : CSV) : Prop :=
  aCols p <> None /\ aEscapedQuotes p <> None /\
  Z.of_nat (length (cols p)) = maxCol p /\ Z.of_nat (length (escs p)) = maxCol p.

(** The allocator of the host grants every request. *)
Definition never_fails (h : sqlite3) : Prop := forall k, 0 < k -> malloc_ok h k = true.

(** The table as csvFilter hands it to csvNext: one more user, the flag
    cleared, the file at the first row. *)
Definition rewound (p : CSV) : CSV :=
  csv_seek (set_eof (csvReference p) 0) (offsetFirstRow p).

(** ** What a method leaves alone, and how it returns *)

(** What csv_getline leaves alone: everything but the row buffer, its
    size and the position in the file. *)
Definition line_frame (p q : CSV) : Prop :=
  db q = db p /\ nBusy q = nBusy p /\ fdata (f q) = fdata (f p) /\
  offsetFirstRow q = offsetFirstRow p /\ eof q = eof p /\ cDelim q = cDelim p /\
  nCol q = nCol p /\ maxCol q = maxCol p /\ aCols q = aCols p /\
  aEscapedQuotes q = aEscapedQuotes p.

(** What the tokenizer leaves alone: the host, the count of users, the
    file, the delimiter and the size of the row buffer. *)
Definition cols_frame (p q : CSV) : Prop :=
  db q = db p /\ nBusy q = nBusy p /\ f q = f p /\
  offsetFirstRow q = offsetFirstRow p /\ cDelim q = cDelim p /\
  maxRow q = maxRow p /\ length (row q) = length (row p) /\
  (zRow p <> None -> zRow q <> None).

(** What no call of csvNext changes. *)
Definition config_frame (p q : CSV) : Prop :=
  db q = db p /\ nBusy q = nBusy p /\ fdata (f q) = fdata (f p) /\
  offsetFirstRow q = offsetFirstRow p /\ cDelim q = cDelim p.

(** The result code and the end-of-data flag at each return statement of
    the parsing loop. *)
Definition parse_exit (p : CSV) (st : exit_site) (r : Z) (q : CSV) : Prop :=
  match st with
  | NoClosingQuote | NoColDelimiter => r = SQLITE_ERROR /\ eof q = -1
  | ColumnLimit | NoGrowth => r = SQLITE_ERROR /\ eof q = eof p
  | Parsed => r = SQLITE_OK /\ eof q = eof p
  | AtEnd | NoLine _ | NoColumnArray => False
  end.

(** The result code, the end-of-data flag and the progress in the file at
    each return statement of csvNext, for a call of [csvNext p]. *)
Definition next_exit (p : CSV) (r : next_result) : Prop :=
  match site r with
  | AtEnd => False
  | NoLine st => st <> LineRead /\ rc r = SQLITE_OK /\ eof (vtab r) = -1
  | NoColumnArray =>
      rc r = SQLITE_NOMEM /\ eof (vtab r) = 0 /\ fpos (f p) < fpos (f (vtab r))
  | NoClosingQuote | NoColDelimiter =>
      rc r = SQLITE_ERROR /\ eof (vtab r) = -1 /\ fpos (f p) < fpos (f (vtab r))
  | ColumnLimit | NoGrowth =>
      rc r = SQLITE_ERROR /\ eof (vtab r) = 0 /\ fpos (f p) < fpos (f (vtab r))
  | Parsed =>
      rc r = SQLITE_OK /\ eof (vtab r) = 0 /\ fpos (f p) < fpos (f (vtab r))
  end.

(** ** Rows of unquoted fields *)

(** A byte that an unquoted field of a well-formed row may hold: not a NUL,
    not a newline or carriage return, not the delimiter. *)
Definition plainb (d c : ascii) : bool :=
  negb (c =? NUL)%char && negb (c =? LF)%char && negb (c =? CR)%char
  && negb (c =? d)%char.

(** An unquoted field: such bytes, and not a quote for the first of them. *)
Definition unquotedb (d : ascii) (fld : list ascii) : bool :=
  forallb (plainb d) fld
  && match fld with c :: _ => negb (c =? DQUOTE)%char | [] => true end.

(** A delimiter that can separate such fields. *)
Definition delimiter_ok (d : ascii) : bool :=
  negb (d =? NUL)%char && negb (d =? LF)%char && negb (d =? CR)%char
  && negb (d =? DQUOTE)%char.

(** [plainb] and [unquotedb] as propositions. *)
Definition plain (d c : ascii) : Prop :=
  c <> NUL /\ c <> LF /\ c <> CR /\ c <> d.

Definition unquoted (d : ascii) (fld : list ascii) : Prop :=
  Forall (plain d) fld /\ (forall c rest, fld = c :: rest -> c <> DQUOTE).

(** A byte of a line of unquoted fields, the delimiter included. *)
Definition line_byte (c : ascii) : Prop :=
  c <> NUL /\ c <> LF /\ c <> CR.

(** The last byte of a list, [None] for the empty list. *)
Definition last_byte (l : list ascii) : option ascii :=
  match rev l with [] => None | x :: _ => Some x end.

(** No quote of [l] opens a quoted column for the line reader: none is the
    first byte of the row, none comes right after the delimiter.  [prev] is
    the byte before [l], [None] at the start of the row. *)
Fixpoint quiet (d : ascii) (prev : option ascii) (l : list ascii) : bool :=
  match l with
  | [] => true
  | c :: l' =>
      negb ((c =? DQUOTE)%char
            && match prev with None => true | Some x => (x =? d)%char end)
      && quiet d (Some c) l'
  end.

(** The fields as the tokenizer leaves them in the row buffer: each
    followed by a NUL. *)
Definition cut (fields : list (list ascii)) : list ascii :=
  concat (map (fun x => x ++ [NUL]) fields).

(** Column [i] of the current row is unquoted text [txt], NUL terminated in
    the row buffer. *)
Definition column_is (p : CSV) (i : Z) (txt : list ascii) : Prop :=
  exists off post,
    aget (cols p) i None = Some off /\ aget (escs p) i 0 = 0 /\ 0 <= off /\
    skipn (Z.to_nat off) (row p) = txt ++ NUL :: post.

(** ** The bytes of a row *)

(** How csv_getline ends a row: of the bytes [taken] from the file, which
    end with a newline, a carriage return or both, it makes the row [s],
    which ends with one newline. *)
Definition line_of (taken s : list ascii) : Prop :=
  exists body,
    (taken = body ++ [LF] \/ taken = body ++ [CR] \/ taken = body ++ [CR; LF]) /\
    s = body ++ [LF].

(** ** Columns in the row buffer *)

(** Column [j] has been stored: its pointer is an offset into the row
    buffer, and a NUL of the buffer lies at or after it, before [s]. *)
Definition column_stored (p : CSV) (s j : Z) : Prop :=
  exists off e,
    aget (cols p) j None = Some off /\ 0 <= off <= e /\ e < s /\
    e < Z.of_nat (length (row p)) /\ load (row p) e = NUL.

(** Column [j] points into the row buffer, at a string that ends within it. *)
Definition column_in_row (p : CSV) (j : Z) : Prop :=
  column_stored p (Z.of_nat (length (row p))) j.

(** ** Files of unquoted rows *)

(** The bytes of a file whose rows are lists of unquoted fields: each row
    is its fields joined by the delimiter, then a newline. *)
Definition plain_lines (d : ascii) (rows : list (list (list ascii))) : list ascii :=
  flat_map (fun fields => join d fields ++ [LF]) rows.

(** What xColumn gives for the [nDecl] declared columns of the table when
    the row is those fields: their texts, and nulls past the last of them. *)
Definition plain_values (nDecl : nat) (fields : list (list ascii)) : list sqlite3_result :=
  map (fun i => if (i <? length fields)%nat
                then result_text (nth i fields []) SQLITE_TRANSIENT
                else result_null)
      (seq 0 nDecl).

(** Where each row starts in the file, the first of them at [pos]. *)
Fixpoint row_offsets (d : ascii) (pos : Z) (rows : list (list (list ascii))) : list Z :=
  match rows with
  | [] => []
  | fields :: rest =>
      pos :: row_offsets d (pos + Z.of_nat (length (join d fields)) + 1) rest
  end.

(** A row of unquoted fields that is within the limits of the host: the
    row buffer can grow to hold it, and it has no more columns than the
    column limit. *)
Definition plain_rowb (h : sqlite3) (d : ascii) (fields : list (list ascii)) : bool :=
  negb (length fields =? 0)%nat && forallb (unquotedb d) fields
  && (2 * (Z.of_nat (length (join d fields)) + 1) + 300 <=? limit_length h)
  && (Z.of_nat (length fields) <=? limit_column h).

(** [plain_rowb] as a proposition. *)
Definition plain_row (h : sqlite3) (d : ascii) (fields : list (list ascii)) : Prop :=
  fields <> [] /\ Forall (unquoted d) fields /\
  2 * (Z.of_nat (length (join d fields)) + 1) + 300 <= limit_length h /\
  Z.of_nat (length fields) <= limit_column h.

(** ** Rows with quoted fields *)

(** A field as a writer of CSV puts it in a row: as it is, or between
    quotes with every quote of its own doubled. *)
Inductive field := Bare (s : list ascii) | Quoted (content : list ascii).

Definition encode (x : field) : list ascii :=
  match x with
  | Bare s => s
  | Quoted content => DQUOTE :: escape_quotes content ++ [DQUOTE]
  end.

(** What a field may hold: a bare field is an unquoted one; a quoted field
    holds any byte but NUL, the delimiter and newlines among them. *)
Definition field_okb (d : ascii) (x : field) : bool :=
  match x with
  | Bare s => unquotedb d s
  | Quoted content => forallb (fun c => negb (c =? NUL)%char) content
  end.

Definition field_ok (d : ascii) (x : field) : Prop :=
  match x with
  | Bare s => unquoted d s
  | Quoted content => ~ In NUL content
  end.

(** The bytes of a row in the file, its newline included. *)
Definition encode_row (d : ascii) (fields : list field) : list ascii :=
  join d (map encode fields) ++ [LF].

(** Every line of [l], its newline included, has at most [room] bytes;
    [left] is what is left of [room] for the line [l] starts in. *)
Fixpoint lines_within (room left : nat) (l : list ascii) : bool :=
  match l with
  | [] => true
  | c :: l' =>
      match left with
      | O => false
      | S k => if (c =? LF)%char then lines_within room room l' else lines_within room k l'
      end
  end.

(** What xColumn gives for a field, and the sizes it asks of
    sqlite3_malloc: a field with a quote in it is handed over in a buffer
    of its own. *)
Definition value_of (x : field) : sqlite3_result :=
  match x with
  | Bare s => result_text s SQLITE_TRANSIENT
  | Quoted content =>
      if count_quotes content =? 0 then result_text content SQLITE_TRANSIENT
      else result_text content sqlite3_free
  end.

Definition allocs_of (x : field) : list Z :=
  match x with
  | Bare s => []
  | Quoted content =>
      if count_quotes content =? 0 then [] else [Z.of_nat (length content) + 1]
  end.

(** The flag [bQuotedCol] of the line reader after its scan of the bytes
    [l] that a read has stored, from the flag [q]; [prev] is the byte
    before them, [None] at the start of the row.  After the last of them
    the scan finds the NUL that ends the read. *)
Fixpoint quote_state (d : ascii) (prev : option ascii) (q : bool) (l : list ascii) : bool :=
  match l with
  | [] => q
  | c :: l' =>
      if (c =? DQUOTE)%char then
        if q then
          match l' with
          | c' :: l'' =>
              if (c' =? DQUOTE)%char then quote_state d (Some c') q l''
              else quote_state d (Some c) false l'
          | [] => false
          end
        else if match prev with None => true | Some x => (x =? d)%char end
             then quote_state d (Some c) true l'
             else quote_state d (Some c) q l'
      else quote_state d (Some c) q l'
  end.

(** Column [i] of the current row holds the bytes [stored], NUL terminated
    in the row buffer, and [k] is its count of doubled quotes. *)
Definition column_at (p : CSV) (i : Z) (stored : list ascii) (k : Z) : Prop :=
  exists off post,
    aget (cols p) i None = Some off /\ aget (escs p) i 0 = k /\ 0 <= off /\
    skipn (Z.to_nat off) (row p) = stored ++ NUL :: post.

(** What the tokenizer stores for a field: its bytes, the quotes of a
    quoted field still doubled. *)
Definition stored_of (x : field) : list ascii :=
  match x with Bare s => s | Quoted content => escape_quotes content end.

Definition doubled_of (x : field) : Z :=
  match x with Bare s => 0 | Quoted content => count_quotes content end.

(** ** Files of rows with quoted fields *)

(** The bytes of a file whose rows are lists of fields, bare or quoted. *)
Definition field_lines (d : ascii) (rows : list (list field)) : list ascii :=
  flat_map (encode_row d) rows.

(** What xColumn gives for the [nDecl] declared columns of the table when
    the row is those fields: the fields, and nulls past the last of them. *)
Definition field_values (nDecl : nat) (fields : list field) : list sqlite3_result :=
  map (fun i => if (i <? length fields)%nat
                then value_of (nth i fields (Bare []))
                else result_null)
      (seq 0 nDecl).

(** Where each row starts in the file, the first of them at [pos]. *)
Fixpoint field_offsets (d : ascii) (pos : Z) (rows : list (list field)) : list Z :=
  match rows with
  | [] => []
  | fields :: rest =>
      pos :: field_offsets d (pos + Z.of_nat (length (encode_row d fields))) rest
  end.

(** A row of fields that the table reads whole: it has a field, its
    fields are well formed, each of its lines has at most 99 bytes with its
    newline, the row buffer can grow to hold it, and it has no more
    columns than the column limit. *)
Definition field_rowb (h : sqlite3) (d : ascii) (fields : list field) : bool :=
  negb (length fields =? 0)%nat && forallb (field_okb d) fields
  && lines_within 99 99 (encode_row d fields)
  && (2 * Z.of_nat (length (encode_row d fields)) + 300 <=? limit_length h)
  && (Z.of_nat (length fields) <=? limit_column h).

(** [field_rowb] as a proposition. *)
Definition field_row (h : sqlite3) (d : ascii) (fields : list field) : Prop :=
  fields <> [] /\ Forall (field_ok d) fields /\
  lines_within 99 99 (encode_row d fields) = true /\
  2 * Z.of_nat (length (encode_row d fields)) + 300 <= limit_length h /\
  Z.of_nat (length fields) <= limit_column h.

(** ** A statement of the specification that the code does not meet *)


(** ** Sample data *)

Definition bytes (s : string) : list ascii := list_ascii_of_string s.

(** SQLite's default limits, an allocator that never fails. *)
Definition default_host : sqlite3 :=
  mk_sqlite3 1000000000 2000 (fun _ => true) "#"%char 77 (Some 99).

(** The table csvInit builds over [file], comma delimited, without header row. *)
Definition table_of (file : list ascii) : option CSV :=
  match csvInit default_host 16 (Some file) COMMA false with
  | Some (_, t) => t
  | None => None
  end.

(** A table over an empty file, for where csvInit gives none. *)
Definition empty_table : CSV :=
  mkCSV default_host 1 (mkFILE [] 0) 0 0 0 None COMMA 0 0 None None.

(** The table over [file] as csvInit leaves it, its first row read. *)
Definition sample_table (file : list ascii) : CSV :=
  match table_of file with Some t => t | None => empty_table end.

(** Two rows, the second with a quoted field that holds the delimiter. *)
Definition abc_file : list ascii :=
  bytes "a,b,c" ++ [LF] ++ bytes "1," ++ [DQUOTE] ++ bytes "x,y" ++ [DQUOTE] ++ bytes ",3" ++ [LF].

(** The table left by csvFilter, as the next method call finds it. *)
Definition after_filter (t : CSV) : CSV :=
  match csvFilter t (mkCursor 0) with
  | Some r => match fvtab r with Some v => v | None => t end
  | None => t
  end.

(** A row whose second field is quoted and holds two doubled quotes. *)
Definition quoted_file : list ascii :=
  bytes "a," ++ [DQUOTE] ++ bytes "say " ++ [DQUOTE; DQUOTE] ++ bytes "hi"
        ++ [DQUOTE; DQUOTE] ++ [DQUOTE] ++ [LF].

(** The content of that field. *)
Definition quoted_content : list ascii :=
  bytes "say " ++ [DQUOTE] ++ bytes "hi" ++ [DQUOTE].

(** A second row whose quoted field is never closed. *)
Definition unterminated_file : list ascii :=
  bytes "h" ++ [LF] ++ [DQUOTE] ++ bytes "abc" ++ [LF].

(** A host whose length limit is 250 bytes and whose column limit is 2. *)
Definition small_host : sqlite3 :=
  mk_sqlite3 250 2 (fun _ => true) "#"%char 77 (Some 99).

(** A table of [small_host] whose second row has 300 bytes. *)
Definition over_long_table : CSV :=
  match csvInit small_host 16 (Some (bytes "h" ++ [LF] ++ repeat "a"%char 300 ++ [LF]))
                COMMA false with
  | Some (_, Some t) => t
  | _ => empty_table
  end.

(** The table of [unterminated_file] once a scan has met the quote that
    is never closed: its end-of-data flag is set. *)
Definition stopped_table : CSV :=
  match csvNext (after_filter (sample_table unterminated_file)) (mkCursor 0) with
  | Some r => vtab r
  | None => empty_table
  end.




(** A file that ends without a newline after its second row. *)
Definition no_newline_file : list ascii := bytes "x,y" ++ [LF] ++ bytes "a,b".

(** A second row that is one quoted field, holding [k] letters, a quote
    (doubled), a newline and an [x]. *)
Definition long_quoted_file (k : nat) : list ascii :=
  bytes "h" ++ [LF]
  ++ [DQUOTE] ++ repeat "a"%char k ++ [DQUOTE; DQUOTE] ++ [LF] ++ bytes "x" ++ [DQUOTE] ++ [LF].

(** The content of that field. *)
Definition long_quoted_content (k : nat) : list ascii :=
  repeat "a"%char k ++ [DQUOTE] ++ [LF] ++ bytes "x".

(** A first row with a carriage return as its 99th byte, then a long row. *)
Definition lone_cr_file : list ascii :=
  repeat "a"%char 98 ++ [CR] ++ bytes "b" ++ [LF] ++ repeat "c"%char 150 ++ [LF].

(** The values of the rows of a scan, without the row identifiers. *)
Definition texts (rows : list scan_row) : list (list sqlite3_result) :=
  map row_values rows.

(** The value csvColumn gives for an unquoted field. *)
Definition text (s : list ascii) : sqlite3_result := result_text s SQLITE_TRANSIENT.

(** Two full scans of a table, one after the other: what each shows and
    the result code each ends with. *)
Definition scan_twice (nDecl : nat) (t : CSV)
  : option (list (list sqlite3_result) * Z * list (list sqlite3_result) * Z) :=
  match full_scan nDecl t (mkCursor 0) with
  | Some (rows1, e1, Some t1, c1) =>
      match full_scan nDecl t1 c1 with
      | Some (rows2, e2, _, _) => Some (texts rows1, e1, texts rows2, e2)
      | None => None
      end
  | _ => None
  end.

(** Two long unquoted fields, the first with a quote inside, and an empty
    one. *)
Definition long_fields : list (list ascii) :=
  [repeat "a"%char 60 ++ DQUOTE :: repeat "a"%char 60; repeat "b"%char 130; []].

(** A header row, then those fields as a row of 253 bytes, which takes two
    calls of fgets and a larger buffer to read, then a last row. *)
Definition long_row_file : list ascii :=
  bytes "h" ++ [LF] ++ join COMMA long_fields ++ [LF] ++ bytes "t" ++ [LF].

(** ** csvInit from its arguments: the xCreate and xConnect methods *)

(** What csvInit asks of its surroundings besides the allocator: the file
    fopen finds under a name, whether sqlite3_mprintf can build a string,
    and what sqlite3_declare_vtab and sqlite3_errmsg answer. *)
Record environment := mk_environment {
  fopen : list ascii -> option (list ascii);  (* the bytes of the file, [None] for NULL *)
  mprintf_ok : list ascii -> bool;            (* is the formatted string allocated *)
  declare_vtab : list ascii -> Z;             (* the result code for a schema statement *)
  errmsg : list ascii                         (* sqlite3_errmsg(db) *)
}.

(** [sqlite3_mprintf], given the text it has formatted: the string or NULL. *)
Definition sqlite3_mprintf (env : environment) (s : list ascii) : option (list ascii) :=
  if mprintf_ok env s then Some s else None.

Definition SQUOTE : ascii := "'"%char.

(** [argv[i]], a C string: its bytes up to the terminator. *)
Definition arg (argv : list (list ascii)) (i : nat) : list ascii := nth i argv [].

Definition aErrMsg (i : Z) : list ascii :=
  if i =? 1 then bytes "No CSV file specified"
  else if i =? 2 then bytes "Error opening CSV file: '%s'"
  else if i =? 3 then bytes "No columns found"
  else if i =? 4 then bytes "No column name found"
  else if i =? 5 then bytes "Out of memory"
  else [].

(** [aErrMsg[2]] formatted with the name of the file. *)
Definition cannot_open (zFile : list ascii) : list ascii :=
  bytes "Error opening CSV file: '" ++ zFile ++ [SQUOTE].

(** "pull out name of csv file (remove quotes)": after a leading quote the
    first and the last byte are left out.  For the argument that is one
    quote and nothing else, [nFile-2] is no size: [None]. *)
Definition zFile_of (a : list ascii) : option (list ascii) :=
  let nFile := Z.of_nat (length a) in
  if (load a 0 =? SQUOTE)%char then
    if nFile <? 2 then None
    else Some (firstn (Z.to_nat (nFile - 2)) (skipn 1 a))
  else Some a.

(** "if a custom delimiter specified, pull it out" *)
Definition cDelim_of (argv : list (list ascii)) : ascii :=
  if Z.of_nat (length argv) >? 4 then
    if (load (arg argv 4) 0 =? SQUOTE)%char then load (arg argv 4) 1 else load (arg argv 4) 0
  else COMMA.

(** "should the header zRow be used" *)
Definition bUseHeaderRow_of (argv : list (list ascii)) : bool :=
  if Z.of_nat (length argv) >? 5 then
    (string_of_list_ascii (arg argv 5) =? "USE_HEADER_ROW")%string
  else false.

(** [%d] of sqlite3_mprintf. *)
Definition decimal (i : Z) : list ascii :=
  bytes (DecimalString.NilZero.string_of_int (Z.to_int i)).

(** How the loop that builds the schema statement ends: at a column whose
    pointer is NULL, or with the statement, NULL when sqlite3_mprintf has
    failed. *)
Inductive schema_result := NullColumn | Schema (zSql : option (list ascii)).

(** The loop [for(i=0; zSql && i<pCSV->nCol; i++)]; [todo] is [nCol - i]. *)
Fixpoint schema_loop (env : environment) (pCSV : CSV) (bUseHeaderRow : bool)
         (todo : nat) (i : Z) (zSql : option (list ascii)) : schema_result :=
  match todo, zSql with
  | S todo', Some zTmp =>
      let zTail := if i + 1 <? nCol pCSV then bytes ", " else bytes ");" in
      if bUseHeaderRow then
        match aget (cols pCSV) i None with
        | None => NullColumn
        | Some zCol =>
            schema_loop env pCSV bUseHeaderRow todo' (i + 1)
              (sqlite3_mprintf env
                 (zTmp ++ [DQUOTE] ++ string_at (row pCSV) zCol ++ [DQUOTE] ++ zTail))
        end
      else
        schema_loop env pCSV bUseHeaderRow todo' (i + 1)
          (sqlite3_mprintf env (zTmp ++ bytes "col" ++ decimal (i + 1) ++ zTail))
  | _, _ => Schema zSql
  end.

(** The return statement csvInit leaves by. *)
Inductive init_site :=
| NoFileArgument                 (* argc < 4 *)
| NoTable                        (* "out of memory" for the table object *)
| NoFile                         (* fopen gave NULL *)
| NoColumns                      (* the first row was not parsed, or has no column *)
| NoColumnName                   (* a column of the header row is NULL *)
| NoSchema                       (* sqlite3_mprintf gave NULL for the schema *)
| NotDeclared                    (* sqlite3_declare_vtab refused the schema *)
| Created.

Record init_result := mkInit {
  isite : init_site;
  irc : Z;
  ppVtab : option CSV;             (* the new table; [None]: not set, the table released *)
  pzErr : option (list ascii)      (* the error message, NULL when none *)
}.

(** The last part of csvInit, from "Create the underlying relational
    database schema" on: the statement is built and declared to the host. *)
Definition csvInit_schema (env : environment) (bUseHeaderRow : bool) (pCSV : CSV)
  : init_result :=
  match schema_loop env pCSV bUseHeaderRow (Z.to_nat (nCol pCSV)) 0
                    (sqlite3_mprintf env (bytes "CREATE TABLE x(")) with
  | NullColumn =>
      mkInit NoColumnName SQLITE_ERROR None (sqlite3_mprintf env (aErrMsg 4))
  | Schema None =>
      mkInit NoSchema SQLITE_NOMEM None (sqlite3_mprintf env (aErrMsg 5))
  | Schema (Some zSql) =>
      if negb (declare_vtab env zSql =? SQLITE_OK)
      then mkInit NotDeclared SQLITE_ERROR None (sqlite3_mprintf env (errmsg env))
      else mkInit Created SQLITE_OK (Some pCSV) None
  end.

(** csvInit, the implementation of both the xConnect and xCreate methods.
    [argv] holds the module name, the database name, the table name, the
    file name, and optionally the delimiter and USE_HEADER_ROW.  [csvInit]
    above is its middle part, from the allocation of the table object to
    the start of the data.  [None] stands for undefined behaviour. *)
Definition csvInit_argv (env : environment) (db : sqlite3) (argv : list (list ascii))
           (isCreate : bool) : option init_result :=
  if Z.of_nat (length argv) <? 4
  then Some (mkInit NoFileArgument SQLITE_ERROR None (sqlite3_mprintf env (aErrMsg 1)))
  else
    (* allocate space for the virtual table object *)
    let nDb := Z.of_nat (length (arg argv 1)) in
    let nName := Z.of_nat (length (arg argv 2)) in
    let nFile := Z.of_nat (length (arg argv 3)) in
    if negb (sqlite3_alloc db (sizeof_CSV + nDb + nName + nFile + 3))
    then Some (mkInit NoTable SQLITE_NOMEM None (sqlite3_mprintf env (aErrMsg 5)))
    else
      (* pull out name of csv file (remove quotes) *)
      match zFile_of (arg argv 3) with
      | None => None
      | Some zFile =>
          let cDelim := cDelim_of argv in
          let bUseHeaderRow := bUseHeaderRow_of argv in
          (* open the source csv file *)
          match fopen env zFile with
          | None =>
              Some (mkInit NoFile SQLITE_ERROR None (sqlite3_mprintf env (cannot_open zFile)))
          | Some content =>
              let pCSV := mkCSV db 1 (mkFILE content 0) 0 0 0 None cDelim 0 0 None None in
              (* Read first zRow to obtain column names/number *)
              match csvNext pCSV (mkCursor 0) with
              | None => None
              | Some r =>
                  let pCSV := vtab r in
                  if negb (rc r =? SQLITE_OK) || (nCol pCSV <=? 0)
                  then Some (mkInit NoColumns SQLITE_ERROR None
                                    (sqlite3_mprintf env (aErrMsg 3)))
                  else
                    let pCSV := if bUseHeaderRow
                                then set_offsetFirstRow pCSV (csv_tell pCSV) else pCSV in
                    Some (csvInit_schema env bUseHeaderRow pCSV)
              end
          end
      end.

(** CSV virtual table module xCreate and xConnect methods. *)
Definition csvCreate (env : environment) (db : sqlite3) (argv : list (list ascii))
  : option init_result := csvInit_argv env db argv true.

Definition csvConnect (env : environment) (db : sqlite3) (argv : list (list ascii))
  : option init_result := csvInit_argv env db argv false.

(** CSV virtual table module xBestIndex method. *)
Definition csvBestIndex (pVtab : CSV) : Z := SQLITE_OK.

(** ** The schema statement in closed form *)

(** The column definitions of a schema statement, separated by ", ". *)
Fixpoint column_list (names : list (list ascii)) : list ascii :=
  match names with
  | [] => []
  | [x] => x
  | x :: rest => x ++ bytes ", " ++ column_list rest
  end.

Definition schema_of (names : list (list ascii)) : list ascii :=
  bytes "CREATE TABLE x(" ++ column_list names ++ bytes ");".

(** The names [col1], [col2], ... of [n] columns. *)
Definition default_names (n : nat) : list (list ascii) :=
  map (fun i => bytes "col" ++ decimal (Z.of_nat i + 1)) (seq 0 n).

(** A field of the header row between double quotes. *)
Definition quoted_name (name : list ascii) : list ascii := [DQUOTE] ++ name ++ [DQUOTE].

(** The columns of the current row as texts, NULL for a NULL pointer. *)
Definition column_texts (p : CSV) : list (option (list ascii)) :=
  map (fun i => option_map (string_at (row p)) (aget (cols p) (Z.of_nat i) None))
      (seq 0 (Z.to_nat (nCol p))).

(** What the loop writes for column [i]: the field of the header row
    between double quotes, or [col] and the number of the column. *)
Definition column_def (bUseHeaderRow : bool) (p : CSV) (i : Z) : option (list ascii) :=
  if bUseHeaderRow
  then option_map (fun zCol => quoted_name (string_at (row p) zCol)) (aget (cols p) i None)
  else Some (bytes "col" ++ decimal (i + 1)).

(** ** Sample arguments and files *)

(** A header row and two rows. *)
Definition people : list (list (list ascii)) :=
  [[bytes "id"; bytes "name"]; [bytes "1"; bytes "ann"]; [bytes "2"; bytes "bob"]].

(** Surroundings in which the file [people.csv] holds those rows, comma
    delimited, sqlite3_mprintf does not fail and every schema is accepted. *)
Definition people_env : environment :=
  mk_environment
    (fun name => if (string_of_list_ascii name =? "people.csv")%string
                 then Some (plain_lines COMMA people) else None)
    (fun _ => true) (fun _ => SQLITE_OK) [].

(** CREATE VIRTUAL TABLE people USING csv('people.csv', ',', USE_HEADER_ROW) *)
Definition people_argv : list (list ascii) :=
  [bytes "csv"; bytes "main"; bytes "people"; bytes "'people.csv'"; bytes "','";
   bytes "USE_HEADER_ROW"].

(** The same file with an empty delimiter argument. *)
Definition no_delimiter_argv : list (list ascii) :=
  [bytes "csv"; bytes "main"; bytes "people"; bytes "people.csv"; []].

(** What csvInit gives, for a call that is defined. *)
Definition init_of (env : environment) (h : sqlite3) (argv : list (list ascii))
  : init_result :=
  match csvInit_argv env h argv true with
  | Some r => r
  | None => mkInit NoFileArgument SQLITE_ERROR None None
  end.

(** A second row that ends with a carriage return and a newline. *)
Definition crlf_file : list ascii :=
  bytes "h" ++ [LF] ++ bytes "a,b" ++ [CR; LF] ++ bytes "t" ++ [LF].

(** The table after csv_getline, and the result of csvNext. *)
Definition line_after (t : CSV) : CSV :=
  match csv_getline t with Some (_, q) => q | None => t end.

Definition next_of (t : CSV) : next_result :=
  match csvNext t (mkCursor 0) with
  | Some r => r
  | None => mkNext AtEnd SQLITE_ERROR t (mkCursor 0)
  end.

(** ** A sample row with a quoted field *)

(** Three fields, the second with the delimiter, a quote on each side of a
    letter and a newline in it. *)
Definition note_fields : list field :=
  [Bare (bytes "1");
   Quoted (bytes "x," ++ [DQUOTE] ++ bytes "y" ++ [DQUOTE; LF] ++ bytes "z");
   Bare (bytes "3")].

(** A first row, those fields as a row of two lines, and a last row. *)
Definition note_file : list ascii :=
  bytes "h" ++ [LF]
  ++ bytes "1," ++ [DQUOTE] ++ bytes "x," ++ [DQUOTE; DQUOTE] ++ bytes "y"
  ++ [DQUOTE; DQUOTE; LF] ++ bytes "z" ++ [DQUOTE] ++ bytes ",3" ++ [LF]
  ++ bytes "t" ++ [LF].

(** ** Tactics *)

Ltac by_compute :=
  vm_compute;
  first [ reflexivity | discriminate | split; first [ reflexivity | discriminate ] ].

Ltac ok_by_compute := vm_compute; split; [discriminate | intros _ _; reflexivity].

Ltac ready_by_compute :=
  vm_compute; split; [discriminate|];
  split; intros _; repeat split; first [discriminate | reflexivity].

Ltac break_in H :=
  repeat (cbv beta iota zeta in H;
          match type of H with
          | context [match ?x with _ => _ end] =>
              lazymatch x with
              | context [match _ with _ => _ end] => fail
              | _ => destruct x eqn:?
              end
          end).

(** * Properties *)

(** ** Bytes and strings *)

Lemma eqb_false_of_neq (a b : ascii) : a <> b -> (a =? b)%char = false.
Proof. apply Ascii.eqb_neq. Qed.

Lemma cstr_app_nul (s rest : list ascii) :
  ~ In NUL s -> cstr (s ++ NUL :: rest) = s.
Proof.
  induction s as [|c s IH]; simpl; intros Hs.
  - reflexivity.
  - destruct (Ascii.eqb_spec c NUL) as [->|_].
    + exfalso. apply Hs. now left.
    + f_equal. apply IH. intros H. apply Hs. now right.
Qed.

Lemma cstr_no_nul (l : list ascii) : ~ In NUL (cstr l).
Proof.
  induction l as [|c l IH]; simpl; [tauto|].
  destruct (Ascii.eqb_spec c NUL) as [->|Hc]; simpl; [tauto|].
  intros [H|H]; [now apply Hc | now apply IH].
Qed.

(** A list is its leading string followed by nothing or by a NUL. *)
Lemma cstr_split (l : list ascii) :
  exists rest, l = cstr l ++ rest /\ (rest = [] \/ exists r, rest = NUL :: r).
Proof.
  induction l as [|c l (rest & Hl & Hrest)]; simpl.
  - exists []. auto.
  - destruct (Ascii.eqb_spec c NUL) as [->|_].
    + exists (NUL :: l). split; [reflexivity|]. right. now exists l.
    + exists rest. split; [simpl; now rewrite <- Hl | exact Hrest].
Qed.

(** ** The field materializer *)

Lemma escape_quotes_length (content : list ascii) :
  Z.of_nat (length (escape_quotes content))
  = Z.of_nat (length content) + count_quotes content.
Proof.
  unfold count_quotes. induction content as [|c l IH]; [reflexivity|].
  cbn [escape_quotes flat_map filter]. fold (escape_quotes l).
  rewrite length_app.
  destruct (c =? DQUOTE)%char; cbn [length]; lia.
Qed.

Lemma escape_quotes_nul (content : list ascii) :
  ~ In NUL (escape_quotes content) -> ~ In NUL content.
Proof.
  induction content as [|c l IH]; simpl; [tauto|].
  fold (escape_quotes l). intros H [->|Hin].
  - apply H. simpl. now left.
  - apply IH; [|exact Hin]. intros H'. apply H. apply in_or_app. now right.
Qed.

(** The copy loop undoes the doubling of the quotes. *)
Lemma unescape_escape_quotes (content rest : list ascii) :
  ~ In NUL content ->
  rest = [] \/ (exists r, rest = NUL :: r) ->
  unescape (escape_quotes content ++ rest) = content.
Proof.
  intros Hnul Hrest. induction content as [|c l IH]; simpl.
  - destruct Hrest as [->|(r & ->)]; reflexivity.
  - fold (escape_quotes l).
    assert (Hc : c <> NUL) by (intros ->; apply Hnul; now left).
    assert (Hl : ~ In NUL l) by (intros H; apply Hnul; now right).
    destruct (Ascii.eqb_spec c DQUOTE) as [->|Hq]; simpl.
    + now rewrite IH.
    + rewrite (eqb_false_of_neq _ _ Hc), (eqb_false_of_neq _ _ Hq). now rewrite IH.
Qed.

(** C3. A column the tokenizer has stored for a quoted field is the field's
    content with every quote doubled, and its counter is the number [k] of
    those pairs.  For [k >= 1] csvColumn asks sqlite3_malloc once, for
    [sliceLength - k + 1] bytes, which is the content and its terminator,
    and hands the host the content with the pairs collapsed, in that buffer;
    the result is the too-big error when that size exceeds the length limit
    (nothing is then allocated) and the no-memory error when the allocation
    fails.  For [k = 0] the stored slice itself is handed over and nothing
    is allocated. *)
Theorem csvColumn_quoted_field (pCSV : CSV) (i col : Z) (content : list ascii) :
  0 <= i < nCol pCSV ->
  aget (cols pCSV) i None = Some col ->
  string_at (row pCSV) col = escape_quotes content ->
  aget (escs pCSV) i 0 = count_quotes content ->
  let k := count_quotes content in
  let nByte := strlen (row pCSV) col - k + 1 in
  (1 <= k ->
   nByte = Z.of_nat (length content) + 1 /\
   csvColumn pCSV i =
     if nByte >? limit_length (db pCSV) then (SQLITE_OK, result_error_toobig, [])
     else if sqlite3_alloc (db pCSV) nByte
          then (SQLITE_OK, result_text content sqlite3_free, [nByte])
          else (SQLITE_OK, result_error_nomem, [nByte])) /\
  (k = 0 ->
   csvColumn pCSV i = (SQLITE_OK, result_text (string_at (row pCSV) col) SQLITE_TRANSIENT, [])).
Proof.
  intros Hi Hcol Hslice Hesc k nByte.
  assert (Hrange : (i <? 0) || (i >=? nCol pCSV) = false).
  { apply orb_false_iff. split; [apply Z.ltb_ge | rewrite Z.geb_leb; apply Z.leb_gt]; lia. }
  assert (Hlen : nByte = Z.of_nat (length content) + 1).
  { unfold nByte, strlen. rewrite Hslice, escape_quotes_length. fold k. lia. }
  split; intros Hk; unfold csvColumn; rewrite Hrange, Hcol, Hesc; fold k.
  - split; [exact Hlen|].
    replace (k =? 0) with false by (symmetry; apply Z.eqb_neq; lia). simpl negb.
    fold nByte. destruct (nByte >? limit_length (db pCSV)); [reflexivity|].
    destruct (sqlite3_alloc (db pCSV) nByte); simpl; [|reflexivity].
    do 2 f_equal. f_equal.
    unfold string_at in Hslice.
    destruct (cstr_split (skipn (Z.to_nat col) (row pCSV))) as (rest & Hsplit & Hrest).
    rewrite Hsplit, Hslice. apply unescape_escape_quotes; [|exact Hrest].
    apply escape_quotes_nul. rewrite <- Hslice. apply cstr_no_nul.
  - rewrite Hk. reflexivity.
Qed.

(** C9. For an index below zero, or at or past the number of columns of the
    current row, csvColumn gives the host a null and returns SQLITE_OK. *)
Theorem csvColumn_out_of_range (pCSV : CSV) (i : Z) :
  i < 0 \/ nCol pCSV <= i ->
  csvColumn pCSV i = (SQLITE_OK, result_null, []).
Proof.
  intros Hi. unfold csvColumn.
  replace ((i <? 0) || (i >=? nCol pCSV)) with true; [reflexivity|].
  symmetry. apply orb_true_iff. destruct Hi as [Hi|Hi].
  - left. now apply Z.ltb_lt.
  - right. rewrite Z.geb_leb. now apply Z.leb_le.
Qed.

Lemma csvColumn_quoted_field_witness :
  csvColumn (sample_table quoted_file) 1
  = (SQLITE_OK, result_text quoted_content sqlite3_free, [9]).
Proof.
  assert (H1 : 0 <= 1 < nCol (sample_table quoted_file)) by by_compute.
  assert (H2 : aget (cols (sample_table quoted_file)) 1 None = Some 3) by by_compute.
  assert (H3 : string_at (row (sample_table quoted_file)) 3 = escape_quotes quoted_content)
    by by_compute.
  assert (H4 : aget (escs (sample_table quoted_file)) 1 0 = count_quotes quoted_content)
    by by_compute.
  assert (H5 : 1 <= count_quotes quoted_content) by by_compute.
  pose proof (proj1 (csvColumn_quoted_field _ _ _ _ H1 H2 H3 H4) H5) as [_ H].
  rewrite H. vm_compute. reflexivity.
Defined.

Lemma csvColumn_out_of_range_witness :
  csvColumn (sample_table abc_file) 3 = (SQLITE_OK, result_null, [])
  /\ csvColumn (sample_table abc_file) (-1) = (SQLITE_OK, result_null, []).
Proof.
  split; apply csvColumn_out_of_range; [right | left]; by_compute.
Defined.

(** ** Arrays *)

Section ArrayFacts.
Context {A : Type}.
Implicit Types (a : list A) (i n : Z).

Lemma length_aset a i (v : A) : length (aset a i v) = length a.
Proof.
  unfold aset.
  destruct ((0 <=? i) && (i <? Z.of_nat (length a))) eqn:E; [|reflexivity].
  apply andb_true_iff in E as [E1 E2]. apply Z.leb_le in E1. apply Z.ltb_lt in E2.
  rewrite length_app, length_firstn. cbn [length]. rewrite length_skipn. lia.
Qed.

Lemma length_write_at a i (w : list A) :
  (Z.to_nat i + length w <= length a)%nat -> length (write_at a i w) = length a.
Proof.
  intros H. unfold write_at.
  rewrite !length_app, length_firstn, length_skipn. lia.
Qed.

Lemma length_realloc_cells a n (fresh : A) :
  length (realloc_cells a n fresh) = Z.to_nat n.
Proof.
  unfold realloc_cells. rewrite length_app, length_firstn, repeat_length. lia.
Qed.

Lemma aget_write_at_end a i (w : list A) (v d : A) :
  0 <= i -> (Z.to_nat i <= length a)%nat ->
  aget (write_at a i (w ++ [v])) (i + Z.of_nat (length w)) d = v.
Proof.
  intros Hi Hlen. unfold aget, write_at.
  rewrite <- !app_assoc. cbn [app].
  replace (Z.to_nat (i + Z.of_nat (length w)))
    with (length (firstn (Z.to_nat i) a ++ w)).
  - rewrite app_assoc. apply nth_middle.
  - rewrite length_app, length_firstn. lia.
Qed.

End ArrayFacts.

(** ** The stream *)

Lemma take_line_length (k : nat) (l : list ascii) :
  (length (take_line k l) <= k)%nat /\ (length (take_line k l) <= length l)%nat.
Proof.
  revert l. induction k as [|k IH]; intros [|c l]; simpl; try lia.
  destruct (c =? LF)%char; simpl; [lia|]. specialize (IH l). lia.
Qed.

Lemma fgets_some (size : Z) (fp fp' : FILE) (chunk : list ascii) :
  fgets size fp = (Some chunk, fp') -> 2 <= size ->
  chunk <> [] /\
  Z.of_nat (length chunk) <= size - 1 /\
  (length chunk <= length (unread fp))%nat /\
  fp' = mkFILE (fdata fp) (fpos fp + Z.of_nat (length chunk)).
Proof.
  unfold fgets, unread. intros H Hsize.
  replace (size <=? 0) with false in H by (symmetry; apply Z.leb_gt; lia).
  replace (size =? 1) with false in H by (symmetry; apply Z.eqb_neq; lia).
  pose proof (take_line_length (Z.to_nat (size - 1))
                (skipn (Z.to_nat (fpos fp)) (fdata fp))) as [H1 H2].
  destruct (take_line _ _) as [|c l] eqn:E; [discriminate|].
  injection H as <- <-. repeat split; try congruence; try lia.
Qed.

Lemma fgets_none (size : Z) (fp fp' : FILE) :
  fgets size fp = (None, fp') -> fp' = fp.
Proof.
  unfold fgets. intros H.
  destruct (size <=? 0); [congruence|]. destruct (size =? 1); [discriminate|].
  destruct (take_line _ _); [congruence | discriminate].
Qed.

Lemma unread_advance (fp : FILE) (k : nat) :
  0 <= fpos fp -> (k <= length (unread fp))%nat ->
  length (unread (mkFILE (fdata fp) (fpos fp + Z.of_nat k))) = (length (unread fp) - k)%nat.
Proof.
  unfold unread. cbn [fdata fpos]. intros Hpos Hk.
  rewrite !length_skipn in *. lia.
Qed.

Lemma left_in_advance (fp : FILE) (k : nat) :
  0 <= fpos fp -> (k <= length (unread fp))%nat ->
  left_in (mkFILE (fdata fp) (fpos fp + Z.of_nat k)) = left_in fp - Z.of_nat k.
Proof.
  intros Hpos Hk. unfold left_in. rewrite unread_advance by assumption. lia.
Qed.

(** ** The line reader *)

(** The scan stops at or before the first NUL that lies ahead of it. *)
Lemma scan_quotes_bound (fuel : nat) (buf : list ascii) (d : ascii) :
  forall n bQ m, n <= m -> load buf m = NUL ->
  n <= fst (scan_quotes fuel buf d n bQ) <= m.
Proof.
  induction fuel as [|fuel IH]; intros n bQ m Hnm Hm; simpl; [lia|].
  destruct (Ascii.eqb_spec (load buf n) NUL) as [E|E]; simpl; [lia|].
  assert (Hlt : n < m) by (destruct (Z.eq_dec n m) as [->|]; [contradiction | lia]).
  destruct (load buf n =? DQUOTE)%char.
  - destruct bQ.
    + destruct (Ascii.eqb_spec (load buf (n + 1)) DQUOTE) as [E1|E1].
      * assert (n + 1 <> m) by (intros <-; rewrite Hm in E1; discriminate).
        specialize (IH (n + 1 + 1) true m ltac:(lia) Hm). lia.
      * specialize (IH (n + 1) false m ltac:(lia) Hm). lia.
    + destruct ((n =? 0) || (load buf (n - 1) =? d)%char).
      * specialize (IH (n + 1) true m ltac:(lia) Hm). lia.
      * specialize (IH (n + 1) false m ltac:(lia) Hm). lia.
  - specialize (IH (n + 1) bQ m ltac:(lia) Hm). lia.
Qed.

Lemma line_frame_refl (p : CSV) : line_frame p p.
Proof. unfold line_frame. tauto. Qed.

Lemma line_frame_trans (p q r : CSV) : line_frame p q -> line_frame q r -> line_frame p r.
Proof. unfold line_frame. intuition congruence. Qed.

(** The loop of csv_getline ends within the bytes left in the file, keeps
    the buffer well formed, and never moves the file backwards; when it is
    entered with [n = 0] and ends with [bEol] set, it has read something. *)
Lemma getline_loop_spec (fuel : nat) :
  forall p n bS bQ,
    row_ok p n -> (length (unread (f p)) < fuel)%nat ->
    exists ex q n' bS',
      getline_loop fuel p n bS bQ = Some (ex, q, n', bS') /\
      line_frame p q /\ row_ok q n' /\ fpos (f p) <= fpos (f q) /\
      (ex = LeftLoop true -> n = 0 -> fpos (f p) < fpos (f q)) /\
      ex <> Returned LineRead /\
      left_in (f q) + fpos (f q) = left_in (f p) + fpos (f p).
Proof.
  induction fuel as [|fuel IH]; intros p n bS bQ (Hlen & Hn & Hpos) Hfuel; [lia|].
  cbn [getline_loop].
  (* grow row buffer as needed *)
  match goal with |- context [match ?g with inl _ => _ | inr _ => _ end] =>
    assert (Hg : (exists st, g = inl st /\ st <> LineRead) \/
                 (exists p1 bS1, g = inr (p1, bS1) /\ line_frame p p1 /\ f p1 = f p /\
                                 Z.of_nat (length (row p1)) = maxRow p1 /\
                                 n + 100 <= maxRow p1));
    [|destruct Hg as [(st & -> & Hst)|(p1 & bS1 & -> & Hfr & Hf & Hlen1 & Hroom)]]
  end.
  { destruct (n + 100 >? maxRow p) eqn:E.
    - destruct (maxRow p * 2 + 100 >=? limit_length (db p));
        [left; eexists; split; [reflexivity | discriminate]|].
      destruct (sqlite3_alloc (db p) (maxRow p * 2 + 100)); simpl;
        [|left; eexists; split; [reflexivity | discriminate]].
      right. do 2 eexists. split; [reflexivity|].
      repeat split; cbn; try reflexivity; [|lia].
      rewrite length_realloc_cells. lia.
    - right. exists p, bS. repeat split; try reflexivity; [exact Hlen|].
      rewrite Z.gtb_ltb in E. apply Z.ltb_ge in E. lia. }
  { exists (Returned st), p, n, bS.
    repeat split; try reflexivity; try lia; try discriminate; try exact Hlen.
    congruence. }
  destruct (fgets (maxRow p1 - n) (f p1)) as [[chunk|] fp] eqn:Eg.
  - (* some bytes were read *)
    apply fgets_some in Eg as (Hne & Hsz & Hun & ->); [|lia].
    rewrite Hf in *.
    set (buf := write_at (row p1) n (chunk ++ [NUL])).
    assert (Hlb : length buf = length (row p1)).
    { apply length_write_at. rewrite length_app. cbn [length]. lia. }
    assert (Hnul : load buf (n + Z.of_nat (length chunk)) = NUL).
    { apply aget_write_at_end; lia. }
    set (p2 := set_f (set_zRow p1 (Some buf)) _).
    assert (Hfr2 : line_frame p p2).
    { apply (line_frame_trans _ p1); [exact Hfr|].
      unfold line_frame, p2. cbn. rewrite Hf. tauto. }
    change (row p2) with buf. change (cDelim p2) with (cDelim p1).
    pose proof (scan_quotes_bound (S (length buf)) buf (cDelim p1) n bQ
                  (n + Z.of_nat (length chunk)) ltac:(lia) Hnul) as Hscan.
    destruct (scan_quotes (S (length buf)) buf (cDelim p1) n bQ) as [n' bQ'].
    cbn [fst] in Hscan.
    assert (Hchunk : 0 < Z.of_nat (length chunk)).
    { destruct chunk; [congruence | cbn [length]; lia]. }
    pose proof (left_in_advance (f p) (length chunk) Hpos Hun) as Hadv.
    match goal with |- context [if ?c then _ else _] => destruct c end.
    + (* uniform line ending *)
      match goal with |- context [if ?c then _ else _] => destruct c end;
        do 4 eexists; (split; [reflexivity|]);
        (split; [exact Hfr2|]); unfold row_ok; cbn;
        rewrite !length_aset, Hlb, ?Hadv; repeat split; try lia; discriminate.
    + destruct (IH p2 n' bS1 bQ')
        as (ex & q & n2 & bS2 & Hrun & Hfrq & Hok & Hle & _ & Hex & HU).
      * unfold row_ok, p2. cbn. rewrite Hlb. lia.
      * unfold p2. cbn [f set_f]. rewrite unread_advance; lia.
      * exists ex, q, n2, bS2. split; [exact Hrun|].
        split; [exact (line_frame_trans _ _ _ Hfr2 Hfrq)|].
        split; [exact Hok|].
        unfold p2 in Hle, HU. cbn in Hle, HU. rewrite Hadv in HU.
        repeat split; intros; try lia. exact Hex.
  - (* nothing more in the file *)
    apply fgets_none in Eg. subst fp.
    destruct (n =? 0) eqn:En.
    + exists (LeftLoop false), p1, n, bS1.
      repeat split; try apply Hfr; try lia; try discriminate; rewrite ?Hf; try lia;
        exact Hlen1.
    + apply Z.eqb_neq in En.
      do 4 eexists. split; [reflexivity|].
      split; [|unfold row_ok; cbn; rewrite length_aset, Hf; repeat split; try lia;
                discriminate].
      apply (line_frame_trans _ p1); [exact Hfr|]. unfold line_frame. cbn. tauto.
Qed.

(** csv_getline ends, keeps the invariant, and has moved on in the file
    when it gives a row. *)
Lemma csv_getline_spec (p : CSV) :
  table_ok p ->
  exists st q,
    csv_getline p = Some (st, q) /\ line_frame p q /\ table_ok q /\
    fpos (f p) <= fpos (f q) /\
    left_in (f q) + fpos (f q) = left_in (f p) + fpos (f p) /\
    (st = LineRead ->
     fpos (f p) < fpos (f q) /\ zRow q <> None /\
     Z.of_nat (length (row q)) = maxRow q /\ 1 <= maxRow q).
Proof.
  intros (Hpos & Hbuf). unfold csv_getline.
  set (p0 := if maxRow p <? 1 then _ else p).
  assert (H0 : line_frame p p0 /\ f p0 = f p /\
               (zRow p0 <> None -> row_ok p0 0)).
  { unfold p0. destruct (maxRow p <? 1) eqn:E.
    - destruct (sqlite3_alloc (db p) 100); cbn; unfold line_frame, row_ok; cbn;
        repeat split; try lia; try congruence.
    - apply Z.ltb_ge in E. unfold row_ok.
      repeat split; try apply line_frame_refl; try lia; try reflexivity; auto;
        unfold line_frame; tauto. }
  destruct H0 as (Hfr0 & Hf0 & Hrow0).
  destruct (zRow p0) eqn:Ez.
  2:{ do 2 eexists. split; [reflexivity|].
      repeat split; try apply Hfr0; try discriminate; rewrite ?Hf0; try lia.
      intros _ Hz. congruence. }
  destruct (getline_loop_spec (S (length (fdata (f p0)))) p0 0 false false)
    as (ex & q & n & bS & -> & Hfr & (Hlen & Hn & Hposq) & Hle & Hread & Hex & HU).
  { apply Hrow0. discriminate. }
  { unfold unread. rewrite length_skipn. lia. }
  rewrite Hf0 in *.
  pose proof (line_frame_trans _ _ _ Hfr0 Hfr) as Hfrq.
  destruct ex as [st|bEol].
  - do 2 eexists. split; [reflexivity|].
    repeat split; try apply Hfrq; try lia; try exact Hlen;
      exfalso; subst; now apply Hex.
  - set (q1 := if bS then _ else q).
    assert (H1 : line_frame q q1 /\ f q1 = f q /\
                 (zRow q1 <> None -> Z.of_nat (length (row q1)) = maxRow q1 /\ 1 <= maxRow q1)).
    { unfold q1. destruct bS.
      - destruct (sqlite3_alloc (db q) (n + 1)); cbn;
          unfold line_frame; cbn; repeat split; try congruence; try lia.
        rewrite length_realloc_cells. lia.
      - repeat split; try apply line_frame_refl; try lia; unfold line_frame; tauto. }
    destruct H1 as (Hfr1 & Hf1 & Hrow1).
    pose proof (line_frame_trans _ _ _ Hfrq Hfr1) as Hfrq1.
    destruct bEol.
    + destruct (zRow q1) eqn:Ez1; do 2 eexists; (split; [reflexivity|]);
        (split; [exact Hfrq1|]); unfold table_ok; rewrite Hf1, ?Ez1.
      * destruct (Hrow1 ltac:(discriminate)) as [Hr1 Hr2].
        specialize (Hread eq_refl eq_refl).
        repeat split; try lia; auto; try discriminate.
      * repeat split; try lia; try discriminate; intros; congruence.
    + do 2 eexists. split; [reflexivity|]. split; [exact Hfrq1|].
      unfold table_ok. rewrite Hf1. repeat split; try lia; try discriminate.
      intros _ Hz. now apply Hrow1.
Qed.

(** ** The views of the three arrays through the setters *)
Lemma row_set_nBusy (p : CSV) v : row (set_nBusy p v) = row p.
Proof. reflexivity. Qed.
Lemma row_set_f (p : CSV) v : row (set_f p v) = row p.
Proof. reflexivity. Qed.
Lemma row_set_offsetFirstRow (p : CSV) v : row (set_offsetFirstRow p v) = row p.
Proof. reflexivity. Qed.
Lemma row_set_eof (p : CSV) v : row (set_eof p v) = row p.
Proof. reflexivity. Qed.
Lemma row_set_maxRow (p : CSV) v : row (set_maxRow p v) = row p.
Proof. reflexivity. Qed.
Lemma row_set_zRow (p : CSV) b : row (set_zRow p (Some b)) = b.
Proof. reflexivity. Qed.
Lemma row_set_nCol (p : CSV) v : row (set_nCol p v) = row p.
Proof. reflexivity. Qed.
Lemma row_set_maxCol (p : CSV) v : row (set_maxCol p v) = row p.
Proof. reflexivity. Qed.
Lemma row_set_aCols (p : CSV) v : row (set_aCols p v) = row p.
Proof. reflexivity. Qed.
Lemma row_set_aEscapedQuotes (p : CSV) v : row (set_aEscapedQuotes p v) = row p.
Proof. reflexivity. Qed.
Lemma cols_set_nBusy (p : CSV) v : cols (set_nBusy p v) = cols p.
Proof. reflexivity. Qed.
Lemma cols_set_f (p : CSV) v : cols (set_f p v) = cols p.
Proof. reflexivity. Qed.
Lemma cols_set_offsetFirstRow (p : CSV) v : cols (set_offsetFirstRow p v) = cols p.
Proof. reflexivity. Qed.
Lemma cols_set_eof (p : CSV) v : cols (set_eof p v) = cols p.
Proof. reflexivity. Qed.
Lemma cols_set_maxRow (p : CSV) v : cols (set_maxRow p v) = cols p.
Proof. reflexivity. Qed.
Lemma cols_set_zRow (p : CSV) v : cols (set_zRow p v) = cols p.
Proof. reflexivity. Qed.
Lemma cols_set_nCol (p : CSV) v : cols (set_nCol p v) = cols p.
Proof. reflexivity. Qed.
Lemma cols_set_maxCol (p : CSV) v : cols (set_maxCol p v) = cols p.
Proof. reflexivity. Qed.
Lemma cols_set_aCols (p : CSV) b : cols (set_aCols p (Some b)) = b.
Proof. reflexivity. Qed.
Lemma cols_set_aEscapedQuotes (p : CSV) v : cols (set_aEscapedQuotes p v) = cols p.
Proof. reflexivity. Qed.
Lemma escs_set_nBusy (p : CSV) v : escs (set_nBusy p v) = escs p.
Proof. reflexivity. Qed.
Lemma escs_set_f (p : CSV) v : escs (set_f p v) = escs p.
Proof. reflexivity. Qed.
Lemma escs_set_offsetFirstRow (p : CSV) v : escs (set_offsetFirstRow p v) = escs p.
Proof. reflexivity. Qed.
Lemma escs_set_eof (p : CSV) v : escs (set_eof p v) = escs p.
Proof. reflexivity. Qed.
Lemma escs_set_maxRow (p : CSV) v : escs (set_maxRow p v) = escs p.
Proof. reflexivity. Qed.
Lemma escs_set_zRow (p : CSV) v : escs (set_zRow p v) = escs p.
Proof. reflexivity. Qed.
Lemma escs_set_nCol (p : CSV) v : escs (set_nCol p v) = escs p.
Proof. reflexivity. Qed.
Lemma escs_set_maxCol (p : CSV) v : escs (set_maxCol p v) = escs p.
Proof. reflexivity. Qed.
Lemma escs_set_aCols (p : CSV) v : escs (set_aCols p v) = escs p.
Proof. reflexivity. Qed.
Lemma escs_set_aEscapedQuotes (p : CSV) b : escs (set_aEscapedQuotes p (Some b)) = b.
Proof. reflexivity. Qed.

Create Rewrite HintDb csv.
#[local] Hint Rewrite row_set_nBusy row_set_f row_set_offsetFirstRow row_set_eof row_set_maxRow row_set_zRow row_set_nCol row_set_maxCol row_set_aCols row_set_aEscapedQuotes
  cols_set_nBusy cols_set_f cols_set_offsetFirstRow cols_set_eof cols_set_maxRow cols_set_zRow cols_set_nCol cols_set_maxCol cols_set_aCols cols_set_aEscapedQuotes
  escs_set_nBusy escs_set_f escs_set_offsetFirstRow escs_set_eof escs_set_maxRow escs_set_zRow escs_set_nCol escs_set_maxCol escs_set_aCols escs_set_aEscapedQuotes : csv.

(** ** The tokenizer *)

Lemma span_until_bound (p : ascii -> bool) (l : list ascii) (k : nat) :
  span_until p l = Some k -> (k < length l)%nat.
Proof.
  revert k. induction l as [|c l IH]; simpl; intros k H; [discriminate|].
  destruct (c =? NUL)%char; [discriminate|].
  destruct (p c); [injection H as <-; lia|].
  destruct (span_until p l) as [j|]; [|discriminate].
  injection H as <-. specialize (IH j eq_refl). lia.
Qed.

Lemma strchr_bound (buf : list ascii) (s s' : Z) (c : ascii) :
  0 <= s -> strchr buf s c = Some s' -> s <= s' < Z.of_nat (length buf).
Proof.
  unfold strchr. intros Hs H.
  destruct (span_until _ _) as [k|] eqn:E; [|discriminate].
  injection H as <-. apply span_until_bound in E. rewrite length_skipn in E. lia.
Qed.

Lemma strpbrk_bound (buf : list ascii) (s s' : Z) (accept : list ascii) :
  0 <= s -> strpbrk buf s accept = Some s' -> s <= s' < Z.of_nat (length buf).
Proof.
  unfold strpbrk. intros Hs H.
  destruct (span_until _ _) as [k|] eqn:E; [|discriminate].
  injection H as <-. apply span_until_bound in E. rewrite length_skipn in E. lia.
Qed.

(** The search for the closing quote ends within the buffer. *)
Lemma closing_quote_spec (fuel : nat) (buf : list ascii) (nCol : Z) :
  forall esc s,
    0 <= s -> (length buf - Z.to_nat s < fuel)%nat ->
    exists res esc',
      closing_quote fuel buf esc nCol s = Some (res, esc') /\
      length esc' = length esc /\
      (forall s', res = Some s' -> s <= s' < Z.of_nat (length buf)).
Proof.
  induction fuel as [|fuel IH]; intros esc s Hs Hfuel; [lia|].
  cbn [closing_quote].
  destruct (strchr buf s DQUOTE) as [s1|] eqn:E.
  - apply strchr_bound in E; [|exact Hs].
    destruct (load buf (s1 + 1) =? DQUOTE)%char.
    + destruct (IH (aset esc nCol (aget esc nCol 0 + 1)) (s1 + 2))
        as (res & esc' & -> & Hl & Hres); try lia.
      exists res, esc'. split; [reflexivity|]. rewrite Hl, length_aset.
      split; [reflexivity|]. intros s' Hs'. specialize (Hres s' Hs'). lia.
    + do 2 eexists. split; [reflexivity|]. split; [reflexivity|].
      intros s' [= <-]. lia.
  - do 2 eexists. split; [reflexivity|]. split; [reflexivity|]. discriminate.
Qed.

Lemma cols_frame_refl (p : CSV) : cols_frame p p.
Proof. unfold cols_frame. tauto. Qed.

Lemma cols_frame_trans (p q r : CSV) : cols_frame p q -> cols_frame q r -> cols_frame p r.
Proof. unfold cols_frame. intuition congruence. Qed.

(** The parsing loop ends within the row buffer, and leaves by one of its
    own return statements. *)
Lemma parse_cols_spec (fuel : nat) :
  forall p s nCol,
    0 <= s -> (length (row p) - Z.to_nat s < fuel)%nat ->
    exists st r q,
      parse_cols fuel p s nCol = Some (st, r, q) /\ cols_frame p q /\ parse_exit p st r q.
Proof.
  induction fuel as [|fuel IH]; intros p s nCol Hs Hfuel; [lia|].
  cbn [parse_cols].
  match goal with |- context [match ?c with Some _ => _ | None => _ end] =>
    assert (Hc : (exists q, c = Some (inl q) /\ cols_frame p q /\ eof q = -1) \/
                 (exists p1 s1, c = Some (inr (p1, s1)) /\ cols_frame p p1 /\
                                eof p1 = eof p /\ s <= s1));
    [|destruct Hc as [(q & -> & Hfr & He)|(p1 & s1 & -> & Hfr & He & Hs1)]]
  end.
  { destruct (load (row p) s =? DQUOTE)%char.
    - autorewrite with csv.
      destruct (closing_quote_spec (S (length (row p))) (row p) nCol
                  (aset (escs p) nCol 0) (s + 1)) as (res & esc' & -> & _ & Hres); try lia.
      destruct res as [s1|].
      + right. do 2 eexists. split; [reflexivity|]. specialize (Hres s1 eq_refl).
        unfold cols_frame. cbn. rewrite length_aset.
        repeat split; try lia; try discriminate.
      + left. eexists. split; [reflexivity|]. unfold cols_frame. cbn.
        repeat split; auto.
    - right. do 2 eexists. split; [reflexivity|]. unfold cols_frame. cbn.
      repeat split; auto; lia. }
  { exists NoClosingQuote, SQLITE_ERROR, q. repeat split; try apply Hfr; auto. }
  destruct (strpbrk (row p1) s1 (zDelims p1)) as [s2|] eqn:E.
  2:{ do 3 eexists. split; [reflexivity|]. split; [|split; reflexivity].
      apply (cols_frame_trans _ p1); [exact Hfr|]. unfold cols_frame. cbn. tauto. }
  apply strpbrk_bound in E; [|lia].
  set (p2 := set_zRow p1 (Some (aset (row p1) s2 NUL))).
  assert (Hfr2 : cols_frame p p2 /\ eof p2 = eof p).
  { split; [|exact He]. apply (cols_frame_trans _ p1); [exact Hfr|].
    unfold cols_frame, p2. cbn. rewrite length_aset. repeat split; auto; discriminate. }
  destruct Hfr2 as [Hfr2 He2].
  destruct (load (row p1) s2 =? LF)%char.
  { do 3 eexists. split; [reflexivity|]. split; [|split; [reflexivity | exact He2]].
    apply (cols_frame_trans _ p2); [exact Hfr2|]. unfold cols_frame. cbn. tauto. }
  match goal with |- context [match ?g with inl _ => _ | inr _ => _ end] =>
    assert (Hg : (exists st q, g = inl (st, q) /\ cols_frame p q /\ eof q = eof p /\
                               (st = ColumnLimit \/ st = NoGrowth)) \/
                 (exists p3, g = inr p3 /\ cols_frame p p3 /\ eof p3 = eof p));
    [|destruct Hg as [(st & q & -> & Hfrq & Heq & Hst)|(p3 & -> & Hfr3 & He3)]]
  end.
  { destruct (nCol + 1 >=? maxCol p2); [|right; eauto].
    destruct (nCol + 1 >=? limit_column (db p2)); [left; eauto 8|].
    destruct (sqlite3_alloc (db p2) (sizeof_ptr * (nCol + 1 + 5))); cbn [negb];
      [|left; eauto 8].
    match goal with |- context [if ?c then _ else _] => destruct c end;
      [left|right]; repeat eexists; try (right; reflexivity); try exact He2;
      try (apply (cols_frame_trans _ p2); [exact Hfr2|]; unfold cols_frame; cbn; tauto). }
  { do 3 eexists. split; [reflexivity|]. split; [exact Hfrq|].
    destruct Hst as [-> | ->]; split; auto. }
  destruct (load (row p3) (s2 + 1) =? NUL)%char.
  { do 3 eexists. split; [reflexivity|]. split; [|split; [reflexivity | exact He3]].
    apply (cols_frame_trans _ p3); [exact Hfr3|]. unfold cols_frame. cbn. tauto. }
  destruct (IH p3 (s2 + 1) (nCol + 1)) as (st & r & q & -> & Hfrq & Hex); try lia.
  { destruct Hfr3 as (_ & _ & _ & _ & _ & _ & Hl & _).
    destruct Hfr as (_ & _ & _ & _ & _ & _ & Hl1 & _). lia. }
  exists st, r, q. split; [reflexivity|].
  split; [exact (cols_frame_trans _ _ _ Hfr3 Hfrq)|].
  unfold parse_exit in *. rewrite He3 in Hex. exact Hex.
Qed.

(** ** xNext *)

Lemma csvNext_at_end (p : CSV) (c : CSVCursor) :
  eof p <> 0 -> csvNext p c = Some (mkNext AtEnd SQLITE_ERROR p c).
Proof.
  intros H. unfold csvNext.
  replace (eof p =? 0) with false by (symmetry; now apply Z.eqb_neq).
  reflexivity.
Qed.

(** csvNext ends; with the flag clear it records the position the read
    starts at, keeps the invariant and leaves as [next_exit] says. *)
Lemma csvNext_spec (p : CSV) (c : CSVCursor) :
  table_ok p -> eof p = 0 ->
  exists r,
    csvNext p c = Some r /\ config_frame p (vtab r) /\ table_ok (vtab r) /\
    cursor r = mkCursor (fpos (f p)) /\ fpos (f p) <= fpos (f (vtab r)) /\
    left_in (f (vtab r)) + fpos (f (vtab r)) = left_in (f p) + fpos (f p) /\
    next_exit p r.
Proof.
  intros Hok He. unfold csvNext. rewrite He. cbn [Z.eqb negb].
  destruct (csv_getline_spec p Hok) as (st & q & -> & Hfr & Hokq & Hle & HU & Hread).
  assert (Hcfg : config_frame p q) by (unfold config_frame, line_frame in *; tauto).
  assert (Heq : eof q = 0) by (unfold line_frame in Hfr; intuition congruence).
  assert (Hfail : st <> LineRead ->
                  exists r, Some (mkNext (NoLine st) SQLITE_OK (set_eof q (-1))
                                     (mkCursor (csv_tell p))) = Some r /\
                            config_frame p (vtab r) /\ table_ok (vtab r) /\
                            cursor r = mkCursor (fpos (f p)) /\
                            fpos (f p) <= fpos (f (vtab r)) /\
                            left_in (f (vtab r)) + fpos (f (vtab r))
                            = left_in (f p) + fpos (f p) /\
                            next_exit p r).
  { intros Hst. eexists. split; [reflexivity|]. unfold next_exit. cbn.
    repeat split; try apply Hcfg; try apply Hokq; auto. }
  destruct st; try (apply Hfail; discriminate). clear Hfail.
  destruct (Hread eq_refl) as (Hlt & Hz & Hlen & Hmax).
  set (q1 := if maxCol q <? 1 then _ else q).
  assert (H1 : config_frame q q1 /\ eof q1 = eof q /\ f q1 = f q /\ row q1 = row q /\
               maxRow q1 = maxRow q /\ zRow q1 = zRow q).
  { unfold q1. destruct (maxCol q <? 1); [|unfold config_frame; tauto].
    cbv zeta.
    destruct (sqlite3_alloc (db q) (sizeof_ptr * _));
      unfold config_frame; cbn; autorewrite with csv; tauto. }
  destruct H1 as (Hfr1 & Heq1 & Hf1 & Hrow1 & Hmax1 & Hz1).
  assert (Hcfg1 : config_frame p q1).
  { unfold config_frame in *. intuition congruence. }
  rewrite Heq in Heq1.
  assert (Hok1 : table_ok q1).
  { unfold table_ok. rewrite Hf1, Hrow1, Hmax1. destruct Hokq. split; auto. }
  destruct (aCols q1) eqn:Ea; [destruct (aEscapedQuotes q1) eqn:Ee|].
  - destruct (parse_cols_spec (S (length (row q1))) q1 0 0) as (st & r & q2 & -> & Hfr2 & Hex);
      try lia.
    eexists. split; [reflexivity|]. cbn [vtab cursor].
    destruct Hfr2 as (F1 & F2 & F3 & F4 & F5 & F6 & F7 & F8).
    unfold config_frame, table_ok, next_exit, csv_tell, ftell in *. cbn [site rc vtab].
    rewrite F3, Hf1, F6, F7, Hrow1, Hmax1.
    repeat split; try (intuition congruence); try lia.
    unfold parse_exit in Hex. rewrite Heq1 in Hex.
    destruct st; try tauto; repeat split; try tauto; lia.
  - eexists. split; [reflexivity|]. unfold next_exit. cbn. rewrite Hf1.
    repeat split; try apply Hcfg1; try apply Hok1; auto; lia.
  - eexists. split; [reflexivity|]. unfold next_exit. cbn. rewrite Hf1.
    repeat split; try apply Hcfg1; try apply Hok1; auto; lia.
Qed.

(** ** xFilter *)

Lemma rewound_ok (p : CSV) : table_ok p -> table_ok (rewound p) /\ eof (rewound p) = 0.
Proof.
  intros (Hpos & Hbuf). unfold rewound, table_ok, csv_seek, fseek. cbn.
  split; [|reflexivity]. split; [|exact Hbuf].
  destruct (offsetFirstRow p <? 0) eqn:E; cbn; [exact Hpos | now apply Z.ltb_ge in E].
Qed.

Lemma csvFilter_spec (p : CSV) (c : CSVCursor) :
  table_ok p ->
  exists r0,
    csvNext (rewound p) c = Some r0 /\
    csvFilter p c = Some (mkFilter (site r0) (rc r0) (snd (csvRelease (vtab r0))) (cursor r0)) /\
    config_frame (rewound p) (vtab r0) /\ table_ok (vtab r0) /\
    cursor r0 = mkCursor (fpos (f (rewound p))) /\
    next_exit (rewound p) r0.
Proof.
  intros Hok. destruct (rewound_ok p Hok) as [Hok0 He0].
  destruct (csvNext_spec (rewound p) c Hok0 He0) as (r0 & E & Hcfg & Hokr & Hc & _ & _ & Hex).
  exists r0. split; [exact E|]. split; [|tauto].
  unfold csvFilter. cbv zeta.
  change (csv_seek (set_eof (csvReference p) 0) _) with (rewound p).
  rewrite E. reflexivity.
Qed.

(** ** The scan *)

Lemma scan_rows_spec (fuel : nat) (nDecl : nat) :
  forall p c,
    table_ok p ->
    (eof p = 0 -> csvpos c < fpos (f p)) ->
    (eof p = 0 -> left_in (f p) + 1 < Z.of_nat fuel) -> (1 <= fuel)%nat ->
    exists rows e t c',
      scan_rows fuel nDecl p c = Some (rows, e, t, c') /\
      StronglySorted Z.lt (map row_id rows) /\
      Forall (fun r => csvpos c <= row_id r) rows.
Proof.
  induction fuel as [|fuel IH]; intros p c Hok Hinv Hfuel H1; [lia|].
  cbn [scan_rows]. unfold csvEof.
  destruct (Z.eq_dec (eof p) 0) as [He|He].
  2:{ replace (eof p =? 0) with false by (symmetry; now apply Z.eqb_neq).
      do 4 eexists. split; [reflexivity|]. split; constructor. }
  rewrite He. cbn [Z.eqb negb].
  destruct (csvNext_spec p c Hok He) as (r & -> & _ & Hokr & Hc & Hle & HU & Hex).
  specialize (Hinv He). specialize (Hfuel He).
  assert (Hrow : row_id (read_row nDecl p c) = csvpos c) by reflexivity.
  destruct (rc r =? SQLITE_OK).
  2:{ do 4 eexists. split; [reflexivity|]. cbn [map]. rewrite Hrow.
      split; repeat constructor. lia. }
  assert (Hprog : eof (vtab r) = 0 -> fpos (f p) < fpos (f (vtab r))).
  { unfold next_exit in Hex. destruct (site r); intros; try tauto; lia. }
  destruct (IH (vtab r) (cursor r)) as (rows & e & t & c' & -> & Hs & Hall); try assumption.
  - rewrite Hc. exact Hprog.
  - intros He'. specialize (Hprog He'). lia.
  - unfold left_in in *. lia.
  - do 4 eexists. split; [reflexivity|]. cbn [map]. rewrite Hrow, Hc in *. cbn in Hall.
    split.
    + constructor; [exact Hs|]. apply Forall_map.
      eapply Forall_impl; [|exact Hall]. cbn. intros; lia.
    + constructor; [lia|]. eapply Forall_impl; [|exact Hall]. cbn. intros; lia.
Qed.

Lemma left_in_le (fp : FILE) : left_in fp <= Z.of_nat (length (fdata fp)).
Proof. unfold left_in, unread. rewrite length_skipn. lia. Qed.

Lemma full_scan_spec (nDecl : nat) (p : CSV) (c : CSVCursor) :
  table_ok p ->
  exists rows e t c',
    full_scan nDecl p c = Some (rows, e, t, c') /\
    StronglySorted Z.lt (map row_id rows).
Proof.
  intros Hok. unfold full_scan.
  destruct (csvFilter_spec p c Hok) as (r0 & _ & -> & _ & Hokr & Hc & Hex).
  cbn [fvtab frc fcursor]. unfold csvRelease.
  destruct (nBusy (set_nBusy (vtab r0) _) <? 1); cbn [snd].
  { do 4 eexists. split; [reflexivity|]. constructor. }
  destruct (rc r0 =? SQLITE_OK).
  2:{ do 4 eexists. split; [reflexivity|]. constructor. }
  set (t := set_nBusy (vtab r0) _).
  destruct (scan_rows_spec (S (S (length (fdata (f t))))) nDecl t (cursor r0))
    as (rows & e & t' & c' & -> & Hs & _).
  - exact Hokr.
  - rewrite Hc. unfold next_exit in Hex. unfold t. cbn.
    destruct (site r0); intros; try tauto; lia.
  - intros _. pose proof (left_in_le (f t)). lia.
  - lia.
  - do 4 eexists. split; [reflexivity|]. exact Hs.
Qed.

(** ** Rows the line reader gets wrong *)

(** C5, at a file whose last row [a,b] has no newline after it.
    csv_getline gives the bytes [a,b] as a row but puts no newline after
    them, and csvNext, which looks for the delimiter or a newline after
    each field, finds none after [b]: it returns SQLITE_ERROR with the
    end-of-data flag set, and the row is not exposed. *)
Theorem last_row_without_newline :
  let t := after_filter (sample_table no_newline_file) in
  (exists q, csv_getline t = Some (LineRead, q) /\ string_at (row q) 0 = bytes "a,b") /\
  (exists r, csvNext t (mkCursor 0) = Some r /\
             site r = NoColDelimiter /\ rc r = SQLITE_ERROR /\
             csvEof (vtab r) (cursor r) = -1).
Proof.
  split; vm_compute; eexists; repeat split.
Qed.

(** C2, at a quoted field whose doubled quote lies across the end of the
    first read of 99 bytes.  With 96 letters before the doubled quote the
    newline inside the field is kept and the field is materialized whole.
    With 97 letters, fgets stops between the two quotes, the scan takes the
    first for the closing quote, and the newline that follows, inside the
    field, ends the row: csv_getline gives the row cut there, and csvNext
    finds no closing quote and returns SQLITE_ERROR. *)
Theorem newline_inside_long_quoted_field :
  (let t := after_filter (sample_table (long_quoted_file 96)) in
   exists r, csvNext t (mkCursor 0) = Some r /\ site r = Parsed /\
             csvColumn (vtab r) 0
             = (SQLITE_OK, result_text (long_quoted_content 96) sqlite3_free, [100])) /\
  (let t := after_filter (sample_table (long_quoted_file 97)) in
   (exists q, csv_getline t = Some (LineRead, q) /\
              string_at (row q) 0
              = [DQUOTE] ++ repeat "a"%char 97 ++ [DQUOTE; DQUOTE] ++ [LF]) /\
   (exists r, csvNext t (mkCursor 0) = Some r /\
              site r = NoClosingQuote /\ rc r = SQLITE_ERROR)).
Proof.
  split; [|split]; vm_compute; eexists; repeat split.
Qed.

(** C7, at two files.  Where fgets stops depends on the size of the row
    buffer, and that size is left behind by the rows read before.  Over
    [long_quoted_file 97] the first scan stops with SQLITE_ERROR after the
    row [h]; it leaves a buffer of 102 bytes, so the second scan reads the
    doubled quote in one piece and shows two rows.  Over [lone_cr_file] both
    scans end with SQLITE_OK: the first shows three rows, the second, with
    the buffer of 152 bytes the first has left, shows two. *)
Theorem second_scan_differs :
  scan_twice 1 (sample_table (long_quoted_file 97))
  = Some ([[text (bytes "h")]], SQLITE_ERROR,
          [[text (bytes "h")]; [result_text (long_quoted_content 97) sqlite3_free]],
          SQLITE_OK) /\
  scan_twice 1 (sample_table lone_cr_file)
  = Some ([[text (repeat "a"%char 98)]; [text (bytes "b")]; [text (repeat "c"%char 150)]],
          SQLITE_OK,
          [[text (repeat "a"%char 98 ++ [CR] ++ bytes "b")]; [text (repeat "c"%char 150)]],
          SQLITE_OK).
Proof.
  split; vm_compute; reflexivity.
Qed.

(** ** Rows of unquoted fields *)

Lemma plainb_plain (d c : ascii) : plainb d c = true -> plain d c.
Proof.
  unfold plainb, plain. rewrite !andb_true_iff, !negb_true_iff, !Ascii.eqb_neq. tauto.
Qed.

Lemma unquotedb_unquoted (d : ascii) (l : list ascii) :
  unquotedb d l = true -> unquoted d l.
Proof.
  unfold unquotedb, unquoted. rewrite andb_true_iff, forallb_forall, Forall_forall.
  intros [H Hhd]. split.
  - intros c Hc. apply plainb_plain. now apply H.
  - intros c rest ->. apply negb_true_iff, Ascii.eqb_neq in Hhd. exact Hhd.
Qed.

Lemma last_byte_snoc (l : list ascii) (c : ascii) : last_byte (l ++ [c]) = Some c.
Proof. unfold last_byte. now rewrite rev_app_distr. Qed.

Lemma quiet_app (d : ascii) (x y : list ascii) :
  forall prev,
    quiet d prev (x ++ y)
    = quiet d prev x
      && quiet d (match last_byte x with None => prev | Some c => Some c end) y.
Proof.
  induction x as [|c x IH]; intros prev; [reflexivity|].
  cbn [app quiet]. rewrite IH, andb_assoc. do 2 f_equal.
  destruct x as [|c' x' _] using rev_ind.
  - reflexivity.
  - rewrite last_byte_snoc. change (c :: x' ++ [c']) with ((c :: x') ++ [c']).
    now rewrite last_byte_snoc.
Qed.

Lemma quiet_app_start (d : ascii) (x y : list ascii) :
  quiet d None (x ++ y) = quiet d None x && quiet d (last_byte x) y.
Proof. rewrite quiet_app. now destruct (last_byte x). Qed.

Lemma quiet_after_plain (d : ascii) (l : list ascii) :
  forall c, c <> d -> Forall (plain d) l -> quiet d (Some c) l = true.
Proof.
  induction l as [|c' l IH]; intros c Hc Hl; [reflexivity|].
  cbn [quiet]. rewrite (eqb_false_of_neq _ _ Hc), andb_false_r. cbn [negb andb].
  apply IH; [|now apply Forall_inv_tail in Hl].
  apply Forall_inv in Hl. unfold plain in Hl. tauto.
Qed.

Lemma quiet_unquoted (d : ascii) (fld : list ascii) (prev : option ascii) :
  unquoted d fld -> quiet d prev fld = true.
Proof.
  intros [Hp Hhd]. destruct fld as [|c l]; [reflexivity|].
  cbn [quiet]. rewrite (eqb_false_of_neq _ _ (Hhd c l eq_refl)). cbn [andb negb].
  apply quiet_after_plain; [|now apply Forall_inv_tail in Hp].
  apply Forall_inv in Hp. unfold plain in Hp. tauto.
Qed.

Lemma load_app_at (pre post : list ascii) (x : ascii) :
  load (pre ++ x :: post) (Z.of_nat (length pre)) = x.
Proof. unfold load, aget. rewrite Nat2Z.id. apply nth_middle. Qed.

Lemma load_app_l (pre post : list ascii) (i : Z) :
  0 <= i < Z.of_nat (length pre) -> load (pre ++ post) i = load pre i.
Proof. intros Hi. unfold load, aget. apply app_nth1. lia. Qed.

Lemma load_in (l : list ascii) (i : Z) :
  0 <= i < Z.of_nat (length l) -> In (load l i) l.
Proof. intros Hi. unfold load, aget. apply nth_In. lia. Qed.

(** The test [n==0 || zRow[n-1]==cDelim] at the end of the bytes [done]. *)
Lemma before_quote_test (d : ascii) (done rest : list ascii) :
  (Z.of_nat (length done) =? 0)
  || (load (done ++ rest) (Z.of_nat (length done) - 1) =? d)%char
  = match last_byte done with None => true | Some x => (x =? d)%char end.
Proof.
  destruct done as [|c0 done0 _] using rev_ind; [reflexivity|].
  rewrite last_byte_snoc, last_length.
  replace (Z.of_nat (S (length done0)) =? 0) with false by (symmetry; apply Z.eqb_neq; lia).
  replace (Z.of_nat (S (length done0)) - 1) with (Z.of_nat (length done0)) by lia.
  rewrite <- app_assoc. cbn [app orb]. now rewrite load_app_at.
Qed.

Lemma aset_app_at {A : Type} (pre post : list A) (x v : A) :
  aset (pre ++ x :: post) (Z.of_nat (length pre)) v = pre ++ v :: post.
Proof.
  unfold aset. rewrite length_app. cbn [length].
  replace ((0 <=? Z.of_nat (length pre))
           && (Z.of_nat (length pre) <? Z.of_nat (length pre + S (length post)))) with true.
  - rewrite Nat2Z.id.
    rewrite firstn_app, firstn_all, Nat.sub_diag. cbn [firstn]. rewrite app_nil_r.
    f_equal. f_equal.
    change (S (length pre)) with (1 + length pre)%nat.
    rewrite <- skipn_skipn.
    rewrite skipn_app, skipn_all, Nat.sub_diag. reflexivity.
  - symmetry. apply andb_true_iff. split; [apply Z.leb_le | apply Z.ltb_lt]; lia.
Qed.

Lemma realloc_cells_grow {A : Type} (a : list A) (n : Z) (fresh : A) :
  Z.of_nat (length a) <= n ->
  realloc_cells a n fresh = a ++ repeat fresh (Z.to_nat n - length a).
Proof.
  intros H. unfold realloc_cells. rewrite firstn_all2 by lia. reflexivity.
Qed.

Lemma in_firstn {A : Type} (x : A) (k : nat) (l : list A) : In x (firstn k l) -> In x l.
Proof. intros H. rewrite <- (firstn_skipn k l). apply in_or_app. now left. Qed.

Lemma take_line_plain (k : nat) (todo rest : list ascii) :
  ~ In LF todo ->
  take_line k (todo ++ LF :: rest)
  = if (k <=? length todo)%nat then firstn k todo else todo ++ [LF].
Proof.
  revert todo. induction k as [|k IH]; intros todo Hlf.
  - destruct todo; reflexivity.
  - destruct todo as [|c todo]; cbn [app take_line length].
    + reflexivity.
    + rewrite (eqb_false_of_neq c LF) by (intros ->; apply Hlf; now left).
      rewrite IH by (intros H; apply Hlf; now right).
      change (S k <=? S (length todo))%nat with (k <=? length todo)%nat.
      destruct (k <=? length todo)%nat; reflexivity.
Qed.

Lemma fgets_eq (size : Z) (fp : FILE) (chunk : list ascii) :
  2 <= size -> chunk <> [] ->
  take_line (Z.to_nat (size - 1)) (unread fp) = chunk ->
  fgets size fp = (Some chunk, mkFILE (fdata fp) (fpos fp + Z.of_nat (length chunk))).
Proof.
  intros Hsize Hne E. unfold fgets. fold (unread fp).
  replace (size <=? 0) with false by (symmetry; apply Z.leb_gt; lia).
  replace (size =? 1) with false by (symmetry; apply Z.eqb_neq; lia).
  rewrite E. destruct chunk; [congruence | reflexivity].
Qed.

Lemma unread_skip (fp : FILE) (k : nat) :
  0 <= fpos fp ->
  unread (mkFILE (fdata fp) (fpos fp + Z.of_nat k)) = skipn k (unread fp).
Proof.
  intros Hpos. unfold unread. cbn [fdata fpos]. rewrite skipn_skipn. f_equal. lia.
Qed.

(** Over bytes that hold no NUL, and no quote where a quoted column could
    open, the scan runs to their end and stays outside quoted columns. *)
Lemma scan_quotes_plain (d : ascii) (chunk : list ascii) :
  forall fuel done tail,
    ~ In NUL chunk -> quiet d (last_byte done) chunk = true ->
    (length chunk < fuel)%nat ->
    scan_quotes fuel (done ++ chunk ++ NUL :: tail) d (Z.of_nat (length done)) false
    = (Z.of_nat (length done) + Z.of_nat (length chunk), false).
Proof.
  induction chunk as [|c chunk IH]; intros fuel done tail Hn Hq Hfuel;
    (destruct fuel as [|fuel]; [cbn [length] in Hfuel; lia|]); cbn [scan_quotes app].
  - rewrite load_app_at. cbn. f_equal. lia.
  - rewrite load_app_at.
    rewrite (eqb_false_of_neq c NUL) by (intros ->; apply Hn; now left).
    cbn [quiet] in Hq. apply andb_true_iff in Hq as [Hq1 Hq2].
    rewrite before_quote_test.
    assert (Hstep : (if (c =? DQUOTE)%char
                     then if match last_byte done with
                             | None => true
                             | Some x => (x =? d)%char
                             end
                          then scan_quotes fuel (done ++ c :: chunk ++ NUL :: tail) d
                                 (Z.of_nat (length done) + 1) true
                          else scan_quotes fuel (done ++ c :: chunk ++ NUL :: tail) d
                                 (Z.of_nat (length done) + 1) false
                     else scan_quotes fuel (done ++ c :: chunk ++ NUL :: tail) d
                            (Z.of_nat (length done) + 1) false)
                    = scan_quotes fuel (done ++ c :: chunk ++ NUL :: tail) d
                        (Z.of_nat (length done) + 1) false).
    { destruct (c =? DQUOTE)%char; [|reflexivity].
      cbn [andb] in Hq1. apply negb_true_iff in Hq1. now rewrite Hq1. }
    rewrite Hstep.
    replace (done ++ c :: chunk ++ NUL :: tail)
      with ((done ++ [c]) ++ chunk ++ NUL :: tail) by (rewrite <- app_assoc; reflexivity).
    replace (Z.of_nat (length done) + 1) with (Z.of_nat (length (done ++ [c])))
      by (rewrite last_length; lia).
    rewrite IH.
    + rewrite last_length. cbn [length]. f_equal. lia.
    + intros H. apply Hn. now right.
    + rewrite last_byte_snoc. exact Hq2.
    + cbn [length] in Hfuel. lia.
Qed.

Lemma line_bytes_not_in (l : list ascii) :
  Forall line_byte l -> ~ In NUL l /\ ~ In LF l /\ ~ In CR l.
Proof.
  rewrite Forall_forall. intros H.
  repeat split; intros Hin; apply H in Hin; unfold line_byte in Hin; tauto.
Qed.

(** The loop of csv_getline over a line of such bytes that ends in a
    newline: whatever the size of the buffer, and however many reads it
    takes, the row is the line and its newline. *)
Lemma getline_loop_plain (fuel : nat) :
  forall p n bS done todo rest,
    Z.of_nat (length (row p)) = maxRow p ->
    n = Z.of_nat (length done) -> n < maxRow p ->
    firstn (length done) (row p) = done ->
    0 <= fpos (f p) ->
    unread (f p) = todo ++ LF :: rest ->
    Forall line_byte (done ++ todo) ->
    quiet (cDelim p) None (done ++ todo) = true ->
    (length todo < fuel)%nat ->
    (forall k, 0 < k -> malloc_ok (db p) k = true) ->
    2 * (Z.of_nat (length done) + Z.of_nat (length todo) + 1) + 300 <= limit_length (db p) ->
    exists q bS' tail,
      getline_loop fuel p n bS false
      = Some (LeftLoop true, q, n + Z.of_nat (length todo) + 1, bS') /\
      line_frame p q /\
      row q = done ++ todo ++ LF :: NUL :: tail /\
      Z.of_nat (length (row q)) = maxRow q /\
      unread (f q) = rest /\
      fpos (f q) = fpos (f p) + Z.of_nat (length todo) + 1.
Proof.
  induction fuel as [|fuel IH];
    intros p n bS done todo rest Hlen Hn Hmax Hdone Hpos Hun Hbytes Hquiet Hfuel Halloc Hlim;
    [lia|].
  cbn [getline_loop].
  (* grow row buffer as needed *)
  match goal with |- context [match ?g with inl _ => _ | inr _ => _ end] =>
    assert (Hg : exists p1 bS1,
               g = inr (p1, bS1) /\ line_frame p p1 /\ f p1 = f p /\
               Z.of_nat (length (row p1)) = maxRow p1 /\ n + 100 <= maxRow p1 /\
               firstn (length done) (row p1) = done /\ db p1 = db p);
    [|destruct Hg as (p1 & bS1 & -> & Hfr & Hf & Hlen1 & Hroom & Hdone1 & Hdb)]
  end.
  { destruct (n + 100 >? maxRow p) eqn:E.
    - rewrite Z.gtb_ltb in E. apply Z.ltb_lt in E.
      replace (maxRow p * 2 + 100 >=? limit_length (db p)) with false
        by (symmetry; rewrite Z.geb_leb; apply Z.leb_gt; lia).
      unfold sqlite3_alloc. rewrite Halloc by lia.
      replace (0 <? maxRow p * 2 + 100) with true by (symmetry; apply Z.ltb_lt; lia).
      cbn [andb negb]. do 2 eexists. split; [reflexivity|].
      autorewrite with csv. cbn [f db maxRow set_zRow set_maxRow].
      rewrite realloc_cells_grow by lia.
      repeat split; try (unfold line_frame; cbn; tauto); try lia.
      + rewrite length_app, repeat_length. lia.
      + rewrite firstn_app. replace (length done - length (row p))%nat with O by lia.
        cbn [firstn]. rewrite app_nil_r. exact Hdone.
    - rewrite Z.gtb_ltb in E. apply Z.ltb_ge in E.
      exists p, bS. repeat split; try apply line_frame_refl; auto; lia. }
  rewrite Hf.
  set (size := maxRow p1 - n).
  set (k := Z.to_nat (size - 1)).
  destruct (line_bytes_not_in _ Hbytes) as (Hnul & Hlf & Hcr).
  assert (Hd1 : cDelim p1 = cDelim p) by (unfold line_frame in Hfr; tauto).
  assert (Htodo : ~ In LF todo) by (intros H; apply Hlf, in_or_app; now right).
  pose proof (take_line_plain k todo rest Htodo) as Htake. rewrite <- Hun in Htake.
  set (tail := skipn (Z.to_nat n + length (take_line k (unread (f p)) ++ [NUL])) (row p1)).
  assert (Hbuf : write_at (row p1) n (take_line k (unread (f p)) ++ [NUL])
                 = done ++ take_line k (unread (f p)) ++ NUL :: tail).
  { unfold write_at. fold tail. rewrite Hn, Nat2Z.id, Hdone1, <- app_assoc. reflexivity. }
  pose proof (take_line_length k (unread (f p))) as [Hk1 Hk2].
  assert (Hne : take_line k (unread (f p)) <> []).
  { rewrite Htake. destruct (k <=? length todo)%nat eqn:Ek.
    - apply Nat.leb_le in Ek. intros H. apply (f_equal (@length ascii)) in H.
      rewrite length_firstn in H. cbn [length] in H. lia.
    - destruct todo; discriminate. }
  rewrite (fgets_eq size (f p) _ ltac:(lia) Hne eq_refl).
  set (chunk := take_line k (unread (f p))) in *.
  autorewrite with csv. rewrite Hbuf.
  cbn [cDelim set_f set_zRow].
  assert (Hclean : ~ In NUL chunk /\ quiet (cDelim p) (last_byte done) chunk = true).
  { rewrite quiet_app_start in Hquiet. apply andb_true_iff in Hquiet as [_ Hquiet].
    rewrite Htake. destruct (k <=? length todo)%nat.
    - split.
      + intros H; apply in_firstn in H. apply Hnul, in_or_app. now right.
      + rewrite <- (firstn_skipn k todo), quiet_app in Hquiet.
        now apply andb_true_iff in Hquiet as [Hquiet _].
    - split.
      + intros H; apply in_app_or in H as [H|[H|[]]]; try discriminate.
        apply Hnul, in_or_app. now right.
      + rewrite quiet_app, Hquiet. cbn [quiet]. now rewrite andb_false_l. }
  destruct Hclean as [Hcn Hcq].
  rewrite Hn, Hd1.
  rewrite scan_quotes_plain; [|assumption|assumption|].
  2:{ rewrite !length_app. cbn [length]. lia. }
  set (n' := Z.of_nat (length done) + Z.of_nat (length chunk)).
  set (buf := done ++ chunk ++ NUL :: tail).
  assert (Hlb : length buf = length (row p1)).
  { unfold buf. rewrite <- Hbuf. apply length_write_at.
    rewrite length_app. cbn [length]. lia. }
  assert (Hchunk : (1 <= length chunk)%nat).
  { destruct chunk; [congruence | cbn [length]; lia]. }
  set (p2 := set_f (set_zRow p1 (Some buf)) _).
  assert (Hfr2 : line_frame p p2).
  { apply (line_frame_trans _ p1); [exact Hfr|].
    unfold line_frame, p2. cbn. rewrite Hf. tauto. }
  destruct (k <=? length todo)%nat eqn:Ek.
  - (* the line goes on past this read *)
    apply Nat.leb_le in Ek.
    assert (Hlast : In (load buf (n' - 1)) (done ++ todo)).
    { unfold buf. rewrite app_assoc, load_app_l.
      - rewrite Htake. rewrite <- (firstn_skipn k todo) at 2.
        rewrite app_assoc. apply in_or_app. left. rewrite <- Htake.
        apply load_in. rewrite length_app. unfold n'. lia.
      - rewrite length_app. unfold n'. lia. }
    rewrite Forall_forall in Hbytes. destruct (Hbytes _ Hlast) as (_ & Hl1 & Hl2).
    rewrite (eqb_false_of_neq _ _ Hl1), (eqb_false_of_neq _ _ Hl2).
    rewrite andb_false_r. cbn [orb andb].
    assert (Hck : length chunk = k) by (rewrite Htake, length_firstn; lia).
    destruct (IH p2 n' bS1 (done ++ chunk) (skipn k todo) rest)
      as (q & bS' & tail' & Hrun & Hfrq & Hrow & Hlenq & Hunq & Hposq).
    + unfold p2. autorewrite with csv. cbn [maxRow set_f set_zRow]. lia.
    + rewrite length_app. unfold n'. lia.
    + unfold p2. cbn [maxRow set_f set_zRow]. unfold n'. lia.
    + unfold p2. autorewrite with csv. unfold buf.
      rewrite app_assoc, firstn_app, firstn_all, Nat.sub_diag. cbn [firstn].
      apply app_nil_r.
    + unfold p2. cbn. lia.
    + unfold p2. cbn [f set_f]. rewrite unread_skip by exact Hpos.
      rewrite Hun, Hck, skipn_app. replace (k - length todo)%nat with O by lia.
      reflexivity.
    + apply Forall_forall. intros c Hc. apply Hbytes.
      rewrite Htake, <- app_assoc, firstn_skipn in Hc. exact Hc.
    + unfold p2. cbn [cDelim set_f set_zRow].
      rewrite Hd1, Htake, <- app_assoc, firstn_skipn. exact Hquiet.
    + rewrite length_skipn. lia.
    + unfold p2. cbn [db set_f set_zRow]. rewrite Hdb. exact Halloc.
    + unfold p2. cbn [db set_f set_zRow]. rewrite Hdb, length_app, length_skipn. lia.
    + exists q, bS', tail'. rewrite length_skipn in *.
      replace (Z.of_nat (length done) + Z.of_nat (length todo) + 1)
        with (n' + Z.of_nat (length todo - k) + 1) by (unfold n'; lia).
      split; [exact Hrun|]. split; [exact (line_frame_trans _ _ _ Hfr2 Hfrq)|].
      split.
      { rewrite Hrow, Htake, <- !app_assoc. f_equal.
        rewrite app_assoc, firstn_skipn. reflexivity. }
      split; [exact Hlenq|]. split; [exact Hunq|].
      rewrite Hposq. unfold p2. cbn. lia.
  - (* the read ends with the newline of the line *)
    apply Nat.leb_gt in Ek.
    assert (Hb : buf = (done ++ todo) ++ LF :: NUL :: tail).
    { unfold buf. rewrite Htake, <- !app_assoc. reflexivity. }
    assert (Hn' : n' - 1 = Z.of_nat (length (done ++ todo))).
    { unfold n'. rewrite Htake, !length_app. cbn [length]. lia. }
    rewrite Hn', Hb, load_app_at. rewrite <- Hn'.
    replace (n' >? 0) with true by (symmetry; rewrite Z.gtb_ltb; apply Z.ltb_lt; lia).
    cbn [Ascii.eqb orb andb negb]. rewrite Ascii.eqb_refl. cbn [orb andb].
    assert (Hcr2 : (n' >? 1) && true && (load ((done ++ todo) ++ LF :: NUL :: tail) (n' - 2) =? CR)%char
                   = false).
    { destruct (n' >? 1) eqn:E1; [|reflexivity]. cbn [andb].
      rewrite Z.gtb_ltb in E1. apply Z.ltb_lt in E1.
      apply eqb_false_of_neq. intros Hc. apply Hcr. rewrite <- Hc.
      rewrite load_app_l by lia. apply load_in. lia. }
    rewrite Hcr2.
    rewrite Hn', aset_app_at.
    replace ((done ++ todo) ++ LF :: NUL :: tail)
      with (((done ++ todo) ++ [LF]) ++ NUL :: tail) by (rewrite <- !app_assoc; reflexivity).
    replace n' with (Z.of_nat (length ((done ++ todo) ++ [LF])))
      by (rewrite last_length; lia).
    rewrite aset_app_at.
    do 3 eexists. split.
    { rewrite last_length, length_app. do 4 f_equal. lia. }
    split; [apply (line_frame_trans _ p1); [exact Hfr|]; unfold line_frame; cbn; rewrite Hf; tauto|].
    autorewrite with csv.
    split; [rewrite <- !app_assoc; reflexivity|].
    unfold p2. cbn [f maxRow set_f set_zRow fpos].
    split.
    { rewrite <- Hlen1, <- Hlb. f_equal. rewrite Hb, <- !app_assoc. reflexivity. }
    split.
    { rewrite (unread_skip (f p) _ Hpos), Hun, Htake, last_length.
      change (S (length todo)) with (1 + length todo)%nat.
      rewrite <- skipn_skipn, skipn_app, skipn_all, Nat.sub_diag. reflexivity. }
    rewrite Htake, last_length. lia.
Qed.

Lemma table_ready_ok (p : CSV) : table_ready p -> table_ok p.
Proof.
  intros (Hpos & Hrow & _). split; [exact Hpos|]. intros H _. now apply Hrow.
Qed.

(** csv_getline over a line of such bytes, where no quote opens a quoted
    column, that ends in a newline gives the line and its newline as the
    row, and leaves the file after it. *)
Lemma csv_getline_plain (p : CSV) (line rest : list ascii) :
  table_ready p ->
  unread (f p) = line ++ LF :: rest ->
  Forall line_byte line ->
  quiet (cDelim p) None line = true ->
  (forall k, 0 < k -> malloc_ok (db p) k = true) ->
  2 * (Z.of_nat (length line) + 1) + 300 <= limit_length (db p) ->
  exists q tail,
    csv_getline p = Some (LineRead, q) /\ line_frame p q /\
    zRow q = Some (line ++ LF :: NUL :: tail) /\
    Z.of_nat (length (row q)) = maxRow q /\
    unread (f q) = rest /\
    fpos (f q) = fpos (f p) + Z.of_nat (length line) + 1.
Proof.
  intros (Hpos & Hrow & _) Hun Hbytes Hquiet Halloc Hlim. unfold csv_getline.
  set (p0 := if maxRow p <? 1 then _ else p).
  assert (H0 : line_frame p p0 /\ f p0 = f p /\ zRow p0 <> None /\
               Z.of_nat (length (row p0)) = maxRow p0 /\ 1 <= maxRow p0).
  { unfold p0. destruct (maxRow p <? 1) eqn:E.
    - unfold sqlite3_alloc. rewrite Halloc by lia. cbn [Z.ltb Z.compare andb].
      unfold line_frame. cbn. repeat split; try lia; discriminate.
    - apply Z.ltb_ge in E. destruct (Hrow E) as [Hz Hl].
      repeat split; try apply line_frame_refl; auto. }
  destruct H0 as (Hfr0 & Hf0 & Hz0 & Hlen0 & Hmax0).
  destruct (zRow p0) as [b0|] eqn:Ez0; [clear Hz0 | congruence].
  destruct (getline_loop_plain (S (length (fdata (f p0)))) p0 0 false [] line rest)
    as (q & bS & tail & -> & Hfr & Hrowq & Hlenq & Hunq & Hposq);
    try assumption; try reflexivity; try lia.
  { rewrite Hf0. exact Hpos. }
  { rewrite Hf0. exact Hun. }
  { replace (cDelim p0) with (cDelim p) by (unfold line_frame in Hfr0; symmetry; tauto).
    exact Hquiet. }
  { apply (f_equal (@length ascii)) in Hun. rewrite Hf0.
    unfold unread in Hun. rewrite length_skipn, length_app in Hun. lia. }
  { destruct Hfr0 as (-> & _). exact Halloc. }
  { destruct Hfr0 as (-> & _). cbn [length]. lia. }
  cbn [app] in Hrowq.
  assert (Hdbq : db q = db p).
  { destruct Hfr as (-> & _). now destruct Hfr0 as (-> & _). }
  assert (Hfrq : line_frame p q) by exact (line_frame_trans _ _ _ Hfr0 Hfr).
  rewrite Hf0 in Hposq.
  assert (Hzq : zRow q = Some (row q)).
  { unfold row. destruct (zRow q) eqn:E; [reflexivity|].
    unfold row in Hrowq. rewrite E in Hrowq. destruct line; discriminate. }
  destruct bS.
  - unfold sqlite3_alloc. rewrite Hdbq, Halloc by lia.
    replace (0 <? 0 + Z.of_nat (length line) + 1 + 1) with true
      by (symmetry; apply Z.ltb_lt; lia).
    cbn [andb]. autorewrite with csv. cbn [zRow set_maxRow set_zRow].
    exists (set_maxRow
              (set_zRow q (Some (realloc_cells (row q) (0 + Z.of_nat (length line) + 1 + 1)
                                               (fresh_byte (db p)))))
              (0 + Z.of_nat (length line) + 1 + 1)), [].
    assert (Hcut : realloc_cells (row q) (0 + Z.of_nat (length line) + 1 + 1)
                                 (fresh_byte (db p))
                   = line ++ [LF; NUL]).
    { unfold realloc_cells. rewrite Hrowq.
      replace (line ++ LF :: NUL :: tail) with ((line ++ [LF; NUL]) ++ tail)
        by (rewrite <- app_assoc; reflexivity).
      replace (Z.to_nat (0 + Z.of_nat (length line) + 1 + 1))
        with (length (line ++ [LF; NUL]) + 0)%nat
        by (rewrite length_app; cbn [length]; lia).
      rewrite firstn_app_2. cbn [firstn]. rewrite app_nil_r.
      replace (_ - _)%nat with O by (rewrite !length_app; cbn [length]; lia).
      cbn [repeat]. now rewrite app_nil_r. }
    split; [reflexivity|].
    split; [apply (line_frame_trans _ q); [exact Hfrq|]; unfold line_frame; cbn; tauto|].
    autorewrite with csv. cbn [zRow f maxRow set_maxRow set_zRow]. rewrite Hcut.
    repeat split; auto; try lia.
    rewrite length_app. cbn [length]. lia.
  - rewrite Hzq. exists q, tail. rewrite Hrowq in *.
    split; [reflexivity|]. split; [exact Hfrq|]. repeat split; auto; lia.
Qed.

Section ArrayReads.
Context {A : Type}.
Implicit Types (a b : list A) (i j : Z).

Lemma aget_aset_same a i (v d : A) :
  0 <= i < Z.of_nat (length a) -> aget (aset a i v) i d = v.
Proof.
  intros Hi. unfold aget, aset.
  replace ((0 <=? i) && (i <? Z.of_nat (length a))) with true
    by (symmetry; apply andb_true_iff; split; [apply Z.leb_le | apply Z.ltb_lt]; lia).
  replace (Z.to_nat i) with (length (firstn (Z.to_nat i) a)) at 1
    by (rewrite length_firstn; lia).
  apply nth_middle.
Qed.

Lemma aget_aset_other a i j (v d : A) :
  i <> j -> 0 <= i -> 0 <= j -> aget (aset a i v) j d = aget a j d.
Proof.
  intros Hij Hi Hj. unfold aget, aset.
  destruct ((0 <=? i) && (i <? Z.of_nat (length a))) eqn:E; [|reflexivity].
  apply andb_true_iff in E as [_ E]. apply Z.ltb_lt in E.
  assert (Hl : length (firstn (Z.to_nat i) a) = Z.to_nat i)
    by (rewrite length_firstn; lia).
  destruct (Z_lt_le_dec j i) as [Hlt|Hge].
  - rewrite app_nth1 by lia. rewrite nth_firstn.
    replace (Z.to_nat j <? Z.to_nat i)%nat with true
      by (symmetry; apply Nat.ltb_lt; lia).
    reflexivity.
  - rewrite app_nth2 by lia. rewrite Hl.
    replace (Z.to_nat j - Z.to_nat i)%nat with (S (Z.to_nat j - Z.to_nat i - 1)) by lia.
    cbn [nth]. rewrite nth_skipn. f_equal. lia.
Qed.

Lemma aget_app_l a b j (d : A) :
  0 <= j < Z.of_nat (length a) -> aget (a ++ b) j d = aget a j d.
Proof. intros Hj. unfold aget. apply app_nth1. lia. Qed.

End ArrayReads.

(** ** The tokenizer over a row of unquoted fields *)

Lemma join_cons (d : ascii) (x y : list ascii) (rest : list (list ascii)) :
  join d (x :: y :: rest) = x ++ d :: join d (y :: rest).
Proof. reflexivity. Qed.

Lemma join_length (d : ascii) (fields : list (list ascii)) :
  (length fields <= length (join d fields) + 1)%nat.
Proof.
  induction fields as [|x [|y rest] IH]; cbn [length]; try lia.
  rewrite join_cons, length_app. cbn [length] in *. lia.
Qed.

Lemma zDelims_eq (p : CSV) : cDelim p <> NUL -> zDelims p = [cDelim p; LF].
Proof.
  intros H. unfold zDelims. cbn [cstr]. now rewrite (eqb_false_of_neq _ _ H).
Qed.

Lemma span_until_plain (t : ascii -> bool) (fld more : list ascii) (sep : ascii) :
  (forall c, In c fld -> c <> NUL /\ t c = false) -> sep <> NUL -> t sep = true ->
  span_until t (fld ++ sep :: more) = Some (length fld).
Proof.
  intros Hfld Hsep Ht. induction fld as [|c fld IH]; cbn [app span_until length].
  - now rewrite (eqb_false_of_neq _ _ Hsep), Ht.
  - destruct (Hfld c (or_introl eq_refl)) as [Hc Htc].
    rewrite (eqb_false_of_neq _ _ Hc), Htc, IH; [reflexivity|].
    intros c' Hc'. apply Hfld. now right.
Qed.

Lemma strpbrk_field (d : ascii) (pre fld more : list ascii) (sep : ascii) :
  Forall (plain d) fld -> d <> NUL -> sep = d \/ sep = LF ->
  strpbrk (pre ++ fld ++ sep :: more) (Z.of_nat (length pre)) [d; LF]
  = Some (Z.of_nat (length pre) + Z.of_nat (length fld)).
Proof.
  intros Hfld Hd Hsep. unfold strpbrk.
  rewrite Nat2Z.id, skipn_app, skipn_all, Nat.sub_diag. cbn [skipn app].
  rewrite span_until_plain; [reflexivity| | |].
  - rewrite Forall_forall in Hfld. intros c Hc.
    destruct (Hfld c Hc) as (H1 & H2 & _ & H5). split; [exact H1|].
    cbn [existsb]. now rewrite (eqb_false_of_neq _ _ H5), (eqb_false_of_neq _ _ H2).
  - destruct Hsep as [-> | ->]; [exact Hd | discriminate].
  - cbn [existsb]. destruct Hsep as [-> | ->].
    + now rewrite Ascii.eqb_refl.
    + rewrite Ascii.eqb_refl. apply orb_true_r.
Qed.

(** A field and what follows it start with a byte that is neither a quote
    nor a NUL. *)
Lemma field_head (d : ascii) (fld more : list ascii) (sep : ascii) :
  unquoted d fld -> sep <> DQUOTE -> sep <> NUL ->
  exists c rest, fld ++ sep :: more = c :: rest /\ c <> DQUOTE /\ c <> NUL.
Proof.
  intros [Hfld Hhd] H1 H2. destruct fld as [|c fld]; cbn [app].
  - eauto.
  - apply Forall_inv in Hfld. unfold plain in Hfld. exists c. eexists.
    split; [reflexivity|]. split; [now apply (Hhd c fld) | tauto].
Qed.

Lemma delimiter_ok_neq (d : ascii) :
  delimiter_ok d = true -> d <> NUL /\ d <> LF /\ d <> CR /\ d <> DQUOTE.
Proof.
  unfold delimiter_ok. rewrite !andb_true_iff, !negb_true_iff, !Ascii.eqb_neq. tauto.
Qed.

(** A row of unquoted fields starts with a byte that is neither a quote
    nor a NUL. *)
Lemma row_head (d : ascii) (fld : list ascii) (flds : list (list ascii)) (tail : list ascii) :
  unquoted d fld -> delimiter_ok d = true ->
  exists c rest,
    join d (fld :: flds) ++ LF :: NUL :: tail = c :: rest /\ c <> DQUOTE /\ c <> NUL.
Proof.
  intros Hfld Hd. destruct (delimiter_ok_neq _ Hd) as (Hd0 & _ & _ & Hd3).
  destruct flds as [|f2 fl].
  - cbn [join]. apply (field_head d); [exact Hfld | discriminate | discriminate].
  - rewrite join_cons, <- app_assoc. cbn [app]. now apply (field_head d).
Qed.

(** The parsing loop over unquoted fields joined by the delimiter and
    ended by the newline: one column for each field. *)
Lemma parse_cols_plain (fuel : nat) :
  forall p s nC pre fld flds tail,
    row p = pre ++ join (cDelim p) (fld :: flds) ++ LF :: NUL :: tail ->
    s = Z.of_nat (length pre) ->
    Z.of_nat (length (cols p)) = maxCol p ->
    Z.of_nat (length (escs p)) = maxCol p ->
    0 <= nC < maxCol p ->
    Forall (unquoted (cDelim p)) (fld :: flds) ->
    delimiter_ok (cDelim p) = true ->
    (length flds < fuel)%nat ->
    (forall k, 0 < k -> malloc_ok (db p) k = true) ->
    nC + Z.of_nat (length flds) + 1 <= limit_column (db p) ->
    exists q,
      parse_cols fuel p s nC = Some (Parsed, SQLITE_OK, q) /\
      nCol q = nC + 1 + Z.of_nat (length flds) /\
      eof q = eof p /\
      row q = pre ++ cut (fld :: flds) ++ NUL :: tail /\
      (forall j, 0 <= j < nC ->
                 aget (cols q) j None = aget (cols p) j None /\
                 aget (escs q) j 0 = aget (escs p) j 0) /\
      (forall j, (j <= length flds)%nat ->
                 column_is q (nC + Z.of_nat j) (nth j (fld :: flds) [])).
Proof.
  induction fuel as [|fuel IH];
    intros p s nC pre fld flds tail Hrow Hs Hlc Hle HnC Hplain Hdelim Hfuel Halloc Hlim;
    [lia|].
  cbn [parse_cols].
  destruct (delimiter_ok_neq _ Hdelim) as (Hd0 & Hd1 & Hd2 & Hd3).
  assert (Hunq : unquoted (cDelim p) fld) by now apply Forall_inv in Hplain.
  assert (Hfld : Forall (plain (cDelim p)) fld) by exact (proj1 Hunq).
  assert (Hshape : exists sep more,
             join (cDelim p) (fld :: flds) ++ LF :: NUL :: tail = fld ++ sep :: more /\
             ((flds = [] /\ sep = LF /\ more = NUL :: tail) \/
              (exists f2 fl, flds = f2 :: fl /\ sep = cDelim p /\
                             more = join (cDelim p) (f2 :: fl) ++ LF :: NUL :: tail))).
  { destruct flds as [|f2 fl].
    - exists LF, (NUL :: tail). split; [reflexivity|]. now left.
    - exists (cDelim p), (join (cDelim p) (f2 :: fl) ++ LF :: NUL :: tail).
      split; [rewrite join_cons, <- app_assoc; reflexivity|]. right. eauto. }
  destruct Hshape as (sep & more & Hjoin & Hcase).
  rewrite Hjoin in Hrow.
  assert (Hsep : sep = cDelim p \/ sep = LF).
  { destruct Hcase as [(_ & -> & _)|(_ & _ & _ & -> & _)]; auto. }
  assert (Hsep' : sep <> DQUOTE /\ sep <> NUL).
  { destruct Hsep as [-> | ->]; split; auto; discriminate. }
  destruct (field_head _ fld more sep Hunq (proj1 Hsep') (proj2 Hsep'))
    as (c0 & rest0 & Hhead & Hc0 & _).
  assert (Hload : load (row p) s = c0).
  { rewrite Hrow, Hhead, Hs. apply load_app_at. }
  rewrite Hload, (eqb_false_of_neq _ _ Hc0).
  cbv beta iota zeta.
  autorewrite with csv.
  rewrite zDelims_eq by exact Hd0.
  cbn [cDelim set_aEscapedQuotes set_aCols].
  assert (Hfind : strpbrk (row p) s [cDelim p; LF] = Some (s + Z.of_nat (length fld))).
  { rewrite Hrow, Hs. now apply strpbrk_field. }
  rewrite Hfind.
  assert (Hrow2 : row p = (pre ++ fld) ++ sep :: more) by (rewrite Hrow, <- app_assoc; reflexivity).
  assert (Hs2 : s + Z.of_nat (length fld) = Z.of_nat (length (pre ++ fld)))
    by (rewrite length_app; lia).
  assert (Hsepload : load (row p) (s + Z.of_nat (length fld)) = sep).
  { rewrite Hs2, Hrow2. apply load_app_at. }
  assert (Hnulset : aset (row p) (s + Z.of_nat (length fld)) NUL = (pre ++ fld) ++ NUL :: more).
  { rewrite Hs2, Hrow2. apply aset_app_at. }
  rewrite Hsepload, Hnulset.
  set (p2 := set_zRow _ (Some ((pre ++ fld) ++ NUL :: more))).
  assert (Hcols2 : cols p2 = aset (cols p) nC (Some s)) by reflexivity.
  assert (Hescs2 : escs p2 = aset (escs p) nC 0) by reflexivity.
  assert (Hrowp2 : row p2 = (pre ++ fld) ++ NUL :: more) by reflexivity.
  assert (Hlow2 : forall j, 0 <= j < nC ->
                            aget (cols p2) j None = aget (cols p) j None /\
                            aget (escs p2) j 0 = aget (escs p) j 0).
  { intros j Hj. rewrite Hcols2, Hescs2. split; apply aget_aset_other; lia. }
  assert (Hcol2 : aget (cols p2) nC None = Some s /\ aget (escs p2) nC 0 = 0).
  { rewrite Hcols2, Hescs2. split; apply aget_aset_same; lia. }
  destruct Hcase as [(-> & -> & ->)|(f2 & fl & -> & -> & ->)].
  - (* the newline: the last field of the row *)
    rewrite Ascii.eqb_refl.
    eexists. split; [reflexivity|]. cbn [length nCol set_nCol eof].
    autorewrite with csv.
    split; [lia|]. split; [reflexivity|].
    split; [rewrite Hrowp2; unfold cut; cbn [map concat]; rewrite <- !app_assoc; reflexivity|].
    split; [exact Hlow2|].
    intros j Hj. replace j with O by lia. cbn [nth]. rewrite Z.add_0_r.
    exists s, (NUL :: tail). autorewrite with csv.
    destruct Hcol2 as [-> ->]. repeat split; try lia.
    rewrite Hrowp2, Hs, Nat2Z.id, <- app_assoc, skipn_app, skipn_all, Nat.sub_diag.
    reflexivity.
  - (* the delimiter: more fields follow *)
    rewrite (eqb_false_of_neq _ _ Hd1).
    assert (Hrest : Forall (unquoted (cDelim p)) (f2 :: fl))
      by now apply Forall_inv_tail in Hplain.
    cbn [length] in Hlim, Hfuel.
    match goal with |- context [match ?g with inl _ => _ | inr _ => _ end] =>
      assert (Hg : exists p3,
                 g = inr p3 /\ row p3 = row p2 /\ eof p3 = eof p /\ db p3 = db p /\
                 cDelim p3 = cDelim p /\
                 Z.of_nat (length (cols p3)) = maxCol p3 /\
                 Z.of_nat (length (escs p3)) = maxCol p3 /\
                 nC + 1 < maxCol p3 /\
                 (forall j, 0 <= j <= nC ->
                            aget (cols p3) j None = aget (cols p2) j None /\
                            aget (escs p3) j 0 = aget (escs p2) j 0));
      [|destruct Hg as (p3 & -> & Hrow3 & He3 & Hdb3 & Hd3' & Hlc3 & Hle3 & HnC3 & Hlow3)]
    end.
    { change (maxCol p2) with (maxCol p). change (db p2) with (db p).
      destruct (nC + 1 >=? maxCol p) eqn:E; rewrite Z.geb_leb in E.
      - apply Z.leb_le in E.
        replace (nC + 1 >=? limit_column (db p)) with false
          by (symmetry; rewrite Z.geb_leb; apply Z.leb_gt; lia).
        unfold sqlite3_alloc. cbn [db set_aCols set_maxCol].
        change (db p2) with (db p). rewrite !Halloc by (unfold sizeof_ptr, sizeof_int; lia).
        replace (0 <? sizeof_ptr * (nC + 1 + 5)) with true
          by (symmetry; apply Z.ltb_lt; unfold sizeof_ptr; lia).
        replace (0 <? sizeof_int * (nC + 1 + 5)) with true
          by (symmetry; apply Z.ltb_lt; unfold sizeof_int; lia).
        cbn [andb negb]. eexists. split; [reflexivity|].
        autorewrite with csv. cbn [eof db cDelim maxCol set_aEscapedQuotes set_aCols set_maxCol].
        rewrite !length_realloc_cells.
        assert (Hl2 : Z.of_nat (length (cols p2)) = maxCol p /\
                      Z.of_nat (length (escs p2)) = maxCol p).
        { rewrite Hcols2, Hescs2, !length_aset. tauto. }
        destruct Hl2 as [Hl2 Hl2'].
        repeat split; try reflexivity; try lia;
          rewrite realloc_cells_grow by lia; apply aget_app_l; lia.
      - apply Z.leb_gt in E. exists p2.
        rewrite Hcols2, Hescs2, !length_aset.
        repeat split; try reflexivity; try assumption; lia. }
    destruct (row_head (cDelim p) f2 fl tail (Forall_inv Hrest) Hdelim)
      as (c1 & rest1 & Hhead1 & _ & Hc1).
    assert (Hrow3' : row p3 = (pre ++ fld ++ [NUL])
                              ++ join (cDelim p) (f2 :: fl) ++ LF :: NUL :: tail).
    { rewrite Hrow3, Hrowp2, <- !app_assoc. reflexivity. }
    assert (Hs3 : s + Z.of_nat (length fld) + 1 = Z.of_nat (length (pre ++ fld ++ [NUL]))).
    { rewrite !length_app. cbn [length]. lia. }
    assert (Hload3 : load (row p3) (s + Z.of_nat (length fld) + 1) = c1).
    { rewrite Hrow3', Hhead1, Hs3. apply load_app_at. }
    rewrite Hload3, (eqb_false_of_neq _ _ Hc1).
    destruct (IH p3 (s + Z.of_nat (length fld) + 1) (nC + 1) (pre ++ fld ++ [NUL]) f2 fl tail)
      as (q & Hrun & HnCq & Heq & Hrowq & Hlowq & Hcolq);
      rewrite ?Hd3', ?Hdb3; try assumption; try lia.
    exists q. split; [exact Hrun|]. cbn [length].
    split; [lia|]. split; [congruence|].
    assert (Hrowq' : row q = pre ++ fld ++ NUL :: cut (f2 :: fl) ++ NUL :: tail).
    { rewrite Hrowq, <- !app_assoc. reflexivity. }
    split; [rewrite Hrowq'; unfold cut; cbn [map concat]; rewrite <- !app_assoc; reflexivity|].
    split.
    + intros j Hj. destruct (Hlowq j ltac:(lia)) as [-> ->].
      destruct (Hlow3 j ltac:(lia)) as [-> ->]. now apply Hlow2.
    + intros [|j] Hj.
      * cbn [nth]. rewrite Z.add_0_r.
        exists s, (cut (f2 :: fl) ++ NUL :: tail).
        destruct (Hlowq nC ltac:(lia)) as [-> ->].
        destruct (Hlow3 nC ltac:(lia)) as [-> ->].
        destruct Hcol2 as [-> ->]. repeat split; try lia.
        rewrite Hrowq', Hs, Nat2Z.id, skipn_app, skipn_all, Nat.sub_diag. reflexivity.
      * cbn [nth]. replace (nC + Z.of_nat (S j)) with (nC + 1 + Z.of_nat j) by lia.
        apply Hcolq. lia.
Qed.

Lemma plain_line_byte (d c : ascii) : plain d c -> line_byte c.
Proof. unfold plain, line_byte. tauto. Qed.

Lemma join_line_bytes (d : ascii) (fields : list (list ascii)) :
  Forall (unquoted d) fields -> delimiter_ok d = true ->
  Forall line_byte (join d fields).
Proof.
  intros Hf Hd. apply delimiter_ok_neq in Hd.
  induction fields as [|x [|y rest] IH].
  - constructor.
  - cbn [join]. apply Forall_inv in Hf as [Hf _].
    eapply Forall_impl; [|exact Hf]. apply plain_line_byte.
  - rewrite join_cons. apply Forall_app. split.
    + apply Forall_inv in Hf as [Hf _].
      eapply Forall_impl; [|exact Hf]. apply plain_line_byte.
    + constructor; [unfold line_byte; tauto|]. apply IH. now apply Forall_inv_tail in Hf.
Qed.

(** In a row of unquoted fields no quote opens a quoted column. *)
Lemma join_quiet (d : ascii) (fields : list (list ascii)) :
  Forall (unquoted d) fields -> d <> DQUOTE ->
  forall prev, quiet d prev (join d fields) = true.
Proof.
  intros Hf Hd.
  induction fields as [|x [|y rest] IH]; intros prev.
  - reflexivity.
  - cbn [join]. apply quiet_unquoted. now apply Forall_inv in Hf.
  - rewrite join_cons, quiet_app, quiet_unquoted by now apply Forall_inv in Hf.
    cbn [quiet andb]. rewrite (eqb_false_of_neq _ _ Hd). cbn [andb negb].
    apply IH. now apply Forall_inv_tail in Hf.
Qed.

(** A column that is unquoted text is handed to the host as that text. *)
Lemma csvColumn_column_is (p : CSV) (i : Z) (txt : list ascii) :
  0 <= i < nCol p -> ~ In NUL txt -> column_is p i txt ->
  csvColumn p i = (SQLITE_OK, result_text txt SQLITE_TRANSIENT, []).
Proof.
  intros Hi Hnul (off & post & Hc & He & Hoff & Hskip). unfold csvColumn.
  replace ((i <? 0) || (i >=? nCol p)) with false.
  - rewrite Hc, He. cbn [Z.eqb negb]. unfold string_at.
    now rewrite Hskip, cstr_app_nul.
  - symmetry. apply orb_false_iff.
    split; [apply Z.ltb_ge | rewrite Z.geb_leb; apply Z.leb_gt]; lia.
Qed.

(** C1. The file holds, at the position of the table, a row of unquoted
    fields joined by the table's delimiter and ended by a newline; the
    fields hold no NUL, newline, carriage return or delimiter and do not
    start with a quote; the row and its fields are within the host's limits
    and no allocation fails.  Then one call of csvNext returns SQLITE_OK and
    leaves the cursor on a row with as many columns as there are fields,
    and csvColumn gives, for each index, the text of that field as it is in
    the file. *)
Theorem csvNext_unquoted_row (p : CSV) (c : CSVCursor)
        (fields : list (list ascii)) (rest : list ascii) :
  table_ready p -> eof p = 0 ->
  delimiter_ok (cDelim p) = true ->
  fields <> [] ->
  forallb (unquotedb (cDelim p)) fields = true ->
  unread (f p) = join (cDelim p) fields ++ LF :: rest ->
  never_fails (db p) ->
  2 * (Z.of_nat (length (join (cDelim p) fields)) + 1) + 300 <= limit_length (db p) ->
  Z.of_nat (length fields) <= limit_column (db p) ->
  exists r,
    csvNext p c = Some r /\ rc r = SQLITE_OK /\ csvEof (vtab r) (cursor r) = 0 /\
    nCol (vtab r) = Z.of_nat (length fields) /\
    forall i, (i < length fields)%nat ->
              csvColumn (vtab r) (Z.of_nat i)
              = (SQLITE_OK, result_text (nth i fields []) SQLITE_TRANSIENT, []).
Proof.
  intros Hready He Hdelim Hne Hb Hun Halloc Hlim Hlimc. unfold never_fails in Halloc.
  assert (Hplain : Forall (unquoted (cDelim p)) fields).
  { rewrite forallb_forall in Hb. apply Forall_forall. intros x Hx.
    apply unquotedb_unquoted. now apply Hb. }
  assert (Hquiet : quiet (cDelim p) None (join (cDelim p) fields) = true).
  { apply join_quiet; [exact Hplain|]. apply delimiter_ok_neq in Hdelim. tauto. }
  destruct (csv_getline_plain p _ rest Hready Hun
              (join_line_bytes _ _ Hplain Hdelim) Hquiet Halloc Hlim)
    as (q & tail & Hget & Hfr & Hz & Hlenq & _ & _).
  unfold csvNext. rewrite He, Hget. cbn [Z.eqb negb].
  destruct Hfr as (Hdb & _ & _ & _ & Heq & Hd & _ & Hmc & Hac & Hae).
  assert (Hrowq : row q = join (cDelim p) fields ++ LF :: NUL :: tail)
    by (unfold row; now rewrite Hz).
  set (q1 := if maxCol q <? 1 then _ else q).
  assert (H1 : row q1 = row q /\ eof q1 = eof q /\ db q1 = db q /\ cDelim q1 = cDelim q /\
               aCols q1 = Some (cols q1) /\ aEscapedQuotes q1 = Some (escs q1) /\
               Z.of_nat (length (cols q1)) = maxCol q1 /\
               Z.of_nat (length (escs q1)) = maxCol q1 /\ 1 <= maxCol q1).
  { unfold q1. destruct (maxCol q <? 1) eqn:E.
    - assert (Hguess : 1 <= strlen (row q) 0 / 5 + 1).
      { unfold strlen. pose proof (Z.div_pos (Z.of_nat (length (string_at (row q) 0))) 5).
        lia. }
      cbv zeta. unfold sqlite3_alloc.
      rewrite Hdb, !Halloc by (unfold sizeof_ptr, sizeof_int; lia).
      replace (0 <? sizeof_ptr * (strlen (row q) 0 / 5 + 1)) with true
        by (symmetry; apply Z.ltb_lt; unfold sizeof_ptr; lia).
      replace (0 <? sizeof_int * (strlen (row q) 0 / 5 + 1)) with true
        by (symmetry; apply Z.ltb_lt; unfold sizeof_int; lia).
      cbn [andb]. autorewrite with csv.
      cbn [eof db cDelim maxCol aCols aEscapedQuotes set_maxCol set_aEscapedQuotes set_aCols].
      rewrite !repeat_length. repeat split; try lia; exact Hdb.
    - apply Z.ltb_ge in E. destruct Hready as (_ & _ & Hcols).
      rewrite Hmc in E. destruct (Hcols E) as (Ha & Hb' & Hl1 & Hl2).
      unfold cols, escs in *. rewrite Hac, Hae, Hmc.
      destruct (aCols p); [|congruence]. destruct (aEscapedQuotes p); [|congruence].
      repeat split; auto. }
  destruct H1 as (Hrow1 & He1 & Hdb1 & Hd1 & Ha1 & Hae1 & Hl1 & Hl2 & Hm1).
  rewrite Ha1, Hae1.
  destruct fields as [|fld flds]; [congruence|].
  destruct (parse_cols_plain (S (length (row q1))) q1 0 0 [] fld flds tail)
    as (q2 & -> & HnC & He2 & _ & _ & Hcols);
    rewrite ?Hd1, ?Hdb1, ?Hd, ?Hdb; try assumption; try reflexivity; try lia.
  { rewrite Hrow1. exact Hrowq. }
  { rewrite Hrow1, Hrowq, length_app.
    pose proof (join_length (cDelim p) (fld :: flds)). cbn [length] in *. lia. }
  { cbn [length] in Hlimc. lia. }
  eexists. split; [reflexivity|]. cbn [rc vtab cursor]. unfold csvEof.
  split; [reflexivity|]. split; [congruence|].
  split; [rewrite HnC; cbn [length]; lia|].
  intros i Hi. apply csvColumn_column_is.
  - rewrite HnC. cbn [length] in *. lia.
  - assert (Hin : In (nth i (fld :: flds) []) (fld :: flds)) by (apply nth_In; exact Hi).
    rewrite Forall_forall in Hplain. destruct (Hplain _ Hin) as [Hbytes _].
    intros Hnul. rewrite Forall_forall in Hbytes. apply Hbytes in Hnul.
    unfold plain in Hnul. tauto.
  - apply (Hcols i). cbn [length] in Hi. lia.
Qed.

Lemma csvNext_unquoted_row_witness :
  exists r,
    csvNext (sample_table long_row_file) (mkCursor 0) = Some r /\
    rc r = SQLITE_OK /\ csvEof (vtab r) (cursor r) = 0 /\
    nCol (vtab r) = 3 /\
    forall i, (i < 3)%nat ->
              csvColumn (vtab r) (Z.of_nat i)
              = (SQLITE_OK, result_text (nth i long_fields []) SQLITE_TRANSIENT, []).
Proof.
  assert (H1 : table_ready (sample_table long_row_file)) by ready_by_compute.
  assert (H2 : eof (sample_table long_row_file) = 0) by by_compute.
  assert (H3 : delimiter_ok (cDelim (sample_table long_row_file)) = true) by by_compute.
  assert (H4 : long_fields <> []) by discriminate.
  assert (H5 : forallb (unquotedb (cDelim (sample_table long_row_file))) long_fields
               = true) by by_compute.
  assert (H6 : unread (f (sample_table long_row_file))
               = join (cDelim (sample_table long_row_file)) long_fields
                      ++ LF :: bytes "t" ++ [LF]) by by_compute.
  assert (H7 : never_fails (db (sample_table long_row_file)))
    by (intros k _; vm_compute; reflexivity).
  assert (H8 : 2 * (Z.of_nat (length (join (cDelim (sample_table long_row_file))
                                           long_fields)) + 1) + 300
               <= limit_length (db (sample_table long_row_file))) by by_compute.
  assert (H9 : Z.of_nat (length long_fields)
               <= limit_column (db (sample_table long_row_file))) by by_compute.
  exact (csvNext_unquoted_row _ (mkCursor 0) long_fields _ H1 H2 H3 H4 H5 H6 H7 H8 H9).
Defined.

(** ** The tokenizer over a quoted field *)

Lemma split_at_quote (content : list ascii) :
  ~ In DQUOTE content \/
  exists a b, content = a ++ DQUOTE :: b /\ ~ In DQUOTE a.
Proof.
  induction content as [|c l IH].
  - left. intros [].
  - destruct (Ascii.eqb_spec c DQUOTE) as [->|Hc].
    + right. exists [], l. split; [reflexivity | intros []].
    + destruct IH as [IH|(a & b & -> & Ha)].
      * left. intros [H|H]; [now apply Hc | now apply IH].
      * right. exists (c :: a), b. split; [reflexivity|].
        intros [H|H]; [now apply Hc | now apply Ha].
Qed.

Lemma escape_quotes_app (x y : list ascii) :
  escape_quotes (x ++ y) = escape_quotes x ++ escape_quotes y.
Proof. unfold escape_quotes. apply flat_map_app. Qed.

Lemma escape_quotes_plain (a : list ascii) :
  ~ In DQUOTE a -> escape_quotes a = a /\ count_quotes a = 0.
Proof.
  unfold count_quotes. induction a as [|c a IH]; intros H; [split; reflexivity|].
  cbn [escape_quotes flat_map filter]. fold (escape_quotes a).
  rewrite (eqb_false_of_neq c DQUOTE) by (intros ->; apply H; now left).
  destruct IH as [-> IH]; [intros H'; apply H; now right|].
  split; [reflexivity | exact IH].
Qed.

Lemma count_quotes_app (x y : list ascii) :
  count_quotes (x ++ y) = count_quotes x + count_quotes y.
Proof. unfold count_quotes. rewrite filter_app, length_app. lia. Qed.

Lemma strchr_quote (pre a more : list ascii) :
  ~ In NUL a -> ~ In DQUOTE a ->
  strchr (pre ++ a ++ DQUOTE :: more) (Z.of_nat (length pre)) DQUOTE
  = Some (Z.of_nat (length pre) + Z.of_nat (length a)).
Proof.
  intros Hn Hq. unfold strchr.
  rewrite Nat2Z.id, skipn_app, skipn_all, Nat.sub_diag. cbn [skipn app].
  rewrite span_until_plain; [reflexivity| |discriminate|apply Ascii.eqb_refl].
  intros c Hc. split; [intros ->; now apply Hn|].
  apply eqb_false_of_neq. intros ->. now apply Hq.
Qed.

(** The search for the closing quote over a field whose quotes are all
    doubled: it stops at the quote that closes the field and has counted
    the doubled quotes. *)
Lemma closing_quote_escaped (nCol : Z) (c : ascii) (post : list ascii) (fuel : nat) :
  forall content pre esc,
    ~ In NUL content -> c <> DQUOTE ->
    0 <= nCol < Z.of_nat (length esc) ->
    (length content < fuel)%nat ->
    exists esc',
      closing_quote fuel (pre ++ escape_quotes content ++ DQUOTE :: c :: post) esc nCol
                    (Z.of_nat (length pre))
      = Some (Some (Z.of_nat (length pre) + Z.of_nat (length (escape_quotes content))), esc') /\
      length esc' = length esc /\
      aget esc' nCol 0 = aget esc nCol 0 + count_quotes content.
Proof.
  induction fuel as [|fuel IH]; intros content pre esc Hnul Hc HnCol Hfuel; [lia|].
  cbn [closing_quote].
  destruct (split_at_quote content) as [Hq|(a & b & -> & Ha)].
  - destruct (escape_quotes_plain _ Hq) as [-> ->].
    rewrite strchr_quote by assumption.
    replace (pre ++ content ++ DQUOTE :: c :: post)
      with ((pre ++ content ++ [DQUOTE]) ++ c :: post)
      by (rewrite <- !app_assoc; reflexivity).
    replace (Z.of_nat (length pre) + Z.of_nat (length content) + 1)
      with (Z.of_nat (length (pre ++ content ++ [DQUOTE])))
      by (rewrite !length_app; cbn [length]; lia).
    rewrite load_app_at, (eqb_false_of_neq _ _ Hc).
    exists esc. repeat split. lia.
  - assert (Hna : ~ In NUL a) by (intros H; apply Hnul, in_or_app; now left).
    assert (Hnb : ~ In NUL b).
    { intros H. apply Hnul, in_or_app. right. now right. }
    rewrite escape_quotes_app. cbn [escape_quotes flat_map]. fold (escape_quotes b).
    rewrite Ascii.eqb_refl. destruct (escape_quotes_plain _ Ha) as [Hea Hca].
    rewrite Hea. rewrite <- !app_assoc. cbn [app].
    rewrite strchr_quote by assumption.
    set (buf := pre ++ a ++ DQUOTE :: DQUOTE :: escape_quotes b ++ DQUOTE :: c :: post).
    assert (Hbuf : buf = (pre ++ a ++ [DQUOTE]) ++ DQUOTE
                           :: escape_quotes b ++ DQUOTE :: c :: post).
    { unfold buf. rewrite <- !app_assoc. reflexivity. }
    assert (Hidx : Z.of_nat (length pre) + Z.of_nat (length a) + 1
                   = Z.of_nat (length (pre ++ a ++ [DQUOTE]))).
    { rewrite !length_app. cbn [length]. lia. }
    rewrite Hidx, Hbuf, load_app_at, Ascii.eqb_refl.
    replace ((pre ++ a ++ [DQUOTE]) ++ DQUOTE :: escape_quotes b ++ DQUOTE :: c :: post)
      with ((pre ++ a ++ [DQUOTE; DQUOTE]) ++ escape_quotes b ++ DQUOTE :: c :: post)
      by (rewrite <- !app_assoc; reflexivity).
    replace (Z.of_nat (length pre) + Z.of_nat (length a) + 2)
      with (Z.of_nat (length (pre ++ a ++ [DQUOTE; DQUOTE])))
      by (rewrite !length_app; cbn [length]; lia).
    destruct (IH b (pre ++ a ++ [DQUOTE; DQUOTE]) (aset esc nCol (aget esc nCol 0 + 1)))
      as (esc' & -> & Hl & Hcount); try assumption.
    + rewrite length_aset. exact HnCol.
    + rewrite length_app in Hfuel. cbn [length] in Hfuel. lia.
    + exists esc'. rewrite Hl, length_aset, Hcount, aget_aset_same by exact HnCol.
      rewrite count_quotes_app, Hca.
      change (DQUOTE :: b) with ([DQUOTE] ++ b). rewrite count_quotes_app.
      change (count_quotes [DQUOTE]) with 1.
      repeat split; try lia. do 3 f_equal.
      rewrite !length_app. cbn [length]. rewrite ?length_app. lia.
Qed.

(** What csvNext stores for a quoted field is what csvColumn expects of a
    quoted column: once the closing quote is overwritten with a NUL the
    stored slice is the content with its quotes doubled, and the counter,
    started at zero, is the number of pairs. *)
Lemma quoted_field_stored (nCol : Z) (c : ascii) (pre post content : list ascii)
      (esc : list Z) :
  ~ In NUL content -> c <> DQUOTE -> 0 <= nCol < Z.of_nat (length esc) ->
  let buf := pre ++ escape_quotes content ++ DQUOTE :: c :: post in
  exists s esc',
    closing_quote (S (length buf)) buf (aset esc nCol 0) nCol (Z.of_nat (length pre))
    = Some (Some s, esc') /\
    aget esc' nCol 0 = count_quotes content /\
    string_at (aset buf s NUL) (Z.of_nat (length pre)) = escape_quotes content.
Proof.
  intros Hnul Hc HnCol buf.
  assert (Hlen : (length content <= length (escape_quotes content))%nat).
  { pose proof (escape_quotes_length content). unfold count_quotes in *. lia. }
  destruct (closing_quote_escaped nCol c post (S (length buf)) content pre (aset esc nCol 0))
    as (esc' & Hrun & _ & Hcount); try assumption.
  - rewrite length_aset. exact HnCol.
  - unfold buf. rewrite !length_app. lia.
  - do 2 eexists. split; [exact Hrun|].
    rewrite aget_aset_same in Hcount by exact HnCol. split; [lia|].
    unfold buf. rewrite app_assoc.
    replace (Z.of_nat (length pre) + Z.of_nat (length (escape_quotes content)))
      with (Z.of_nat (length (pre ++ escape_quotes content)))
      by (rewrite length_app; lia).
    rewrite aset_app_at. unfold string_at.
    rewrite Nat2Z.id, <- app_assoc, skipn_app, skipn_all, Nat.sub_diag.
    cbn [skipn app]. apply cstr_app_nul.
    intros H. unfold escape_quotes in H. apply in_flat_map in H as (x & Hx & Hin).
    destruct (x =? DQUOTE)%char; cbn in Hin;
      intuition (try discriminate; subst; now apply Hnul).
Qed.

(** ** The invariant of C1 is kept when no allocation fails *)

Lemma closing_quote_length (fuel : nat) (buf : list ascii) (nCol : Z) :
  forall esc s res esc',
    closing_quote fuel buf esc nCol s = Some (res, esc') -> length esc' = length esc.
Proof.
  induction fuel as [|fuel IH]; intros esc s res esc' H; [discriminate|].
  cbn [closing_quote] in H.
  destruct (strchr buf s DQUOTE); [|now injection H as _ <-].
  destruct (load buf _ =? DQUOTE)%char; [|now injection H as _ <-].
  apply IH in H. now rewrite length_aset in H.
Qed.

Lemma parse_cols_arrays (fuel : nat) :
  forall p s nC st r q,
    parse_cols fuel p s nC = Some (st, r, q) ->
    never_fails (db p) -> 0 <= nC ->
    Z.of_nat (length (cols p)) = maxCol p -> Z.of_nat (length (escs p)) = maxCol p ->
    arrays_ok q.
Proof.
  induction fuel as [|fuel IH]; intros p s nC st r q H Halloc HnC Hlc Hle; [discriminate|].
  cbn [parse_cols] in H.
  assert (Hyes : forall k, 0 < k -> sqlite3_alloc (db p) k = true).
  { intros k Hk. unfold sqlite3_alloc. rewrite (Halloc k Hk).
    replace (0 <? k) with true by (symmetry; now apply Z.ltb_lt). reflexivity. }
  break_in H.
  all: try discriminate.
  all: repeat match goal with
         | E : closing_quote _ _ _ _ _ = Some _ |- _ =>
             apply closing_quote_length in E; autorewrite with csv in E;
             rewrite ?length_aset in E
         | E : negb (sqlite3_alloc _ _) = _ |- _ =>
             cbn [db set_nBusy set_f set_offsetFirstRow set_eof set_maxRow set_zRow
                  set_nCol set_maxCol set_aCols set_aEscapedQuotes] in E;
             rewrite Hyes in E by (unfold sizeof_ptr, sizeof_int; lia);
             cbn [negb] in E; try discriminate E; clear E
         end.
  all: try (injection H as <- <- <-; unfold arrays_ok; autorewrite with csv;
            cbn [aCols aEscapedQuotes maxCol set_nBusy set_f set_offsetFirstRow set_eof
                 set_maxRow set_zRow set_nCol set_maxCol set_aCols set_aEscapedQuotes];
            rewrite ?length_realloc_cells, ?length_aset;
            repeat split; try discriminate; try lia).
  all: apply IH in H; [exact H| | | |];
    autorewrite with csv;
    cbn [db maxCol set_nBusy set_f set_offsetFirstRow set_eof
         set_maxRow set_zRow set_nCol set_maxCol set_aCols set_aEscapedQuotes];
    rewrite ?length_realloc_cells, ?length_aset; try assumption; try lia.
Qed.

Lemma row_ok_ready (p : CSV) (n : Z) :
  row_ok p n -> zRow p <> None /\ Z.of_nat (length (row p)) = maxRow p /\ 1 <= maxRow p.
Proof.
  intros (Hlen & Hn & _). split; [|split; [exact Hlen | lia]].
  unfold row in Hlen. destruct (zRow p); [discriminate|]. cbn [length] in Hlen. lia.
Qed.

Lemma csv_getline_ready (p : CSV) (st : line_status) (q : CSV) :
  table_ready p -> never_fails (db p) ->
  csv_getline p = Some (st, q) ->
  line_frame p q /\ 0 <= fpos (f q) /\
  zRow q <> None /\ Z.of_nat (length (row q)) = maxRow q /\ 1 <= maxRow q.
Proof.
  intros (Hpos & Hrow & _) Halloc. unfold csv_getline.
  assert (Hyes : forall k, 0 < k -> sqlite3_alloc (db p) k = true).
  { intros k Hk. unfold sqlite3_alloc. rewrite (Halloc k Hk).
    replace (0 <? k) with true by (symmetry; now apply Z.ltb_lt). reflexivity. }
  set (p0 := if maxRow p <? 1 then _ else p).
  assert (H0 : line_frame p p0 /\ f p0 = f p /\ row_ok p0 0).
  { unfold p0. destruct (maxRow p <? 1) eqn:E.
    - rewrite Hyes by lia. unfold line_frame, row_ok. cbn. repeat split; lia.
    - apply Z.ltb_ge in E. destruct (Hrow E) as [Hz Hl]. unfold row_ok.
      repeat split; try apply line_frame_refl; auto; lia. }
  destruct H0 as (Hfr0 & Hf0 & Hok0).
  destruct (row_ok_ready _ _ Hok0) as (Hz0 & _).
  destruct (zRow p0) eqn:Ez0; [clear Hz0 | congruence].
  destruct (getline_loop_spec (S (length (fdata (f p0)))) p0 0 false false Hok0)
    as (ex & q1 & n & bS & -> & Hfr & Hok1 & _).
  { unfold unread. rewrite length_skipn. lia. }
  pose proof (line_frame_trans _ _ _ Hfr0 Hfr) as Hfr1.
  destruct (row_ok_ready _ _ Hok1) as (Hz1 & Hl1 & Hm1).
  destruct Hok1 as (_ & Hn & Hpos1).
  assert (Hdb : db q1 = db p) by (destruct Hfr1 as (-> & _); reflexivity).
  destruct ex as [st'|bEol].
  - intros [= <- <-]. repeat split; auto; apply Hfr1.
  - destruct bS.
    + rewrite Hdb, Hyes by lia.
      destruct bEol; cbn [zRow set_maxRow set_zRow]; intros [= <- <-];
        (split; [apply (line_frame_trans _ q1); [exact Hfr1|]; unfold line_frame; cbn; tauto|]);
        autorewrite with csv; cbn [f zRow maxRow set_maxRow set_zRow];
        rewrite length_realloc_cells; repeat split; try discriminate; lia.
    + destruct bEol.
      * destruct (zRow q1) eqn:E; [|congruence]. intros [= <- <-].
        rewrite E. repeat split; auto; try discriminate; apply Hfr1.
      * intros [= <- <-]. repeat split; auto; apply Hfr1.
Qed.

(** With an allocator that never fails csvNext keeps [table_ready]. *)
Lemma csvNext_ready (p : CSV) (c : CSVCursor) (r : next_result) :
  table_ready p -> never_fails (db p) ->
  csvNext p c = Some r -> table_ready (vtab r) /\ db (vtab r) = db p.
Proof.
  intros Hready Halloc. unfold csvNext.
  destruct (eof p =? 0); cbn [negb]; [|intros [= <-]; split; [exact Hready | reflexivity]].
  destruct (csv_getline p) as [[st q]|] eqn:Eg; [|discriminate].
  destruct (csv_getline_ready _ _ _ Hready Halloc Eg) as (Hfr & Hpos & Hz & Hl & Hm).
  destruct Hfr as (Hdb & _ & _ & _ & _ & _ & _ & Hmc & Hac & Hae).
  assert (Hcolsq : 1 <= maxCol q ->
                   aCols q <> None /\ aEscapedQuotes q <> None /\
                   Z.of_nat (length (cols q)) = maxCol q /\
                   Z.of_nat (length (escs q)) = maxCol q).
  { destruct Hready as (_ & _ & Hc). unfold cols, escs. rewrite Hmc, Hac, Hae. exact Hc. }
  assert (Hfail : table_ready (set_eof q (-1)) /\ db (set_eof q (-1)) = db p).
  { unfold table_ready. autorewrite with csv. cbn. repeat split; auto; tauto. }
  assert (Hyes : forall k, 0 < k -> sqlite3_alloc (db q) k = true).
  { intros k Hk. unfold sqlite3_alloc. rewrite Hdb, (Halloc k Hk).
    replace (0 <? k) with true by (symmetry; now apply Z.ltb_lt). reflexivity. }
  destruct st; try (intros [= <-]; exact Hfail).
  set (q1 := if maxCol q <? 1 then _ else q).
  assert (H1 : row q1 = row q /\ zRow q1 = zRow q /\ maxRow q1 = maxRow q /\ f q1 = f q /\
               db q1 = db q /\ arrays_ok q1).
  { unfold q1. destruct (maxCol q <? 1) eqn:E.
    - assert (Hguess : 1 <= strlen (row q) 0 / 5 + 1).
      { unfold strlen. pose proof (Z.div_pos (Z.of_nat (length (string_at (row q) 0))) 5).
        lia. }
      cbv zeta. rewrite !Hyes by (unfold sizeof_ptr, sizeof_int; lia).
      unfold arrays_ok. autorewrite with csv. cbn. rewrite !repeat_length.
      repeat split; try discriminate; lia.
    - apply Z.ltb_ge in E. repeat split; try reflexivity; now apply Hcolsq. }
  destruct H1 as (Hrow1 & Hz1 & Hm1 & Hf1 & Hdb1 & Ha1 & Hae1 & Hl1 & Hl2).
  destruct (aCols q1) eqn:Ea; [|congruence].
  destruct (aEscapedQuotes q1) eqn:Ee; [|congruence].
  destruct (parse_cols _ q1 0 0) as [[[st r'] q2]|] eqn:Ep; [|discriminate].
  intros [= <-]. cbn [vtab].
  destruct (parse_cols_spec (S (length (row q1))) q1 0 0 ltac:(lia) ltac:(lia))
    as (st2 & r2 & q2' & Ep' & Hfr2 & _).
  rewrite Ep in Ep'. injection Ep' as <- <- <-.
  destruct Hfr2 as (F1 & _ & F3 & _ & _ & F6 & F7 & F8).
  apply parse_cols_arrays in Ep; try assumption; try lia.
  2:{ intros k Hk. rewrite Hdb1, Hdb. now apply Halloc. }
  split; [|congruence].
  unfold table_ready. rewrite F3, Hf1, F6, Hm1, F7, Hrow1.
  split; [exact Hpos|]. split.
  - intros _. split; [|exact Hl]. apply F8. rewrite Hz1. exact Hz.
  - intros _. exact Ep.
Qed.

Lemma table_ready_frame (p q : CSV) :
  table_ready p ->
  f q = f p -> maxRow q = maxRow p -> zRow q = zRow p -> maxCol q = maxCol p ->
  aCols q = aCols p -> aEscapedQuotes q = aEscapedQuotes p ->
  table_ready q.
Proof.
  unfold table_ready, row, cols, escs. intros H -> -> -> -> -> ->. exact H.
Qed.

(** The table csvInit builds is [table_ready]. *)
Lemma csvInit_ready (h : sqlite3) (nNames : Z) (file : list ascii) (d : ascii)
      (bUseHeaderRow : bool) (rc0 : Z) (t : CSV) :
  never_fails h ->
  csvInit h nNames (Some file) d bUseHeaderRow = Some (rc0, Some t) ->
  table_ready t /\ db t = h.
Proof.
  intros Halloc. unfold csvInit.
  destruct (sqlite3_alloc h _); cbn [negb]; [|discriminate].
  set (p0 := mkCSV h 1 (mkFILE file 0) 0 0 0 None d 0 0 None None).
  assert (H0 : table_ready p0).
  { unfold table_ready, p0. cbn. repeat split; lia. }
  destruct (csvNext p0 (mkCursor 0)) as [r|] eqn:E; [|discriminate].
  destruct (csvNext_ready _ _ _ H0 Halloc E) as [Hr Hdb].
  destruct (_ || _); [discriminate|].
  destruct bUseHeaderRow; intros [= _ <-].
  - split; [|exact Hdb]. eapply table_ready_frame; [exact Hr| | | | | |]; reflexivity.
  - split; [exact Hr | exact Hdb].
Qed.

(** csvFilter keeps it. *)
Lemma csvFilter_ready (p : CSV) (c : CSVCursor) (r : filter_result) (q : CSV) :
  table_ready p -> never_fails (db p) ->
  csvFilter p c = Some r -> fvtab r = Some q ->
  table_ready q /\ db q = db p.
Proof.
  intros Hready Halloc. unfold csvFilter. cbv zeta.
  change (csv_seek (set_eof (csvReference p) 0) _) with (rewound p).
  assert (H0 : table_ready (rewound p)).
  { destruct Hready as (Hpos & Hrest). unfold table_ready, rewound, csv_seek, fseek.
    autorewrite with csv. cbn. split; [|exact Hrest].
    destruct (offsetFirstRow p <? 0) eqn:E; cbn; [exact Hpos | now apply Z.ltb_ge in E]. }
  destruct (csvNext (rewound p) c) as [r0|] eqn:E; [|discriminate].
  destruct (csvNext_ready _ _ _ H0 Halloc E) as [Hr Hdb].
  intros [= <-]. cbn [fvtab]. unfold csvRelease.
  destruct (_ <? 1); cbn [snd]; [discriminate|]. intros [= <-].
  split; [|exact Hdb]. eapply table_ready_frame; [exact Hr| | | | | |]; reflexivity.
Qed.

(** The same for a parsed row, whatever the allocator does: the returns of
    csvNext that can leave a column array shorter than [maxCol], or no
    buffer where a size is recorded, give an error or set the flag. *)
Lemma parse_cols_grown (fuel : nat) :
  forall p s nC st r q,
    parse_cols fuel p s nC = Some (st, r, q) ->
    st <> NoGrowth -> 0 <= nC ->
    Z.of_nat (length (cols p)) = maxCol p -> Z.of_nat (length (escs p)) = maxCol p ->
    arrays_ok q.
Proof.
  induction fuel as [|fuel IH]; intros p s nC st r q H Hst HnC Hlc Hle; [discriminate|].
  cbn [parse_cols] in H.
  break_in H.
  all: try discriminate.
  all: repeat match goal with
         | E : closing_quote _ _ _ _ _ = Some _ |- _ =>
             apply closing_quote_length in E; autorewrite with csv in E;
             rewrite ?length_aset in E
         end.
  all: try (injection H as <- <- <-; try congruence; unfold arrays_ok; autorewrite with csv;
            cbn [aCols aEscapedQuotes maxCol set_nBusy set_f set_offsetFirstRow set_eof
                 set_maxRow set_zRow set_nCol set_maxCol set_aCols set_aEscapedQuotes];
            rewrite ?length_realloc_cells, ?length_aset;
            repeat split; try discriminate; try lia).
  all: apply IH in H; [exact H|exact Hst| | |];
    autorewrite with csv;
    cbn [db maxCol set_nBusy set_f set_offsetFirstRow set_eof
         set_maxRow set_zRow set_nCol set_maxCol set_aCols set_aEscapedQuotes];
    rewrite ?length_realloc_cells, ?length_aset; try assumption; try lia.
Qed.

Lemma csvNext_row_ready (p : CSV) (c : CSVCursor) (r : next_result) :
  table_ready p -> csvNext p c = Some r -> site r = Parsed -> table_ready (vtab r).
Proof.
  intros Hready. pose proof (table_ready_ok _ Hready) as Hok. unfold csvNext.
  destruct (eof p =? 0); cbn [negb]; [|intros [= <-]; discriminate].
  destruct (csv_getline_spec p Hok) as (st & q & -> & Hfr & Hokq & _ & _ & Hread).
  destruct st; try (intros [= <-]; discriminate).
  destruct (Hread eq_refl) as (_ & Hz & Hl & Hm).
  destruct Hfr as (Hdb & _ & _ & _ & _ & _ & _ & Hmc & Hac & Hae).
  assert (Hcolsq : 1 <= maxCol q ->
                   Z.of_nat (length (cols q)) = maxCol q /\
                   Z.of_nat (length (escs q)) = maxCol q).
  { destruct Hready as (_ & _ & Hc). unfold cols, escs. rewrite Hmc, Hac, Hae.
    intros H. now apply Hc in H. }
  set (q1 := if maxCol q <? 1 then _ else q).
  assert (H1 : row q1 = row q /\ zRow q1 = zRow q /\ maxRow q1 = maxRow q /\ f q1 = f q /\
               (aCols q1 <> None -> aEscapedQuotes q1 <> None ->
                Z.of_nat (length (cols q1)) = maxCol q1 /\
                Z.of_nat (length (escs q1)) = maxCol q1)).
  { unfold q1. destruct (maxCol q <? 1) eqn:E.
    - assert (Hguess : 1 <= strlen (row q) 0 / 5 + 1).
      { unfold strlen. pose proof (Z.div_pos (Z.of_nat (length (string_at (row q) 0))) 5).
        lia. }
      cbv zeta.
      destruct (sqlite3_alloc (db q) (sizeof_ptr * _));
        destruct (sqlite3_alloc (db q) (sizeof_int * _));
        autorewrite with csv; cbn; rewrite ?repeat_length;
        repeat split; try congruence; lia.
    - apply Z.ltb_ge in E. repeat split; try reflexivity; now apply Hcolsq. }
  destruct H1 as (Hrow1 & Hz1 & Hm1 & Hf1 & Ha1).
  destruct (aCols q1) eqn:Ea; [|intros [= <-]; discriminate].
  destruct (aEscapedQuotes q1) eqn:Ee; [|intros [= <-]; discriminate].
  destruct Ha1 as [Hl1 Hl2]; try discriminate.
  destruct (parse_cols _ q1 0 0) as [[[st r'] q2]|] eqn:Ep; [|discriminate].
  intros [= <-]. cbn [vtab site]. intros ->.
  destruct (parse_cols_spec (S (length (row q1))) q1 0 0 ltac:(lia) ltac:(lia))
    as (st2 & r2 & q2' & Ep' & Hfr2 & _).
  rewrite Ep in Ep'. injection Ep' as <- <- <-.
  destruct Hfr2 as (F1 & _ & F3 & _ & _ & F6 & F7 & F8).
  apply parse_cols_grown in Ep; try assumption; try lia; try discriminate.
  unfold table_ready. rewrite F3, Hf1, F6, Hm1, F7, Hrow1.
  split; [apply Hokq|]. split.
  - intros _. split; [|exact Hl]. apply F8. rewrite Hz1. exact Hz.
  - intros _. exact Ep.
Qed.

(** [table_ok] needs nothing of the allocator: csvInit establishes it, and
    csvNext and csvFilter keep it ([csvNext_spec], [csvFilter_spec]). *)
Lemma csvInit_ok (h : sqlite3) (nNames : Z) (file : list ascii) (d : ascii)
      (bUseHeaderRow : bool) (rc0 : Z) (t : CSV) :
  csvInit h nNames (Some file) d bUseHeaderRow = Some (rc0, Some t) -> table_ok t.
Proof.
  unfold csvInit.
  destruct (sqlite3_alloc h _); cbn [negb]; [|discriminate].
  set (p0 := mkCSV h 1 (mkFILE file 0) 0 0 0 None d 0 0 None None).
  assert (H0 : table_ok p0) by (unfold table_ok, p0; cbn; split; [lia | congruence]).
  destruct (csvNext_spec p0 (mkCursor 0) H0 eq_refl) as (r & -> & _ & Hok & _).
  destruct (_ || _); [discriminate|].
  destruct bUseHeaderRow; intros [= _ <-]; [|exact Hok].
  exact Hok.
Qed.

(** * Further properties of the methods *)

(** ** The line reader and xNext on every table *)

(** X1. csv_getline returns for every table that meets the invariant: the loop
    turns at most once for each byte left in the file and once more.  It
    leaves everything but the row buffer, its size and the position in the
    file as it was, keeps the invariant, moves the file forwards only, by
    bytes of the file, and a row it gives has cost at least one byte. *)
Theorem csv_getline_returns (p : CSV) :
  table_ok p ->
  exists st q,
    csv_getline p = Some (st, q) /\ line_frame p q /\ table_ok q /\
    fpos (f p) <= fpos (f q) /\
    left_in (f q) + fpos (f q) = left_in (f p) + fpos (f p) /\
    (st = LineRead -> fpos (f p) < fpos (f q) /\ zRow q <> None).
Proof.
  intros Hok.
  destruct (csv_getline_spec p Hok) as (st & q & E & Hfr & Hokq & Hle & HU & Hread).
  exists st, q. split; [exact E|]. split; [exact Hfr|]. split; [exact Hokq|].
  split; [exact Hle|]. split; [exact HU|].
  intros Hst. destruct (Hread Hst) as (H1 & H2 & _). now split.
Qed.

Lemma csv_getline_returns_witness :
  exists st q,
    csv_getline (sample_table abc_file) = Some (st, q) /\
    line_frame (sample_table abc_file) q /\ table_ok q /\
    fpos (f (sample_table abc_file)) <= fpos (f q) /\
    left_in (f q) + fpos (f q)
    = left_in (f (sample_table abc_file)) + fpos (f (sample_table abc_file)) /\
    (st = LineRead -> fpos (f (sample_table abc_file)) < fpos (f q) /\ zRow q <> None).
Proof.
  assert (Hok : table_ok (sample_table abc_file)) by ok_by_compute.
  exact (csv_getline_returns _ Hok).
Defined.

(** X2. On a table whose buffers have the sizes recorded for them
    ([table_ready]) and with the end-of-data flag clear, csvNext returns.
    It leaves the host, the count of users, the bytes of the file, the
    start of the data and the delimiter as they were.  Its result code is
    SQLITE_OK, SQLITE_ERROR or SQLITE_NOMEM and it leaves the flag 0 or -1;
    SQLITE_OK with the flag clear means that a row was parsed, that the
    file has moved on and that the buffers again have their recorded
    sizes; SQLITE_NOMEM leaves the flag clear. *)
Theorem csvNext_outcomes (p : CSV) (c : CSVCursor) :
  table_ready p -> eof p = 0 ->
  exists r,
    csvNext p c = Some r /\ config_frame p (vtab r) /\ table_ok (vtab r) /\
    (rc r = SQLITE_OK \/ rc r = SQLITE_ERROR \/ rc r = SQLITE_NOMEM) /\
    (eof (vtab r) = 0 \/ eof (vtab r) = -1) /\
    (rc r = SQLITE_OK -> eof (vtab r) = 0 ->
     site r = Parsed /\ fpos (f p) < fpos (f (vtab r)) /\ table_ready (vtab r)) /\
    (rc r = SQLITE_NOMEM -> eof (vtab r) = 0).
Proof.
  intros Hready He.
  destruct (csvNext_spec p c (table_ready_ok _ Hready) He)
    as (r & E & Hcfg & Hokr & _ & _ & _ & Hex).
  exists r. split; [exact E|]. split; [exact Hcfg|]. split; [exact Hokr|].
  pose proof (csvNext_row_ready p c r Hready E) as Hkeep.
  unfold next_exit in Hex. unfold SQLITE_OK, SQLITE_ERROR, SQLITE_NOMEM in *.
  destruct (site r); try tauto; repeat split; intros; try lia; try tauto; try congruence.
Qed.

Lemma csvNext_outcomes_witness :
  exists r,
    csvNext (after_filter (sample_table abc_file)) (mkCursor 0) = Some r /\
    config_frame (after_filter (sample_table abc_file)) (vtab r) /\ table_ok (vtab r) /\
    (rc r = SQLITE_OK \/ rc r = SQLITE_ERROR \/ rc r = SQLITE_NOMEM) /\
    (eof (vtab r) = 0 \/ eof (vtab r) = -1) /\
    (rc r = SQLITE_OK -> eof (vtab r) = 0 ->
     site r = Parsed /\
     fpos (f (after_filter (sample_table abc_file))) < fpos (f (vtab r)) /\
     table_ready (vtab r)) /\
    (rc r = SQLITE_NOMEM -> eof (vtab r) = 0).
Proof.
  assert (Hready : table_ready (after_filter (sample_table abc_file))) by ready_by_compute.
  assert (He : eof (after_filter (sample_table abc_file)) = 0) by by_compute.
  exact (csvNext_outcomes _ (mkCursor 0) Hready He).
Defined.

Lemma csvNext_no_byte_left (p : CSV) (c : CSVCursor) :
  table_ok p -> eof p = 0 -> unread (f p) = [] ->
  exists r st,
    csvNext p c = Some r /\ site r = NoLine st /\ rc r = SQLITE_OK /\
    eof (vtab r) = -1 /\ fpos (f (vtab r)) = fpos (f p) /\
    config_frame p (vtab r) /\ cursor r = mkCursor (fpos (f p)).
Proof.
  intros Hok He Hun.
  destruct (csvNext_spec p c Hok He) as (r & E & Hcfg & _ & Hcur & Hle & HU & Hex).
  assert (Hpos : fpos (f (vtab r)) = fpos (f p)).
  { unfold left_in in HU. rewrite Hun in HU. cbn [length] in HU. lia. }
  exists r. unfold next_exit in Hex.
  destruct (site r) as [|st| | | | | |] eqn:Es; try (exfalso; lia); try tauto.
  exists st. tauto.
Qed.

(** X3. At the end of the file csvNext gives no row: with no byte left unread
    it sets the end-of-data flag, returns SQLITE_OK and leaves the file
    where it was. *)
Theorem csvNext_at_end_of_file (p : CSV) (c : CSVCursor) :
  table_ok p -> eof p = 0 -> unread (f p) = [] ->
  exists r st,
    csvNext p c = Some r /\ site r = NoLine st /\ rc r = SQLITE_OK /\
    csvEof (vtab r) (cursor r) = -1 /\ fpos (f (vtab r)) = fpos (f p).
Proof.
  intros Hok He Hun.
  destruct (csvNext_no_byte_left p c Hok He Hun) as (r & st & E & Hs & Hrc & Hf & Hp & _).
  exists r, st. unfold csvEof. tauto.
Qed.

Lemma csvNext_at_end_of_file_witness :
  exists r st,
    csvNext (csv_seek (sample_table abc_file) 20) (mkCursor 0) = Some r /\
    site r = NoLine st /\ rc r = SQLITE_OK /\
    csvEof (vtab r) (cursor r) = -1 /\ fpos (f (vtab r)) = 20.
Proof.
  assert (Hok : table_ok (csv_seek (sample_table abc_file) 20)) by ok_by_compute.
  assert (He : eof (csv_seek (sample_table abc_file) 20) = 0) by by_compute.
  assert (Hun : unread (f (csv_seek (sample_table abc_file) 20)) = []) by by_compute.
  exact (csvNext_at_end_of_file _ (mkCursor 0) Hok He Hun).
Defined.

(** ** The bytes of a row *)

Lemma take_line_prefix (k : nat) (l : list ascii) :
  l = take_line k l ++ skipn (length (take_line k l)) l.
Proof.
  revert l. induction k as [|k IH]; intros [|c l]; cbn [take_line]; try reflexivity.
  destruct (c =? LF)%char; cbn [length skipn app]; [reflexivity|]. f_equal. apply IH.
Qed.

Lemma take_line_nil (k : nat) (l : list ascii) : take_line (S k) l = [] -> l = [].
Proof.
  destruct l as [|c l]; [reflexivity|]. cbn [take_line].
  destruct (c =? LF)%char; discriminate.
Qed.

(** What a call of fgets with room for a byte at least takes from the file. *)
Lemma fgets_bytes (size : Z) (fp : FILE) :
  2 <= size -> 0 <= fpos fp ->
  match fgets size fp with
  | (Some chunk, fp') =>
      chunk <> [] /\ unread fp = chunk ++ unread fp' /\
      fp' = mkFILE (fdata fp) (fpos fp + Z.of_nat (length chunk)) /\
      Z.of_nat (length chunk) <= size - 1
  | (None, fp') => fp' = fp /\ unread fp = []
  end.
Proof.
  intros Hsize Hpos. unfold fgets. fold (unread fp).
  replace (size <=? 0) with false by (symmetry; apply Z.leb_gt; lia).
  replace (size =? 1) with false by (symmetry; apply Z.eqb_neq; lia).
  destruct (take_line (Z.to_nat (size - 1)) (unread fp)) as [|c chunk] eqn:E.
  - split; [reflexivity|].
    replace (Z.to_nat (size - 1)) with (S (Z.to_nat (size - 2))) in E by lia.
    now apply take_line_nil in E.
  - split; [discriminate|]. split; [|split; [reflexivity|]].
    + rewrite unread_skip by exact Hpos. rewrite <- E. apply take_line_prefix.
    + pose proof (take_line_length (Z.to_nat (size - 1)) (unread fp)) as [H _].
      rewrite E in H. lia.
Qed.

(** Over bytes without NUL the scan of csv_getline stops at the NUL that
    fgets has put after them. *)
Lemma scan_quotes_to_nul (d : ascii) (tail : list ascii) (fuel : nat) :
  forall done chunk b,
    ~ In NUL chunk -> (length chunk < fuel)%nat ->
    fst (scan_quotes fuel (done ++ chunk ++ NUL :: tail) d (Z.of_nat (length done)) b)
    = Z.of_nat (length done) + Z.of_nat (length chunk).
Proof.
  induction fuel as [|fuel IH]; intros done chunk b Hn Hfuel; [lia|].
  cbn [scan_quotes]. destruct chunk as [|c chunk]; cbn [app].
  - rewrite load_app_at. cbn. lia.
  - rewrite load_app_at.
    rewrite (eqb_false_of_neq c NUL) by (intros ->; apply Hn; now left).
    assert (Hstep : forall b',
               fst (scan_quotes fuel (done ++ c :: chunk ++ NUL :: tail) d
                                (Z.of_nat (length done) + 1) b')
               = Z.of_nat (length done) + Z.of_nat (length (c :: chunk))).
    { intros b'.
      replace (done ++ c :: chunk ++ NUL :: tail)
        with ((done ++ [c]) ++ chunk ++ NUL :: tail) by (rewrite <- app_assoc; reflexivity).
      replace (Z.of_nat (length done) + 1) with (Z.of_nat (length (done ++ [c])))
        by (rewrite last_length; lia).
      rewrite IH.
      - rewrite last_length. cbn [length]. lia.
      - intros H. apply Hn. now right.
      - cbn [length] in Hfuel. lia. }
    destruct (c =? DQUOTE)%char; [|apply Hstep].
    destruct b; [|destruct (_ || _); apply Hstep].
    destruct (load (done ++ c :: chunk ++ NUL :: tail) (Z.of_nat (length done) + 1)
              =? DQUOTE)%char eqn:E; [|apply Hstep].
    destruct chunk as [|c' chunk].
    + exfalso. cbn [app] in E. revert E.
      replace (done ++ c :: NUL :: tail) with ((done ++ [c]) ++ NUL :: tail)
        by (rewrite <- app_assoc; reflexivity).
      replace (Z.of_nat (length done) + 1) with (Z.of_nat (length (done ++ [c])))
        by (rewrite last_length; lia).
      rewrite load_app_at. discriminate.
    + replace (done ++ c :: (c' :: chunk) ++ NUL :: tail)
        with ((done ++ [c; c']) ++ chunk ++ NUL :: tail) by (rewrite <- app_assoc; reflexivity).
      replace (Z.of_nat (length done) + 1 + 1) with (Z.of_nat (length (done ++ [c; c'])))
        by (rewrite length_app; cbn [length]; lia).
      rewrite IH.
      * rewrite length_app. cbn [length]. lia.
      * intros H. apply Hn. now right; right.
      * cbn [length] in Hfuel. lia.
Qed.

Lemma load_last (l rest : list ascii) :
  l <> [] ->
  exists body, l = body ++ [load (l ++ rest) (Z.of_nat (length l) - 1)].
Proof.
  intros Hne. destruct (exists_last Hne) as (body & c & ->). exists body.
  rewrite last_length, <- app_assoc. cbn [app].
  replace (Z.of_nat (S (length body)) - 1) with (Z.of_nat (length body)) by lia.
  now rewrite load_app_at.
Qed.

(** The loop of csv_getline over a file without NUL: the buffer holds the
    bytes taken from the file, as they are or with their line ending made
    one newline, and the loop gives up at the very end of the file only. *)
Lemma getline_loop_bytes (fuel : nat) :
  forall p n bS bQ done ex q n' bS',
    getline_loop fuel p n bS bQ = Some (ex, q, n', bS') ->
    Z.of_nat (length (row p)) = maxRow p -> n < maxRow p -> 0 <= fpos (f p) ->
    n = Z.of_nat (length done) -> firstn (length done) (row p) = done ->
    ~ In NUL (unread (f p)) ->
    match ex with
    | Returned st => st = LineTooLong \/ st = LineNoMem
    | LeftLoop false => done = [] /\ unread (f p) = [] /\ f q = f p
    | LeftLoop true =>
        exists taken s tail,
          unread (f p) = taken ++ unread (f q) /\
          row q = s ++ NUL :: tail /\ Z.of_nat (length s) <= n' /\
          (line_of (done ++ taken) s \/ (s = done ++ taken /\ unread (f q) = []))
    end.
Proof.
  induction fuel as [|fuel IH];
    intros p n bS bQ done ex q n' bS' Hrun Hlen Hmax Hpos Hn Hdone Hnul; [discriminate|].
  cbn [getline_loop] in Hrun.
  match type of Hrun with context [match ?g with inl _ => _ | inr _ => _ end] =>
    assert (Hg : (exists st, g = inl st /\ (st = LineTooLong \/ st = LineNoMem)) \/
                 (exists p1 bS1, g = inr (p1, bS1) /\ f p1 = f p /\
                    Z.of_nat (length (row p1)) = maxRow p1 /\ n + 100 <= maxRow p1 /\
                    firstn (length done) (row p1) = done));
    [| destruct Hg as [(st & Hg & Hst)|(p1 & bS1 & Hg & Hf & Hlen1 & Hroom & Hdone1)];
       rewrite Hg in Hrun; clear Hg]
  end.
  { destruct (n + 100 >? maxRow p) eqn:E.
    - destruct (_ >=? _); [left; eauto|].
      destruct (sqlite3_alloc _ _); cbn [negb]; [|left; eauto].
      right. do 2 eexists. split; [reflexivity|].
      rewrite Z.gtb_ltb in E. apply Z.ltb_lt in E.
      autorewrite with csv. cbn [f maxRow set_zRow set_maxRow].
      rewrite realloc_cells_grow by lia.
      split; [reflexivity|]. split; [rewrite length_app, repeat_length; lia|].
      split; [lia|].
      rewrite firstn_app. replace (length done - length (row p))%nat with O by lia.
      cbn [firstn]. rewrite app_nil_r. exact Hdone.
    - rewrite Z.gtb_ltb in E. apply Z.ltb_ge in E.
      right. exists p, bS. repeat split; auto; lia. }
  { injection Hrun as <- _ _ _. exact Hst. }
  pose proof (fgets_bytes (maxRow p1 - n) (f p1) ltac:(lia) ltac:(rewrite Hf; exact Hpos))
    as Hfg.
  destruct (fgets (maxRow p1 - n) (f p1)) as [[chunk|] fp].
  - destruct Hfg as (Hne & Hun & -> & Hsz). rewrite Hf in *.
    set (tail := skipn (Z.to_nat n + length (chunk ++ [NUL])) (row p1)).
    assert (Hbuf : write_at (row p1) n (chunk ++ [NUL]) = done ++ chunk ++ NUL :: tail).
    { unfold write_at. fold tail. rewrite Hn, Nat2Z.id, Hdone1, <- app_assoc. reflexivity. }
    autorewrite with csv in Hrun. rewrite Hbuf in Hrun.
    cbn [cDelim set_f set_zRow] in Hrun.
    assert (Hcn : ~ In NUL chunk).
    { intros H. apply Hnul. rewrite Hun. apply in_or_app. now left. }
    pose proof (scan_quotes_to_nul (cDelim p1) tail
                  (S (length (done ++ chunk ++ NUL :: tail))) done chunk bQ Hcn) as Hscan.
    rewrite <- Hn in Hscan.
    destruct (scan_quotes _ _ _ n bQ) as [n1 bQ1]. cbn [fst] in Hscan.
    rewrite Hscan in Hrun by (rewrite !length_app; cbn [length]; lia).
set (p2 := set_f _ _) in Hrun.
    replace (done ++ chunk ++ NUL :: tail) with ((done ++ chunk) ++ NUL :: tail) in *
      by (rewrite <- app_assoc; reflexivity).
    assert (HN : n + Z.of_nat (length chunk) = Z.of_nat (length (done ++ chunk)))
      by (rewrite length_app; lia).
    rewrite HN in Hrun.
    assert (Hfull : done ++ chunk <> []) by (destruct done; [exact Hne | discriminate]).
    destruct (load_last (done ++ chunk) (NUL :: tail) Hfull) as (body & Hbody).
    set (c := load ((done ++ chunk) ++ NUL :: tail) (Z.of_nat (length (done ++ chunk)) - 1))
      in *.
    clearbody c.
    assert (Hun2 : unread (f p) = chunk ++ unread (f p2)) by exact Hun.
    match type of Hrun with (if ?t then _ else _) = _ => destruct t eqn:Et end.
    + (* uniform line ending *)
      apply andb_true_iff in Et as [Et _]. apply andb_true_iff in Et as [_ Ec].
      match type of Hrun with (if ?t then _ else _) = _ => destruct t eqn:Et2 end;
        injection Hrun as <- <- <- <-.
      * apply andb_true_iff in Et2 as [Et2 Hcr]. apply andb_true_iff in Et2 as [Hgt Hlf].
        apply Ascii.eqb_eq in Hlf, Hcr. rewrite Hlf in Hbody.
        assert (Hb : body <> []).
        { intros ->. rewrite Hbody in Hgt. cbn in Hgt. discriminate. }
        destruct (load_last body ([LF] ++ NUL :: tail) Hb) as (body' & Hbody').
        revert Hcr Hbody'. rewrite Hbody, <- !app_assoc, last_length. cbn [app].
        replace (Z.of_nat (S (length body)) - 2) with (Z.of_nat (length body) - 1) by lia.
        intros -> Hbody'.
        exists chunk, (body' ++ [LF]), (NUL :: tail).
        split; [exact Hun2|]. autorewrite with csv. split.
        { rewrite Hbody', <- !app_assoc. cbn [app].
          replace (Z.of_nat (length (body' ++ [CR])) - 1) with (Z.of_nat (length body'))
            by (rewrite last_length; lia).
          rewrite aset_app_at.
          replace (body' ++ LF :: LF :: NUL :: tail)
            with ((body' ++ [LF]) ++ LF :: NUL :: tail) by (rewrite <- app_assoc; reflexivity).
          replace (Z.of_nat (S (length (body' ++ [CR]))) - 1)
            with (Z.of_nat (length (body' ++ [LF]))) by (rewrite !last_length; lia).
          rewrite aset_app_at, <- app_assoc. reflexivity. }
        split; [rewrite Hbody', !last_length; lia|].
        left. exists body'. split; [|reflexivity]. right; right.
        rewrite Hbody, Hbody' at 1. rewrite <- app_assoc. reflexivity.
      * exists chunk, (body ++ [LF]), tail.
        split; [exact Hun2|]. autorewrite with csv. split.
        { rewrite Hbody, <- !app_assoc. cbn [app].
          replace (Z.of_nat (length (body ++ [c])) - 1) with (Z.of_nat (length body))
            by (rewrite last_length; lia).
          rewrite aset_app_at.
          replace (body ++ LF :: NUL :: tail)
            with ((body ++ [LF]) ++ NUL :: tail) by (rewrite <- app_assoc; reflexivity).
          replace (Z.of_nat (length (body ++ [c]))) with (Z.of_nat (length (body ++ [LF])))
            by (rewrite !last_length; lia).
          rewrite aset_app_at, <- app_assoc. reflexivity. }
        split; [rewrite Hbody, !last_length; lia|].
        left. exists body. split; [|reflexivity].
        apply orb_true_iff in Ec as [Ec|Ec]; apply Ascii.eqb_eq in Ec;
          rewrite Ec in Hbody; auto.
    + (* the loop goes on *)
      specialize (IH p2 _ bS1 bQ1 (done ++ chunk) ex q n' bS' Hrun).
assert (Hrow2 : row p2 = (done ++ chunk) ++ NUL :: tail)
        by (unfold p2; autorewrite with csv; rewrite <- app_assoc; reflexivity).
      assert (Hl2 : length (row p2) = length (row p1)).
      { rewrite Hrow2, <- Hbuf. apply length_write_at.
        rewrite length_app. cbn [length]. lia. }
      assert (IH' := IH ltac:(rewrite Hl2; exact Hlen1)
                        ltac:(change (maxRow p2) with (maxRow p1); lia)
                        ltac:(unfold p2; cbn; lia) eq_refl).
      clear IH.
      assert (Hfirst : firstn (length (done ++ chunk)) (row p2) = done ++ chunk).
      { rewrite Hrow2, firstn_app, firstn_all, Nat.sub_diag. cbn [firstn]. apply app_nil_r. }
      assert (Hnul2 : ~ In NUL (unread (f p2))).
      { intros H. apply Hnul. rewrite Hun2. apply in_or_app. now right. }
      specialize (IH' Hfirst Hnul2).
      destruct ex as [st|[|]]; [exact IH'| |].
      * destruct IH' as (taken & s & tail' & Htk & Hrowq & Hs & Hcase).
        exists (chunk ++ taken), s, tail'.
        split; [rewrite Hun2, Htk, <- app_assoc; reflexivity|].
        split; [exact Hrowq|]. split; [exact Hs|].
        rewrite app_assoc. exact Hcase.
      * destruct IH' as (Hnil & _). exfalso. now apply Hfull.
  - (* nothing more in the file *)
    destruct Hfg as [-> Heof]. rewrite Hf in Heof.
    destruct (n =? 0) eqn:En; injection Hrun as <- <- <- <-.
    + apply Z.eqb_eq in En. split; [|split; [exact Heof | exact Hf]].
      destruct done; [reflexivity | cbn [length] in Hn; lia].
    + exists [], done, (skipn (S (length done)) (row p1)).
      cbn [f set_zRow]. rewrite Hf, Heof. split; [reflexivity|]. autorewrite with csv.
      split.
      { rewrite <- (firstn_skipn (length done) (row p1)) at 1. rewrite Hdone1, Hn.
        destruct (skipn (length done) (row p1)) as [|x rest] eqn:Esk.
        - exfalso. apply (f_equal (@length ascii)) in Esk.
          rewrite length_skipn in Esk. cbn [length] in Esk. lia.
        - rewrite aset_app_at. f_equal. f_equal.
          change (S (length done)) with (1 + length done)%nat.
          rewrite <- skipn_skipn, Esk. reflexivity. }
      split; [lia|]. right. split; [now rewrite app_nil_r | reflexivity].
Qed.

Lemma line_of_no_nul (taken s : list ascii) :
  line_of taken s -> ~ In NUL taken -> ~ In NUL s.
Proof.
  intros (body & Ht & ->) Hn H. apply in_app_or in H as [H|[H|[]]]; [|discriminate].
  apply Hn. destruct Ht as [-> | [-> | ->]]; apply in_or_app; now left.
Qed.

(** The string at the start of a buffer is kept by a realloc that keeps
    its terminator. *)
Lemma string_at_realloc (s tail : list ascii) (k : Z) (fresh : ascii) :
  ~ In NUL s -> Z.of_nat (length s) < k ->
  string_at (realloc_cells (s ++ NUL :: tail) k fresh) 0 = s.
Proof.
  intros Hs Hk. unfold string_at, realloc_cells. cbn [Z.to_nat skipn].
  rewrite firstn_app, firstn_all2 by lia.
  replace (Z.to_nat k - length s)%nat with (S (Z.to_nat k - length s - 1)) by lia.
  cbn [firstn]. rewrite <- app_assoc. cbn [app]. now apply cstr_app_nul.
Qed.

(** X4. Over a file that holds no NUL, the row csv_getline gives is made of the
    bytes it has taken from the file, in their order and none left out:
    either they end with a newline, a carriage return or both, and the row
    is those bytes with that ending made one newline, or the file has ended
    and the row is those bytes as they are.  It gives NULL for the end of
    the file only when no byte is left, and has then not moved the file. *)
Theorem csv_getline_row_bytes (p q : CSV) (st : line_status) :
  table_ok p -> ~ In NUL (unread (f p)) ->
  csv_getline p = Some (st, q) ->
  (st = LineRead ->
   exists taken,
     unread (f p) = taken ++ unread (f q) /\
     (line_of taken (string_at (row q) 0) \/
      (string_at (row q) 0 = taken /\ unread (f q) = []))) /\
  (st = LineEnd -> unread (f p) = [] /\ f q = f p).
Proof.
  intros (Hpos & Hbuf) Hnul. unfold csv_getline.
  set (p0 := if maxRow p <? 1 then _ else p).
  assert (H0 : f p0 = f p /\
               (zRow p0 <> None ->
                Z.of_nat (length (row p0)) = maxRow p0 /\ 0 < maxRow p0)).
  { unfold p0. destruct (maxRow p <? 1) eqn:E.
    - destruct (sqlite3_alloc (db p) 100); cbn; split; try reflexivity;
        intros H; [split; reflexivity | congruence].
    - apply Z.ltb_ge in E. split; [reflexivity|]. intros H. split; [|lia].
      apply Hbuf; [lia | exact H]. }
  destruct H0 as (Hf0 & Hrow0).
  destruct (zRow p0) eqn:Ez; [|intros [= <- <-]; split; discriminate].
  destruct (Hrow0 ltac:(discriminate)) as [Hlen0 Hmax0].
  destruct (getline_loop _ p0 0 false false) as [[[[ex q'] n'] bS']|] eqn:Erun;
    [|discriminate].
  pose proof (getline_loop_bytes _ p0 0 false false [] ex q' n' bS' Erun Hlen0 Hmax0
                ltac:(rewrite Hf0; exact Hpos) eq_refl eq_refl
                ltac:(rewrite Hf0; exact Hnul)) as Hbytes.
  rewrite Hf0 in Hbytes.
  destruct ex as [st'|[|]].
  - intros [= <- <-]. split; intros ->; destruct Hbytes; discriminate.
  - destruct Hbytes as (taken & s & tail & Htk & Hrowq & Hs & Hcase). cbn [app] in Hcase.
    assert (Htn : ~ In NUL taken).
    { intros H. apply Hnul. rewrite Htk. apply in_or_app. now left. }
    assert (Hsn : ~ In NUL s).
    { destruct Hcase as [H | [-> _]]; [now apply (line_of_no_nul taken) | exact Htn]. }
    set (q1 := if bS' then _ else q').
    assert (H1 : f q1 = f q' /\ (zRow q1 <> None -> string_at (row q1) 0 = s)).
    { unfold q1. destruct bS'.
      - split; [reflexivity|]. autorewrite with csv. cbn [zRow set_maxRow set_zRow].
        destruct (sqlite3_alloc (db q') (n' + 1)); [intros _ | congruence].
        autorewrite with csv. rewrite Hrowq.
        apply string_at_realloc; [exact Hsn | lia].
      - split; [reflexivity|]. intros _. rewrite Hrowq.
        unfold string_at. cbn [Z.to_nat skipn]. now apply cstr_app_nul. }
    destruct H1 as [Hf1 Hstr].
    destruct (zRow q1) eqn:Ez1; intros [= <- <-]; (split; [|discriminate]).
    + intros _. exists taken. rewrite Hf1. split; [exact Htk|].
      rewrite (Hstr ltac:(discriminate)).
      destruct Hcase as [H | [-> H]]; [left; exact H | right; now split].
    + discriminate.
  - destruct Hbytes as (_ & Heof & Hfq).
    set (q1 := if bS' then _ else q').
    assert (Hf1 : f q1 = f q') by (unfold q1; destruct bS'; reflexivity).
    intros [= <- <-]. split; [discriminate|]. intros _.
    split; [exact Heof | congruence].
Qed.

(** ** The size of the row buffer *)

Lemma cstr_length_nul (buf : list ascii) :
  forall k, nth k buf NUL = NUL -> (length (cstr buf) <= k)%nat.
Proof.
  induction buf as [|c buf IH]; intros k Hk; cbn [cstr length]; [lia|].
  destruct (Ascii.eqb_spec c NUL) as [->|Hc]; cbn [length]; [lia|].
  destruct k as [|k]; cbn [nth] in Hk; [congruence|].
  specialize (IH k Hk). lia.
Qed.

Lemma load_aset_nul (buf : list ascii) (i k : Z) :
  0 <= k -> load buf k = NUL -> load (aset buf i NUL) k = NUL.
Proof.
  intros H0 Hk. unfold load in *.
  destruct (Z_lt_le_dec i 0) as [Hneg|Hpos].
  - unfold aset. replace (0 <=? i) with false by (symmetry; apply Z.leb_gt; lia).
    exact Hk.
  - destruct (Z.eq_dec i k) as [->|Hne].
    + destruct (Z_lt_le_dec k (Z.of_nat (length buf))) as [Hin|Hout].
      * apply aget_aset_same. lia.
      * unfold aset.
        replace (k <? Z.of_nat (length buf)) with false by (symmetry; apply Z.ltb_ge; lia).
        rewrite andb_false_r. exact Hk.
    + rewrite aget_aset_other by lia. exact Hk.
Qed.

(** The loop of csv_getline keeps the row buffer below a bound that the
    length limit of the host is below, and a row it leaves in the buffer is
    terminated by a NUL at or before the index it stops at. *)
Lemma getline_loop_bound (fuel : nat) (B : Z) :
  forall p n bS bQ ex q n' bS',
    getline_loop fuel p n bS bQ = Some (ex, q, n', bS') ->
    row_ok p n -> maxRow p <= B -> limit_length (db p) - 1 <= B ->
    maxRow q <= B /\ row_ok q n' /\
    (ex = LeftLoop true -> exists k, 0 <= k <= n' /\ load (row q) k = NUL).
Proof.
  induction fuel as [|fuel IH];
    intros p n bS bQ ex q n' bS' Hrun (Hlen & Hn & Hpos) HB Hlim; [discriminate|].
  cbn [getline_loop] in Hrun.
  match type of Hrun with context [match ?g with inl _ => _ | inr _ => _ end] =>
    assert (Hg : (exists st, g = inl st) \/
                 (exists p1 bS1, g = inr (p1, bS1) /\ f p1 = f p /\
                    Z.of_nat (length (row p1)) = maxRow p1 /\ n + 100 <= maxRow p1 /\
                    maxRow p1 <= B /\ db p1 = db p));
    [| destruct Hg as [(st & Hg)|(p1 & bS1 & Hg & Hf & Hlen1 & Hroom & HB1 & Hdb1)];
       rewrite Hg in Hrun; clear Hg]
  end.
  { destruct (n + 100 >? maxRow p) eqn:E.
    - destruct (maxRow p * 2 + 100 >=? limit_length (db p)) eqn:El; [left; eauto|].
      destruct (sqlite3_alloc _ _); cbn [negb]; [|left; eauto].
      right. do 2 eexists. split; [reflexivity|].
      rewrite Z.gtb_ltb in E. apply Z.ltb_lt in E.
      rewrite Z.geb_leb in El. apply Z.leb_gt in El.
      autorewrite with csv. cbn [f db maxRow set_zRow set_maxRow].
      rewrite length_realloc_cells. repeat split; lia.
    - rewrite Z.gtb_ltb in E. apply Z.ltb_ge in E.
      right. exists p, bS. repeat split; auto; lia. }
  { injection Hrun as <- <- <- <-. split; [exact HB|].
    split; [unfold row_ok; lia | discriminate]. }
  pose proof (fgets_bytes (maxRow p1 - n) (f p1) ltac:(lia) ltac:(rewrite Hf; exact Hpos))
    as Hfg.
  destruct (fgets (maxRow p1 - n) (f p1)) as [[chunk|] fp].
  - destruct Hfg as (Hne & _ & -> & Hsz). rewrite Hf in *.
    set (buf := write_at (row p1) n (chunk ++ [NUL])) in *.
    assert (Hlb : length buf = length (row p1)).
    { apply length_write_at. rewrite length_app. cbn [length]. lia. }
    assert (Hnul : load buf (n + Z.of_nat (length chunk)) = NUL).
    { apply aget_write_at_end; lia. }
    set (p2 := set_f (set_zRow p1 (Some buf)) _) in *.
    change (row p2) with buf in Hrun. change (cDelim p2) with (cDelim p1) in Hrun.
    pose proof (scan_quotes_bound (S (length buf)) buf (cDelim p1) n bQ
                  (n + Z.of_nat (length chunk)) ltac:(lia) Hnul) as Hscan.
    destruct (scan_quotes (S (length buf)) buf (cDelim p1) n bQ) as [n1 bQ1].
    cbn [fst] in Hscan.
    match type of Hrun with (if ?t then _ else _) = _ => destruct t eqn:Et end.
    + apply andb_true_iff in Et as [Et _]. apply andb_true_iff in Et as [Hgt _].
      rewrite Z.gtb_ltb in Hgt. apply Z.ltb_lt in Hgt.
      match type of Hrun with (if ?t then _ else _) = _ => destruct t eqn:Et2 end;
        injection Hrun as <- <- <- <-; unfold p2; autorewrite with csv;
        cbn [maxRow f set_zRow set_f];
        (split; [exact HB1|]);
        (split; [unfold row_ok; autorewrite with csv; cbn [maxRow f fpos set_zRow set_f];
                 rewrite !length_aset, Hlb; repeat split; lia|]); intros _.
      * apply andb_true_iff in Et2 as [Et2 _]. apply andb_true_iff in Et2 as [Hgt1 _].
        rewrite Z.gtb_ltb in Hgt1. apply Z.ltb_lt in Hgt1.
        exists (n1 - 1). split; [lia|].
        apply aget_aset_same. rewrite length_aset, Hlb. lia.
      * exists n1. split; [lia|].
        apply aget_aset_same. rewrite length_aset, Hlb. lia.
    + apply (IH p2 n1 bS1 bQ1 ex q n' bS' Hrun).
      * unfold row_ok, p2. cbn. rewrite Hlb. lia.
      * exact HB1.
      * change (db p2) with (db p1). rewrite Hdb1. exact Hlim.
  - destruct Hfg as [-> _].
    destruct (n =? 0) eqn:En; injection Hrun as <- <- <- <-.
    + split; [exact HB1|]. split; [unfold row_ok; rewrite Hf; lia | discriminate].
    + autorewrite with csv. cbn [maxRow f set_zRow].
      split; [exact HB1|].
      split; [unfold row_ok; autorewrite with csv; cbn [maxRow f set_zRow];
              rewrite length_aset, Hf; lia|].
      intros _. exists n. split; [lia|]. apply aget_aset_same. lia.
Qed.

(** X5. csv_getline leaves a row buffer no larger than the largest of 100
    bytes, the size it found and the length limit less one, and a row it
    gives ends within the buffer. *)
Theorem csv_getline_buffer_bound (p q : CSV) (st : line_status) :
  table_ok p ->
  csv_getline p = Some (st, q) ->
  maxRow q <= Z.max (Z.max 100 (maxRow p)) (limit_length (db p) - 1) /\
  (st = LineRead -> strlen (row q) 0 < maxRow q).
Proof.
  intros (Hpos & Hbuf). unfold csv_getline.
  set (B := Z.max (Z.max 100 (maxRow p)) (limit_length (db p) - 1)).
  set (p0 := if maxRow p <? 1 then _ else p).
  assert (H0 : f p0 = f p /\ db p0 = db p /\ maxRow p0 <= B /\
               (zRow p0 <> None ->
                Z.of_nat (length (row p0)) = maxRow p0 /\ 0 < maxRow p0)).
  { unfold p0. destruct (maxRow p <? 1) eqn:E.
    - apply Z.ltb_lt in E.
      destruct (sqlite3_alloc (db p) 100); cbn; repeat split; try lia; congruence.
    - apply Z.ltb_ge in E. repeat split; try lia. apply Hbuf; [lia | assumption]. }
  destruct H0 as (Hf0 & Hdb0 & HB0 & Hrow0).
  destruct (zRow p0) eqn:Ez; [|intros [= <- <-]; split; [exact HB0 | discriminate]].
  destruct (Hrow0 ltac:(discriminate)) as [Hlen0 Hmax0].
  destruct (getline_loop _ p0 0 false false) as [[[[ex q'] n'] bS']|] eqn:Erun;
    [|discriminate].
  destruct (getline_loop_bound _ B p0 0 false false ex q' n' bS' Erun) as (HBq & Hokq & Hk).
  { unfold row_ok. rewrite Hf0. lia. }
  { exact HB0. }
  { rewrite Hdb0. unfold B. lia. }
  destruct Hokq as (Hlenq & Hnq & _).
  destruct ex as [st'|bEol].
  - intros [= <- <-]. split; [exact HBq|]. intros ->.
    assert (Hpos0 : 0 <= fpos (f p0)) by (rewrite Hf0; exact Hpos).
    destruct (getline_loop_spec (S (length (fdata (f p0)))) p0 0 false false
                (conj Hlen0 (conj (conj (Z.le_refl 0) Hmax0) Hpos0)))
      as (ex & q1 & n1 & bS1 & Erun' & _ & _ & _ & _ & Hex & _).
    { unfold unread. rewrite length_skipn. lia. }
    rewrite Erun in Erun'. injection Erun' as <- _ _ _. exfalso. now apply Hex.
  - set (q1 := if bS' then _ else q').
    assert (H1 : maxRow q1 <= B /\
                 (bEol = true -> zRow q1 <> None -> strlen (row q1) 0 < maxRow q1)).
    { unfold q1. destruct bS'.
      - cbn [maxRow set_maxRow]. split; [lia|]. intros -> Hz.
        destruct (Hk eq_refl) as (k & Hk1 & Hk2).
        autorewrite with csv. cbn [zRow set_zRow set_maxRow] in *.
        destruct (sqlite3_alloc (db q') (n' + 1)); [|congruence].
        autorewrite with csv.
        assert (Hnth : nth (Z.to_nat k) (realloc_cells (row q') (n' + 1) (fresh_byte (db q')))
                           NUL = NUL).
        { unfold realloc_cells. rewrite app_nth1 by (rewrite length_firstn; lia).
          rewrite nth_firstn.
          replace (Z.to_nat k <? Z.to_nat (n' + 1))%nat with true
            by (symmetry; apply Nat.ltb_lt; lia).
          exact Hk2. }
        apply cstr_length_nul in Hnth. unfold strlen, string_at.
        cbn [Z.to_nat skipn]. lia.
      - split; [exact HBq|]. intros -> _.
        destruct (Hk eq_refl) as (k & Hk1 & Hk2).
        apply cstr_length_nul in Hk2. unfold strlen, string_at.
        cbn [Z.to_nat skipn]. lia. }
    destruct H1 as [HB1 Hstr].
    destruct bEol.
    + destruct (zRow q1) eqn:Ez1; intros [= <- <-]; (split; [exact HB1|]);
        [intros _; apply Hstr; [reflexivity | congruence] | discriminate].
    + intros [= <- <-]. split; [exact HB1 | discriminate].
Qed.

(** ** The columns of a parsed row lie in the row buffer *)

Lemma column_stored_kept (p q : CSV) (s s' j : Z) :
  column_stored p s j -> s <= s' ->
  aget (cols q) j None = aget (cols p) j None ->
  length (row q) = length (row p) ->
  (forall e, 0 <= e -> load (row p) e = NUL -> load (row q) e = NUL) ->
  column_stored q s' j.
Proof.
  intros (off & e & Hc & Ho & He & Hl & Hn) Hs Hcols Hlen Hnul.
  exists off, e. rewrite Hcols, Hlen. repeat split; try assumption; try lia.
  apply Hnul; [lia | exact Hn].
Qed.

(** The parsing loop, when it ends with the row parsed: the columns it has
    counted are within the column array, and each of them points into the
    row buffer, at a string that ends within the buffer. *)
Lemma parse_cols_stored (fuel : nat) :
  forall p s nC,
    0 <= s -> (length (row p) - Z.to_nat s < fuel)%nat ->
    0 <= nC < maxCol p -> Z.of_nat (length (cols p)) = maxCol p ->
    (forall j, 0 <= j < nC -> column_stored p s j) ->
    exists st r q,
      parse_cols fuel p s nC = Some (st, r, q) /\
      (st = Parsed ->
       nC < nCol q <= maxCol q /\ Z.of_nat (length (cols q)) = maxCol q /\
       forall j, 0 <= j < nCol q -> column_in_row q j).
Proof.
  induction fuel as [|fuel IH]; intros p s nC Hs Hfuel HnC Hlc Hst; [lia|].
  cbn [parse_cols].
  match goal with |- context [match ?c with Some _ => _ | None => _ end] =>
    assert (Hc : (exists q, c = Some (inl q)) \/
                 (exists p1 s1 off,
                     c = Some (inr (p1, s1)) /\ s <= s1 /\
                     length (row p1) = length (row p) /\
                     (forall e, 0 <= e -> load (row p) e = NUL -> load (row p1) e = NUL) /\
                     maxCol p1 = maxCol p /\ length (cols p1) = length (cols p) /\
                     (forall j, 0 <= j < nC -> aget (cols p1) j None = aget (cols p) j None) /\
                     aget (cols p1) nC None = Some off /\ 0 <= off <= s1));
    [|destruct Hc as [(q & ->)|(p1 & s1 & off & -> & Hs1 & Hl1 & Hn1 & Hm1 & Hlc1 & Hlow1
                                & Hcol1 & Hoff1)]]
  end.
  { destruct (load (row p) s =? DQUOTE)%char.
    - autorewrite with csv.
      destruct (closing_quote_spec (S (length (row p))) (row p) nC
                  (aset (escs p) nC 0) (s + 1)) as (res & esc' & -> & _ & Hres); try lia.
      destruct res as [s1|]; [right | left; eauto].
      specialize (Hres s1 eq_refl).
      exists (set_zRow
                (set_aEscapedQuotes
                   (set_aEscapedQuotes (set_aCols p (Some (aset (cols p) nC (Some (s + 1)))))
                      (Some (aset (escs p) nC 0))) (Some esc'))
                (Some (aset (row p) s1 NUL))), (s1 + 1), (s + 1).
      autorewrite with csv. cbn [maxCol set_zRow set_aEscapedQuotes set_aCols].
      rewrite !length_aset.
      split; [reflexivity|]. split; [lia|]. split; [reflexivity|].
      split; [intros e He; apply load_aset_nul; exact He|].
      split; [reflexivity|]. split; [reflexivity|].
      split; [intros j Hj; apply aget_aset_other; lia|].
      split; [apply aget_aset_same; lia | lia].
    - right.
      exists (set_aEscapedQuotes (set_aCols p (Some (aset (cols p) nC (Some s))))
                (Some (aset (escs p) nC 0))), s, s.
      autorewrite with csv. cbn [maxCol set_aEscapedQuotes set_aCols].
      rewrite !length_aset.
      split; [reflexivity|]. split; [lia|]. split; [reflexivity|].
      split; [auto|]. split; [reflexivity|]. split; [reflexivity|].
      split; [intros j Hj; apply aget_aset_other; lia|].
      split; [apply aget_aset_same; lia | lia]. }
  { do 3 eexists. split; [reflexivity | discriminate]. }
  destruct (strpbrk (row p1) s1 (zDelims p1)) as [s2|] eqn:E.
  2:{ do 3 eexists. split; [reflexivity | discriminate]. }
  apply strpbrk_bound in E; [|lia].
  set (p2 := set_zRow p1 (Some (aset (row p1) s2 NUL))).
  assert (Hrow2 : row p2 = aset (row p1) s2 NUL) by reflexivity.
  assert (Hst2 : forall j, 0 <= j < nC + 1 -> column_stored p2 (s2 + 1) j).
  { intros j Hj. destruct (Z.eq_dec j nC) as [->|Hne].
    - exists off, s2. change (cols p2) with (cols p1). rewrite Hrow2, length_aset.
      repeat split; try assumption; try lia.
      apply aget_aset_same. lia.
    - apply (column_stored_kept p _ s); [apply Hst; lia | lia | | |].
      + change (cols p2) with (cols p1). apply Hlow1. lia.
      + rewrite Hrow2, length_aset. exact Hl1.
      + intros e He Hn. rewrite Hrow2. apply load_aset_nul; [exact He|]. now apply Hn1. }
  assert (Hlen2 : length (row p2) = length (row p))
    by (rewrite Hrow2, length_aset; exact Hl1).
  assert (Hdone : forall q,
             cols q = cols p2 -> row q = row p2 -> maxCol q = maxCol p2 ->
             nCol q = nC + 1 ->
             nC < nCol q <= maxCol q /\ Z.of_nat (length (cols q)) = maxCol q /\
             forall j, 0 <= j < nCol q -> column_in_row q j).
  { intros q Hcq Hrq Hmq Hnq. rewrite Hnq, Hmq, Hcq.
    change (maxCol p2) with (maxCol p1). change (cols p2) with (cols p1).
    rewrite Hm1, Hlc1. split; [lia|]. split; [exact Hlc|].
    intros j Hj. unfold column_in_row.
    apply (column_stored_kept p2 _ (s2 + 1)); [now apply Hst2 | | | |].
    - rewrite Hrq, Hrow2, length_aset. lia.
    - now rewrite Hcq.
    - now rewrite Hrq.
    - intros e _ He. now rewrite Hrq. }
  destruct (load (row p1) s2 =? LF)%char.
  { do 3 eexists. split; [reflexivity|]. intros _. now apply Hdone. }
  match goal with |- context [match ?g with inl _ => _ | inr _ => _ end] =>
    assert (Hg : (exists st q, g = inl (st, q) /\ st <> Parsed) \/
                 (exists p3, g = inr p3 /\ row p3 = row p2 /\
                             nC + 1 < maxCol p3 /\
                             Z.of_nat (length (cols p3)) = maxCol p3 /\
                             (forall j, 0 <= j < nC + 1 ->
                                        aget (cols p3) j None = aget (cols p2) j None)));
    [|destruct Hg as [(st & q & -> & Hstq)|(p3 & -> & Hrow3 & Hm3 & Hlc3 & Hlow3)]]
  end.
  { change (maxCol p2) with (maxCol p1). change (db p2) with (db p1).
    destruct (nC + 1 >=? maxCol p1) eqn:Eg; rewrite Z.geb_leb in Eg.
    - apply Z.leb_le in Eg.
      destruct (nC + 1 >=? limit_column (db p1));
        [left; do 2 eexists; split; [reflexivity | discriminate]|].
      destruct (sqlite3_alloc (db p1) (sizeof_ptr * (nC + 1 + 5))); cbn [negb];
        [|left; do 2 eexists; split; [reflexivity | discriminate]].
      match goal with |- context [if ?c then _ else _] => destruct c end;
        [left; do 2 eexists; split; [reflexivity | discriminate]|].
      right. eexists. split; [reflexivity|]. autorewrite with csv.
      cbn [maxCol set_aEscapedQuotes set_aCols set_maxCol].
      rewrite length_realloc_cells.
      split; [reflexivity|]. split; [lia|]. split; [lia|].
      intros j Hj. change (cols p2) with (cols p1).
      rewrite realloc_cells_grow by lia. apply aget_app_l. lia.
    - apply Z.leb_gt in Eg. right. exists p2.
      change (maxCol p2) with (maxCol p1). change (cols p2) with (cols p1).
      repeat split; auto; lia. }
  { do 3 eexists. split; [reflexivity|]. intros ->. now exfalso. }
  destruct (load (row p3) (s2 + 1) =? NUL)%char.
  { do 3 eexists. split; [reflexivity|]. intros _.
    autorewrite with csv. cbn [nCol maxCol set_nCol].
    split; [lia|]. split; [exact Hlc3|].
    intros j Hj. unfold column_in_row. autorewrite with csv.
    apply (column_stored_kept p2 _ (s2 + 1)); [now apply Hst2 | | | |];
      autorewrite with csv.
    - rewrite Hrow3, Hrow2, length_aset. lia.
    - now apply Hlow3.
    - now rewrite Hrow3.
    - intros e _ He. now rewrite Hrow3. }
  destruct (IH p3 (s2 + 1) (nC + 1)) as (st & r & q & -> & Hq); try lia.
  { rewrite Hrow3, Hlen2. lia. }
  { intros j Hj. apply (column_stored_kept p2 _ (s2 + 1)); [now apply Hst2 | lia | | |].
    - now apply Hlow3.
    - now rewrite Hrow3.
    - intros e _ He. now rewrite Hrow3. }
  exists st, r, q. split; [reflexivity|]. intros Hp.
  destruct (Hq Hp) as (H1 & H2 & H3). repeat split; try assumption; lia.
Qed.

Lemma csvNext_stored (p : CSV) (c : CSVCursor) (r : next_result) :
  table_ready p -> eof p = 0 -> csvNext p c = Some r -> site r = Parsed ->
  1 <= nCol (vtab r) <= maxCol (vtab r) /\
  forall i, 0 <= i < nCol (vtab r) -> column_in_row (vtab r) i.
Proof.
  intros Hready He. unfold csvNext. rewrite He. cbn [Z.eqb negb].
  destruct (csv_getline_spec p (table_ready_ok p Hready))
    as (st & q & -> & Hfr & _ & _ & _ & _).
  destruct st; try (intros [= <-]; discriminate).
  set (q1 := if maxCol q <? 1 then _ else q).
  assert (H1 : aCols q1 <> None -> 1 <= maxCol q1 /\ Z.of_nat (length (cols q1)) = maxCol q1).
  { unfold q1. destruct (maxCol q <? 1) eqn:E.
    - assert (Hguess : 1 <= strlen (row q) 0 / 5 + 1).
      { unfold strlen. pose proof (Z.div_pos (Z.of_nat (length (string_at (row q) 0))) 5).
        lia. }
      cbv zeta. destruct (sqlite3_alloc (db q) (sizeof_ptr * _)).
      + intros _. autorewrite with csv. cbn [maxCol set_maxCol]. rewrite repeat_length. lia.
      + cbn [aCols set_aEscapedQuotes set_aCols]. congruence.
    - apply Z.ltb_ge in E. intros _. split; [exact E|].
      destruct Hfr as (_ & _ & _ & _ & _ & _ & _ & Hmc & Hac & _).
      destruct Hready as (_ & _ & Hcols). rewrite Hmc in E.
      destruct (Hcols E) as (_ & _ & Hl & _). unfold cols in *. now rewrite Hac, Hmc. }
  destruct (aCols q1) eqn:Ea; [|intros [= <-]; discriminate].
  destruct (aEscapedQuotes q1); [|intros [= <-]; discriminate].
  destruct (H1 ltac:(discriminate)) as [Hm Hl].
  destruct (parse_cols_stored (S (length (row q1))) q1 0 0) as (st & r0 & q2 & -> & Hq);
    try lia.
  intros [= <-] Hs. cbn [site vtab] in *.
  destruct (Hq Hs) as (Hn & _ & Hcols). split; [lia | exact Hcols].
Qed.

(** X6. When csvNext has left the cursor on a row (it returns SQLITE_OK with
    the end-of-data flag clear), the row has at least one column and no
    more than the column arrays hold, and each column is a pointer into the
    row buffer, at a string that ends within the buffer: csvColumn gives a
    text or an error for it, never a null. *)
Theorem csvNext_columns_in_row (p : CSV) (c : CSVCursor) (r : next_result) :
  table_ready p -> eof p = 0 ->
  csvNext p c = Some r -> rc r = SQLITE_OK -> csvEof (vtab r) (cursor r) = 0 ->
  1 <= nCol (vtab r) <= maxCol (vtab r) /\
  forall i, 0 <= i < nCol (vtab r) ->
            column_in_row (vtab r) i /\
            snd (fst (csvColumn (vtab r) i)) <> result_null.
Proof.
  intros Hready He E Hrc Hf.
  assert (Hs : site r = Parsed).
  { destruct (csvNext_spec p c (table_ready_ok p Hready) He)
      as (r' & E' & _ & _ & _ & _ & _ & Hex).
    rewrite E in E'. injection E' as <-. unfold next_exit, csvEof in *.
    unfold SQLITE_OK, SQLITE_ERROR, SQLITE_NOMEM in *.
    destruct (site r); try reflexivity; try tauto; lia. }
  destruct (csvNext_stored p c r Hready He E Hs) as [Hn Hcols].
  split; [exact Hn|]. intros i Hi. split; [now apply Hcols|].
  destruct (Hcols i Hi) as (off & e & Hc & _). unfold csvColumn.
  replace ((i <? 0) || (i >=? nCol (vtab r))) with false.
  - rewrite Hc. destruct (negb _); [|discriminate].
    destruct (_ >? _); [discriminate|]. destruct (negb _); discriminate.
  - symmetry. apply orb_false_iff.
    split; [apply Z.ltb_ge | rewrite Z.geb_leb; apply Z.leb_gt]; lia.
Qed.

(** ** Scans of a file of unquoted rows *)

(** csvNext once csv_getline has given a row of unquoted fields ended by a
    newline: one column for each field. *)
Lemma csvNext_of_line (p q : CSV) (c : CSVCursor)
      (fields : list (list ascii)) (tail : list ascii) :
  table_ready p -> eof p = 0 ->
  delimiter_ok (cDelim p) = true ->
  fields <> [] ->
  Forall (unquoted (cDelim p)) fields ->
  never_fails (db p) ->
  Z.of_nat (length fields) <= limit_column (db p) ->
  csv_getline p = Some (LineRead, q) -> line_frame p q ->
  zRow q = Some (join (cDelim p) fields ++ LF :: NUL :: tail) ->
  exists r,
    csvNext p c = Some r /\ rc r = SQLITE_OK /\ site r = Parsed /\
    cursor r = mkCursor (fpos (f p)) /\
    table_ready (vtab r) /\ config_frame p (vtab r) /\ eof (vtab r) = 0 /\
    f (vtab r) = f q /\
    nCol (vtab r) = Z.of_nat (length fields) /\
    forall i, (i < length fields)%nat ->
              csvColumn (vtab r) (Z.of_nat i) = (SQLITE_OK, text (nth i fields []), []).
Proof.
  intros Hready He Hdelim Hne Hplain Halloc Hlimc Hget Hfr Hz.
  destruct (csvNext_spec p c (table_ready_ok p Hready) He)
    as (r & E & Hcfg & _ & Hcur & _ & _ & _).
  destruct (csvNext_ready p c r Hready Halloc E) as [Hreadyr _].
  exists r. split; [exact E|].
  revert E. unfold csvNext. rewrite He, Hget. cbn [Z.eqb negb].
  destruct Hfr as (Hdb & _ & _ & _ & Heq & Hd & _ & Hmc & Hac & Hae).
  assert (Hrowq : row q = join (cDelim p) fields ++ LF :: NUL :: tail)
    by (unfold row; now rewrite Hz).
  set (q1 := if maxCol q <? 1 then _ else q).
  assert (H1 : row q1 = row q /\ eof q1 = eof q /\ db q1 = db q /\ cDelim q1 = cDelim q /\
               aCols q1 = Some (cols q1) /\ aEscapedQuotes q1 = Some (escs q1) /\
               Z.of_nat (length (cols q1)) = maxCol q1 /\
               Z.of_nat (length (escs q1)) = maxCol q1 /\ 1 <= maxCol q1 /\ f q1 = f q).
  { unfold q1. destruct (maxCol q <? 1) eqn:E.
    - assert (Hguess : 1 <= strlen (row q) 0 / 5 + 1).
      { unfold strlen. pose proof (Z.div_pos (Z.of_nat (length (string_at (row q) 0))) 5).
        lia. }
      cbv zeta. unfold sqlite3_alloc. unfold never_fails in Halloc.
      rewrite Hdb, !Halloc by (unfold sizeof_ptr, sizeof_int; lia).
      replace (0 <? sizeof_ptr * (strlen (row q) 0 / 5 + 1)) with true
        by (symmetry; apply Z.ltb_lt; unfold sizeof_ptr; lia).
      replace (0 <? sizeof_int * (strlen (row q) 0 / 5 + 1)) with true
        by (symmetry; apply Z.ltb_lt; unfold sizeof_int; lia).
      cbn [andb]. autorewrite with csv.
      cbn [eof db cDelim maxCol aCols aEscapedQuotes f
           set_maxCol set_aEscapedQuotes set_aCols].
      rewrite !repeat_length. repeat split; try lia; exact Hdb.
    - apply Z.ltb_ge in E. destruct Hready as (_ & _ & Hcols).
      rewrite Hmc in E. destruct (Hcols E) as (Ha & Hb' & Hl1 & Hl2).
      unfold cols, escs in *. rewrite Hac, Hae, Hmc.
      destruct (aCols p); [|congruence]. destruct (aEscapedQuotes p); [|congruence].
      repeat split; auto. }
  destruct H1 as (Hrow1 & He1 & Hdb1 & Hd1 & Ha1 & Hae1 & Hl1 & Hl2 & Hm1 & Hf1).
  rewrite Ha1, Hae1.
  destruct fields as [|fld flds]; [congruence|].
  destruct (parse_cols_spec (S (length (row q1))) q1 0 0 ltac:(lia) ltac:(lia))
    as (st' & r' & q' & Espec & Hcf & _).
  destruct (parse_cols_plain (S (length (row q1))) q1 0 0 [] fld flds tail)
    as (q2 & Eplain & HnC & He2 & _ & _ & Hcols);
    rewrite ?Hd1, ?Hdb1, ?Hd, ?Hdb; try assumption; try reflexivity; try lia.
  { rewrite Hrow1. exact Hrowq. }
  { rewrite Hrow1, Hrowq, length_app.
    pose proof (join_length (cDelim p) (fld :: flds)). cbn [length] in *. lia. }
  { cbn [length] in Hlimc. lia. }
  rewrite Eplain in Espec. injection Espec as <- <- <-.
  rewrite Eplain. intros [= <-]. cbn [rc site vtab cursor] in *.
  destruct Hcf as (_ & _ & Hf2 & _).
  split; [reflexivity|]. split; [reflexivity|]. split; [reflexivity|].
  split; [exact Hreadyr|]. split; [exact Hcfg|]. split; [congruence|].
  rewrite Hf2, Hf1. split; [reflexivity|].
  split; [rewrite HnC; cbn [length]; lia|].
  intros i Hi. apply csvColumn_column_is.
  - rewrite HnC. cbn [length] in *. lia.
  - assert (Hin : In (nth i (fld :: flds) []) (fld :: flds)) by (apply nth_In; exact Hi).
    rewrite Forall_forall in Hplain. destruct (Hplain _ Hin) as [Hbytes _].
    intros Hnul. rewrite Forall_forall in Hbytes. apply Hbytes in Hnul.
    unfold plain in Hnul. tauto.
  - apply (Hcols i). cbn [length] in Hi. lia.
Qed.

(** csvNext over a row of unquoted fields, with the table as it leaves it:
    ready for the next row, the file just after the newline. *)
Lemma csvNext_plain_row (p : CSV) (c : CSVCursor)
      (fields : list (list ascii)) (rest : list ascii) :
  table_ready p -> eof p = 0 ->
  delimiter_ok (cDelim p) = true ->
  fields <> [] ->
  Forall (unquoted (cDelim p)) fields ->
  unread (f p) = join (cDelim p) fields ++ LF :: rest ->
  never_fails (db p) ->
  2 * (Z.of_nat (length (join (cDelim p) fields)) + 1) + 300 <= limit_length (db p) ->
  Z.of_nat (length fields) <= limit_column (db p) ->
  exists r,
    csvNext p c = Some r /\ rc r = SQLITE_OK /\ site r = Parsed /\
    cursor r = mkCursor (fpos (f p)) /\
    table_ready (vtab r) /\ config_frame p (vtab r) /\ eof (vtab r) = 0 /\
    unread (f (vtab r)) = rest /\
    fpos (f (vtab r)) = fpos (f p) + Z.of_nat (length (join (cDelim p) fields)) + 1 /\
    nCol (vtab r) = Z.of_nat (length fields) /\
    forall i, (i < length fields)%nat ->
              csvColumn (vtab r) (Z.of_nat i) = (SQLITE_OK, text (nth i fields []), []).
Proof.
  intros Hready He Hdelim Hne Hplain Hun Halloc Hlim Hlimc.
  assert (Hquiet : quiet (cDelim p) None (join (cDelim p) fields) = true).
  { apply join_quiet; [exact Hplain|]. apply delimiter_ok_neq in Hdelim. tauto. }
  destruct (csv_getline_plain p _ rest Hready Hun
              (join_line_bytes _ _ Hplain Hdelim) Hquiet Halloc Hlim)
    as (q & tail & Hget & Hfr & Hz & _ & Hunq & Hposq).
  destruct (csvNext_of_line p q c fields tail Hready He Hdelim Hne Hplain Halloc Hlimc
              Hget Hfr Hz)
    as (r & E & Hrc & Hs & Hcur & Hreadyr & Hcfg & Her & Hf & Hn & Hcols).
  exists r. rewrite Hf. tauto.
Qed.

Lemma config_frame_trans (p q r : CSV) :
  config_frame p q -> config_frame q r -> config_frame p r.
Proof. unfold config_frame. intuition congruence. Qed.

Lemma read_row_plain (nDecl : nat) (p : CSV) (c : CSVCursor) (cur : list (list ascii)) :
  nCol p = Z.of_nat (length cur) ->
  (forall i, (i < length cur)%nat ->
             csvColumn p (Z.of_nat i) = (SQLITE_OK, text (nth i cur []), [])) ->
  read_row nDecl p c = mkRow (csvpos c) (plain_values nDecl cur).
Proof.
  intros Hn Hcols. unfold read_row, plain_values. cbn [csvRowid snd]. f_equal.
  apply map_ext. intros i. destruct (i <? length cur)%nat eqn:E.
  - apply Nat.ltb_lt in E. now rewrite Hcols.
  - apply Nat.ltb_ge in E. unfold csvColumn.
    replace (Z.of_nat i >=? nCol p) with true
      by (symmetry; rewrite Z.geb_leb; apply Z.leb_le; lia).
    now rewrite orb_true_r.
Qed.

Lemma plain_lines_length (d : ascii) (rows : list (list (list ascii))) :
  (length rows <= length (plain_lines d rows))%nat.
Proof.
  induction rows as [|x rows IH]; cbn [plain_lines flat_map length]; [lia|].
  fold (plain_lines d rows). rewrite !length_app. cbn [length]. lia.
Qed.

Lemma plain_rowb_plain_row (h : sqlite3) (d : ascii) (fields : list (list ascii)) :
  plain_rowb h d fields = true -> plain_row h d fields.
Proof.
  unfold plain_rowb, plain_row. rewrite !andb_true_iff, negb_true_iff.
  intros (((Hne & Hf) & Hl) & Hc). apply Nat.eqb_neq in Hne.
  apply Z.leb_le in Hl, Hc.
  split; [intros ->; now apply Hne|]. split; [|split; assumption].
  rewrite forallb_forall in Hf. apply Forall_forall. intros x Hx.
  apply unquotedb_unquoted. now apply Hf.
Qed.

Lemma plain_rows_ok (h : sqlite3) (d : ascii) (rows : list (list (list ascii))) :
  forallb (plain_rowb h d) rows = true -> Forall (plain_row h d) rows.
Proof.
  rewrite forallb_forall, Forall_forall. intros H x Hx.
  apply plain_rowb_plain_row. now apply H.
Qed.

(** The loop of a scan over rows of unquoted fields: with the cursor on the
    row [cur] and the rows [rows] still in the file, it shows [cur] and
    then each of [rows], and ends with SQLITE_OK at the end of the file. *)
Lemma scan_rows_plain (nDecl : nat) (rows : list (list (list ascii))) :
  forall fuel p c cur,
    table_ready p -> eof p = 0 -> delimiter_ok (cDelim p) = true -> never_fails (db p) ->
    Forall (plain_row (db p) (cDelim p)) rows ->
    unread (f p) = plain_lines (cDelim p) rows ->
    nCol p = Z.of_nat (length cur) ->
    (forall i, (i < length cur)%nat ->
               csvColumn p (Z.of_nat i) = (SQLITE_OK, text (nth i cur []), [])) ->
    (length rows + 2 <= fuel)%nat ->
    exists scanned t c',
      scan_rows fuel nDecl p c = Some (scanned, SQLITE_OK, t, c') /\
      map row_values scanned = map (plain_values nDecl) (cur :: rows) /\
      map row_id scanned = csvpos c :: row_offsets (cDelim p) (fpos (f p)) rows /\
      table_ready t /\ config_frame p t /\ eof t = -1.
Proof.
  induction rows as [|fields rows IH];
    intros fuel p c cur Hready He Hdelim Halloc Hrows Hun Hn Hcols Hfuel;
    (destruct fuel as [|fuel]; [cbn [length] in Hfuel; lia|]);
    cbn [scan_rows]; unfold csvEof; rewrite He; cbn [Z.eqb negb];
    rewrite (read_row_plain nDecl p c cur Hn Hcols).
  - destruct (csvNext_no_byte_left p c (table_ready_ok p Hready) He Hun)
      as (r & st & E & _ & Hrc & Hf & _ & Hcfg & _).
    rewrite E, Hrc. cbn [Z.eqb SQLITE_OK].
    destruct fuel as [|fuel]; [cbn [length] in Hfuel; lia|].
    cbn [scan_rows]. unfold csvEof. rewrite Hf. cbn [Z.eqb negb].
    do 3 eexists. split; [reflexivity|]. cbn [map row_values row_id row_offsets].
    split; [reflexivity|]. split; [reflexivity|].
    split; [now destruct (csvNext_ready p c r Hready Halloc E)|].
    split; [exact Hcfg | exact Hf].
  - cbn [plain_lines flat_map] in Hun. fold (plain_lines (cDelim p) rows) in Hun.
    rewrite <- app_assoc in Hun. cbn [app] in Hun.
    pose proof (Forall_inv Hrows) as (Hne & Hplain & Hlim & Hlimc).
    destruct (csvNext_plain_row p c fields _ Hready He Hdelim Hne Hplain Hun Halloc Hlim Hlimc)
      as (r & E & Hrc & _ & Hcur & Hreadyr & Hcfg & Her & Hunr & Hposr & Hnr & Hcolsr).
    rewrite E, Hrc. cbn [Z.eqb SQLITE_OK].
    destruct Hcfg as (Hdb & Hb & Hfd & Hoff & Hd).
    destruct (IH fuel (vtab r) (cursor r) fields Hreadyr Her) as
      (scanned & t & c' & -> & Hvals & Hids & Hreadyt & Hcfgt & Het).
    + now rewrite Hd.
    + now rewrite Hdb.
    + rewrite Hdb, Hd. now apply Forall_inv_tail in Hrows.
    + now rewrite Hd.
    + exact Hnr.
    + exact Hcolsr.
    + cbn [length] in Hfuel. lia.
    + do 3 eexists. split; [reflexivity|]. cbn [map row_values row_id row_offsets].
      rewrite Hvals, Hids, Hcur, Hd, Hposr. cbn [csvpos map].
      split; [reflexivity|]. split; [reflexivity|]. split; [exact Hreadyt|].
      split; [|exact Het].
      apply (config_frame_trans _ (vtab r)); [|exact Hcfgt].
      unfold config_frame. tauto.
Qed.

Lemma rewound_ready (p : CSV) :
  table_ready p -> 0 <= offsetFirstRow p ->
  table_ready (rewound p) /\ eof (rewound p) = 0 /\
  f (rewound p) = mkFILE (fdata (f p)) (offsetFirstRow p) /\
  db (rewound p) = db p /\ cDelim (rewound p) = cDelim p /\
  nBusy (rewound p) = nBusy p + 1 /\ offsetFirstRow (rewound p) = offsetFirstRow p.
Proof.
  intros (Hpos & Hrow & Hcols) Hoff.
  assert (Hf : f (rewound p) = mkFILE (fdata (f p)) (offsetFirstRow p)).
  { unfold rewound, csv_seek, fseek. cbn.
    replace (offsetFirstRow p <? 0) with false by (symmetry; apply Z.ltb_ge; lia).
    reflexivity. }
  split; [|repeat split; try reflexivity; exact Hf].
  unfold table_ready. rewrite Hf. cbn [fpos].
  split; [exact Hoff|]. split; [exact Hrow | exact Hcols].
Qed.

(** A full scan of a table whose file holds, from the start of the data
    on, rows of unquoted fields only. *)
Lemma full_scan_plain (nDecl : nat) (p : CSV) (c : CSVCursor)
      (rows : list (list (list ascii))) :
  table_ready p -> never_fails (db p) -> delimiter_ok (cDelim p) = true ->
  1 <= nBusy p -> 0 <= offsetFirstRow p ->
  skipn (Z.to_nat (offsetFirstRow p)) (fdata (f p)) = plain_lines (cDelim p) rows ->
  Forall (plain_row (db p) (cDelim p)) rows ->
  exists scanned t c',
    full_scan nDecl p c = Some (scanned, SQLITE_OK, Some t, c') /\
    map row_values scanned = map (plain_values nDecl) rows /\
    map row_id scanned = row_offsets (cDelim p) (offsetFirstRow p) rows /\
    table_ready t /\ config_frame p t.
Proof.
  intros Hready Halloc Hdelim Hbusy Hoff Hdata Hrows.
  destruct (rewound_ready p Hready Hoff) as (Hready0 & He0 & Hf0 & Hdb0 & Hd0 & Hb0 & Ho0).
  assert (Hun0 : unread (f (rewound p)) = plain_lines (cDelim p) rows).
  { rewrite Hf0. exact Hdata. }
  unfold full_scan, csvFilter. cbv zeta.
  change (csv_seek (set_eof (csvReference p) 0) _) with (rewound p).
  assert (Hrel : forall q, nBusy q = nBusy p + 1 ->
                           snd (csvRelease q) = Some (set_nBusy q (nBusy q - 1))).
  { intros q Hq. unfold csvRelease. cbn [nBusy set_nBusy].
    replace (nBusy q - 1 <? 1) with false by (symmetry; apply Z.ltb_ge; lia).
    reflexivity. }
  destruct rows as [|fields rows].
  - destruct (csvNext_no_byte_left (rewound p) c (table_ready_ok _ Hready0) He0 Hun0)
      as (r & st & E & _ & Hrc & Hf & _ & Hcfg & _).
    rewrite E. cbn [fvtab frc fcursor]. destruct Hcfg as (Hdb & Hb & Hfd & Ho & Hd).
    rewrite (Hrel (vtab r)) by lia. rewrite Hrc. cbn [Z.eqb SQLITE_OK].
    cbn [scan_rows]. unfold csvEof. cbn [eof set_nBusy]. rewrite Hf. cbn [Z.eqb negb].
    do 3 eexists. split; [reflexivity|]. split; [reflexivity|]. split; [reflexivity|].
    destruct (csvNext_ready _ c r Hready0 ltac:(rewrite Hdb0; exact Halloc) E) as [Hr _].
    split.
    + eapply table_ready_frame; [exact Hr| | | | | |]; reflexivity.
    + unfold config_frame. cbn. rewrite Hdb, Hb, Hfd, Ho, Hd, Hf0. cbn.
      repeat split; try congruence; lia.
  - cbn [plain_lines flat_map] in Hun0. fold (plain_lines (cDelim p) rows) in Hun0.
    rewrite <- app_assoc in Hun0. cbn [app] in Hun0.
    pose proof (Forall_inv Hrows) as (Hne & Hplain & Hlim & Hlimc).
    destruct (csvNext_plain_row (rewound p) c fields (plain_lines (cDelim p) rows)
                Hready0 He0) as
      (r & E & Hrc & _ & Hcur & Hreadyr & Hcfg & Her & Hunr & Hposr & Hnr & Hcolsr);
      rewrite ?Hd0, ?Hdb0; try assumption.
    rewrite E. cbn [fvtab frc fcursor]. destruct Hcfg as (Hdb & Hb & Hfd & Ho & Hd).
    rewrite (Hrel (vtab r)) by lia. rewrite Hrc. cbn [Z.eqb SQLITE_OK].
    set (t := set_nBusy (vtab r) (nBusy (vtab r) - 1)).
    assert (Hreadyt : table_ready t)
      by (eapply table_ready_frame; [exact Hreadyr| | | | | |]; reflexivity).
    destruct (scan_rows_plain nDecl rows (S (S (length (fdata (f t))))) t (cursor r) fields
                Hreadyt Her) as (scanned & t' & c' & -> & Hvals & Hids & Hreadyt' & Hcfgt & _).
    + change (cDelim t) with (cDelim (vtab r)). now rewrite Hd, Hd0.
    + change (db t) with (db (vtab r)). now rewrite Hdb, Hdb0.
    + change (db t) with (db (vtab r)). change (cDelim t) with (cDelim (vtab r)).
      rewrite Hdb, Hdb0, Hd, Hd0. now apply Forall_inv_tail in Hrows.
    + change (f t) with (f (vtab r)). change (cDelim t) with (cDelim (vtab r)).
      now rewrite Hd, Hd0.
    + exact Hnr.
    + exact Hcolsr.
    + change (f t) with (f (vtab r)).
      pose proof (plain_lines_length (cDelim p) rows) as Hl.
      rewrite <- Hunr in Hl. unfold unread in Hl. rewrite length_skipn in Hl. lia.
    + do 3 eexists. split; [reflexivity|]. rewrite Hvals, Hids, Hcur.
      change (f t) with (f (vtab r)). change (cDelim t) with (cDelim (vtab r)).
      rewrite Hposr, Hd, Hd0, Hf0. cbn [csvpos fpos row_offsets map].
      split; [reflexivity|]. split; [reflexivity|]. split; [exact Hreadyt'|].
      apply (config_frame_trans _ t); [|exact Hcfgt].
      unfold config_frame, t. cbn. rewrite Hdb, Hb, Hfd, Ho, Hd, Hf0. cbn.
      repeat split; try congruence; lia.
Qed.

(** ** xCreate and xConnect *)

Lemma zFile_of_some (a : list ascii) : a <> [SQUOTE] -> exists z, zFile_of a = Some z.
Proof.
  intros Ha. unfold zFile_of.
  destruct (load a 0 =? SQUOTE)%char eqn:E; [|eauto].
  destruct (Z.of_nat (length a) <? 2) eqn:El; [|eauto].
  exfalso. apply Z.ltb_lt in El. apply Ascii.eqb_eq in E.
  destruct a as [|c [|c' a]]; cbn [length] in El; try lia.
  - discriminate.
  - apply Ha. cbn in E. now subst.
Qed.

(** When csv_getline gives no row, csvNext leaves the number of columns. *)
Lemma csvNext_no_line_nCol (p : CSV) (c : CSVCursor) (r : next_result) (st : line_status) :
  table_ok p -> eof p = 0 -> csvNext p c = Some r -> site r = NoLine st ->
  nCol (vtab r) = nCol p.
Proof.
  intros Hok He. unfold csvNext. rewrite He. cbn [Z.eqb negb].
  destruct (csv_getline_spec p Hok) as (st' & q & -> & Hfr & _).
  assert (Hn : nCol q = nCol p) by (unfold line_frame in Hfr; tauto).
  destruct st'; try (intros [= <-] _; exact Hn).
  set (q1 := if maxCol q <? 1 then _ else q).
  destruct (aCols q1); [destruct (aEscapedQuotes q1)|];
    try (intros [= <-]; discriminate).
  destruct (parse_cols_spec (S (length (row q1))) q1 0 0 ltac:(lia) ltac:(lia))
    as (st' & r' & q' & -> & _ & Hex).
  intros [= <-] Hs. cbn [site] in Hs. subst st'. now exfalso.
Qed.

(** The table csvInit starts from, over the bytes of the file. *)
Lemma first_row_read (h : sqlite3) (content : list ascii) (d : ascii) :
  let p0 := mkCSV h 1 (mkFILE content 0) 0 0 0 None d 0 0 None None in
  exists r,
    csvNext p0 (mkCursor 0) = Some r /\ config_frame p0 (vtab r) /\ table_ok (vtab r) /\
    (rc r = SQLITE_OK -> 1 <= nCol (vtab r) ->
     site r = Parsed /\ eof (vtab r) = 0 /\
     forall i, 0 <= i < nCol (vtab r) -> column_in_row (vtab r) i).
Proof.
  intros p0.
  assert (Hready : table_ready p0) by (unfold table_ready, p0; cbn; repeat split; lia).
  assert (Hok : table_ok p0) by now apply table_ready_ok.
  destruct (csvNext_spec p0 (mkCursor 0) Hok eq_refl) as (r & E & Hcfg & Hokr & _ & _ & _ & Hex).
  exists r. split; [exact E|]. split; [exact Hcfg|]. split; [exact Hokr|].
  intros Hrc Hn.
  assert (Hs : site r = Parsed).
  { unfold next_exit in Hex. unfold SQLITE_OK, SQLITE_ERROR, SQLITE_NOMEM in *.
    destruct (site r) as [|st| | | | | |] eqn:Es; try reflexivity; try tauto; try lia.
    pose proof (csvNext_no_line_nCol p0 _ r st Hok eq_refl E Es) as H.
    cbn in H. lia. }
  split; [exact Hs|]. unfold next_exit in Hex. rewrite Hs in Hex.
  split; [tauto|]. now apply (csvNext_stored p0 (mkCursor 0) r Hready eq_refl E Hs).
Qed.

(** The loop that builds the schema does not stop at a NULL column when
    the columns it visits are not NULL. *)
Lemma schema_loop_columns (env : environment) (p : CSV) (hdr : bool) (todo : nat) :
  forall i zSql,
    0 <= i ->
    (forall j, i <= j < i + Z.of_nat todo -> aget (cols p) j None <> None) ->
    schema_loop env p hdr todo i zSql <> NullColumn.
Proof.
  induction todo as [|todo IH]; intros i zSql Hi Hcols; cbn [schema_loop]; [discriminate|].
  destruct zSql as [zTmp|]; [|discriminate].
  destruct hdr.
  - destruct (aget (cols p) i None) eqn:E; [|exfalso; apply (Hcols i); [lia | exact E]].
    apply IH; [lia|]. intros j Hj. apply Hcols. lia.
  - apply IH; [lia|]. intros j Hj. apply Hcols. lia.
Qed.

Lemma csvInit_schema_sites (env : environment) (hdr : bool) (p : CSV) :
  (forall j, 0 <= j < nCol p -> aget (cols p) j None <> None) ->
  let r := csvInit_schema env hdr p in
  isite r <> NoColumnName /\
  (isite r = Created /\ irc r = SQLITE_OK /\ ppVtab r = Some p /\ pzErr r = None \/
   isite r <> Created /\ irc r <> SQLITE_OK /\ ppVtab r = None).
Proof.
  intros Hcols. unfold csvInit_schema.
  pose proof (schema_loop_columns env p hdr (Z.to_nat (nCol p)) 0
                (sqlite3_mprintf env (bytes "CREATE TABLE x(")) ltac:(lia)) as Hloop.
  destruct (schema_loop _ _ _ _ _ _) as [|[zSql|]].
  - exfalso. apply Hloop; [|reflexivity]. intros j Hj. apply Hcols. lia.
  - destruct (negb _); cbn; (split; [discriminate|]);
      [right | left]; repeat split; discriminate.
  - cbn. split; [discriminate|]. right. repeat split; discriminate.
Qed.

(** X7. csvInit returns for every argument vector but one whose file name is a
    single quote and nothing else.  xCreate and xConnect do the same.  The
    result code is SQLITE_OK exactly when a table is handed back, and then
    no error message is set; the table has one user, the end-of-data flag
    clear, at least one column, the delimiter the arguments ask for, and
    its data start after the first row exactly when USE_HEADER_ROW was
    given.  The return for a header column without name is never taken. *)
Theorem csvInit_argv_returns (env : environment) (h : sqlite3) (argv : list (list ascii))
        (isCreate : bool) :
  arg argv 3 <> [SQUOTE] ->
  exists r,
    csvInit_argv env h argv isCreate = Some r /\
    csvCreate env h argv = csvConnect env h argv /\
    isite r <> NoColumnName /\
    (irc r = SQLITE_OK \/ irc r = SQLITE_ERROR \/ irc r = SQLITE_NOMEM) /\
    (irc r = SQLITE_OK <-> ppVtab r <> None) /\
    (irc r = SQLITE_OK -> pzErr r = None) /\
    (forall t, ppVtab r = Some t ->
               db t = h /\ nBusy t = 1 /\ eof t = 0 /\ 1 <= nCol t /\
               cDelim t = cDelim_of argv /\ table_ok t /\
               offsetFirstRow t = if bUseHeaderRow_of argv then fpos (f t) else 0).
Proof.
  intros Hname. unfold csvInit_argv.
  assert (Hfail : forall s rc0 msg,
             s <> NoColumnName -> s <> Created ->
             rc0 = SQLITE_ERROR \/ rc0 = SQLITE_NOMEM ->
             exists r,
               Some (mkInit s rc0 None msg) = Some r /\
               csvCreate env h argv = csvConnect env h argv /\
               isite r <> NoColumnName /\
               (irc r = SQLITE_OK \/ irc r = SQLITE_ERROR \/ irc r = SQLITE_NOMEM) /\
               (irc r = SQLITE_OK <-> ppVtab r <> None) /\
               (irc r = SQLITE_OK -> pzErr r = None) /\
               (forall t, ppVtab r = Some t ->
                          db t = h /\ nBusy t = 1 /\ eof t = 0 /\ 1 <= nCol t /\
                          cDelim t = cDelim_of argv /\ table_ok t /\
                          offsetFirstRow t
                          = if bUseHeaderRow_of argv then fpos (f t) else 0)).
  { intros s rc0 msg Hs1 Hs2 Hrc. eexists. split; [reflexivity|]. cbn.
    split; [reflexivity|]. split; [exact Hs1|]. split; [tauto|].
    split; [|split; [|discriminate]];
      unfold SQLITE_OK, SQLITE_ERROR, SQLITE_NOMEM in *;
      [split; [lia | congruence] | lia]. }
  destruct (Z.of_nat (length argv) <? 4); [apply Hfail; auto; discriminate|].
  destruct (negb (sqlite3_alloc h _)); [apply Hfail; auto; discriminate|].
  destruct (zFile_of_some _ Hname) as (zFile & ->).
  destruct (fopen env zFile) as [content|]; [|apply Hfail; auto; discriminate].
  destruct (first_row_read h content (cDelim_of argv)) as (r & -> & Hcfg & Hok & Hrow).
  destruct (negb (rc r =? SQLITE_OK) || (nCol (vtab r) <=? 0)) eqn:E;
    [apply Hfail; auto; discriminate|].
  apply orb_false_iff in E as [E1 E2]. apply negb_false_iff, Z.eqb_eq in E1.
  apply Z.leb_gt in E2.
  destruct (Hrow E1 ltac:(lia)) as (_ & He & Hcols).
  set (t := if bUseHeaderRow_of argv then _ else vtab r).
  assert (Ht : db t = h /\ nBusy t = 1 /\ eof t = 0 /\ nCol t = nCol (vtab r) /\
               cDelim t = cDelim_of argv /\ table_ok t /\ cols t = cols (vtab r) /\
               offsetFirstRow t = if bUseHeaderRow_of argv then fpos (f t) else 0).
  { destruct Hcfg as (Hdb & Hb & _ & Hoff & Hd). cbn in Hdb, Hb, Hoff, Hd.
    unfold t. destruct (bUseHeaderRow_of argv); cbn; repeat split; auto; apply Hok. }
  destruct Ht as (Hdb & Hb & Het & Hn & Hd & Hokt & Hc & Hoff).
  destruct (csvInit_schema_sites env (bUseHeaderRow_of argv) t) as (Hs & Hcase).
  { intros j Hj. rewrite Hc. rewrite Hn in Hj.
    destruct (Hcols j Hj) as (off & e & -> & _). discriminate. }
  eexists. split; [reflexivity|]. split; [reflexivity|]. split; [exact Hs|].
  unfold SQLITE_OK, SQLITE_ERROR, SQLITE_NOMEM in *.
  destruct Hcase as [(_ & Hrc & Hv & Hmsg)|(_ & Hrc & Hv)]; rewrite Hv.
  - split; [tauto|]. split; [split; [discriminate | intros _; exact Hrc]|].
    split; [intros _; exact Hmsg|].
    intros t' [= <-]. split; [exact Hdb|]. split; [exact Hb|]. split; [exact Het|].
    split; [rewrite Hn; lia|]. split; [exact Hd|]. split; [exact Hokt | exact Hoff].
  - split.
    { unfold csvInit_schema. destruct (schema_loop _ _ _ _ _ _) as [|[z|]]; cbn; auto.
      destruct (negb _); cbn; auto. }
    split; [split; [intros H; now exfalso | congruence]|].
    split; [intros H; now exfalso | discriminate].
Qed.

(** ** A delimiter argument without delimiter *)

Lemma span_until_never (l : list ascii) : span_until (fun _ => false) l = None.
Proof.
  induction l as [|c l IH]; cbn [span_until]; [reflexivity|].
  destruct (c =? NUL)%char; [reflexivity|]. now rewrite IH.
Qed.

Lemma strpbrk_empty (buf : list ascii) (s : Z) : strpbrk buf s [] = None.
Proof. unfold strpbrk. cbn [existsb]. now rewrite span_until_never. Qed.

(** With NUL for delimiter the string of delimiters is empty, and the
    parsing loop finds the end of no column. *)
Lemma parse_cols_no_delimiter (fuel : nat) (p : CSV) (s nC : Z)
      (st : exit_site) (r : Z) (q : CSV) :
  cDelim p = NUL -> parse_cols fuel p s nC = Some (st, r, q) ->
  st = NoClosingQuote \/ st = NoColDelimiter.
Proof.
  intros Hd. destruct fuel as [|fuel]; [discriminate|]. cbn [parse_cols].
  assert (Hz : forall p', cDelim p' = NUL -> zDelims p' = [])
    by (intros p' H; unfold zDelims; now rewrite H).
  destruct (load (row p) s =? DQUOTE)%char.
  - destruct (closing_quote _ _ _ _ _) as [[[s1|] esc]|]; [| |discriminate].
    + rewrite Hz by exact Hd. rewrite strpbrk_empty. intros [= <- _ _]. now right.
    + intros [= <- _ _]. now left.
  - rewrite Hz by exact Hd. rewrite strpbrk_empty. intros [= <- _ _]. now right.
Qed.

Lemma csvNext_no_delimiter (p : CSV) (c : CSVCursor) (r : next_result) :
  cDelim p = NUL -> table_ok p -> eof p = 0 -> csvNext p c = Some r -> site r <> Parsed.
Proof.
  intros Hd Hok He. unfold csvNext. rewrite He. cbn [Z.eqb negb].
  destruct (csv_getline_spec p Hok) as (st & q & -> & Hfr & _).
  assert (Hdq : cDelim q = NUL) by (unfold line_frame in Hfr; intuition congruence).
  destruct st; try (intros [= <-]; discriminate).
  set (q1 := if maxCol q <? 1 then _ else q).
  assert (Hd1 : cDelim q1 = NUL).
  { unfold q1. destruct (maxCol q <? 1); [|exact Hdq]. cbv zeta.
    destruct (sqlite3_alloc (db q) (sizeof_ptr * _)); exact Hdq. }
  destruct (aCols q1); [destruct (aEscapedQuotes q1)|];
    try (intros [= <-]; discriminate).
  destruct (parse_cols _ q1 0 0) as [[[st r0] q2]|] eqn:E; [|discriminate].
  intros [= <-]. cbn [site].
  destruct (parse_cols_no_delimiter _ _ _ _ _ _ _ Hd1 E) as [-> | ->]; discriminate.
Qed.

(** X8. A delimiter argument that is empty, or one quote and nothing else,
    makes NUL the delimiter, and no table is then created, whatever the
    file holds: csvInit fails for want of memory or of the file, or reports
    that no columns were found. *)
Theorem csvInit_without_delimiter (env : environment) (h : sqlite3)
        (argv : list (list ascii)) (isCreate : bool) (r : init_result) :
  Z.of_nat (length argv) > 4 ->
  arg argv 4 = [] \/ arg argv 4 = [SQUOTE] ->
  csvInit_argv env h argv isCreate = Some r ->
  irc r <> SQLITE_OK /\ ppVtab r = None /\
  (isite r = NoTable \/ isite r = NoFile \/ isite r = NoColumns).
Proof.
  intros Hargc Harg.
  assert (Hd : cDelim_of argv = NUL).
  { unfold cDelim_of. replace (Z.of_nat (length argv) >? 4) with true
      by (symmetry; rewrite Z.gtb_ltb; apply Z.ltb_lt; lia).
    destruct Harg as [-> | ->]; reflexivity. }
  unfold csvInit_argv.
  replace (Z.of_nat (length argv) <? 4) with false by (symmetry; apply Z.ltb_ge; lia).
  destruct (negb (sqlite3_alloc h _)).
  { intros [= <-]. cbn. repeat split; auto; discriminate. }
  destruct (zFile_of (arg argv 3)) as [zFile|]; [|discriminate].
  destruct (fopen env zFile) as [content|].
  2:{ intros [= <-]. cbn. repeat split; auto; discriminate. }
  destruct (first_row_read h content (cDelim_of argv)) as (r0 & E & _ & _ & Hrow).
  rewrite E.
  destruct (negb (rc r0 =? SQLITE_OK) || (nCol (vtab r0) <=? 0)) eqn:Et.
  { intros [= <-]. cbn. repeat split; auto; discriminate. }
  exfalso. apply orb_false_iff in Et as [E1 E2].
  apply negb_false_iff, Z.eqb_eq in E1. apply Z.leb_gt in E2.
  destruct (Hrow E1 ltac:(lia)) as (Hs & _).
  revert Hs. eapply (csvNext_no_delimiter _ (mkCursor 0)); [| | |exact E];
    [exact Hd | | reflexivity].
  unfold table_ok. cbn. split; [lia | congruence].
Qed.

(** ** The schema statement *)

Lemma column_list_cons (x y : list ascii) (rest : list (list ascii)) :
  column_list (x :: y :: rest) = x ++ bytes ", " ++ column_list (y :: rest).
Proof. reflexivity. Qed.

(** The loop that builds the schema, when sqlite3_mprintf does not fail:
    it appends the definitions of the columns, separated by ", ", and the
    closing parenthesis. *)
Lemma schema_loop_closed (env : environment) (p : CSV) (hdr : bool)
      (names : list (list ascii)) :
  (forall s, mprintf_ok env s = true) ->
  forall i acc,
    names <> [] -> 0 <= i -> i + Z.of_nat (length names) = nCol p ->
    (forall k, (k < length names)%nat ->
               column_def hdr p (i + Z.of_nat k) = Some (nth k names [])) ->
    schema_loop env p hdr (length names) i (Some acc)
    = Schema (Some (acc ++ column_list names ++ bytes ");")).
Proof.
  intros Hm. induction names as [|x names IH]; intros i acc Hne Hi Hn Hdef; [congruence|].
  cbn [length schema_loop].
  assert (Hx : column_def hdr p i = Some x).
  { specialize (Hdef O ltac:(cbn [length]; lia)). cbn [nth] in Hdef.
    now rewrite Z.add_0_r in Hdef. }
  assert (Hstep : forall zTail,
             (if hdr
              then match aget (cols p) i None with
                   | None => NullColumn
                   | Some zCol =>
                       schema_loop env p hdr (length names) (i + 1)
                         (sqlite3_mprintf env
                            (acc ++ [DQUOTE] ++ string_at (row p) zCol ++ [DQUOTE] ++ zTail))
                   end
              else schema_loop env p hdr (length names) (i + 1)
                     (sqlite3_mprintf env (acc ++ bytes "col" ++ decimal (i + 1) ++ zTail)))
             = schema_loop env p hdr (length names) (i + 1) (Some (acc ++ x ++ zTail))).
  { intros zTail. unfold column_def in Hx. unfold sqlite3_mprintf.
    destruct hdr.
    - destruct (aget (cols p) i None) as [zCol|]; [|discriminate].
      rewrite Hm. cbn [option_map] in Hx.
      injection Hx as <-. unfold quoted_name. now rewrite <- !app_assoc.
    - rewrite Hm. injection Hx as <-. reflexivity. }
  rewrite Hstep. cbn [length] in Hn.
  destruct names as [|y names].
  - cbn [length] in *. replace (i + 1 <? nCol p) with false
      by (symmetry; apply Z.ltb_ge; lia).
    cbn [schema_loop column_list]. reflexivity.
  - replace (i + 1 <? nCol p) with true
      by (symmetry; apply Z.ltb_lt; cbn [length] in *; lia).
    rewrite IH; [|discriminate|lia|lia|].
    + rewrite column_list_cons, <- !app_assoc. reflexivity.
    + intros k Hk. specialize (Hdef (S k) ltac:(cbn [length] in *; lia)).
      change (nth (S k) (x :: y :: names) []) with (nth k (y :: names) []) in Hdef.
      rewrite <- Hdef. f_equal. lia.
Qed.

Lemma default_names_nth (n k : nat) :
  (k < n)%nat -> nth k (default_names n) [] = bytes "col" ++ decimal (Z.of_nat k + 1).
Proof.
  intros Hk. unfold default_names.
  rewrite (nth_indep _ [] (bytes "col" ++ decimal (Z.of_nat n + 1)))
    by (rewrite length_map, length_seq; exact Hk).
  rewrite (map_nth (fun i => bytes "col" ++ decimal (Z.of_nat i + 1)) (seq 0 n) n k).
  rewrite seq_nth by exact Hk. reflexivity.
Qed.

(** X9. The schema statement csvInit builds when sqlite3_mprintf does not fail
    and the row has a column at least.  Without USE_HEADER_ROW it declares
    the columns [col1], [col2], ... up to the number of columns of the
    first row; with it, it declares the fields of the first row, each
    between double quotes as the row buffer holds it. *)
Theorem schema_statement (env : environment) (p : CSV) :
  (forall s, mprintf_ok env s = true) -> 1 <= nCol p ->
  schema_loop env p false (Z.to_nat (nCol p)) 0
              (sqlite3_mprintf env (bytes "CREATE TABLE x("))
  = Schema (Some (schema_of (default_names (Z.to_nat (nCol p))))) /\
  (forall names,
      column_texts p = map Some names ->
      schema_loop env p true (Z.to_nat (nCol p)) 0
                  (sqlite3_mprintf env (bytes "CREATE TABLE x("))
      = Schema (Some (schema_of (map quoted_name names)))).
Proof.
  intros Hm Hn. unfold sqlite3_mprintf. split.
  - rewrite Hm.
    replace (Z.to_nat (nCol p)) with (length (default_names (Z.to_nat (nCol p)))) at 1
      by (unfold default_names; now rewrite length_map, length_seq).
    rewrite (schema_loop_closed env p false _ Hm); [reflexivity| |lia| |].
    + intros H. apply (f_equal (@length _)) in H. unfold default_names in H.
      rewrite length_map, length_seq in H. cbn [length] in H. lia.
    + unfold default_names. rewrite length_map, length_seq. lia.
    + intros k Hk. unfold default_names in Hk. rewrite length_map, length_seq in Hk.
      rewrite default_names_nth by exact Hk. reflexivity.
  - intros names Htexts. rewrite Hm.
    assert (Hlen : length names = Z.to_nat (nCol p)).
    { apply (f_equal (@length _)) in Htexts. unfold column_texts in Htexts.
      now rewrite !length_map, length_seq in Htexts. }
    rewrite <- Hlen. rewrite <- (length_map quoted_name names).
    rewrite (schema_loop_closed env p true _ Hm); [reflexivity| |lia| |].
    + intros H. apply (f_equal (@length _)) in H. rewrite length_map in H.
      cbn [length] in H. lia.
    + rewrite length_map. lia.
    + intros k Hk. rewrite length_map in Hk. unfold column_def. cbn [Z.add].
      assert (Hk' := f_equal (fun l => nth k l None) Htexts). cbn beta in Hk'.
      unfold column_texts in Hk'.
      rewrite (nth_indep _ None (option_map (string_at (row p))
                                   (aget (cols p) (Z.of_nat (Z.to_nat (nCol p))) None)))
        in Hk' by (rewrite length_map, length_seq; lia).
      rewrite (map_nth (fun i => option_map (string_at (row p))
                                   (aget (cols p) (Z.of_nat i) None))) in Hk'.
      rewrite seq_nth in Hk' by lia. cbn [Nat.add] in Hk'.
      rewrite (nth_indep _ None (Some [])) in Hk' by (rewrite length_map; lia).
      rewrite (map_nth Some) in Hk'.
      destruct (aget (cols p) (Z.of_nat k) None) as [zCol|]; [|discriminate].
      cbn [option_map] in *. injection Hk' as ->.
      f_equal. symmetry.
      rewrite (nth_indep (map quoted_name names) [] (quoted_name [])).
      * apply (map_nth quoted_name).
      * rewrite length_map. exact Hk.
Qed.

(** ** From CREATE VIRTUAL TABLE to the rows of a scan *)

Lemma csvColumn_text_inv (p : CSV) (i : Z) (s : list ascii) :
  csvColumn p i = (SQLITE_OK, text s, []) ->
  exists zCol, aget (cols p) i None = Some zCol /\ string_at (row p) zCol = s.
Proof.
  unfold csvColumn, text. destruct ((i <? 0) || (i >=? nCol p)); [discriminate|].
  destruct (aget (cols p) i None) as [zCol|]; [|discriminate].
  destruct (negb (aget (escs p) i 0 =? 0)).
  - destruct (_ >? _); [discriminate|]. destruct (negb _); discriminate.
  - intros [= <-]. now exists zCol.
Qed.

(** csvInit over a file whose first row is a row of unquoted fields, with
    a host that grants every request: the table it creates. *)
Lemma csvInit_argv_plain (env : environment) (h : sqlite3) (argv : list (list ascii))
      (isCreate : bool) (name : list ascii)
      (first : list (list ascii)) (rows : list (list (list ascii))) :
  let d := cDelim_of argv in
  let hdr := bUseHeaderRow_of argv in
  4 <= Z.of_nat (length argv) ->
  zFile_of (arg argv 3) = Some name ->
  fopen env name = Some (plain_lines d (first :: rows)) ->
  never_fails h -> (forall s, mprintf_ok env s = true) ->
  delimiter_ok d = true -> plain_row h d first ->
  declare_vtab env (schema_of (if hdr then map quoted_name first
                               else default_names (length first))) = SQLITE_OK ->
  exists t,
    csvInit_argv env h argv isCreate = Some (mkInit Created SQLITE_OK (Some t) None) /\
    table_ready t /\ db t = h /\ cDelim t = d /\ nBusy t = 1 /\
    fdata (f t) = plain_lines d (first :: rows) /\
    nCol t = Z.of_nat (length first) /\
    offsetFirstRow t = (if hdr then Z.of_nat (length (join d first)) + 1 else 0).
Proof.
  intros d hdr Hargc Hname Hopen Halloc Hm Hdelim (Hne & Hplain & Hlim & Hlimc) Hdecl.
  unfold csvInit_argv.
  replace (Z.of_nat (length argv) <? 4) with false by (symmetry; apply Z.ltb_ge; lia).
  unfold sqlite3_alloc at 1. rewrite Halloc by (unfold sizeof_CSV; lia).
  replace (0 <? _) with true by (symmetry; apply Z.ltb_lt; unfold sizeof_CSV; lia).
  cbn [andb negb]. rewrite Hname, Hopen. fold d. fold hdr.
  set (p0 := mkCSV h 1 (mkFILE (plain_lines d (first :: rows)) 0) 0 0 0 None d 0 0 None None).
  assert (Hready0 : table_ready p0) by (unfold table_ready, p0; cbn; repeat split; lia).
  destruct (csvNext_plain_row p0 (mkCursor 0) first (plain_lines d rows) Hready0 eq_refl)
    as (r & -> & Hrc & _ & _ & Hreadyr & Hcfg & Her & Hunr & Hposr & Hnr & Hcolsr);
    try assumption.
  { unfold unread, p0. cbn [f fpos fdata Z.to_nat skipn plain_lines flat_map].
    fold (plain_lines d rows). now rewrite <- app_assoc. }
  rewrite Hrc, Hnr. cbn [Z.eqb SQLITE_OK negb orb].
  replace (Z.of_nat (length first) <=? 0) with false
    by (symmetry; apply Z.leb_gt; destruct first; [congruence | cbn [length]; lia]).
  destruct Hcfg as (Hdb & Hb & Hfd & Hoff & Hd). unfold p0 in Hdb, Hb, Hfd, Hoff, Hd, Hposr.
  cbn [db nBusy f fdata fpos offsetFirstRow cDelim Z.add] in Hdb, Hb, Hfd, Hoff, Hd, Hposr.
  set (t := if hdr then _ else vtab r).
  assert (Ht : table_ready t /\ db t = h /\ cDelim t = d /\ nBusy t = 1 /\
               fdata (f t) = plain_lines d (first :: rows) /\
               nCol t = Z.of_nat (length first) /\ cols t = cols (vtab r) /\
               row t = row (vtab r) /\
               offsetFirstRow t = if hdr then Z.of_nat (length (join d first)) + 1 else 0).
  { unfold t. destruct hdr.
    - split; [eapply table_ready_frame; [exact Hreadyr| | | | | |]; reflexivity|].
      cbn. unfold csv_tell, ftell. repeat split; auto; lia.
    - split; [exact Hreadyr|]. repeat split; auto. }
  destruct Ht as (Hreadyt & Hdbt & Hdt & Hbt & Hfdt & Hnt & Hct & Hrt & Hofft).
  exists t. split; [|split; [exact Hreadyt|]; repeat split; assumption].
  unfold csvInit_schema. rewrite Hnt, Nat2Z.id. unfold sqlite3_mprintf at 1. rewrite Hm.
  set (names := if hdr then map quoted_name first else default_names (length first)) in *.
  assert (Hlen : length names = length first).
  { unfold names. destruct hdr; [apply length_map|].
    unfold default_names. now rewrite length_map, length_seq. }
  rewrite <- Hlen.
  rewrite (schema_loop_closed env t hdr names Hm); try lia.
  - fold (schema_of names). rewrite Hdecl. reflexivity.
  - intros H. rewrite H in Hlen. destruct first; [congruence | discriminate].
  - intros k Hk. rewrite Hlen in Hk. unfold column_def, names. cbn [Z.add].
    destruct hdr.
    + destruct (csvColumn_text_inv _ _ _ (Hcolsr k Hk)) as (zCol & Hc & Hs).
      rewrite Hct, Hrt, Hc. cbn [option_map]. rewrite Hs. f_equal. symmetry.
      rewrite (nth_indep (map quoted_name first) [] (quoted_name [])).
      * apply (map_nth quoted_name).
      * rewrite length_map. exact Hk.
    + now rewrite default_names_nth.
Qed.

(** X10. A table is created over a file of rows of unquoted fields and then
    scanned: whatever the lengths of the rows within the limits of the
    host, the scan shows each row of the file in order, the fields as
    texts, and ends with SQLITE_OK; with USE_HEADER_ROW the first row of
    the file is left out.  The file name may stand between single quotes;
    the schema declared names the columns [col1], [col2], ... or, with
    USE_HEADER_ROW, after the fields of the first row. *)
Theorem csvCreate_then_scan (env : environment) (h : sqlite3) (argv : list (list ascii))
        (name : list ascii) (first : list (list ascii)) (rows : list (list (list ascii)))
        (nDecl : nat) (c : CSVCursor) :
  let d := cDelim_of argv in
  let hdr := bUseHeaderRow_of argv in
  4 <= Z.of_nat (length argv) ->
  zFile_of (arg argv 3) = Some name ->
  fopen env name = Some (plain_lines d (first :: rows)) ->
  never_fails h -> (forall s, mprintf_ok env s = true) ->
  delimiter_ok d = true -> forallb (plain_rowb h d) (first :: rows) = true ->
  declare_vtab env (schema_of (if hdr then map quoted_name first
                               else default_names (length first))) = SQLITE_OK ->
  exists t scanned t' c',
    csvCreate env h argv = Some (mkInit Created SQLITE_OK (Some t) None) /\
    full_scan nDecl t c = Some (scanned, SQLITE_OK, Some t', c') /\
    map row_values scanned
    = map (plain_values nDecl) (if hdr then rows else first :: rows).
Proof.
  intros d hdr Hargc Hname Hopen Halloc Hm Hdelim Hrowsb Hdecl.
  pose proof (plain_rows_ok _ _ _ Hrowsb) as Hrows.
  destruct (csvInit_argv_plain env h argv true name first rows Hargc Hname Hopen Halloc Hm
              Hdelim (Forall_inv Hrows) Hdecl)
    as (t & E & Hready & Hdb & Hd & Hb & Hfd & _ & Hoff).
  fold d in Hd, Hfd, Hoff. fold hdr in Hoff.
  destruct (full_scan_plain nDecl t c (if hdr then rows else first :: rows))
    as (scanned & t' & c' & Escan & Hvals & _); try assumption.
  - now rewrite Hdb.
  - now rewrite Hd.
  - lia.
  - rewrite Hoff. destruct hdr; lia.
  - rewrite Hoff, Hfd, Hd. destruct hdr; [|reflexivity].
    cbn [plain_lines flat_map]. fold (plain_lines d rows).
    replace (Z.to_nat (Z.of_nat (length (join d first)) + 1))
      with (length (join d first ++ [LF])) by (rewrite last_length; lia).
    now rewrite skipn_app, skipn_all, Nat.sub_diag.
  - rewrite Hdb, Hd. destruct hdr; [now apply Forall_inv_tail in Hrows | exact Hrows].
  - exists t, scanned, t', c'. split; [exact E|]. split; [exact Escan|].
    rewrite Hvals. reflexivity.
Qed.

(** X11. A table whose file holds, from the start of the data on, rows of
    unquoted fields within the limits of the host, is scanned twice: both
    scans end with SQLITE_OK and show the same, each row of the file in
    order, with its fields as texts (nulls for the declared columns the
    row does not have) and the offset of the row in the file as its row
    identifier. *)
Theorem full_scan_plain_repeats (nDecl : nat) (p : CSV) (c : CSVCursor)
        (rows : list (list (list ascii))) :
  table_ready p -> never_fails (db p) -> delimiter_ok (cDelim p) = true ->
  1 <= nBusy p -> 0 <= offsetFirstRow p ->
  skipn (Z.to_nat (offsetFirstRow p)) (fdata (f p)) = plain_lines (cDelim p) rows ->
  forallb (plain_rowb (db p) (cDelim p)) rows = true ->
  exists scanned t c' again t' c'',
    full_scan nDecl p c = Some (scanned, SQLITE_OK, Some t, c') /\
    full_scan nDecl t c' = Some (again, SQLITE_OK, Some t', c'') /\
    map row_values scanned = map (plain_values nDecl) rows /\
    map row_id scanned = row_offsets (cDelim p) (offsetFirstRow p) rows /\
    map row_values again = map row_values scanned /\
    map row_id again = map row_id scanned.
Proof.
  intros Hready Halloc Hdelim Hbusy Hoff Hdata Hrowsb.
  pose proof (plain_rows_ok _ _ _ Hrowsb) as Hrows.
  destruct (full_scan_plain nDecl p c rows Hready Halloc Hdelim Hbusy Hoff Hdata Hrows)
    as (scanned & t & c' & E1 & Hv1 & Hi1 & Hreadyt & Hcfg).
  destruct Hcfg as (Hdb & Hb & Hfd & Ho & Hd).
  destruct (full_scan_plain nDecl t c' rows Hreadyt)
    as (again & t' & c'' & E2 & Hv2 & Hi2 & _); rewrite ?Hdb, ?Hd, ?Ho, ?Hfd;
    try assumption; try lia.
  exists scanned, t, c', again, t', c''. rewrite Hv1, Hi1, Hv2, Hi2, Hd, Ho. tauto.
Qed.

(** ** Rows that end with a carriage return and a newline *)

(** One turn of the loop of csv_getline over a line of less than 98 bytes
    that ends with a carriage return and a newline: fgets takes the line
    whole, and the two bytes of its end are made one newline. *)
Lemma getline_loop_crlf (fuel : nat) (p : CSV) (bS : bool) (line rest : list ascii) :
  Z.of_nat (length (row p)) = maxRow p -> 0 < maxRow p -> 0 <= fpos (f p) ->
  unread (f p) = line ++ CR :: LF :: rest ->
  Forall line_byte line -> quiet (cDelim p) None line = true ->
  never_fails (db p) ->
  Z.of_nat (length line) + 2 <= 99 -> 300 <= limit_length (db p) ->
  exists q bS' tail,
    getline_loop (S fuel) p 0 bS false
    = Some (LeftLoop true, q, Z.of_nat (length line) + 2, bS') /\
    line_frame p q /\ row q = line ++ LF :: NUL :: tail /\
    Z.of_nat (length (row q)) = maxRow q /\
    unread (f q) = rest /\ fpos (f q) = fpos (f p) + Z.of_nat (length line) + 2.
Proof.
  intros Hlen Hmax Hpos Hun Hbytes Hquiet Halloc Hshort Hlim.
  cbn [getline_loop].
  match goal with |- context [match ?g with inl _ => _ | inr _ => _ end] =>
    assert (Hg : exists p1 bS1,
               g = inr (p1, bS1) /\ line_frame p p1 /\ f p1 = f p /\
               Z.of_nat (length (row p1)) = maxRow p1 /\ 100 <= maxRow p1);
    [|destruct Hg as (p1 & bS1 & -> & Hfr & Hf & Hlen1 & Hroom)]
  end.
  { destruct (0 + 100 >? maxRow p) eqn:E.
    - rewrite Z.gtb_ltb in E. apply Z.ltb_lt in E.
      replace (maxRow p * 2 + 100 >=? limit_length (db p)) with false
        by (symmetry; rewrite Z.geb_leb; apply Z.leb_gt; lia).
      unfold sqlite3_alloc. rewrite Halloc by lia.
      replace (0 <? maxRow p * 2 + 100) with true by (symmetry; apply Z.ltb_lt; lia).
      cbn [andb negb]. do 2 eexists. split; [reflexivity|].
      autorewrite with csv. cbn [f db maxRow set_zRow set_maxRow].
      rewrite length_realloc_cells.
      repeat split; try (unfold line_frame; cbn; tauto); lia.
    - rewrite Z.gtb_ltb in E. apply Z.ltb_ge in E.
      exists p, bS. repeat split; try apply line_frame_refl; auto; lia. }
  rewrite Hf.
  assert (Hd1 : cDelim p1 = cDelim p) by (unfold line_frame in Hfr; tauto).
  destruct (line_bytes_not_in _ Hbytes) as (Hnul & Hlf & Hcr).
  set (chunk := line ++ [CR; LF]).
  assert (Htake : take_line (Z.to_nat (maxRow p1 - 0 - 1)) (unread (f p)) = chunk).
  { rewrite Hun.
    replace (line ++ CR :: LF :: rest) with ((line ++ [CR]) ++ LF :: rest)
      by (rewrite <- app_assoc; reflexivity).
    rewrite take_line_plain.
    - replace (Z.to_nat (maxRow p1 - 0 - 1) <=? length (line ++ [CR]))%nat with false
        by (symmetry; apply Nat.leb_gt; rewrite last_length; lia).
      unfold chunk. rewrite <- app_assoc. reflexivity.
    - intros H. apply in_app_or in H as [H|[H|[]]]; [now apply Hlf | discriminate]. }
  assert (Hne : chunk <> []) by (unfold chunk; destruct line; discriminate).
  rewrite (fgets_eq (maxRow p1 - 0) (f p) chunk ltac:(lia) Hne Htake).
  set (tail := skipn (Z.to_nat 0 + length (chunk ++ [NUL])) (row p1)).
  assert (Hbuf : write_at (row p1) 0 (chunk ++ [NUL]) = [] ++ chunk ++ NUL :: tail).
  { unfold write_at. fold tail. cbn [Z.to_nat firstn app]. now rewrite <- app_assoc. }
  autorewrite with csv. rewrite Hbuf. cbn [cDelim set_f set_zRow]. rewrite Hd1.
  assert (Hlchunk : length chunk = (length line + 2)%nat)
    by (unfold chunk; rewrite length_app; reflexivity).
  change 0 with (Z.of_nat (@length ascii [])) at 2.
  rewrite scan_quotes_plain.
  2:{ unfold chunk. intros H. apply in_app_or in H as [H|[H|[H|[]]]];
        [now apply Hnul | discriminate | discriminate]. }
  2:{ unfold chunk. change (last_byte []) with (@None ascii).
      rewrite quiet_app, Hquiet. cbn [quiet andb]. reflexivity. }
  2:{ rewrite !length_app. cbn [length]. lia. }
  cbn [length app]. rewrite Hlchunk. change (Z.of_nat 0) with 0.
  replace (0 + Z.of_nat (length line + 2)) with (Z.of_nat (length line) + 2) by lia.
  assert (Hshape : chunk ++ NUL :: tail = line ++ CR :: LF :: NUL :: tail)
    by (unfold chunk; rewrite <- app_assoc; reflexivity).
  rewrite Hshape.
  assert (Hl1 : load (line ++ CR :: LF :: NUL :: tail) (Z.of_nat (length line) + 2 - 1) = LF).
  { replace (line ++ CR :: LF :: NUL :: tail) with ((line ++ [CR]) ++ LF :: NUL :: tail)
      by (rewrite <- app_assoc; reflexivity).
    replace (Z.of_nat (length line) + 2 - 1) with (Z.of_nat (length (line ++ [CR])))
      by (rewrite last_length; lia).
    apply load_app_at. }
  assert (Hl2 : load (line ++ CR :: LF :: NUL :: tail) (Z.of_nat (length line) + 2 - 2) = CR).
  { replace (Z.of_nat (length line) + 2 - 2) with (Z.of_nat (length line)) by lia.
    apply load_app_at. }
  rewrite Hl1, Hl2.
  replace (Z.of_nat (length line) + 2 >? 0) with true
    by (symmetry; rewrite Z.gtb_ltb; apply Z.ltb_lt; lia).
  replace (Z.of_nat (length line) + 2 >? 1) with true
    by (symmetry; rewrite Z.gtb_ltb; apply Z.ltb_lt; lia).
  cbn [Ascii.eqb orb andb negb]. rewrite !Ascii.eqb_refl. cbn [orb andb].
  do 3 eexists. split; [reflexivity|].
  split; [apply (line_frame_trans _ p1); [exact Hfr|]; unfold line_frame; cbn; rewrite Hf; tauto|].
  autorewrite with csv.
  assert (Hrowq : aset (aset (line ++ CR :: LF :: NUL :: tail)
                             (Z.of_nat (length line) + 2 - 2) LF)
                       (Z.of_nat (length line) + 2 - 1) NUL
                  = line ++ LF :: NUL :: NUL :: tail).
  { replace (Z.of_nat (length line) + 2 - 2) with (Z.of_nat (length line)) by lia.
    rewrite aset_app_at.
    replace (line ++ LF :: LF :: NUL :: tail) with ((line ++ [LF]) ++ LF :: NUL :: tail)
      by (rewrite <- app_assoc; reflexivity).
    replace (Z.of_nat (length line) + 2 - 1) with (Z.of_nat (length (line ++ [LF])))
      by (rewrite last_length; lia).
    rewrite aset_app_at, <- app_assoc. reflexivity. }
  rewrite Hrowq. split; [reflexivity|].
  cbn [maxRow f fpos set_zRow set_f].
  split.
  { rewrite <- Hlen1. f_equal.
    rewrite <- (length_write_at (row p1) 0 (chunk ++ [NUL])).
    - rewrite Hbuf. cbn [app]. rewrite Hshape, !length_app. cbn [length]. lia.
    - rewrite length_app. cbn [length Z.to_nat]. lia. }
  split.
  { rewrite (unread_skip (f p) _ Hpos), Hun.
    replace (line ++ CR :: LF :: rest) with ((line ++ [CR; LF]) ++ rest)
      by (rewrite <- app_assoc; reflexivity).
    replace (length line + 2)%nat with (length (line ++ [CR; LF]))
      by (rewrite length_app; reflexivity).
    now rewrite skipn_app, skipn_all, Nat.sub_diag. }
  lia.
Qed.

Lemma csv_getline_crlf (p : CSV) (line rest : list ascii) :
  table_ready p ->
  unread (f p) = line ++ CR :: LF :: rest ->
  Forall line_byte line -> quiet (cDelim p) None line = true ->
  never_fails (db p) ->
  Z.of_nat (length line) + 2 <= 99 -> 300 <= limit_length (db p) ->
  exists q tail,
    csv_getline p = Some (LineRead, q) /\ line_frame p q /\
    zRow q = Some (line ++ LF :: NUL :: tail) /\
    unread (f q) = rest /\ fpos (f q) = fpos (f p) + Z.of_nat (length line) + 2.
Proof.
  intros (Hpos & Hrow & _) Hun Hbytes Hquiet Halloc Hshort Hlim. unfold csv_getline.
  set (p0 := if maxRow p <? 1 then _ else p).
  assert (H0 : line_frame p p0 /\ f p0 = f p /\ zRow p0 <> None /\
               Z.of_nat (length (row p0)) = maxRow p0 /\ 1 <= maxRow p0).
  { unfold p0. destruct (maxRow p <? 1) eqn:E.
    - unfold sqlite3_alloc. rewrite Halloc by lia. cbn [Z.ltb Z.compare andb].
      unfold line_frame. cbn. repeat split; try lia; discriminate.
    - apply Z.ltb_ge in E. destruct (Hrow E) as [Hz Hl].
      repeat split; try apply line_frame_refl; auto. }
  destruct H0 as (Hfr0 & Hf0 & Hz0 & Hlen0 & Hmax0).
  destruct (zRow p0) as [b0|] eqn:Ez0; [clear Hz0 | congruence].
  assert (Hdb0 : db p0 = db p) by (unfold line_frame in Hfr0; tauto).
  assert (Hd0 : cDelim p0 = cDelim p) by (unfold line_frame in Hfr0; tauto).
  destruct (getline_loop_crlf (length (fdata (f p0))) p0 false line rest)
    as (q & bS & tail & -> & Hfr & Hrowq & Hlenq & Hunq & Hposq);
    rewrite ?Hf0, ?Hdb0, ?Hd0; try assumption; try lia.
  assert (Hdbq : db q = db p) by (unfold line_frame in Hfr; intuition congruence).
  assert (Hfrq : line_frame p q) by exact (line_frame_trans _ _ _ Hfr0 Hfr).
  rewrite Hf0 in Hposq.
  assert (Hzq : zRow q = Some (row q)).
  { unfold row. destruct (zRow q) eqn:E; [reflexivity|].
    unfold row in Hrowq. rewrite E in Hrowq. destruct line; discriminate. }
  destruct bS.
  - unfold sqlite3_alloc. rewrite Hdbq, Halloc by lia.
    replace (0 <? Z.of_nat (length line) + 2 + 1) with true
      by (symmetry; apply Z.ltb_lt; lia).
    cbn [andb]. autorewrite with csv. cbn [zRow set_maxRow set_zRow].
    assert (Hcut : exists tail',
               realloc_cells (row q) (Z.of_nat (length line) + 2 + 1) (fresh_byte (db p))
               = line ++ LF :: NUL :: tail').
    { unfold realloc_cells. rewrite Hrowq.
      replace (line ++ LF :: NUL :: tail) with ((line ++ [LF; NUL]) ++ tail)
        by (rewrite <- app_assoc; reflexivity).
      rewrite firstn_app.
      rewrite firstn_all2 by (rewrite length_app; cbn [length]; lia).
      rewrite <- !app_assoc. cbn [app]. eexists. reflexivity. }
    destruct Hcut as (tail' & Hcut).
    do 2 eexists. split; [reflexivity|].
    split; [apply (line_frame_trans _ q); [exact Hfrq|]; unfold line_frame; cbn; tauto|].
    cbn [zRow f set_maxRow set_zRow]. rewrite Hcut.
    repeat split; auto; lia.
  - rewrite Hzq. exists q, tail. rewrite Hrowq in *.
    split; [reflexivity|]. split; [exact Hfrq|]. repeat split; auto; lia.
Qed.

(** X12. A row of unquoted fields of less than 98 bytes that ends with a
    carriage return and a newline is parsed as one that ends with the
    newline alone: csvNext returns SQLITE_OK, the row has one column for
    each field, csvColumn gives the text of each field, the last of them
    without the carriage return, and the file is left after the newline. *)
Theorem csvNext_crlf_row (p : CSV) (c : CSVCursor)
        (fields : list (list ascii)) (rest : list ascii) :
  table_ready p -> eof p = 0 ->
  delimiter_ok (cDelim p) = true ->
  fields <> [] ->
  forallb (unquotedb (cDelim p)) fields = true ->
  unread (f p) = join (cDelim p) fields ++ CR :: LF :: rest ->
  never_fails (db p) ->
  Z.of_nat (length (join (cDelim p) fields)) + 2 <= 99 ->
  300 <= limit_length (db p) ->
  Z.of_nat (length fields) <= limit_column (db p) ->
  exists r,
    csvNext p c = Some r /\ rc r = SQLITE_OK /\ csvEof (vtab r) (cursor r) = 0 /\
    unread (f (vtab r)) = rest /\
    nCol (vtab r) = Z.of_nat (length fields) /\
    forall i, (i < length fields)%nat ->
              csvColumn (vtab r) (Z.of_nat i)
              = (SQLITE_OK, result_text (nth i fields []) SQLITE_TRANSIENT, []).
Proof.
  intros Hready He Hdelim Hne Hb Hun Halloc Hshort Hlim Hlimc.
  assert (Hplain : Forall (unquoted (cDelim p)) fields).
  { rewrite forallb_forall in Hb. apply Forall_forall. intros x Hx.
    apply unquotedb_unquoted. now apply Hb. }
  assert (Hquiet : quiet (cDelim p) None (join (cDelim p) fields) = true).
  { apply join_quiet; [exact Hplain|]. apply delimiter_ok_neq in Hdelim. tauto. }
  destruct (csv_getline_crlf p _ rest Hready Hun (join_line_bytes _ _ Hplain Hdelim)
              Hquiet Halloc Hshort Hlim)
    as (q & tail & Hget & Hfr & Hz & Hunq & _).
  destruct (csvNext_of_line p q c fields tail Hready He Hdelim Hne Hplain Halloc Hlimc
              Hget Hfr Hz)
    as (r & E & Hrc & _ & _ & _ & _ & Her & Hf & Hn & Hcols).
  exists r. unfold csvEof. rewrite Hf. tauto.
Qed.

(** ** Rows with quoted fields *)

(** *** The scan of the line reader, on lists *)

Lemma scan_quotes_list (d : ascii) (fuel : nat) :
  forall l done tail q,
    ~ In NUL l -> (length l < fuel)%nat ->
    scan_quotes fuel (done ++ l ++ NUL :: tail) d (Z.of_nat (length done)) q
    = (Z.of_nat (length done) + Z.of_nat (length l), quote_state d (last_byte done) q l).
Proof.
  induction fuel as [|fuel IH]; intros l done tail q Hnul Hfuel; [lia|].
  cbn [scan_quotes]. destruct l as [|c l]; cbn [app].
  - rewrite load_app_at. cbn. f_equal. lia.
  - rewrite load_app_at.
    rewrite (eqb_false_of_neq c NUL) by (intros ->; apply Hnul; now left).
    assert (Hl : ~ In NUL l) by (intros H; apply Hnul; now right).
    cbn [length] in Hfuel.
    assert (Hshape : done ++ c :: l ++ NUL :: tail = (done ++ [c]) ++ l ++ NUL :: tail)
      by (rewrite <- app_assoc; reflexivity).
    assert (Hidx : Z.of_nat (length done) + 1 = Z.of_nat (length (done ++ [c])))
      by (rewrite last_length; lia).
    assert (Hnext : forall q',
               scan_quotes fuel (done ++ c :: l ++ NUL :: tail) d
                           (Z.of_nat (length done) + 1) q'
               = (Z.of_nat (length done) + Z.of_nat (length (c :: l)),
                  quote_state d (Some c) q' l)).
    { intros q'. rewrite Hshape, Hidx, IH by (assumption || lia).
      rewrite last_byte_snoc, last_length. cbn [length]. f_equal. lia. }
    cbn [quote_state].
    destruct (c =? DQUOTE)%char eqn:Ec; [|apply Hnext].
    destruct q.
    + (* inside a quoted column: the byte after the quote decides *)
      assert (Hload : load (done ++ c :: l ++ NUL :: tail) (Z.of_nat (length done) + 1)
                      = match l with [] => NUL | c' :: _ => c' end).
      { rewrite Hshape, Hidx. destruct l; cbn [app]; apply load_app_at. }
      rewrite Hload. destruct l as [|c' l'].
      * change (NUL =? DQUOTE)%char with false. cbv iota.
        rewrite Hnext. reflexivity.
      * destruct (c' =? DQUOTE)%char eqn:Ec'; [|apply Hnext].
        replace (done ++ c :: (c' :: l') ++ NUL :: tail)
          with ((done ++ [c; c']) ++ l' ++ NUL :: tail)
          by (rewrite <- app_assoc; reflexivity).
        replace (Z.of_nat (length done) + 1 + 1) with (Z.of_nat (length (done ++ [c; c'])))
          by (rewrite length_app; cbn [length]; lia).
        rewrite IH.
        -- replace (done ++ [c; c']) with ((done ++ [c]) ++ [c'])
             by (rewrite <- app_assoc; reflexivity).
           rewrite last_byte_snoc, !last_length. cbn [length]. f_equal. lia.
        -- intros H. apply Hl. now right.
        -- cbn [length] in Hfuel. lia.
    + rewrite before_quote_test.
      destruct (match last_byte done with None => true | Some x => (x =? d)%char end);
        apply Hnext.
Qed.

Lemma quote_state_prev (d : ascii) (prev prev' : option ascii) (l : list ascii) :
  quote_state d prev true l = quote_state d prev' true l.
Proof. destruct l; reflexivity. Qed.

Lemma last_byte_cons (c : ascii) (l : list ascii) :
  last_byte (c :: l) = Some (match last_byte l with None => c | Some e => e end).
Proof.
  destruct l as [|e l _] using rev_ind; [reflexivity|].
  change (c :: l ++ [e]) with ((c :: l) ++ [e]). now rewrite !last_byte_snoc.
Qed.

Lemma last_byte_app (u v : list ascii) :
  last_byte (u ++ v) = match last_byte v with None => last_byte u | Some c => Some c end.
Proof.
  destruct v as [|e v _] using rev_ind.
  - now rewrite app_nil_r.
  - now rewrite app_assoc, !last_byte_snoc.
Qed.

Lemma last_byte_in (l : list ascii) (c : ascii) : last_byte l = Some c -> In c l.
Proof.
  destruct l as [|e l _] using rev_ind; [discriminate|].
  rewrite last_byte_snoc. intros [= ->]. apply in_or_app. right. now left.
Qed.

(** Outside quoted columns, bytes among which no quote opens one leave the
    flag clear. *)
Lemma quote_state_quiet (d : ascii) (s y : list ascii) :
  forall prev,
    quiet d prev s = true ->
    quote_state d prev false (s ++ y)
    = quote_state d (match last_byte s with None => prev | Some c => Some c end) false y.
Proof.
  induction s as [|c s IH]; intros prev Hq; [reflexivity|].
  cbn [quiet] in Hq. apply andb_true_iff in Hq as [Hc Hq].
  cbn [app quote_state]. rewrite last_byte_cons.
  assert (Hstep : quote_state d (Some c) false (s ++ y)
                  = quote_state d (Some (match last_byte s with None => c | Some e => e end))
                                false y).
  { rewrite IH by exact Hq. now destruct (last_byte s). }
  destruct (c =? DQUOTE)%char; [|exact Hstep].
  cbn [andb] in Hc. apply negb_true_iff in Hc. rewrite Hc. exact Hstep.
Qed.

(** Inside a quoted column, a content whose quotes are doubled leaves the
    flag set. *)
Lemma quote_state_escaped (d : ascii) (a y : list ascii) :
  forall prev, quote_state d prev true (escape_quotes a ++ y) = quote_state d None true y.
Proof.
  induction a as [|c a IH]; intros prev; [apply quote_state_prev|].
  cbn [escape_quotes flat_map]. fold (escape_quotes a).
  destruct (c =? DQUOTE)%char eqn:Ec.
  - cbn [app quote_state]. rewrite Ascii.eqb_refl. apply IH.
  - cbn [app quote_state]. rewrite Ec. apply IH.
Qed.

(** The quote that closes a quoted column clears the flag. *)
Lemma quote_state_closed (d : ascii) (sep : ascii) (more : list ascii) :
  sep <> DQUOTE ->
  quote_state d None true (DQUOTE :: sep :: more) = quote_state d (Some sep) false more.
Proof.
  intros H. cbn [quote_state]. rewrite Ascii.eqb_refl, (eqb_false_of_neq _ _ H).
  reflexivity.
Qed.

(** The flag after the bytes [x ++ [e]], where [e] is no quote, does not
    depend on what follows them. *)
Lemma quote_state_app (d : ascii) (e : ascii) (y : list ascii) (n : nat) :
  e <> DQUOTE ->
  forall x prev q,
    (length x <= n)%nat ->
    quote_state d prev q ((x ++ [e]) ++ y)
    = quote_state d (Some e) (quote_state d prev q (x ++ [e])) y.
Proof.
  intros He. induction n as [|n IH]; intros x prev q Hn.
  - destruct x; [|cbn [length] in Hn; lia].
    cbn [app quote_state]. now rewrite (eqb_false_of_neq _ _ He).
  - destruct x as [|c x].
    + cbn [app quote_state]. now rewrite (eqb_false_of_neq _ _ He).
    + cbn [length] in Hn. cbn [app quote_state].
      destruct (c =? DQUOTE)%char; [|apply IH; lia].
      destruct q.
      * destruct x as [|c' x].
        -- cbn [app]. rewrite (eqb_false_of_neq _ _ He). apply (IH []). cbn [length]. lia.
        -- cbn [app]. destruct (c' =? DQUOTE)%char.
           ++ apply IH. cbn [length] in Hn. lia.
           ++ apply (IH (c' :: x)). lia.
      * destruct (match prev with None => true | Some x0 => (x0 =? d)%char end);
          apply IH; lia.
Qed.

(** *** Where the newlines of a row lie *)

Lemma app_eq_notin (c : ascii) (s y pre post : list ascii) :
  ~ In c s -> s ++ y = pre ++ c :: post ->
  exists pre', pre = s ++ pre' /\ y = pre' ++ c :: post.
Proof.
  revert pre. induction s as [|e s IH]; intros pre Hs E.
  - exists pre. split; [reflexivity | exact E].
  - destruct pre as [|e' pre]; cbn [app] in E.
    + injection E as -> _. exfalso. apply Hs. now left.
    + injection E as -> E. destruct (IH pre) as (pre' & -> & Hy); [|exact E|].
      * intros H. apply Hs. now right.
      * exists pre'. split; [reflexivity | exact Hy].
Qed.

(** A newline of a content whose quotes are doubled, followed by [y], is
    in [y] or follows a part of the content, its quotes doubled. *)
Lemma escape_quotes_newline (a y : list ascii) :
  forall pre post,
    escape_quotes a ++ y = pre ++ LF :: post ->
    (exists pre', pre = escape_quotes a ++ pre' /\ y = pre' ++ LF :: post) \/
    (exists a1, pre = escape_quotes a1).
Proof.
  induction a as [|c a IH]; intros pre post E.
  - left. exists pre. split; [reflexivity | exact E].
  - cbn [escape_quotes flat_map] in E. fold (escape_quotes a) in E.
    destruct (c =? DQUOTE)%char eqn:Ec.
    + apply Ascii.eqb_eq in Ec. subst c. cbn [app] in E.
      destruct pre as [|e [|e' pre]]; cbn [app] in E; try discriminate.
      injection E as <- <- E.
      destruct (IH _ _ E) as [(pre' & -> & Hy)|(a1 & ->)].
      * left. exists pre'. split; [|exact Hy].
        cbn [escape_quotes flat_map]. rewrite Ascii.eqb_refl. reflexivity.
      * right. exists (DQUOTE :: a1).
        cbn [escape_quotes flat_map]. rewrite Ascii.eqb_refl. reflexivity.
    + cbn [app] in E. destruct pre as [|e pre]; cbn [app] in E.
      * right. exists []. reflexivity.
      * injection E as <- E.
        destruct (IH _ _ E) as [(pre' & -> & Hy)|(a1 & ->)].
        -- left. exists pre'. split; [|exact Hy].
           cbn [escape_quotes flat_map]. rewrite Ec. reflexivity.
        -- right. exists (c :: a1).
           cbn [escape_quotes flat_map]. rewrite Ec. reflexivity.
Qed.

Lemma field_okb_field_ok (d : ascii) (x : field) : field_okb d x = true -> field_ok d x.
Proof.
  destruct x as [s|a]; cbn [field_okb field_ok].
  - apply unquotedb_unquoted.
  - intros H Hin. rewrite forallb_forall in H. specialize (H _ Hin). discriminate.
Qed.

(** The scan over one field and the byte [sep] after it, from the start of
    the field: the flag is clear after [sep], and it is set at every
    newline of the field. *)
Lemma quote_state_field (d : ascii) (x : field) (sep : ascii) (more : list ascii)
      (prev : option ascii) :
  delimiter_ok d = true -> field_ok d x ->
  prev = None \/ prev = Some d -> sep <> DQUOTE ->
  quote_state d prev false (encode x ++ sep :: more) = quote_state d (Some sep) false more /\
  (forall pre post,
      encode x ++ sep :: more = pre ++ LF :: post ->
      (exists pre', pre = encode x ++ pre' /\ sep :: more = pre' ++ LF :: post) \/
      quote_state d prev false (pre ++ [LF]) = true).
Proof.
  intros Hd Hx Hprev Hsep.
  assert (Hopen : match prev with None => true | Some c => (c =? d)%char end = true).
  { destruct Hprev as [-> | ->]; [reflexivity | apply Ascii.eqb_refl]. }
  destruct x as [s|a]; cbn [encode field_ok] in *.
  - split.
    + rewrite quote_state_quiet by now apply quiet_unquoted.
      cbn [quote_state]. now rewrite (eqb_false_of_neq _ _ Hsep).
    + intros pre post E. left. apply (app_eq_notin LF); [|exact E].
      destruct Hx as [Hs _]. rewrite Forall_forall in Hs.
      intros Hin. apply Hs in Hin. unfold plain in Hin. tauto.
  - split.
    + cbn [app quote_state]. rewrite Ascii.eqb_refl, Hopen.
      rewrite <- app_assoc. cbn [app].
      rewrite quote_state_escaped. now apply quote_state_closed.
    + intros pre post E. cbn [app] in E. rewrite <- app_assoc in E. cbn [app] in E.
      destruct pre as [|e pre]; cbn [app] in E; [discriminate|].
      injection E as <- E.
      destruct (escape_quotes_newline _ _ _ _ E) as [(pre' & -> & Hy)|(a1 & ->)].
      * destruct pre' as [|e pre']; cbn [app] in Hy; [discriminate|].
        injection Hy as <- Hy. left. exists pre'. split; [|exact Hy].
        cbn [app]. rewrite <- app_assoc. reflexivity.
      * right. cbn [app quote_state]. rewrite Ascii.eqb_refl, Hopen.
        rewrite quote_state_escaped. reflexivity.
Qed.

Lemma encode_row_cons (d : ascii) (x y : field) (rest : list field) :
  encode_row d (x :: y :: rest) = encode x ++ d :: encode_row d (y :: rest).
Proof. unfold encode_row. cbn [map]. rewrite join_cons, <- app_assoc. reflexivity. Qed.

(** The scan over a row: the flag is clear after its last newline and set
    at every newline before it. *)
Lemma quote_state_fields (d : ascii) (fields : list field) :
  delimiter_ok d = true -> fields <> [] -> Forall (field_ok d) fields ->
  forall prev,
    prev = None \/ prev = Some d ->
    quote_state d prev false (encode_row d fields) = false /\
    (forall pre post,
        encode_row d fields = pre ++ LF :: post -> post <> [] ->
        quote_state d prev false (pre ++ [LF]) = true).
Proof.
  intros Hd Hne Hok. destruct (delimiter_ok_neq _ Hd) as (_ & Hd1 & _ & Hd3).
  induction fields as [|x [|y rest] IH]; intros prev Hprev; [congruence| |].
  - assert (Hlf : LF <> DQUOTE) by discriminate.
    destruct (quote_state_field d x LF [] prev Hd (Forall_inv Hok) Hprev Hlf) as [H1 H2].
    unfold encode_row. cbn [map join]. split; [exact H1|].
    intros pre post E Hpost. destruct (H2 _ _ E) as [(pre' & -> & Hy)|H]; [|exact H].
    destruct pre' as [|e pre']; cbn [app] in Hy.
    + injection Hy as <-. congruence.
    + injection Hy as _ Hy. destruct pre'; discriminate.
  - rewrite encode_row_cons.
    destruct (IH ltac:(discriminate) (Forall_inv_tail Hok) (Some d) (or_intror eq_refl))
      as [IH1 IH2].
    split.
    + destruct (quote_state_field d x d (encode_row d (y :: rest)) prev Hd (Forall_inv Hok)
                  Hprev Hd3) as [-> _].
      exact IH1.
    + intros pre post E Hpost.
      destruct (quote_state_field d x d (encode_row d (y :: rest)) prev Hd (Forall_inv Hok)
                  Hprev Hd3) as [_ H2].
      destruct (H2 _ _ E) as [(pre' & -> & Hy)|H]; [|exact H].
      destruct pre' as [|e pre']; cbn [app] in Hy.
      * injection Hy as Hy _. congruence.
      * injection Hy as <- Hy.
        rewrite <- app_assoc. cbn [app].
        destruct (quote_state_field d x d (pre' ++ [LF]) prev Hd (Forall_inv Hok)
                    Hprev Hd3) as [-> _].
        now apply (IH2 pre' post).
Qed.

(** The byte before the newline of a row is no carriage return. *)
Lemma encode_row_last (d : ascii) (fields : list field) :
  delimiter_ok d = true -> Forall (field_ok d) fields ->
  last_byte (join d (map encode fields)) <> Some CR.
Proof.
  intros Hd Hok. destruct (delimiter_ok_neq _ Hd) as (_ & _ & Hd2 & _).
  assert (Hone : forall x, field_ok d x -> last_byte (encode x) <> Some CR).
  { intros [s|a] Hx; cbn [encode field_ok] in *.
    - intros H. apply last_byte_in in H. destruct Hx as [Hs _].
      rewrite Forall_forall in Hs. apply Hs in H. unfold plain in H. tauto.
    - change (DQUOTE :: escape_quotes a ++ [DQUOTE])
        with ((DQUOTE :: escape_quotes a) ++ [DQUOTE]).
      rewrite last_byte_snoc. discriminate. }
  induction fields as [|x [|y rest] IH]; cbn [map].
  - discriminate.
  - cbn [join]. apply Hone. now apply Forall_inv in Hok.
  - rewrite join_cons, last_byte_app, last_byte_cons.
    change (join d (encode y :: map encode rest)) with (join d (map encode (y :: rest))).
    specialize (IH (Forall_inv_tail Hok)).
    destruct (last_byte (join d (map encode (y :: rest)))) as [e|]; [exact IH|].
    intros [= H]. congruence.
Qed.

(** *** Lines that one read takes whole *)

Lemma lines_within_line (room : nat) (pre post : list ascii) :
  ~ In LF pre ->
  forall left,
    lines_within room left (pre ++ LF :: post) = true ->
    (length pre < left)%nat /\ lines_within room room post = true.
Proof.
  induction pre as [|c pre IH]; intros Hlf left H; cbn [app lines_within] in H.
  - destruct left; [discriminate|]. cbn [length]. split; [lia | exact H].
  - destruct left; [discriminate|].
    rewrite (eqb_false_of_neq c LF) in H by (intros ->; apply Hlf; now left).
    destruct (IH ltac:(intros Hin; apply Hlf; now right) _ H) as [Hl Hp].
    cbn [length]. split; [lia | exact Hp].
Qed.

(** A list that ends with a newline starts with a line. *)
Lemma first_line (l : list ascii) :
  In LF l -> exists pre post, l = pre ++ LF :: post /\ ~ In LF pre.
Proof.
  induction l as [|c l IH]; intros H; [destruct H|].
  destruct (Ascii.eqb_spec c LF) as [->|Hc].
  - exists [], l. split; [reflexivity | intros []].
  - destruct H as [H|H]; [congruence|].
    destruct (IH H) as (pre & post & -> & Hpre).
    exists (c :: pre), post. split; [reflexivity|].
    intros [Hin|Hin]; [congruence | now apply Hpre].
Qed.

(** *** The line reader over a row of several lines *)

(** The loop of csv_getline over a row whose lines one read takes whole:
    it goes on while the newline it has read lies in a quoted column, and
    the row is the bytes of the file up to the first newline outside
    quoted columns. *)
Lemma getline_loop_lines (fuel : nat) :
  forall p n bS done todo rest whole,
    whole = done ++ todo ->
    Z.of_nat (length (row p)) = maxRow p ->
    n = Z.of_nat (length done) -> n < maxRow p ->
    firstn (length done) (row p) = done ->
    0 <= fpos (f p) ->
    unread (f p) = todo ++ rest ->
    (exists body, todo = body ++ [LF]) ->
    ~ In NUL todo ->
    lines_within 99 99 todo = true ->
    done = [] \/ (exists d0, done = d0 ++ [LF]) ->
    quote_state (cDelim p) None false whole = false ->
    (forall pre post, whole = pre ++ LF :: post -> post <> [] ->
                      quote_state (cDelim p) None false (pre ++ [LF]) = true) ->
    (forall body, whole = body ++ [LF] -> last_byte body <> Some CR) ->
    (length todo < fuel)%nat ->
    never_fails (db p) ->
    2 * Z.of_nat (length whole) + 300 <= limit_length (db p) ->
    exists q bS' tail,
      getline_loop fuel p n bS (quote_state (cDelim p) None false done)
      = Some (LeftLoop true, q, Z.of_nat (length whole), bS') /\
      line_frame p q /\
      row q = whole ++ NUL :: tail /\
      Z.of_nat (length (row q)) = maxRow q /\
      unread (f q) = rest /\
      fpos (f q) = fpos (f p) + Z.of_nat (length todo).
Proof.
  induction fuel as [|fuel IH];
    intros p n bS done todo rest whole Hwhole Hlen Hn Hmax Hdone Hpos Hun Hend Hnul Hshort
           Hstart Hclear Hset Hcr Hfuel Halloc Hlim;
    [lia|].
  cbn [getline_loop].
  assert (Hlw : length whole = (length done + length todo)%nat)
    by (rewrite Hwhole; apply length_app).
  (* grow row buffer as needed *)
  match goal with |- context [match ?g with inl _ => _ | inr _ => _ end] =>
    assert (Hg : exists p1 bS1,
               g = inr (p1, bS1) /\ line_frame p p1 /\ f p1 = f p /\
               Z.of_nat (length (row p1)) = maxRow p1 /\ n + 100 <= maxRow p1 /\
               firstn (length done) (row p1) = done /\ db p1 = db p);
    [|destruct Hg as (p1 & bS1 & -> & Hfr & Hf & Hlen1 & Hroom & Hdone1 & Hdb)]
  end.
  { destruct (n + 100 >? maxRow p) eqn:E.
    - rewrite Z.gtb_ltb in E. apply Z.ltb_lt in E.
      replace (maxRow p * 2 + 100 >=? limit_length (db p)) with false
        by (symmetry; rewrite Z.geb_leb; apply Z.leb_gt; lia).
      unfold sqlite3_alloc. rewrite Halloc by lia.
      replace (0 <? maxRow p * 2 + 100) with true by (symmetry; apply Z.ltb_lt; lia).
      cbn [andb negb]. do 2 eexists. split; [reflexivity|].
      autorewrite with csv. cbn [f db maxRow set_zRow set_maxRow].
      rewrite realloc_cells_grow by lia.
      repeat split; try (unfold line_frame; cbn; tauto); try lia.
      + rewrite length_app, repeat_length. lia.
      + rewrite firstn_app. replace (length done - length (row p))%nat with O by lia.
        cbn [firstn]. rewrite app_nil_r. exact Hdone.
    - rewrite Z.gtb_ltb in E. apply Z.ltb_ge in E.
      exists p, bS. repeat split; try apply line_frame_refl; auto; lia. }
  rewrite Hf.
  assert (Hd1 : cDelim p1 = cDelim p) by (unfold line_frame in Hfr; tauto).
  (* the first line of what is left of the row *)
  destruct Hend as (body & Hbody).
  destruct (first_line todo) as (pre & post & Htodo & Hpre).
  { rewrite Hbody. apply in_or_app. right. now left. }
  rewrite Htodo in Hshort. destruct (lines_within_line _ _ _ Hpre _ Hshort) as [Hl99 Hpost].
  set (chunk := pre ++ [LF]).
  assert (Htake : take_line (Z.to_nat (maxRow p1 - n - 1)) (unread (f p)) = chunk).
  { rewrite Hun, Htodo, <- app_assoc. cbn [app]. rewrite take_line_plain by exact Hpre.
    replace (Z.to_nat (maxRow p1 - n - 1) <=? length pre)%nat with false
      by (symmetry; apply Nat.leb_gt; lia).
    reflexivity. }
  assert (Hne : chunk <> []) by (unfold chunk; destruct pre; discriminate).
  rewrite (fgets_eq (maxRow p1 - n) (f p) chunk ltac:(lia) Hne Htake).
  assert (Hlchunk : length chunk = S (length pre)) by (unfold chunk; apply last_length).
  assert (Hltodo : length todo = (length chunk + length post)%nat).
  { rewrite Htodo, Hlchunk, length_app. cbn [length]. lia. }
  set (tail := skipn (Z.to_nat n + length (chunk ++ [NUL])) (row p1)).
  assert (Hbuf : write_at (row p1) n (chunk ++ [NUL]) = done ++ chunk ++ NUL :: tail).
  { unfold write_at. fold tail. rewrite Hn, Nat2Z.id, Hdone1, <- app_assoc. reflexivity. }
  autorewrite with csv. rewrite Hbuf. cbn [cDelim set_f set_zRow].
  assert (Hcn : ~ In NUL chunk).
  { intros H. apply Hnul. rewrite Htodo.
    unfold chunk in H. apply in_app_or in H as [H|[H|[]]]; [|discriminate].
    apply in_or_app. now left. }
  rewrite Hn, Hd1.
  rewrite scan_quotes_list; [|exact Hcn|].
  2:{ rewrite !length_app. cbn [length]. lia. }
  assert (HQ : quote_state (cDelim p) (last_byte done)
                           (quote_state (cDelim p) None false done) chunk
               = quote_state (cDelim p) None false (done ++ chunk)).
  { destruct Hstart as [-> | (d0 & ->)]; [reflexivity|].
    rewrite last_byte_snoc. symmetry.
    apply (quote_state_app _ _ _ (length d0)); [discriminate | lia]. }
  rewrite HQ.
  set (n' := Z.of_nat (length done) + Z.of_nat (length chunk)).
  set (buf := done ++ chunk ++ NUL :: tail).
  assert (Hlb : length buf = length (row p1)).
  { unfold buf. rewrite <- Hbuf. apply length_write_at.
    rewrite length_app. cbn [length]. lia. }
  set (p2 := set_f (set_zRow p1 (Some buf)) _).
  assert (Hfr2 : line_frame p p2).
  { apply (line_frame_trans _ p1); [exact Hfr|].
    unfold line_frame, p2. cbn. rewrite Hf. tauto. }
  assert (Hb : buf = (done ++ pre) ++ LF :: NUL :: tail).
  { unfold buf, chunk. rewrite <- !app_assoc. reflexivity. }
  assert (Hn' : n' - 1 = Z.of_nat (length (done ++ pre))).
  { unfold n'. rewrite Hlchunk, length_app. lia. }
  assert (Hlf1 : load buf (n' - 1) = LF) by (rewrite Hn', Hb; apply load_app_at).
  rewrite Hlf1.
  replace (n' >? 0) with true by (symmetry; rewrite Z.gtb_ltb; apply Z.ltb_lt; lia).
  rewrite Ascii.eqb_refl. cbn [orb andb].
  destruct post as [|c0 post0].
  - (* the newline that ends the row *)
    assert (Hw : whole = (done ++ pre) ++ [LF]).
    { rewrite Hwhole, Htodo, <- app_assoc. reflexivity. }
    assert (Hq0 : quote_state (cDelim p) None false (done ++ chunk) = false).
    { unfold chunk. rewrite app_assoc, <- Hw. exact Hclear. }
    rewrite Hq0. cbn [negb].
    assert (Hcr2 : (n' >? 1) && (load buf (n' - 2) =? CR)%char = false).
    { destruct (n' >? 1) eqn:E1; [|reflexivity]. cbn [andb].
      rewrite Z.gtb_ltb in E1. apply Z.ltb_lt in E1.
      apply eqb_false_of_neq. intros Hc. apply (Hcr _ Hw).
      assert (Hne' : done ++ pre <> []).
      { intros H. rewrite H in Hn'. cbn [length] in Hn'. lia. }
      destruct (load_last (done ++ pre) (LF :: NUL :: tail) Hne') as (b0 & Hb0).
      rewrite <- Hb, <- Hn' in Hb0.
      replace (n' - 1 - 1) with (n' - 2) in Hb0 by lia.
      rewrite Hb0, last_byte_snoc. now rewrite Hc. }
    rewrite andb_true_r, Hcr2.
    rewrite Hn', Hb, aset_app_at.
    replace ((done ++ pre) ++ LF :: NUL :: tail)
      with (((done ++ pre) ++ [LF]) ++ NUL :: tail) by (rewrite <- !app_assoc; reflexivity).
    replace n' with (Z.of_nat (length ((done ++ pre) ++ [LF])))
      by (rewrite last_length; lia).
    rewrite aset_app_at, <- Hw.
    do 3 eexists. split; [reflexivity|].
    split; [apply (line_frame_trans _ p1); [exact Hfr|]; unfold line_frame; cbn; rewrite Hf; tauto|].
    autorewrite with csv.
    split; [reflexivity|].
    unfold p2. cbn [f maxRow set_f set_zRow fpos].
    split.
    { rewrite <- Hlen1, <- Hlb. f_equal. rewrite Hb, Hw, <- !app_assoc. reflexivity. }
    split.
    { rewrite (unread_skip (f p) _ Hpos), Hun, Htodo.
      replace (pre ++ [LF]) with chunk by reflexivity.
      now rewrite skipn_app, skipn_all, Nat.sub_diag. }
    rewrite Hltodo. cbn [length]. lia.
  - (* a newline inside a quoted column: the row goes on *)
    assert (Hq1 : quote_state (cDelim p) None false (done ++ chunk) = true).
    { unfold chunk. rewrite app_assoc. apply (Hset _ (c0 :: post0)); [|discriminate].
      rewrite Hwhole, Htodo, <- app_assoc. reflexivity. }
    rewrite Hq1. cbn [negb andb].
    destruct (IH p2 n' bS1 (done ++ chunk) (c0 :: post0) rest whole)
      as (q & bS' & tail' & Hrun & Hfrq & Hrow & Hlenq & Hunq & Hposq).
    + rewrite Hwhole, Htodo. unfold chunk. rewrite <- !app_assoc. reflexivity.
    + unfold p2. autorewrite with csv. cbn [maxRow set_f set_zRow]. lia.
    + rewrite length_app. unfold n'. lia.
    + unfold p2. cbn [maxRow set_f set_zRow]. unfold n'. lia.
    + unfold p2. autorewrite with csv. unfold buf.
      rewrite app_assoc, firstn_app, firstn_all, Nat.sub_diag. cbn [firstn].
      apply app_nil_r.
    + unfold p2. cbn. lia.
    + unfold p2. cbn [f set_f]. rewrite unread_skip by exact Hpos.
      rewrite Hun, Htodo.
      replace (pre ++ LF :: c0 :: post0) with (chunk ++ c0 :: post0)
        by (unfold chunk; rewrite <- app_assoc; reflexivity).
      now rewrite <- app_assoc, skipn_app, skipn_all, Nat.sub_diag.
    + destruct (exists_last (l := c0 :: post0) ltac:(discriminate)) as (b1 & e1 & Hb1).
      exists b1. rewrite Hb1. f_equal. f_equal.
      rewrite Htodo, Hb1 in Hbody.
      replace (pre ++ LF :: b1 ++ [e1]) with ((pre ++ LF :: b1) ++ [e1]) in Hbody
        by (rewrite <- app_assoc; reflexivity).
      apply app_inj_tail in Hbody. tauto.
    + intros H. apply Hnul. rewrite Htodo. apply in_or_app. right. now right.
    + exact Hpost.
    + right. exists (done ++ pre). unfold chunk. apply app_assoc.
    + change (cDelim p2) with (cDelim p1). rewrite Hd1. exact Hclear.
    + change (cDelim p2) with (cDelim p1). rewrite Hd1. exact Hset.
    + exact Hcr.
    + rewrite Hltodo in Hfuel. lia.
    + change (db p2) with (db p1). rewrite Hdb. exact Halloc.
    + change (db p2) with (db p1). rewrite Hdb. exact Hlim.
    + exists q, bS', tail'.
      change (cDelim p2) with (cDelim p1) in Hrun. rewrite Hd1, Hq1 in Hrun.
      split; [exact Hrun|]. split; [exact (line_frame_trans _ _ _ Hfr2 Hfrq)|].
      split; [exact Hrow|]. split; [exact Hlenq|]. split; [exact Hunq|].
      rewrite Hposq. unfold p2. cbn [f set_f set_zRow fpos]. rewrite Hltodo. lia.
Qed.

(** csv_getline over such a row: the row buffer holds the row, up to and
    with its last newline, and the file is left after it. *)
Lemma csv_getline_lines (p : CSV) (whole rest : list ascii) :
  table_ready p ->
  unread (f p) = whole ++ rest ->
  (exists body, whole = body ++ [LF]) ->
  ~ In NUL whole ->
  lines_within 99 99 whole = true ->
  quote_state (cDelim p) None false whole = false ->
  (forall pre post, whole = pre ++ LF :: post -> post <> [] ->
                    quote_state (cDelim p) None false (pre ++ [LF]) = true) ->
  (forall body, whole = body ++ [LF] -> last_byte body <> Some CR) ->
  never_fails (db p) ->
  2 * Z.of_nat (length whole) + 300 <= limit_length (db p) ->
  exists q tail,
    csv_getline p = Some (LineRead, q) /\ line_frame p q /\
    zRow q = Some (whole ++ NUL :: tail) /\
    unread (f q) = rest /\
    fpos (f q) = fpos (f p) + Z.of_nat (length whole).
Proof.
  intros (Hpos & Hrow & _) Hun Hend Hnul Hshort Hclear Hset Hcr Halloc Hlim.
  unfold csv_getline.
  set (p0 := if maxRow p <? 1 then _ else p).
  assert (H0 : line_frame p p0 /\ f p0 = f p /\ zRow p0 <> None /\
               Z.of_nat (length (row p0)) = maxRow p0 /\ 1 <= maxRow p0).
  { unfold p0. destruct (maxRow p <? 1) eqn:E.
    - unfold sqlite3_alloc. rewrite Halloc by lia. cbn [Z.ltb Z.compare andb].
      unfold line_frame. cbn. repeat split; try lia; discriminate.
    - apply Z.ltb_ge in E. destruct (Hrow E) as [Hz Hl].
      repeat split; try apply line_frame_refl; auto. }
  destruct H0 as (Hfr0 & Hf0 & Hz0 & Hlen0 & Hmax0).
  destruct (zRow p0) as [b0|] eqn:Ez0; [clear Hz0 | congruence].
  assert (Hdb0 : db p0 = db p) by (unfold line_frame in Hfr0; tauto).
  assert (Hd0 : cDelim p0 = cDelim p) by (unfold line_frame in Hfr0; tauto).
  assert (Hlenw : (length whole <= length (fdata (f p)))%nat).
  { apply (f_equal (@length ascii)) in Hun.
    unfold unread in Hun. rewrite length_skipn, length_app in Hun. lia. }
  destruct (getline_loop_lines (S (length (fdata (f p0)))) p0 0 false [] whole rest whole)
    as (q & bS & tail & Hrun & Hfr & Hrowq & Hlenq & Hunq & Hposq);
    rewrite ?Hf0, ?Hdb0, ?Hd0; try assumption; try reflexivity; try lia.
  { now left. }
  change (quote_state (cDelim p0) None false []) with false in Hrun.
  rewrite Hf0 in Hrun. rewrite Hrun.
  assert (Hdbq : db q = db p) by (unfold line_frame in Hfr; intuition congruence).
  assert (Hfrq : line_frame p q) by exact (line_frame_trans _ _ _ Hfr0 Hfr).
  rewrite Hf0 in Hposq.
  assert (Hzq : zRow q = Some (row q)).
  { unfold row. destruct (zRow q) eqn:E; [reflexivity|].
    unfold row in Hrowq. rewrite E in Hrowq. destruct whole; discriminate. }
  destruct bS.
  - unfold sqlite3_alloc. rewrite Hdbq, Halloc by lia.
    replace (0 <? Z.of_nat (length whole) + 1) with true
      by (symmetry; apply Z.ltb_lt; lia).
    cbn [andb]. autorewrite with csv. cbn [zRow set_maxRow set_zRow].
    assert (Hcut : exists tail',
               realloc_cells (row q) (Z.of_nat (length whole) + 1) (fresh_byte (db p))
               = whole ++ NUL :: tail').
    { unfold realloc_cells. rewrite Hrowq.
      replace (whole ++ NUL :: tail) with ((whole ++ [NUL]) ++ tail)
        by (rewrite <- app_assoc; reflexivity).
      rewrite firstn_app.
      rewrite firstn_all2 by (rewrite length_app; cbn [length]; lia).
      rewrite <- !app_assoc. cbn [app]. eexists. reflexivity. }
    destruct Hcut as (tail' & Hcut).
    do 2 eexists. split; [reflexivity|].
    split; [apply (line_frame_trans _ q); [exact Hfrq|]; unfold line_frame; cbn; tauto|].
    cbn [zRow f set_maxRow set_zRow]. rewrite Hcut.
    repeat split; auto; lia.
  - rewrite Hzq. exists q, tail. rewrite Hrowq in *.
    split; [reflexivity|]. split; [exact Hfrq|]. repeat split; auto; lia.
Qed.

(** *** The tokenizer over a row with quoted fields *)

(** The search for the closing quote counts in the cell of its column only. *)
Lemma closing_quote_others (fuel : nat) (buf : list ascii) (nCol : Z) :
  forall esc s res esc',
    closing_quote fuel buf esc nCol s = Some (res, esc') -> 0 <= nCol ->
    forall j, 0 <= j -> j <> nCol -> aget esc' j 0 = aget esc j 0.
Proof.
  induction fuel as [|fuel IH]; intros esc s res esc' H HnCol j Hj Hne; [discriminate|].
  cbn [closing_quote] in H.
  destruct (strchr buf s DQUOTE); [|now injection H as _ <-].
  destruct (load buf _ =? DQUOTE)%char; [|now injection H as _ <-].
  rewrite (IH _ _ _ _ H HnCol j Hj Hne). apply aget_aset_other; auto.
Qed.

(** A row starts with a byte that is no NUL. *)
Lemma encode_head (d : ascii) (x : field) (xs : list field) (tail : list ascii) :
  field_ok d x -> delimiter_ok d = true ->
  exists c rest,
    join d (map encode (x :: xs)) ++ LF :: NUL :: tail = c :: rest /\ c <> NUL.
Proof.
  intros Hx Hd. destruct x as [s|a]; cbn [map encode field_ok] in *.
  - destruct (row_head d s (map encode xs) tail Hx Hd) as (c & rest & E & _ & Hc).
    eauto.
  - exists DQUOTE. destruct (map encode xs); cbn [join app]; eexists;
      (split; [reflexivity | discriminate]).
Qed.

(** The parsing loop over the fields of a row, bare or quoted, joined by
    the delimiter and ended by the newline: one column for each field,
    which holds the bytes of the field, the quotes of a quoted field still
    doubled and counted. *)
Lemma parse_cols_fields (fuel : nat) :
  forall p s nC pre x xs tail,
    row p = pre ++ join (cDelim p) (map encode (x :: xs)) ++ LF :: NUL :: tail ->
    s = Z.of_nat (length pre) ->
    Z.of_nat (length (cols p)) = maxCol p ->
    Z.of_nat (length (escs p)) = maxCol p ->
    0 <= nC < maxCol p ->
    Forall (field_ok (cDelim p)) (x :: xs) ->
    delimiter_ok (cDelim p) = true ->
    (length xs < fuel)%nat ->
    never_fails (db p) ->
    nC + Z.of_nat (length xs) + 1 <= limit_column (db p) ->
    exists q,
      parse_cols fuel p s nC = Some (Parsed, SQLITE_OK, q) /\
      nCol q = nC + 1 + Z.of_nat (length xs) /\
      eof q = eof p /\
      (exists after, row q = pre ++ after) /\
      (forall j, 0 <= j < nC ->
                 aget (cols q) j None = aget (cols p) j None /\
                 aget (escs q) j 0 = aget (escs p) j 0) /\
      (forall j, (j <= length xs)%nat ->
                 column_at q (nC + Z.of_nat j)
                           (stored_of (nth j (x :: xs) (Bare [])))
                           (doubled_of (nth j (x :: xs) (Bare [])))).
Proof.
  induction fuel as [|fuel IH];
    intros p s nC pre x xs tail Hrow Hs Hlc Hle HnC Hok Hdelim Hfuel Halloc Hlim;
    [lia|].
  cbn [parse_cols].
  destruct (delimiter_ok_neq _ Hdelim) as (Hd0 & Hd1 & Hd2 & Hd3).
  assert (Hx : field_ok (cDelim p) x) by now apply Forall_inv in Hok.
  assert (Hshape : exists sep more,
             join (cDelim p) (map encode (x :: xs)) ++ LF :: NUL :: tail
             = encode x ++ sep :: more /\
             ((xs = [] /\ sep = LF /\ more = NUL :: tail) \/
              (exists x2 xl, xs = x2 :: xl /\ sep = cDelim p /\
                             more = join (cDelim p) (map encode (x2 :: xl))
                                         ++ LF :: NUL :: tail))).
  { destruct xs as [|x2 xl].
    - exists LF, (NUL :: tail). split; [reflexivity|]. now left.
    - exists (cDelim p), (join (cDelim p) (map encode (x2 :: xl)) ++ LF :: NUL :: tail).
      split; [cbn [map]; rewrite join_cons, <- app_assoc; reflexivity|]. right. eauto. }
  destruct Hshape as (sep & more & Hjoin & Hcase).
  rewrite Hjoin in Hrow.
  assert (Hsep : sep = cDelim p \/ sep = LF).
  { destruct Hcase as [(_ & -> & _)|(_ & _ & _ & -> & _)]; auto. }
  assert (Hsep' : sep <> DQUOTE /\ sep <> NUL).
  { destruct Hsep as [-> | ->]; split; auto; discriminate. }
  (* the column: bare, or quoted with its closing quote *)
  set (col := if (load (row p) s =? DQUOTE)%char then _ else _).
  assert (Hcol : exists p1 s1 pre1 off,
             col = Some (inr (p1, s1)) /\
             row p1 = pre1 ++ sep :: more /\
             strpbrk (row p1) s1 [cDelim p; LF] = Some (Z.of_nat (length pre1)) /\
             (exists w, pre1 = pre ++ w) /\
             0 <= off /\
             (forall z, exists post,
                   skipn (Z.to_nat off) (pre1 ++ NUL :: z) = stored_of x ++ NUL :: post) /\
             cols p1 = aset (cols p) nC (Some off) /\
             length (escs p1) = length (escs p) /\
             aget (escs p1) nC 0 = doubled_of x /\
             (forall j, 0 <= j < nC -> aget (escs p1) j 0 = aget (escs p) j 0) /\
             db p1 = db p /\ eof p1 = eof p /\ maxCol p1 = maxCol p /\
             cDelim p1 = cDelim p).
  { unfold col. destruct x as [fld|a]; cbn [encode field_ok stored_of doubled_of] in *.
    - (* a bare field *)
      destruct (field_head _ fld more sep Hx (proj1 Hsep') (proj2 Hsep'))
        as (c0 & rest0 & Hhead & Hc0 & _).
      assert (Hload : load (row p) s = c0).
      { rewrite Hrow, Hhead, Hs. apply load_app_at. }
      rewrite Hload, (eqb_false_of_neq _ _ Hc0).
      do 2 eexists. exists (pre ++ fld), s.
      split; [reflexivity|]. autorewrite with csv.
      cbn [db eof maxCol cDelim set_aEscapedQuotes set_aCols].
      split; [rewrite Hrow, <- app_assoc; reflexivity|].
      split.
      { rewrite Hrow, Hs, length_app, Nat2Z.inj_add.
        apply strpbrk_field; [exact (proj1 Hx) | exact Hd0 | exact Hsep]. }
      split; [eauto|]. split; [lia|].
      split.
      { intros z. exists z.
        rewrite Hs, Nat2Z.id, <- app_assoc, skipn_app, skipn_all, Nat.sub_diag.
        reflexivity. }
      split; [reflexivity|]. split; [apply length_aset|].
      split; [apply aget_aset_same; lia|].
      split; [intros j Hj; apply aget_aset_other; lia|].
      repeat split; reflexivity.
    - (* a quoted field *)
      assert (Hrow' : row p = (pre ++ [DQUOTE]) ++ escape_quotes a ++ DQUOTE :: sep :: more).
      { rewrite Hrow, <- !app_assoc. cbn [app]. rewrite <- app_assoc. reflexivity. }
      assert (Hload : load (row p) s = DQUOTE).
      { rewrite Hrow, Hs. cbn [app]. apply load_app_at. }
      rewrite Hload, Ascii.eqb_refl. cbv zeta. autorewrite with csv.
      assert (Hs1 : s + 1 = Z.of_nat (length (pre ++ [DQUOTE])))
        by (rewrite last_length; lia).
      assert (Hlen : (length a <= length (escape_quotes a))%nat).
      { pose proof (escape_quotes_length a). unfold count_quotes in *. lia. }
      destruct (closing_quote_escaped nC sep more (S (length (row p))) a (pre ++ [DQUOTE])
                  (aset (escs p) nC 0))
        as (esc' & Hrun & Hl' & Hcount); try tauto.
      { rewrite length_aset. lia. }
      { rewrite Hrow', !length_app. lia. }
      rewrite <- Hrow', <- Hs1 in Hrun. rewrite Hrun.
      pose proof (closing_quote_others _ _ _ _ _ _ _ Hrun ltac:(lia)) as Hothers.
      set (e := s + 1 + Z.of_nat (length (escape_quotes a))).
      assert (He : e = Z.of_nat (length ((pre ++ [DQUOTE]) ++ escape_quotes a))).
      { unfold e. rewrite Hs1, (length_app (pre ++ [DQUOTE])). lia. }
      assert (Hset : aset (row p) e NUL
                     = (((pre ++ [DQUOTE]) ++ escape_quotes a) ++ [NUL]) ++ sep :: more).
      { rewrite He, Hrow', app_assoc, aset_app_at, <- !app_assoc. reflexivity. }
      autorewrite with csv. rewrite Hset.
      do 2 eexists. exists (((pre ++ [DQUOTE]) ++ escape_quotes a) ++ [NUL]), (s + 1).
      split; [reflexivity|]. autorewrite with csv.
      cbn [db eof maxCol cDelim set_zRow set_aEscapedQuotes set_aCols].
      split; [reflexivity|].
      split.
      { replace (e + 1)
          with (Z.of_nat (length (((pre ++ [DQUOTE]) ++ escape_quotes a) ++ [NUL])))
          by (rewrite last_length; lia).
        pose proof (strpbrk_field (cDelim p)
                      (((pre ++ [DQUOTE]) ++ escape_quotes a) ++ [NUL]) [] more sep
                      (Forall_nil _) Hd0 Hsep) as Hf.
        cbn [app length] in Hf. rewrite Z.add_0_r in Hf. exact Hf. }
      split; [rewrite <- !app_assoc; eauto|]. split; [lia|].
      split.
      { intros z. exists (NUL :: z).
        rewrite Hs1, Nat2Z.id, <- !app_assoc, app_assoc, skipn_app, skipn_all, Nat.sub_diag.
        reflexivity. }
      split; [reflexivity|]. split; [rewrite Hl'; apply length_aset|].
      split; [rewrite Hcount, aget_aset_same by lia; lia|].
      split.
      { intros j Hj. rewrite Hothers by lia. apply aget_aset_other; lia. }
      repeat split; reflexivity. }
  destruct Hcol as (p1 & s1 & pre1 & off & Hc & Hrow1 & Hfind & (w & Hw) & Hoff & Hskip
                    & Hcols1 & Hle1 & Hk1 & Hlow1 & Hdb1 & He1 & Hmc1 & Hdl1).
  rewrite Hc. clear Hc col.
  rewrite zDelims_eq by (rewrite Hdl1; exact Hd0).
  rewrite Hdl1, Hfind.
  assert (Hsepload : load (row p1) (Z.of_nat (length pre1)) = sep).
  { rewrite Hrow1. apply load_app_at. }
  assert (Hnulset : aset (row p1) (Z.of_nat (length pre1)) NUL = pre1 ++ NUL :: more).
  { rewrite Hrow1. apply aset_app_at. }
  rewrite Hsepload, Hnulset.
  set (p2 := set_zRow p1 (Some (pre1 ++ NUL :: more))).
  assert (Hlow2 : forall j, 0 <= j < nC ->
                            aget (cols p2) j None = aget (cols p) j None /\
                            aget (escs p2) j 0 = aget (escs p) j 0).
  { intros j Hj. change (cols p2) with (cols p1). change (escs p2) with (escs p1).
    rewrite Hcols1. split; [apply aget_aset_other; lia | now apply Hlow1]. }
  assert (Hcol2 : aget (cols p2) nC None = Some off /\ aget (escs p2) nC 0 = doubled_of x).
  { change (cols p2) with (cols p1). change (escs p2) with (escs p1).
    rewrite Hcols1. split; [apply aget_aset_same; lia | exact Hk1]. }
  assert (Hl2 : Z.of_nat (length (cols p2)) = maxCol p /\
                Z.of_nat (length (escs p2)) = maxCol p).
  { change (cols p2) with (cols p1). change (escs p2) with (escs p1).
    rewrite Hcols1, length_aset, Hle1. tauto. }
  destruct Hcase as [(-> & -> & ->)|(x2 & xl & -> & -> & ->)].
  - (* the newline: the last field of the row *)
    rewrite Ascii.eqb_refl.
    eexists. split; [reflexivity|]. cbn [length nCol set_nCol eof].
    autorewrite with csv.
    split; [lia|]. split; [exact He1|].
    split; [exists (w ++ NUL :: NUL :: tail); unfold p2; autorewrite with csv;
            rewrite Hw, <- app_assoc; reflexivity|].
    split; [exact Hlow2|].
    intros j Hj. replace j with O by lia. cbn [nth]. rewrite Z.add_0_r.
    destruct (Hskip (NUL :: tail)) as (post & Hpost).
    exists off, post. autorewrite with csv.
    destruct Hcol2 as [-> ->]. repeat split; try lia. exact Hpost.
  - (* the delimiter: more fields follow *)
    rewrite (eqb_false_of_neq _ _ Hd1).
    assert (Hrest : Forall (field_ok (cDelim p)) (x2 :: xl))
      by now apply Forall_inv_tail in Hok.
    cbn [length] in Hlim, Hfuel.
    match goal with |- context [match ?g with inl _ => _ | inr _ => _ end] =>
      assert (Hg : exists p3,
                 g = inr p3 /\ row p3 = row p2 /\ eof p3 = eof p /\ db p3 = db p /\
                 cDelim p3 = cDelim p /\
                 Z.of_nat (length (cols p3)) = maxCol p3 /\
                 Z.of_nat (length (escs p3)) = maxCol p3 /\
                 nC + 1 < maxCol p3 /\
                 (forall j, 0 <= j <= nC ->
                            aget (cols p3) j None = aget (cols p2) j None /\
                            aget (escs p3) j 0 = aget (escs p2) j 0));
      [|destruct Hg as (p3 & -> & Hrow3 & He3 & Hdb3 & Hd3' & Hlc3 & Hle3 & HnC3 & Hlow3)]
    end.
    { change (maxCol p2) with (maxCol p1). change (db p2) with (db p1).
      rewrite Hmc1, Hdb1. destruct Hl2 as [Hl2 Hl2'].
      destruct (nC + 1 >=? maxCol p) eqn:E; rewrite Z.geb_leb in E.
      - apply Z.leb_le in E.
        replace (nC + 1 >=? limit_column (db p)) with false
          by (symmetry; rewrite Z.geb_leb; apply Z.leb_gt; lia).
        unfold sqlite3_alloc. cbn [db set_aCols set_maxCol].
        change (db p2) with (db p1). rewrite Hdb1.
        rewrite !Halloc by (unfold sizeof_ptr, sizeof_int; lia).
        replace (0 <? sizeof_ptr * (nC + 1 + 5)) with true
          by (symmetry; apply Z.ltb_lt; unfold sizeof_ptr; lia).
        replace (0 <? sizeof_int * (nC + 1 + 5)) with true
          by (symmetry; apply Z.ltb_lt; unfold sizeof_int; lia).
        cbn [andb negb]. eexists. split; [reflexivity|].
        autorewrite with csv. cbn [eof db cDelim maxCol set_aEscapedQuotes set_aCols set_maxCol].
        rewrite !length_realloc_cells.
        change (eof p2) with (eof p1). change (db p2) with (db p1).
        change (cDelim p2) with (cDelim p1).
        repeat split; try reflexivity; try congruence; try lia;
          rewrite realloc_cells_grow by lia; apply aget_app_l; lia.
      - apply Z.leb_gt in E. exists p2.
        change (eof p2) with (eof p1). change (db p2) with (db p1).
        change (cDelim p2) with (cDelim p1). change (maxCol p2) with (maxCol p1).
        rewrite Hmc1.
        repeat split; try reflexivity; try assumption; lia. }
    destruct (encode_head (cDelim p) x2 xl tail (Forall_inv Hrest) Hdelim)
      as (c1 & rest1 & Hhead1 & Hc1).
    assert (Hrow3' : row p3 = (pre1 ++ [NUL])
                              ++ join (cDelim p) (map encode (x2 :: xl))
                              ++ LF :: NUL :: tail).
    { rewrite Hrow3. unfold p2. autorewrite with csv. rewrite <- !app_assoc. reflexivity. }
    assert (Hs3 : Z.of_nat (length pre1) + 1 = Z.of_nat (length (pre1 ++ [NUL]))).
    { rewrite last_length. lia. }
    assert (Hload3 : load (row p3) (Z.of_nat (length pre1) + 1) = c1).
    { rewrite Hrow3', Hhead1, Hs3. apply load_app_at. }
    rewrite Hload3, (eqb_false_of_neq _ _ Hc1).
    destruct (IH p3 (Z.of_nat (length pre1) + 1) (nC + 1) (pre1 ++ [NUL]) x2 xl tail)
      as (q & Hrun & HnCq & Heq & (after & Hrowq) & Hlowq & Hcolq);
      rewrite ?Hd3', ?Hdb3; try assumption; try lia.
    exists q. split; [exact Hrun|]. cbn [length].
    split; [lia|]. split; [congruence|].
    split; [exists (w ++ NUL :: after); rewrite Hrowq, Hw, <- !app_assoc; reflexivity|].
    split.
    + intros j Hj. destruct (Hlowq j ltac:(lia)) as [-> ->].
      destruct (Hlow3 j ltac:(lia)) as [-> ->]. now apply Hlow2.
    + intros [|j] Hj.
      * cbn [nth]. rewrite Z.add_0_r.
        destruct (Hskip after) as (post & Hpost).
        exists off, post.
        destruct (Hlowq nC ltac:(lia)) as [-> ->].
        destruct (Hlow3 nC ltac:(lia)) as [-> ->].
        destruct Hcol2 as [-> ->]. repeat split; try lia.
        rewrite Hrowq, <- app_assoc. exact Hpost.
      * cbn [nth]. replace (nC + Z.of_nat (S j)) with (nC + 1 + Z.of_nat j) by lia.
        apply Hcolq. lia.
Qed.

(** *** xNext and xColumn over a row with quoted fields *)

Lemma escape_quotes_no_nul (a : list ascii) : ~ In NUL a -> ~ In NUL (escape_quotes a).
Proof.
  intros Hnul H. unfold escape_quotes in H. apply in_flat_map in H as (x & Hx & Hin).
  destruct (x =? DQUOTE)%char; cbn in Hin;
    intuition (try discriminate; subst; now apply Hnul).
Qed.

Lemma count_quotes_zero (a : list ascii) : count_quotes a = 0 -> escape_quotes a = a.
Proof.
  unfold count_quotes. induction a as [|c a IH]; [reflexivity|].
  cbn [escape_quotes flat_map filter]. fold (escape_quotes a).
  destruct (c =? DQUOTE)%char; cbn [length]; [lia|].
  intros H. cbn [app]. now rewrite IH.
Qed.

Lemma in_join (d c : ascii) (l : list (list ascii)) :
  In c (join d l) -> c = d \/ exists x, In x l /\ In c x.
Proof.
  induction l as [|x [|y rest] IH]; [intros [] | |].
  - cbn [join]. intros H. right. exists x. split; [now left | exact H].
  - rewrite join_cons. intros H. apply in_app_or in H as [H|[H|H]].
    + right. exists x. split; [now left | exact H].
    + now left.
    + destruct (IH H) as [Hc|(z & Hz & Hin)]; [now left|].
      right. exists z. split; [now right | exact Hin].
Qed.

Lemma join_field_length (d : ascii) (l : list (list ascii)) (x : list ascii) :
  In x l -> (length x <= length (join d l))%nat.
Proof.
  induction l as [|y [|z rest] IH]; [intros [] | |].
  - intros [->|[]]. cbn [join]. lia.
  - rewrite join_cons, length_app. cbn [length]. intros [->|H]; [lia|].
    specialize (IH H). lia.
Qed.

(** The bytes of a row hold no NUL. *)
Lemma encode_row_no_nul (d : ascii) (fields : list field) :
  delimiter_ok d = true -> Forall (field_ok d) fields -> ~ In NUL (encode_row d fields).
Proof.
  intros Hd Hok H. destruct (delimiter_ok_neq _ Hd) as (Hd0 & _).
  unfold encode_row in H. apply in_app_or in H as [H|[H|[]]]; [|discriminate].
  apply in_join in H as [H|(x & Hx & Hin)]; [congruence|].
  apply in_map_iff in Hx as (y & <- & Hy).
  rewrite Forall_forall in Hok. specialize (Hok _ Hy).
  destruct y as [s|a]; cbn [encode field_ok] in *.
  - destruct Hok as [Hs _]. rewrite Forall_forall in Hs. apply Hs in Hin.
    unfold plain in Hin. tauto.
  - destruct Hin as [Hin|Hin]; [discriminate|].
    apply in_app_or in Hin as [Hin|[Hin|[]]]; [|discriminate].
    now apply (escape_quotes_no_nul a).
Qed.

(** A column that holds a field is handed to the host as the field: as it
    is in the row buffer when no quote is doubled in it, else in a buffer
    of its own, the doubled quotes made one. *)
Lemma csvColumn_field (p : CSV) (d : ascii) (i : Z) (x : field) :
  0 <= i < nCol p -> field_ok d x ->
  column_at p i (stored_of x) (doubled_of x) ->
  never_fails (db p) ->
  Z.of_nat (length (stored_of x)) + 1 <= limit_length (db p) ->
  csvColumn p i = (SQLITE_OK, value_of x, allocs_of x).
Proof.
  intros Hi Hx (off & post & Hc & He & Hoff & Hskip) Halloc Hlim. unfold csvColumn.
  replace ((i <? 0) || (i >=? nCol p)) with false
    by (symmetry; apply orb_false_iff;
        split; [apply Z.ltb_ge | rewrite Z.geb_leb; apply Z.leb_gt]; lia).
  rewrite Hc, He.
  destruct x as [s|a]; cbn [field_ok stored_of doubled_of value_of allocs_of] in *.
  - cbn [Z.eqb negb]. unfold string_at. rewrite Hskip, cstr_app_nul; [reflexivity|].
    destruct Hx as [Hs _]. rewrite Forall_forall in Hs.
    intros H. apply Hs in H. unfold plain in H. tauto.
  - assert (Hstr : string_at (row p) off = escape_quotes a).
    { unfold string_at. rewrite Hskip. apply cstr_app_nul.
      now apply escape_quotes_no_nul. }
    destruct (count_quotes a =? 0) eqn:E; cbn [negb].
    + apply Z.eqb_eq in E. now rewrite Hstr, (count_quotes_zero _ E).
    + apply Z.eqb_neq in E.
      assert (Hn : strlen (row p) off - count_quotes a + 1 = Z.of_nat (length a) + 1).
      { unfold strlen. rewrite Hstr, escape_quotes_length. lia. }
      pose proof (escape_quotes_length a) as Hel.
      assert (Hcq : 0 <= count_quotes a) by (unfold count_quotes; lia).
      rewrite Hn.
      replace (Z.of_nat (length a) + 1 >? limit_length (db p)) with false
        by (symmetry; rewrite Z.gtb_ltb; apply Z.ltb_ge; lia).
      unfold sqlite3_alloc. rewrite Halloc by lia.
      replace (0 <? Z.of_nat (length a) + 1) with true by (symmetry; apply Z.ltb_lt; lia).
      cbn [andb negb]. rewrite Hskip.
      rewrite unescape_escape_quotes; [reflexivity | exact Hx | right; eauto].
Qed.

(** csvNext once csv_getline has given a row of fields, bare or quoted:
    one column for each field. *)
Lemma csvNext_of_fields (p q : CSV) (c : CSVCursor)
      (fields : list field) (tail : list ascii) :
  table_ready p -> eof p = 0 ->
  delimiter_ok (cDelim p) = true ->
  fields <> [] ->
  Forall (field_ok (cDelim p)) fields ->
  never_fails (db p) ->
  Z.of_nat (length fields) <= limit_column (db p) ->
  Z.of_nat (length (encode_row (cDelim p) fields)) <= limit_length (db p) ->
  csv_getline p = Some (LineRead, q) -> line_frame p q ->
  zRow q = Some (encode_row (cDelim p) fields ++ NUL :: tail) ->
  exists r,
    csvNext p c = Some r /\ rc r = SQLITE_OK /\ site r = Parsed /\
    cursor r = mkCursor (fpos (f p)) /\
    table_ready (vtab r) /\ config_frame p (vtab r) /\ eof (vtab r) = 0 /\
    f (vtab r) = f q /\
    nCol (vtab r) = Z.of_nat (length fields) /\
    forall i, (i < length fields)%nat ->
              csvColumn (vtab r) (Z.of_nat i)
              = (SQLITE_OK, value_of (nth i fields (Bare [])),
                 allocs_of (nth i fields (Bare []))).
Proof.
  intros Hready He Hdelim Hne Hok Halloc Hlimc Hliml Hget Hfr Hz.
  destruct (csvNext_spec p c (table_ready_ok p Hready) He)
    as (r & E & Hcfg & _ & Hcur & _ & _ & _).
  destruct (csvNext_ready p c r Hready Halloc E) as [Hreadyr _].
  exists r. split; [exact E|].
  revert E. unfold csvNext. rewrite He, Hget. cbn [Z.eqb negb].
  destruct Hfr as (Hdb & _ & _ & _ & Heq & Hd & _ & Hmc & Hac & Hae).
  assert (Hrowq : row q = join (cDelim p) (map encode fields) ++ LF :: NUL :: tail).
  { unfold row. rewrite Hz. unfold encode_row. rewrite <- app_assoc. reflexivity. }
  set (q1 := if maxCol q <? 1 then _ else q).
  assert (H1 : row q1 = row q /\ eof q1 = eof q /\ db q1 = db q /\ cDelim q1 = cDelim q /\
               aCols q1 = Some (cols q1) /\ aEscapedQuotes q1 = Some (escs q1) /\
               Z.of_nat (length (cols q1)) = maxCol q1 /\
               Z.of_nat (length (escs q1)) = maxCol q1 /\ 1 <= maxCol q1 /\ f q1 = f q).
  { unfold q1. destruct (maxCol q <? 1) eqn:E.
    - assert (Hguess : 1 <= strlen (row q) 0 / 5 + 1).
      { unfold strlen. pose proof (Z.div_pos (Z.of_nat (length (string_at (row q) 0))) 5).
        lia. }
      cbv zeta. unfold sqlite3_alloc. unfold never_fails in Halloc.
      rewrite Hdb, !Halloc by (unfold sizeof_ptr, sizeof_int; lia).
      replace (0 <? sizeof_ptr * (strlen (row q) 0 / 5 + 1)) with true
        by (symmetry; apply Z.ltb_lt; unfold sizeof_ptr; lia).
      replace (0 <? sizeof_int * (strlen (row q) 0 / 5 + 1)) with true
        by (symmetry; apply Z.ltb_lt; unfold sizeof_int; lia).
      cbn [andb]. autorewrite with csv.
      cbn [eof db cDelim maxCol aCols aEscapedQuotes f
           set_maxCol set_aEscapedQuotes set_aCols].
      rewrite !repeat_length. repeat split; try lia; exact Hdb.
    - apply Z.ltb_ge in E. destruct Hready as (_ & _ & Hcols).
      rewrite Hmc in E. destruct (Hcols E) as (Ha & Hb' & Hl1 & Hl2).
      unfold cols, escs in *. rewrite Hac, Hae, Hmc.
      destruct (aCols p); [|congruence]. destruct (aEscapedQuotes p); [|congruence].
      repeat split; auto. }
  destruct H1 as (Hrow1 & He1 & Hdb1 & Hd1 & Ha1 & Hae1 & Hl1 & Hl2 & Hm1 & Hf1).
  rewrite Ha1, Hae1.
  destruct fields as [|x xs]; [congruence|].
  destruct (parse_cols_spec (S (length (row q1))) q1 0 0 ltac:(lia) ltac:(lia))
    as (st' & r' & q' & Espec & Hcf & _).
  destruct (parse_cols_fields (S (length (row q1))) q1 0 0 [] x xs tail)
    as (q2 & Eparse & HnC & He2 & _ & _ & Hcols);
    rewrite ?Hd1, ?Hdb1, ?Hd, ?Hdb; try assumption; try reflexivity; try lia.
  { rewrite Hrow1. exact Hrowq. }
  { rewrite Hrow1, Hrowq, length_app.
    pose proof (join_length (cDelim p) (map encode (x :: xs))).
    rewrite length_map in *. cbn [length] in *. lia. }
  { cbn [length] in Hlimc. lia. }
  rewrite Eparse in Espec. injection Espec as <- <- <-.
  rewrite Eparse. intros [= <-]. cbn [rc site vtab cursor] in *.
  destruct Hcf as (Hdb2 & _ & Hf2 & _).
  split; [reflexivity|]. split; [reflexivity|]. split; [reflexivity|].
  split; [exact Hreadyr|]. split; [exact Hcfg|]. split; [congruence|].
  rewrite Hf2, Hf1. split; [reflexivity|].
  split; [rewrite HnC; cbn [length]; lia|].
  intros i Hi.
  assert (Hin : In (nth i (x :: xs) (Bare [])) (x :: xs)) by (apply nth_In; exact Hi).
  apply (csvColumn_field _ (cDelim p)).
  - rewrite HnC. cbn [length] in *. lia.
  - rewrite Forall_forall in Hok. now apply Hok.
  - apply (Hcols i). cbn [length] in Hi. lia.
  - rewrite Hdb2, Hdb1, Hdb. exact Halloc.
  - rewrite Hdb2, Hdb1, Hdb.
    assert (Hle : (length (stored_of (nth i (x :: xs) (Bare [])))
                   <= length (encode (nth i (x :: xs) (Bare []))))%nat).
    { destruct (nth i (x :: xs) (Bare [])); cbn [stored_of encode length].
      - lia.
      - rewrite length_app. lia. }
    pose proof (join_field_length (cDelim p) (map encode (x :: xs)) _
                  (in_map encode _ _ Hin)) as Hj.
    unfold encode_row in Hliml. rewrite length_app in Hliml. cbn [length] in Hliml. lia.
Qed.

Lemma forallb_field_ok (d : ascii) (fields : list field) :
  forallb (field_okb d) fields = true -> Forall (field_ok d) fields.
Proof.
  rewrite forallb_forall. intros H. apply Forall_forall. intros x Hx.
  apply field_okb_field_ok. now apply H.
Qed.

(** csvNext over a row of fields, with the table as it leaves it: ready
    for the next row, the file just after the newline of the row. *)
Lemma csvNext_fields_row (p : CSV) (c : CSVCursor)
      (fields : list field) (rest : list ascii) :
  table_ready p -> eof p = 0 ->
  delimiter_ok (cDelim p) = true ->
  fields <> [] ->
  Forall (field_ok (cDelim p)) fields ->
  unread (f p) = encode_row (cDelim p) fields ++ rest ->
  lines_within 99 99 (encode_row (cDelim p) fields) = true ->
  never_fails (db p) ->
  2 * Z.of_nat (length (encode_row (cDelim p) fields)) + 300 <= limit_length (db p) ->
  Z.of_nat (length fields) <= limit_column (db p) ->
  exists r,
    csvNext p c = Some r /\ rc r = SQLITE_OK /\ site r = Parsed /\
    cursor r = mkCursor (fpos (f p)) /\
    table_ready (vtab r) /\ config_frame p (vtab r) /\ eof (vtab r) = 0 /\
    unread (f (vtab r)) = rest /\
    fpos (f (vtab r)) = fpos (f p) + Z.of_nat (length (encode_row (cDelim p) fields)) /\
    nCol (vtab r) = Z.of_nat (length fields) /\
    forall i, (i < length fields)%nat ->
              csvColumn (vtab r) (Z.of_nat i)
              = (SQLITE_OK, value_of (nth i fields (Bare [])),
                 allocs_of (nth i fields (Bare []))).
Proof.
  intros Hready He Hdelim Hne Hok Hun Hshort Halloc Hlim Hlimc.
  destruct (quote_state_fields _ _ Hdelim Hne Hok None (or_introl eq_refl))
    as [Hclear Hset].
  destruct (csv_getline_lines p (encode_row (cDelim p) fields) rest)
    as (q & tail & Hget & Hfr & Hz & Hunq & Hposq); try assumption.
  { unfold encode_row. eauto. }
  { now apply encode_row_no_nul. }
  { intros body Hbody. unfold encode_row in Hbody. apply app_inj_tail in Hbody as [<- _].
    now apply encode_row_last. }
  destruct (csvNext_of_fields p q c fields tail Hready He Hdelim Hne Hok Halloc Hlimc
              ltac:(lia) Hget Hfr Hz)
    as (r & E & Hrc & Hs & Hcur & Hreadyr & Hcfg & Her & Hf & Hn & Hcols).
  exists r. rewrite Hf. tauto.
Qed.

(** X13. A row whose fields are bare or quoted: a quoted field stands
    between quotes with its own quotes doubled, and may hold the delimiter,
    carriage returns and newlines.  When each line of the row has at most
    99 bytes with its newline, the row is within the limits of the host and
    no allocation fails, csvNext returns SQLITE_OK, leaves the file after
    the newline that ends the row and the cursor on a row with one column
    for each field, and csvColumn gives each field back as the writer had
    it: the text without the quotes around it, the doubled quotes made
    one. *)
Theorem csvNext_quoted_row (p : CSV) (c : CSVCursor)
        (fields : list field) (rest : list ascii) :
  table_ready p -> eof p = 0 ->
  delimiter_ok (cDelim p) = true ->
  fields <> [] ->
  forallb (field_okb (cDelim p)) fields = true ->
  unread (f p) = encode_row (cDelim p) fields ++ rest ->
  lines_within 99 99 (encode_row (cDelim p) fields) = true ->
  never_fails (db p) ->
  2 * Z.of_nat (length (encode_row (cDelim p) fields)) + 300 <= limit_length (db p) ->
  Z.of_nat (length fields) <= limit_column (db p) ->
  exists r,
    csvNext p c = Some r /\ rc r = SQLITE_OK /\ csvEof (vtab r) (cursor r) = 0 /\
    unread (f (vtab r)) = rest /\
    csvRowid (cursor r) = (SQLITE_OK, fpos (f p)) /\
    nCol (vtab r) = Z.of_nat (length fields) /\
    forall i, (i < length fields)%nat ->
              csvColumn (vtab r) (Z.of_nat i)
              = (SQLITE_OK, value_of (nth i fields (Bare [])),
                 allocs_of (nth i fields (Bare []))).
Proof.
  intros Hready He Hdelim Hne Hb Hun Hshort Halloc Hlim Hlimc.
  destruct (csvNext_fields_row p c fields rest Hready He Hdelim Hne
              (forallb_field_ok _ _ Hb) Hun Hshort Halloc Hlim Hlimc)
    as (r & E & Hrc & _ & Hcur & _ & _ & Her & Hunr & _ & Hn & Hcols).
  exists r. unfold csvEof, csvRowid. rewrite Hcur. cbn [csvpos snd]. tauto.
Qed.

(** *** Scans of a file of rows with quoted fields *)

Lemma read_row_fields (nDecl : nat) (p : CSV) (c : CSVCursor) (cur : list field) :
  nCol p = Z.of_nat (length cur) ->
  (forall i, (i < length cur)%nat ->
             csvColumn p (Z.of_nat i)
             = (SQLITE_OK, value_of (nth i cur (Bare [])), allocs_of (nth i cur (Bare [])))) ->
  read_row nDecl p c = mkRow (csvpos c) (field_values nDecl cur).
Proof.
  intros Hn Hcols. unfold read_row, field_values. cbn [csvRowid snd]. f_equal.
  apply map_ext. intros i. destruct (i <? length cur)%nat eqn:E.
  - apply Nat.ltb_lt in E. now rewrite Hcols.
  - apply Nat.ltb_ge in E. unfold csvColumn.
    replace (Z.of_nat i >=? nCol p) with true
      by (symmetry; rewrite Z.geb_leb; apply Z.leb_le; lia).
    now rewrite orb_true_r.
Qed.

Lemma field_lines_length (d : ascii) (rows : list (list field)) :
  (length rows <= length (field_lines d rows))%nat.
Proof.
  induction rows as [|x rows IH]; cbn [field_lines flat_map length]; [lia|].
  fold (field_lines d rows). unfold encode_row. rewrite !length_app. cbn [length]. lia.
Qed.

Lemma field_rowb_field_row (h : sqlite3) (d : ascii) (fields : list field) :
  field_rowb h d fields = true -> field_row h d fields.
Proof.
  unfold field_rowb, field_row. rewrite !andb_true_iff, negb_true_iff.
  intros ((((Hne & Hf) & Hs) & Hl) & Hc). apply Nat.eqb_neq in Hne.
  apply Z.leb_le in Hl, Hc.
  split; [intros ->; now apply Hne|].
  split; [now apply forallb_field_ok|]. tauto.
Qed.

Lemma field_rows_ok (h : sqlite3) (d : ascii) (rows : list (list field)) :
  forallb (field_rowb h d) rows = true -> Forall (field_row h d) rows.
Proof.
  rewrite forallb_forall, Forall_forall. intros H x Hx.
  apply field_rowb_field_row. now apply H.
Qed.

(** The loop of a scan over such rows: with the cursor on the row [cur]
    and the rows [rows] still in the file, it shows [cur] and then each of
    [rows], and ends with SQLITE_OK at the end of the file. *)
Lemma scan_rows_fields (nDecl : nat) (rows : list (list field)) :
  forall fuel p c cur,
    table_ready p -> eof p = 0 -> delimiter_ok (cDelim p) = true -> never_fails (db p) ->
    Forall (field_row (db p) (cDelim p)) rows ->
    unread (f p) = field_lines (cDelim p) rows ->
    nCol p = Z.of_nat (length cur) ->
    (forall i, (i < length cur)%nat ->
               csvColumn p (Z.of_nat i)
               = (SQLITE_OK, value_of (nth i cur (Bare [])),
                  allocs_of (nth i cur (Bare [])))) ->
    (length rows + 2 <= fuel)%nat ->
    exists scanned t c',
      scan_rows fuel nDecl p c = Some (scanned, SQLITE_OK, t, c') /\
      map row_values scanned = map (field_values nDecl) (cur :: rows) /\
      map row_id scanned = csvpos c :: field_offsets (cDelim p) (fpos (f p)) rows /\
      table_ready t /\ config_frame p t /\ eof t = -1.
Proof.
  induction rows as [|fields rows IH];
    intros fuel p c cur Hready He Hdelim Halloc Hrows Hun Hn Hcols Hfuel;
    (destruct fuel as [|fuel]; [cbn [length] in Hfuel; lia|]);
    cbn [scan_rows]; unfold csvEof; rewrite He; cbn [Z.eqb negb];
    rewrite (read_row_fields nDecl p c cur Hn Hcols).
  - destruct (csvNext_no_byte_left p c (table_ready_ok p Hready) He Hun)
      as (r & st & E & _ & Hrc & Hf & _ & Hcfg & _).
    rewrite E, Hrc. cbn [Z.eqb SQLITE_OK].
    destruct fuel as [|fuel]; [cbn [length] in Hfuel; lia|].
    cbn [scan_rows]. unfold csvEof. rewrite Hf. cbn [Z.eqb negb].
    do 3 eexists. split; [reflexivity|]. cbn [map row_values row_id field_offsets].
    split; [reflexivity|]. split; [reflexivity|].
    split; [now destruct (csvNext_ready p c r Hready Halloc E)|].
    split; [exact Hcfg | exact Hf].
  - cbn [field_lines flat_map] in Hun. fold (field_lines (cDelim p) rows) in Hun.
    pose proof (Forall_inv Hrows) as (Hne & Hok & Hshort & Hlim & Hlimc).
    destruct (csvNext_fields_row p c fields _ Hready He Hdelim Hne Hok Hun Hshort Halloc
                Hlim Hlimc)
      as (r & E & Hrc & _ & Hcur & Hreadyr & Hcfg & Her & Hunr & Hposr & Hnr & Hcolsr).
    rewrite E, Hrc. cbn [Z.eqb SQLITE_OK].
    destruct Hcfg as (Hdb & Hb & Hfd & Hoff & Hd).
    destruct (IH fuel (vtab r) (cursor r) fields Hreadyr Her) as
      (scanned & t & c' & -> & Hvals & Hids & Hreadyt & Hcfgt & Het).
    + now rewrite Hd.
    + now rewrite Hdb.
    + rewrite Hdb, Hd. now apply Forall_inv_tail in Hrows.
    + now rewrite Hd.
    + exact Hnr.
    + exact Hcolsr.
    + cbn [length] in Hfuel. lia.
    + do 3 eexists. split; [reflexivity|]. cbn [map row_values row_id field_offsets].
      rewrite Hvals, Hids, Hcur, Hd, Hposr. cbn [csvpos map].
      split; [reflexivity|]. split; [reflexivity|]. split; [exact Hreadyt|].
      split; [|exact Het].
      apply (config_frame_trans _ (vtab r)); [|exact Hcfgt].
      unfold config_frame. tauto.
Qed.

(** A full scan of a table whose file holds, from the start of the data
    on, such rows only. *)
Lemma full_scan_fields (nDecl : nat) (p : CSV) (c : CSVCursor) (rows : list (list field)) :
  table_ready p -> never_fails (db p) -> delimiter_ok (cDelim p) = true ->
  1 <= nBusy p -> 0 <= offsetFirstRow p ->
  skipn (Z.to_nat (offsetFirstRow p)) (fdata (f p)) = field_lines (cDelim p) rows ->
  Forall (field_row (db p) (cDelim p)) rows ->
  exists scanned t c',
    full_scan nDecl p c = Some (scanned, SQLITE_OK, Some t, c') /\
    map row_values scanned = map (field_values nDecl) rows /\
    map row_id scanned = field_offsets (cDelim p) (offsetFirstRow p) rows /\
    table_ready t /\ config_frame p t.
Proof.
  intros Hready Halloc Hdelim Hbusy Hoff Hdata Hrows.
  destruct (rewound_ready p Hready Hoff) as (Hready0 & He0 & Hf0 & Hdb0 & Hd0 & Hb0 & Ho0).
  assert (Hun0 : unread (f (rewound p)) = field_lines (cDelim p) rows).
  { rewrite Hf0. exact Hdata. }
  unfold full_scan, csvFilter. cbv zeta.
  change (csv_seek (set_eof (csvReference p) 0) _) with (rewound p).
  assert (Hrel : forall q, nBusy q = nBusy p + 1 ->
                           snd (csvRelease q) = Some (set_nBusy q (nBusy q - 1))).
  { intros q Hq. unfold csvRelease. cbn [nBusy set_nBusy].
    replace (nBusy q - 1 <? 1) with false by (symmetry; apply Z.ltb_ge; lia).
    reflexivity. }
  destruct rows as [|fields rows].
  - destruct (csvNext_no_byte_left (rewound p) c (table_ready_ok _ Hready0) He0 Hun0)
      as (r & st & E & _ & Hrc & Hf & _ & Hcfg & _).
    rewrite E. cbn [fvtab frc fcursor]. destruct Hcfg as (Hdb & Hb & Hfd & Ho & Hd).
    rewrite (Hrel (vtab r)) by lia. rewrite Hrc. cbn [Z.eqb SQLITE_OK].
    cbn [scan_rows]. unfold csvEof. cbn [eof set_nBusy]. rewrite Hf. cbn [Z.eqb negb].
    do 3 eexists. split; [reflexivity|]. split; [reflexivity|]. split; [reflexivity|].
    destruct (csvNext_ready _ c r Hready0 ltac:(rewrite Hdb0; exact Halloc) E) as [Hr _].
    split.
    + eapply table_ready_frame; [exact Hr| | | | | |]; reflexivity.
    + unfold config_frame. cbn. rewrite Hdb, Hb, Hfd, Ho, Hd, Hf0. cbn.
      repeat split; try congruence; lia.
  - cbn [field_lines flat_map] in Hun0. fold (field_lines (cDelim p) rows) in Hun0.
    pose proof (Forall_inv Hrows) as (Hne & Hok & Hshort & Hlim & Hlimc).
    destruct (csvNext_fields_row (rewound p) c fields (field_lines (cDelim p) rows)
                Hready0 He0) as
      (r & E & Hrc & _ & Hcur & Hreadyr & Hcfg & Her & Hunr & Hposr & Hnr & Hcolsr);
      rewrite ?Hd0, ?Hdb0; try assumption.
    rewrite E. cbn [fvtab frc fcursor]. destruct Hcfg as (Hdb & Hb & Hfd & Ho & Hd).
    rewrite (Hrel (vtab r)) by lia. rewrite Hrc. cbn [Z.eqb SQLITE_OK].
    set (t := set_nBusy (vtab r) (nBusy (vtab r) - 1)).
    assert (Hreadyt : table_ready t)
      by (eapply table_ready_frame; [exact Hreadyr| | | | | |]; reflexivity).
    destruct (scan_rows_fields nDecl rows (S (S (length (fdata (f t))))) t (cursor r) fields
                Hreadyt Her) as (scanned & t' & c' & -> & Hvals & Hids & Hreadyt' & Hcfgt & _).
    + change (cDelim t) with (cDelim (vtab r)). now rewrite Hd, Hd0.
    + change (db t) with (db (vtab r)). now rewrite Hdb, Hdb0.
    + change (db t) with (db (vtab r)). change (cDelim t) with (cDelim (vtab r)).
      rewrite Hdb, Hdb0, Hd, Hd0. now apply Forall_inv_tail in Hrows.
    + change (f t) with (f (vtab r)). change (cDelim t) with (cDelim (vtab r)).
      now rewrite Hd, Hd0.
    + exact Hnr.
    + exact Hcolsr.
    + change (f t) with (f (vtab r)).
      pose proof (field_lines_length (cDelim p) rows) as Hl.
      rewrite <- Hunr in Hl. unfold unread in Hl. rewrite length_skipn in Hl. lia.
    + do 3 eexists. split; [reflexivity|]. rewrite Hvals, Hids, Hcur.
      change (f t) with (f (vtab r)). change (cDelim t) with (cDelim (vtab r)).
      rewrite Hposr, Hd, Hd0, Hf0. cbn [csvpos fpos field_offsets map].
      split; [reflexivity|]. split; [reflexivity|]. split; [exact Hreadyt'|].
      apply (config_frame_trans _ t); [|exact Hcfgt].
      unfold config_frame, t. cbn. rewrite Hdb, Hb, Hfd, Ho, Hd, Hf0. cbn.
      repeat split; try congruence; lia.
Qed.

(** X14. A table whose file holds, from the start of the data on, rows of
    fields, bare or quoted, that the table reads whole (each line of a row
    has at most 99 bytes with its newline, the rows are within the limits
    of the host, no allocation fails) is scanned twice: both scans end
    with SQLITE_OK and show the same, each row of the file in order, the
    fields as the writer had them (nulls for the declared columns the row
    does not have), and the offset of the row in the file as its row
    identifier. *)
Theorem full_scan_quoted_rows (nDecl : nat) (p : CSV) (c : CSVCursor)
        (rows : list (list field)) :
  table_ready p -> never_fails (db p) -> delimiter_ok (cDelim p) = true ->
  1 <= nBusy p -> 0 <= offsetFirstRow p ->
  skipn (Z.to_nat (offsetFirstRow p)) (fdata (f p)) = field_lines (cDelim p) rows ->
  forallb (field_rowb (db p) (cDelim p)) rows = true ->
  exists scanned t c' again t' c'',
    full_scan nDecl p c = Some (scanned, SQLITE_OK, Some t, c') /\
    full_scan nDecl t c' = Some (again, SQLITE_OK, Some t', c'') /\
    map row_values scanned = map (field_values nDecl) rows /\
    map row_id scanned = field_offsets (cDelim p) (offsetFirstRow p) rows /\
    map row_values again = map row_values scanned /\
    map row_id again = map row_id scanned.
Proof.
  intros Hready Halloc Hdelim Hbusy Hoff Hdata Hrowsb.
  pose proof (field_rows_ok _ _ _ Hrowsb) as Hrows.
  destruct (full_scan_fields nDecl p c rows Hready Halloc Hdelim Hbusy Hoff Hdata Hrows)
    as (scanned & t & c' & E1 & Hv1 & Hi1 & Hreadyt & Hcfg).
  destruct Hcfg as (Hdb & Hb & Hfd & Ho & Hd).
  destruct (full_scan_fields nDecl t c' rows Hreadyt)
    as (again & t' & c'' & E2 & Hv2 & Hi2 & _); rewrite ?Hdb, ?Hd, ?Ho, ?Hfd;
    try assumption; try lia.
  exists scanned, t, c', again, t', c''. rewrite Hv1, Hi1, Hv2, Hi2, Hd, Ho. tauto.
Qed.

(** ** A file that is missing or empty *)

(** X15. CREATE VIRTUAL TABLE over a file that cannot be opened, or that
    is empty: when the table object is allocated, csvInit gives no table
    and returns SQLITE_ERROR.  For a file that cannot be opened the
    message names the file, without the single quotes around the
    argument; for an empty file it is [No columns found], whatever the
    delimiter and the other arguments. *)
Theorem csvInit_without_data (env : environment) (h : sqlite3) (argv : list (list ascii))
        (isCreate : bool) (name : list ascii) :
  4 <= Z.of_nat (length argv) -> never_fails h ->
  zFile_of (arg argv 3) = Some name ->
  (fopen env name = None ->
   csvInit_argv env h argv isCreate
   = Some (mkInit NoFile SQLITE_ERROR None
                  (sqlite3_mprintf env (bytes "Error opening CSV file: '" ++ name ++ [SQUOTE])))) /\
  (fopen env name = Some [] ->
   csvInit_argv env h argv isCreate
   = Some (mkInit NoColumns SQLITE_ERROR None
                  (sqlite3_mprintf env (bytes "No columns found")))).
Proof.
  intros Hargc Halloc Hname. unfold csvInit_argv.
  replace (Z.of_nat (length argv) <? 4) with false by (symmetry; apply Z.ltb_ge; lia).
  unfold sqlite3_alloc. rewrite Halloc by (unfold sizeof_CSV; lia).
  replace (0 <? sizeof_CSV + Z.of_nat (length (arg argv 1)) + Z.of_nat (length (arg argv 2))
                + Z.of_nat (length (arg argv 3)) + 3) with true
    by (symmetry; apply Z.ltb_lt; unfold sizeof_CSV; lia).
  cbn [andb negb]. rewrite Hname. split; intros ->; [reflexivity|].
  set (p0 := mkCSV h 1 (mkFILE [] 0) 0 0 0 None (cDelim_of argv) 0 0 None None).
  assert (Hok : table_ok p0) by (unfold table_ok, p0; cbn; split; [lia | congruence]).
  destruct (csvNext_no_byte_left p0 (mkCursor 0) Hok eq_refl eq_refl)
    as (r & st & E & Hs & Hrc & _).
  rewrite E.
  rewrite (csvNext_no_line_nCol p0 (mkCursor 0) r st Hok eq_refl E Hs).
  unfold p0. cbn [nCol]. change (0 <=? 0) with true. rewrite orb_true_r. reflexivity.
Qed.

(** ** A last row without newline *)

Lemma take_line_no_lf (k : nat) (l : list ascii) : ~ In LF l -> take_line k l = firstn k l.
Proof.
  revert l. induction k as [|k IH]; intros [|c l] H; cbn [take_line firstn]; try reflexivity.
  rewrite (eqb_false_of_neq c LF) by (intros ->; apply H; now left).
  f_equal. apply IH. intros Hin. apply H. now right.
Qed.

(** The loop of csv_getline over the last bytes of a file, a line of
    unquoted fields that no newline ends: it reads them all, and the read
    that finds the end of the file ends the row. *)
Lemma getline_loop_eof (fuel : nat) :
  forall p n bS done todo,
    Z.of_nat (length (row p)) = maxRow p ->
    n = Z.of_nat (length done) -> n < maxRow p ->
    firstn (length done) (row p) = done ->
    0 <= fpos (f p) ->
    unread (f p) = todo ->
    Forall line_byte (done ++ todo) ->
    quiet (cDelim p) None (done ++ todo) = true ->
    done ++ todo <> [] ->
    (length todo < fuel)%nat ->
    never_fails (db p) ->
    2 * (Z.of_nat (length done) + Z.of_nat (length todo) + 1) + 300 <= limit_length (db p) ->
    exists q bS' tail,
      getline_loop fuel p n bS false
      = Some (LeftLoop true, q, n + Z.of_nat (length todo), bS') /\
      line_frame p q /\
      row q = done ++ todo ++ NUL :: tail /\
      Z.of_nat (length (row q)) = maxRow q /\
      unread (f q) = [].
Proof.
  induction fuel as [|fuel IH];
    intros p n bS done todo Hlen Hn Hmax Hdone Hpos Hun Hbytes Hquiet Hne Hfuel Halloc Hlim;
    [lia|].
  cbn [getline_loop].
  (* grow row buffer as needed *)
  match goal with |- context [match ?g with inl _ => _ | inr _ => _ end] =>
    assert (Hg : exists p1 bS1,
               g = inr (p1, bS1) /\ line_frame p p1 /\ f p1 = f p /\
               Z.of_nat (length (row p1)) = maxRow p1 /\ n + 100 <= maxRow p1 /\
               firstn (length done) (row p1) = done /\ db p1 = db p);
    [|destruct Hg as (p1 & bS1 & -> & Hfr & Hf & Hlen1 & Hroom & Hdone1 & Hdb)]
  end.
  { destruct (n + 100 >? maxRow p) eqn:E.
    - rewrite Z.gtb_ltb in E. apply Z.ltb_lt in E.
      replace (maxRow p * 2 + 100 >=? limit_length (db p)) with false
        by (symmetry; rewrite Z.geb_leb; apply Z.leb_gt; lia).
      unfold sqlite3_alloc. rewrite Halloc by lia.
      replace (0 <? maxRow p * 2 + 100) with true by (symmetry; apply Z.ltb_lt; lia).
      cbn [andb negb]. do 2 eexists. split; [reflexivity|].
      autorewrite with csv. cbn [f db maxRow set_zRow set_maxRow].
      rewrite realloc_cells_grow by lia.
      repeat split; try (unfold line_frame; cbn; tauto); try lia.
      + rewrite length_app, repeat_length. lia.
      + rewrite firstn_app. replace (length done - length (row p))%nat with O by lia.
        cbn [firstn]. rewrite app_nil_r. exact Hdone.
    - rewrite Z.gtb_ltb in E. apply Z.ltb_ge in E.
      exists p, bS. repeat split; try apply line_frame_refl; auto; lia. }
  rewrite Hf.
  set (size := maxRow p1 - n).
  set (k := Z.to_nat (size - 1)).
  destruct (line_bytes_not_in _ Hbytes) as (Hnul & Hlf & Hcr).
  assert (Hd1 : cDelim p1 = cDelim p) by (unfold line_frame in Hfr; tauto).
  destruct todo as [|c0 todo0].
  - (* the end of the file *)
    assert (Hnone : fgets size (f p) = (None, f p)).
    { unfold fgets. fold (unread (f p)). rewrite Hun.
      replace (size <=? 0) with false by (symmetry; apply Z.leb_gt; unfold size; lia).
      replace (size =? 1) with false by (symmetry; apply Z.eqb_neq; unfold size; lia).
      destruct (Z.to_nat (size - 1)); reflexivity. }
    rewrite Hnone. rewrite app_nil_r in Hne.
    assert (Hpos' : 0 < n) by (rewrite Hn; destruct done; [congruence | cbn [length]; lia]).
    replace (n =? 0) with false by (symmetry; apply Z.eqb_neq; lia).
    assert (Hsplit : exists x rest', row p1 = done ++ x :: rest').
    { rewrite <- (firstn_skipn (length done) (row p1)), Hdone1.
      destruct (skipn (length done) (row p1)) as [|x rest'] eqn:Es; [|eauto].
      apply (f_equal (@length ascii)) in Es. rewrite length_skipn in Es.
      cbn [length] in Es. lia. }
    destruct Hsplit as (x & rest' & Hsplit).
    exists (set_zRow p1 (Some (done ++ NUL :: rest'))), bS1, rest'.
    split; [rewrite Hsplit, Hn, aset_app_at, Z.add_0_r; reflexivity|].
    split; [apply (line_frame_trans _ p1); [exact Hfr|]; unfold line_frame; cbn; tauto|].
    autorewrite with csv. cbn [f maxRow set_zRow app].
    split; [reflexivity|].
    split; [rewrite <- Hlen1, Hsplit, !length_app; reflexivity|].
    rewrite Hf. exact Hun.
  - (* a read *)
    set (todo := c0 :: todo0) in *.
    assert (Htodo : ~ In LF todo) by (intros H; apply Hlf, in_or_app; now right).
    assert (Htake : take_line k (unread (f p)) = firstn k todo)
      by (rewrite Hun; now apply take_line_no_lf).
    set (chunk := firstn k todo).
    assert (Hk : (99 <= k)%nat) by (unfold k, size; lia).
    assert (Hchunk : (1 <= length chunk)%nat).
    { unfold chunk, todo. rewrite length_firstn. cbn [length]. lia. }
    assert (Hne' : chunk <> []) by (intros H; rewrite H in Hchunk; cbn in Hchunk; lia).
    rewrite (fgets_eq size (f p) chunk ltac:(unfold size; lia) Hne' Htake).
    set (tail := skipn (Z.to_nat n + length (chunk ++ [NUL])) (row p1)).
    assert (Hlck : (length chunk <= k)%nat) by (unfold chunk; rewrite length_firstn; lia).
    assert (Hbuf : write_at (row p1) n (chunk ++ [NUL]) = done ++ chunk ++ NUL :: tail).
    { unfold write_at. fold tail. rewrite Hn, Nat2Z.id, Hdone1, <- app_assoc. reflexivity. }
    autorewrite with csv. rewrite Hbuf. cbn [cDelim set_f set_zRow].
    assert (Hparts : todo = chunk ++ skipn k todo) by (symmetry; apply firstn_skipn).
    assert (Hclean : ~ In NUL chunk /\ quiet (cDelim p) (last_byte done) chunk = true).
    { rewrite quiet_app_start in Hquiet. apply andb_true_iff in Hquiet as [_ Hquiet].
      split.
      - intros H; apply in_firstn in H. apply Hnul, in_or_app. now right.
      - rewrite Hparts, quiet_app in Hquiet.
        now apply andb_true_iff in Hquiet as [Hquiet _]. }
    destruct Hclean as [Hcn Hcq].
    rewrite Hn, Hd1.
    rewrite scan_quotes_plain; [|assumption|assumption|].
    2:{ rewrite !length_app. cbn [length]. lia. }
    set (n' := Z.of_nat (length done) + Z.of_nat (length chunk)).
    set (buf := done ++ chunk ++ NUL :: tail).
    assert (Hlb : length buf = length (row p1)).
    { unfold buf. rewrite <- Hbuf. apply length_write_at.
      rewrite length_app. cbn [length]. unfold size in *. lia. }
    set (p2 := set_f (set_zRow p1 (Some buf)) _).
    assert (Hfr2 : line_frame p p2).
    { apply (line_frame_trans _ p1); [exact Hfr|].
      unfold line_frame, p2. cbn. rewrite Hf. tauto. }
    assert (Hlast : In (load buf (n' - 1)) (done ++ todo)).
    { unfold buf. rewrite app_assoc, load_app_l.
      - rewrite Hparts, app_assoc. apply in_or_app. left.
        apply load_in. rewrite length_app. unfold n'. lia.
      - rewrite length_app. unfold n'. lia. }
    rewrite Forall_forall in Hbytes. destruct (Hbytes _ Hlast) as (_ & Hl1 & Hl2).
    rewrite (eqb_false_of_neq _ _ Hl1), (eqb_false_of_neq _ _ Hl2).
    rewrite andb_false_r. cbn [orb andb].
    assert (Hlt : (length todo = length chunk + length (skipn k todo))%nat).
    { rewrite Hparts at 1. apply length_app. }
    destruct (IH p2 n' bS1 (done ++ chunk) (skipn k todo))
      as (q & bS' & tail' & Hrun & Hfrq & Hrow & Hlenq & Hunq).
    + unfold p2. autorewrite with csv. cbn [maxRow set_f set_zRow]. lia.
    + rewrite length_app. unfold n'. lia.
    + unfold p2. cbn [maxRow set_f set_zRow]. unfold n', size in *. lia.
    + unfold p2. autorewrite with csv. unfold buf.
      rewrite app_assoc, firstn_app, firstn_all, Nat.sub_diag. cbn [firstn].
      apply app_nil_r.
    + unfold p2. cbn. lia.
    + unfold p2. cbn [f set_f]. rewrite unread_skip by exact Hpos.
      rewrite Hun. rewrite Hparts at 1.
      now rewrite skipn_app, skipn_all, Nat.sub_diag.
    + apply Forall_forall. intros c Hc. apply Hbytes.
      rewrite <- app_assoc, <- Hparts in Hc. exact Hc.
    + unfold p2. cbn [cDelim set_f set_zRow].
      rewrite Hd1, <- app_assoc, <- Hparts. exact Hquiet.
    + intros H. apply app_eq_nil in H as [H _]. apply app_eq_nil in H as [_ H].
      now apply Hne'.
    + lia.
    + unfold p2. cbn [db set_f set_zRow]. rewrite Hdb. exact Halloc.
    + unfold p2. cbn [db set_f set_zRow]. rewrite Hdb, length_app. lia.
    + exists q, bS', tail'.
      replace (Z.of_nat (length done) + Z.of_nat (length todo))
        with (n' + Z.of_nat (length (skipn k todo))) by (unfold n'; lia).
      split; [exact Hrun|]. split; [exact (line_frame_trans _ _ _ Hfr2 Hfrq)|].
      split.
      { rewrite Hrow, <- !app_assoc. f_equal. rewrite app_assoc, <- Hparts. reflexivity. }
      split; [exact Hlenq | exact Hunq].
Qed.

(** csv_getline over such last bytes: the row is those bytes, and no
    newline is put after them. *)
Lemma csv_getline_eof (p : CSV) (line : list ascii) :
  table_ready p ->
  unread (f p) = line -> line <> [] ->
  Forall line_byte line ->
  quiet (cDelim p) None line = true ->
  never_fails (db p) ->
  2 * (Z.of_nat (length line) + 1) + 300 <= limit_length (db p) ->
  exists q tail,
    csv_getline p = Some (LineRead, q) /\ line_frame p q /\
    zRow q = Some (line ++ NUL :: tail) /\
    unread (f q) = [].
Proof.
  intros (Hpos & Hrow & _) Hun Hne Hbytes Hquiet Halloc Hlim. unfold csv_getline.
  set (p0 := if maxRow p <? 1 then _ else p).
  assert (H0 : line_frame p p0 /\ f p0 = f p /\ zRow p0 <> None /\
               Z.of_nat (length (row p0)) = maxRow p0 /\ 1 <= maxRow p0).
  { unfold p0. destruct (maxRow p <? 1) eqn:E.
    - unfold sqlite3_alloc. rewrite Halloc by lia. cbn [Z.ltb Z.compare andb].
      unfold line_frame. cbn. repeat split; try lia; discriminate.
    - apply Z.ltb_ge in E. destruct (Hrow E) as [Hz Hl].
      repeat split; try apply line_frame_refl; auto. }
  destruct H0 as (Hfr0 & Hf0 & Hz0 & Hlen0 & Hmax0).
  destruct (zRow p0) as [b0|] eqn:Ez0; [clear Hz0 | congruence].
  assert (Hdb0 : db p0 = db p) by (unfold line_frame in Hfr0; tauto).
  assert (Hd0 : cDelim p0 = cDelim p) by (unfold line_frame in Hfr0; tauto).
  assert (Hlenw : (length line <= length (fdata (f p)))%nat).
  { apply (f_equal (@length ascii)) in Hun.
    unfold unread in Hun. rewrite length_skipn in Hun. lia. }
  destruct (getline_loop_eof (S (length (fdata (f p0)))) p0 0 false [] line)
    as (q & bS & tail & Hrun & Hfr & Hrowq & Hlenq & Hunq);
    rewrite ?Hf0, ?Hdb0, ?Hd0; try assumption; try reflexivity; try (cbn [length]; lia).
  rewrite Hf0 in Hrun. rewrite Hrun. cbn [app] in Hrowq.
  assert (Hdbq : db q = db p) by (unfold line_frame in Hfr; intuition congruence).
  assert (Hfrq : line_frame p q) by exact (line_frame_trans _ _ _ Hfr0 Hfr).
  assert (Hzq : zRow q = Some (row q)).
  { unfold row. destruct (zRow q) eqn:E; [reflexivity|].
    unfold row in Hrowq. rewrite E in Hrowq. destruct line; discriminate. }
  destruct bS.
  - unfold sqlite3_alloc. rewrite Hdbq, Halloc by lia.
    replace (0 <? 0 + Z.of_nat (length line) + 1) with true
      by (symmetry; apply Z.ltb_lt; lia).
    cbn [andb]. autorewrite with csv. cbn [zRow set_maxRow set_zRow].
    assert (Hcut : exists tail',
               realloc_cells (row q) (0 + Z.of_nat (length line) + 1) (fresh_byte (db p))
               = line ++ NUL :: tail').
    { unfold realloc_cells. rewrite Hrowq.
      replace (line ++ NUL :: tail) with ((line ++ [NUL]) ++ tail)
        by (rewrite <- app_assoc; reflexivity).
      rewrite firstn_app.
      rewrite firstn_all2 by (rewrite length_app; cbn [length]; lia).
      rewrite <- !app_assoc. cbn [app]. eexists. reflexivity. }
    destruct Hcut as (tail' & Hcut).
    do 2 eexists. split; [reflexivity|].
    split; [apply (line_frame_trans _ q); [exact Hfrq|]; unfold line_frame; cbn; tauto|].
    cbn [zRow f set_maxRow set_zRow]. rewrite Hcut.
    split; [reflexivity | exact Hunq].
  - rewrite Hzq. exists q, tail. rewrite Hrowq in *.
    split; [reflexivity|]. split; [exact Hfrq|]. split; [exact Hzq | exact Hunq].
Qed.

Lemma strpbrk_no_delimiter (d : ascii) (pre fld more : list ascii) :
  Forall (plain d) fld ->
  strpbrk (pre ++ fld ++ NUL :: more) (Z.of_nat (length pre)) [d; LF] = None.
Proof.
  intros Hfld. unfold strpbrk.
  rewrite Nat2Z.id, skipn_app, skipn_all, Nat.sub_diag. cbn [skipn app].
  assert (H : span_until (fun x => existsb (fun a => (x =? a)%char) [d; LF])
                         (fld ++ NUL :: more) = None); [|now rewrite H].
  induction fld as [|c fld IH]; cbn [app span_until]; [reflexivity|].
  destruct (Forall_inv Hfld) as (H1 & H2 & _ & H4).
  rewrite IH by now apply Forall_inv_tail in Hfld.
  rewrite (eqb_false_of_neq _ _ H1). cbn [existsb].
  now rewrite (eqb_false_of_neq _ _ H4), (eqb_false_of_neq _ _ H2).
Qed.

(** A line of unquoted fields whose last field is not empty starts with a
    byte that is neither a quote nor a NUL. *)
Lemma open_head (d : ascii) (fld : list ascii) (flds : list (list ascii)) (tail : list ascii) :
  Forall (unquoted d) (fld :: flds) -> delimiter_ok d = true ->
  last (fld :: flds) [] <> [] ->
  exists c rest,
    join d (fld :: flds) ++ NUL :: tail = c :: rest /\ c <> DQUOTE /\ c <> NUL.
Proof.
  intros Hf Hd Hlast. destruct (delimiter_ok_neq _ Hd) as (Hd0 & _ & _ & Hd3).
  destruct flds as [|f2 fl].
  - cbn [last join] in *. destruct (Forall_inv Hf) as [Hp Hq].
    destruct fld as [|c fld]; [congruence|].
    exists c. eexists. split; [reflexivity|]. split; [now apply (Hq c fld)|].
    apply Forall_inv in Hp. unfold plain in Hp. tauto.
  - rewrite join_cons, <- app_assoc. cbn [app].
    apply (field_head d); [now apply Forall_inv in Hf | exact Hd3 | exact Hd0].
Qed.

(** The parsing loop over a row that no newline ends: after the last
    field it finds neither delimiter nor newline. *)
Lemma parse_cols_open (fuel : nat) :
  forall p s nC pre fld flds tail,
    row p = pre ++ join (cDelim p) (fld :: flds) ++ NUL :: tail ->
    s = Z.of_nat (length pre) ->
    Z.of_nat (length (cols p)) = maxCol p ->
    Z.of_nat (length (escs p)) = maxCol p ->
    0 <= nC < maxCol p ->
    Forall (unquoted (cDelim p)) (fld :: flds) ->
    last (fld :: flds) [] <> [] ->
    delimiter_ok (cDelim p) = true ->
    (length flds < fuel)%nat ->
    never_fails (db p) ->
    nC + Z.of_nat (length flds) + 1 <= limit_column (db p) ->
    exists q,
      parse_cols fuel p s nC = Some (NoColDelimiter, SQLITE_ERROR, q) /\ eof q = -1.
Proof.
  induction fuel as [|fuel IH];
    intros p s nC pre fld flds tail Hrow Hs Hlc Hle HnC Hplain Hlast Hdelim Hfuel Halloc Hlim;
    [lia|].
  cbn [parse_cols].
  destruct (delimiter_ok_neq _ Hdelim) as (Hd0 & Hd1 & Hd2 & Hd3).
  assert (Hunq : unquoted (cDelim p) fld) by now apply Forall_inv in Hplain.
  assert (Hfld : Forall (plain (cDelim p)) fld) by exact (proj1 Hunq).
  destruct (open_head _ fld flds tail Hplain Hdelim Hlast) as (c0 & rest0 & Hhead & Hc0 & _).
  assert (Hload : load (row p) s = c0).
  { rewrite Hrow, Hhead, Hs. apply load_app_at. }
  rewrite Hload, (eqb_false_of_neq _ _ Hc0).
  cbv beta iota zeta.
  autorewrite with csv.
  rewrite zDelims_eq by exact Hd0.
  cbn [cDelim set_aEscapedQuotes set_aCols].
  destruct flds as [|f2 fl].
  - (* the last field: the row ends after it *)
    cbn [join] in Hrow.
    rewrite Hrow, Hs, strpbrk_no_delimiter by exact Hfld.
    eexists. split; reflexivity.
  - (* the delimiter: more fields follow *)
    set (more := join (cDelim p) (f2 :: fl) ++ NUL :: tail).
    assert (Hrow1 : row p = pre ++ fld ++ cDelim p :: more).
    { rewrite Hrow, join_cons, <- app_assoc. reflexivity. }
    assert (Hfind : strpbrk (row p) s [cDelim p; LF] = Some (s + Z.of_nat (length fld))).
    { rewrite Hrow1, Hs. apply strpbrk_field; auto. }
    rewrite Hfind.
    assert (Hrow2 : row p = (pre ++ fld) ++ cDelim p :: more)
      by (rewrite Hrow1, <- app_assoc; reflexivity).
    assert (Hs2 : s + Z.of_nat (length fld) = Z.of_nat (length (pre ++ fld)))
      by (rewrite length_app; lia).
    assert (Hsepload : load (row p) (s + Z.of_nat (length fld)) = cDelim p).
    { rewrite Hs2, Hrow2. apply load_app_at. }
    assert (Hnulset : aset (row p) (s + Z.of_nat (length fld)) NUL
                      = (pre ++ fld) ++ NUL :: more).
    { rewrite Hs2, Hrow2. apply aset_app_at. }
    rewrite Hsepload, Hnulset.
    set (p2 := set_zRow _ (Some ((pre ++ fld) ++ NUL :: more))).
    assert (Hcols2 : cols p2 = aset (cols p) nC (Some s)) by reflexivity.
    assert (Hescs2 : escs p2 = aset (escs p) nC 0) by reflexivity.
    assert (Hrowp2 : row p2 = (pre ++ fld) ++ NUL :: more) by reflexivity.
    rewrite (eqb_false_of_neq _ _ Hd1).
    assert (Hrest : Forall (unquoted (cDelim p)) (f2 :: fl))
      by now apply Forall_inv_tail in Hplain.
    cbn [length] in Hlim, Hfuel.
    match goal with |- context [match ?g with inl _ => _ | inr _ => _ end] =>
      assert (Hg : exists p3,
                 g = inr p3 /\ row p3 = row p2 /\ db p3 = db p /\
                 cDelim p3 = cDelim p /\
                 Z.of_nat (length (cols p3)) = maxCol p3 /\
                 Z.of_nat (length (escs p3)) = maxCol p3 /\
                 nC + 1 < maxCol p3);
      [|destruct Hg as (p3 & -> & Hrow3 & Hdb3 & Hd3' & Hlc3 & Hle3 & HnC3)]
    end.
    { change (maxCol p2) with (maxCol p). change (db p2) with (db p).
      destruct (nC + 1 >=? maxCol p) eqn:E; rewrite Z.geb_leb in E.
      - apply Z.leb_le in E.
        replace (nC + 1 >=? limit_column (db p)) with false
          by (symmetry; rewrite Z.geb_leb; apply Z.leb_gt; lia).
        unfold sqlite3_alloc. cbn [db set_aCols set_maxCol].
        change (db p2) with (db p). rewrite !Halloc by (unfold sizeof_ptr, sizeof_int; lia).
        replace (0 <? sizeof_ptr * (nC + 1 + 5)) with true
          by (symmetry; apply Z.ltb_lt; unfold sizeof_ptr; lia).
        replace (0 <? sizeof_int * (nC + 1 + 5)) with true
          by (symmetry; apply Z.ltb_lt; unfold sizeof_int; lia).
        cbn [andb negb]. eexists. split; [reflexivity|].
        autorewrite with csv. cbn [db cDelim maxCol set_aEscapedQuotes set_aCols set_maxCol].
        rewrite !length_realloc_cells.
        repeat split; try reflexivity; lia.
      - apply Z.leb_gt in E. exists p2.
        rewrite Hcols2, Hescs2, !length_aset.
        repeat split; try reflexivity; try assumption; lia. }
    assert (Hlast2 : last (f2 :: fl) [] <> []) by exact Hlast.
    destruct (open_head (cDelim p) f2 fl tail Hrest Hdelim Hlast2)
      as (c1 & rest1 & Hhead1 & _ & Hc1).
    assert (Hrow3' : row p3 = (pre ++ fld ++ [NUL])
                              ++ join (cDelim p) (f2 :: fl) ++ NUL :: tail).
    { rewrite Hrow3, Hrowp2, <- !app_assoc. reflexivity. }
    assert (Hs3 : s + Z.of_nat (length fld) + 1 = Z.of_nat (length (pre ++ fld ++ [NUL]))).
    { rewrite !length_app. cbn [length]. lia. }
    assert (Hload3 : load (row p3) (s + Z.of_nat (length fld) + 1) = c1).
    { rewrite Hrow3', Hhead1, Hs3. apply load_app_at. }
    rewrite Hload3, (eqb_false_of_neq _ _ Hc1).
    apply (IH p3 (s + Z.of_nat (length fld) + 1) (nC + 1) (pre ++ fld ++ [NUL]) f2 fl tail);
      rewrite ?Hd3', ?Hdb3; try assumption; try lia.
Qed.

(** csvNext once csv_getline has given such a row: the error of the
    parsing loop. *)
Lemma csvNext_of_open_line (p q : CSV) (c : CSVCursor)
      (fields : list (list ascii)) (tail : list ascii) :
  table_ready p -> eof p = 0 ->
  delimiter_ok (cDelim p) = true ->
  Forall (unquoted (cDelim p)) fields ->
  last fields [] <> [] ->
  never_fails (db p) ->
  Z.of_nat (length fields) <= limit_column (db p) ->
  csv_getline p = Some (LineRead, q) -> line_frame p q ->
  zRow q = Some (join (cDelim p) fields ++ NUL :: tail) ->
  exists r,
    csvNext p c = Some r /\ site r = NoColDelimiter /\ rc r = SQLITE_ERROR /\
    eof (vtab r) = -1 /\ f (vtab r) = f q /\ cursor r = mkCursor (fpos (f p)).
Proof.
  intros Hready He Hdelim Hplain Hlast Halloc Hlimc Hget Hfr Hz.
  destruct (csvNext_spec p c (table_ready_ok p Hready) He)
    as (r & E & Hcfg & _ & Hcur & _ & _ & _).
  exists r. split; [exact E|].
  revert E. unfold csvNext. rewrite He, Hget. cbn [Z.eqb negb].
  destruct Hfr as (Hdb & _ & _ & _ & Heq & Hd & _ & Hmc & Hac & Hae).
  assert (Hrowq : row q = join (cDelim p) fields ++ NUL :: tail)
    by (unfold row; now rewrite Hz).
  set (q1 := if maxCol q <? 1 then _ else q).
  assert (H1 : row q1 = row q /\ eof q1 = eof q /\ db q1 = db q /\ cDelim q1 = cDelim q /\
               aCols q1 = Some (cols q1) /\ aEscapedQuotes q1 = Some (escs q1) /\
               Z.of_nat (length (cols q1)) = maxCol q1 /\
               Z.of_nat (length (escs q1)) = maxCol q1 /\ 1 <= maxCol q1 /\ f q1 = f q).
  { unfold q1. destruct (maxCol q <? 1) eqn:E.
    - assert (Hguess : 1 <= strlen (row q) 0 / 5 + 1).
      { unfold strlen. pose proof (Z.div_pos (Z.of_nat (length (string_at (row q) 0))) 5).
        lia. }
      cbv zeta. unfold sqlite3_alloc. unfold never_fails in Halloc.
      rewrite Hdb, !Halloc by (unfold sizeof_ptr, sizeof_int; lia).
      replace (0 <? sizeof_ptr * (strlen (row q) 0 / 5 + 1)) with true
        by (symmetry; apply Z.ltb_lt; unfold sizeof_ptr; lia).
      replace (0 <? sizeof_int * (strlen (row q) 0 / 5 + 1)) with true
        by (symmetry; apply Z.ltb_lt; unfold sizeof_int; lia).
      cbn [andb]. autorewrite with csv.
      cbn [eof db cDelim maxCol aCols aEscapedQuotes f
           set_maxCol set_aEscapedQuotes set_aCols].
      rewrite !repeat_length. repeat split; try lia; exact Hdb.
    - apply Z.ltb_ge in E. destruct Hready as (_ & _ & Hcols).
      rewrite Hmc in E. destruct (Hcols E) as (Ha & Hb' & Hl1 & Hl2).
      unfold cols, escs in *. rewrite Hac, Hae, Hmc.
      destruct (aCols p); [|congruence]. destruct (aEscapedQuotes p); [|congruence].
      repeat split; auto. }
  destruct H1 as (Hrow1 & He1 & Hdb1 & Hd1 & Ha1 & Hae1 & Hl1 & Hl2 & Hm1 & Hf1).
  rewrite Ha1, Hae1.
  destruct fields as [|fld flds]; [cbn [last] in Hlast; congruence|].
  destruct (parse_cols_spec (S (length (row q1))) q1 0 0 ltac:(lia) ltac:(lia))
    as (st' & r' & q' & Espec & Hcf & _).
  destruct (parse_cols_open (S (length (row q1))) q1 0 0 [] fld flds tail)
    as (q2 & Eopen & He2);
    rewrite ?Hd1, ?Hdb1, ?Hd, ?Hdb; try assumption; try reflexivity; try lia.
  { rewrite Hrow1. exact Hrowq. }
  { rewrite Hrow1, Hrowq, length_app.
    pose proof (join_length (cDelim p) (fld :: flds)). cbn [length] in *. lia. }
  { cbn [length] in Hlimc. lia. }
  rewrite Eopen in Espec. injection Espec as <- <- <-.
  rewrite Eopen. intros [= <-]. cbn [rc site vtab cursor] in *.
  destruct Hcf as (_ & _ & Hf2 & _).
  split; [reflexivity|]. split; [reflexivity|]. split; [exact He2|].
  split; [now rewrite Hf2, Hf1 | reflexivity].
Qed.

(** csvNext over the last row of a file when no newline ends it. *)
Lemma csvNext_open_row (p : CSV) (c : CSVCursor) (fields : list (list ascii)) :
  table_ready p -> eof p = 0 ->
  delimiter_ok (cDelim p) = true ->
  forallb (unquotedb (cDelim p)) fields = true ->
  last fields [] <> [] ->
  unread (f p) = join (cDelim p) fields ->
  never_fails (db p) ->
  2 * (Z.of_nat (length (join (cDelim p) fields)) + 1) + 300 <= limit_length (db p) ->
  Z.of_nat (length fields) <= limit_column (db p) ->
  exists r,
    csvNext p c = Some r /\ site r = NoColDelimiter /\ rc r = SQLITE_ERROR /\
    csvEof (vtab r) (cursor r) = -1 /\ unread (f (vtab r)) = [].
Proof.
  intros Hready He Hdelim Hb Hlast Hun Halloc Hlim Hlimc.
  assert (Hplain : Forall (unquoted (cDelim p)) fields).
  { rewrite forallb_forall in Hb. apply Forall_forall. intros x Hx.
    apply unquotedb_unquoted. now apply Hb. }
  assert (Hquiet : quiet (cDelim p) None (join (cDelim p) fields) = true).
  { apply join_quiet; [exact Hplain|]. apply delimiter_ok_neq in Hdelim. tauto. }
  assert (Hne : join (cDelim p) fields <> []).
  { destruct fields as [|fld flds]; [cbn [last] in Hlast; congruence|].
    destruct (open_head _ fld flds [] Hplain Hdelim Hlast) as (c0 & rest0 & E & _ & Hc0).
    intros H. rewrite H in E. cbn [app] in E. injection E as E _. congruence. }
  destruct (csv_getline_eof p _ Hready Hun Hne (join_line_bytes _ _ Hplain Hdelim)
              Hquiet Halloc Hlim)
    as (q & tail & Hget & Hfr & Hz & Hunq).
  destruct (csvNext_of_open_line p q c fields tail Hready He Hdelim Hplain Hlast Halloc Hlimc
              Hget Hfr Hz)
    as (r & E & Hs & Hrc & Her & Hf & _).
  exists r. unfold csvEof. rewrite Hf. tauto.
Qed.

(** X16. The last row of a file, when no newline ends it: for a row of
    unquoted fields whose last field is not empty, within the limits of
    the host and when no allocation fails, csvNext reads the row to the
    end of the file, finds neither delimiter nor newline after its last
    field, and returns SQLITE_ERROR with the end-of-data flag set: the row
    is not shown. *)
Theorem csvNext_row_without_newline (p : CSV) (c : CSVCursor) (fields : list (list ascii)) :
  table_ready p -> eof p = 0 ->
  delimiter_ok (cDelim p) = true ->
  forallb (unquotedb (cDelim p)) fields = true ->
  last fields [] <> [] ->
  unread (f p) = join (cDelim p) fields ->
  never_fails (db p) ->
  2 * (Z.of_nat (length (join (cDelim p) fields)) + 1) + 300 <= limit_length (db p) ->
  Z.of_nat (length fields) <= limit_column (db p) ->
  exists r,
    csvNext p c = Some r /\ site r = NoColDelimiter /\ rc r = SQLITE_ERROR /\
    csvEof (vtab r) (cursor r) = -1 /\ unread (f (vtab r)) = [].
Proof. exact (csvNext_open_row p c fields). Qed.

(** ** A row that is too long *)

Lemma take_line_short (k : nat) (todo rest : list ascii) :
  ~ In LF todo -> (k <= length todo)%nat -> take_line k (todo ++ rest) = firstn k todo.
Proof.
  revert todo. induction k as [|k IH]; intros todo Hlf Hk.
  - destruct (todo ++ rest); reflexivity.
  - destruct todo as [|c todo]; cbn [length] in Hk; [lia|].
    cbn [app take_line firstn].
    rewrite (eqb_false_of_neq c LF) by (intros ->; apply Hlf; now left).
    f_equal. apply IH; [|lia]. intros H. apply Hlf. now right.
Qed.

(** The loop of csv_getline over a line that has at least as many bytes as
    the length limit and as the row buffer: it reads, and grows the buffer,
    until the buffer would reach the limit. *)
Lemma getline_loop_too_long (fuel : nat) :
  forall p n bS bQ todo rest,
    Z.of_nat (length (row p)) = maxRow p ->
    0 <= n < maxRow p ->
    0 <= fpos (f p) ->
    unread (f p) = todo ++ rest ->
    Forall line_byte todo ->
    maxRow p <= n + Z.of_nat (length todo) ->
    limit_length (db p) <= n + Z.of_nat (length todo) ->
    (length todo < fuel)%nat ->
    never_fails (db p) ->
    exists q n' bS',
      getline_loop fuel p n bS bQ = Some (Returned LineTooLong, q, n', bS') /\
      line_frame p q.
Proof.
  induction fuel as [|fuel IH];
    intros p n bS bQ todo rest Hlen Hn Hpos Hun Hbytes Hbuf Hlim Hfuel Halloc; [lia|].
  cbn [getline_loop].
  (* grow row buffer as needed *)
  match goal with |- context [match ?g with inl _ => _ | inr _ => _ end] =>
    assert (Hg : g = inl LineTooLong \/
                 exists p1 bS1,
                   g = inr (p1, bS1) /\ line_frame p p1 /\ f p1 = f p /\
                   Z.of_nat (length (row p1)) = maxRow p1 /\ n + 100 <= maxRow p1 /\
                   maxRow p1 <= n + Z.of_nat (length todo) /\ db p1 = db p);
    [|destruct Hg as [-> | (p1 & bS1 & -> & Hfr & Hf & Hlen1 & Hroom & Hbuf1 & Hdb)]]
  end.
  { destruct (n + 100 >? maxRow p) eqn:E; rewrite Z.gtb_ltb in E.
    - apply Z.ltb_lt in E.
      destruct (maxRow p * 2 + 100 >=? limit_length (db p)) eqn:El; rewrite Z.geb_leb in El;
        [now left|].
      apply Z.leb_gt in El. right.
      unfold sqlite3_alloc. rewrite Halloc by lia.
      replace (0 <? maxRow p * 2 + 100) with true by (symmetry; apply Z.ltb_lt; lia).
      cbn [andb negb]. do 2 eexists. split; [reflexivity|].
      autorewrite with csv. cbn [f db maxRow set_zRow set_maxRow].
      rewrite length_realloc_cells.
      repeat split; try (unfold line_frame; cbn; tauto); lia.
    - apply Z.ltb_ge in E. right.
      exists p, bS. repeat split; try apply line_frame_refl; auto; lia. }
  - (* the buffer would reach the limit *)
    do 3 eexists. split; [reflexivity | apply line_frame_refl].
  - (* a read that the line fills *)
    rewrite Hf.
    set (k := Z.to_nat (maxRow p1 - n - 1)).
    destruct (line_bytes_not_in _ Hbytes) as (Hnul & Hlf & Hcr).
    assert (Hk : (99 <= k <= length todo)%nat) by (unfold k; lia).
    assert (Htake : take_line k (unread (f p)) = firstn k todo)
      by (rewrite Hun; apply take_line_short; [exact Hlf | lia]).
    set (chunk := firstn k todo).
    assert (Hlck : length chunk = k) by (unfold chunk; rewrite length_firstn; lia).
    assert (Hne : chunk <> []) by (intros H; rewrite H in Hlck; cbn in Hlck; lia).
    rewrite (fgets_eq (maxRow p1 - n) (f p) chunk ltac:(lia) Hne Htake).
    set (done := firstn (Z.to_nat n) (row p1)).
    assert (Hld : Z.of_nat (length done) = n) by (unfold done; rewrite length_firstn; lia).
    set (tail := skipn (Z.to_nat n + length (chunk ++ [NUL])) (row p1)).
    assert (Hw : write_at (row p1) n (chunk ++ [NUL]) = done ++ chunk ++ NUL :: tail).
    { unfold write_at. fold tail. fold done. rewrite <- app_assoc. reflexivity. }
    autorewrite with csv. rewrite Hw. cbn [cDelim set_f set_zRow].
    assert (Hparts : todo = chunk ++ skipn k todo) by (symmetry; apply firstn_skipn).
    assert (Hcn : ~ In NUL chunk) by (intros H; apply in_firstn in H; now apply Hnul).
    pose proof (scan_quotes_list (cDelim p1) (S (length (done ++ chunk ++ NUL :: tail)))
                  chunk done tail bQ Hcn) as Hscan.
    rewrite Hld in Hscan. rewrite Hscan by (rewrite !length_app; cbn [length]; lia).
    clear Hscan.
    set (n' := n + Z.of_nat (length chunk)).
    set (buf := done ++ chunk ++ NUL :: tail).
    assert (Hlb : length buf = length (row p1)).
    { unfold buf. rewrite <- Hw. apply length_write_at.
      rewrite length_app. cbn [length]. lia. }
    assert (Hlast : In (load buf (n' - 1)) todo).
    { unfold buf. rewrite app_assoc, load_app_l.
      - rewrite Hparts. apply in_or_app. left.
        replace (load (done ++ chunk) (n' - 1))
          with (load chunk (Z.of_nat (length chunk) - 1)).
        + apply load_in. lia.
        + unfold load, aget. rewrite app_nth2 by lia. f_equal. unfold n'. lia.
      - rewrite length_app. unfold n'. lia. }
    rewrite Forall_forall in Hbytes. destruct (Hbytes _ Hlast) as (_ & Hl1 & Hl2).
    rewrite (eqb_false_of_neq _ _ Hl1), (eqb_false_of_neq _ _ Hl2).
    rewrite andb_false_r. cbn [orb andb].
    set (p2 := set_f (set_zRow p1 (Some buf)) _).
    assert (Hlt : (length todo = k + length (skipn k todo))%nat).
    { rewrite Hparts at 1. rewrite length_app, Hlck. reflexivity. }
    destruct (IH p2 n' bS1 (quote_state (cDelim p1) (last_byte done) bQ chunk)
                 (skipn k todo) rest)
      as (q & n2 & bS' & Hrun & Hfrq).
    + unfold p2. autorewrite with csv. cbn [maxRow set_f set_zRow]. lia.
    + unfold p2. cbn [maxRow set_f set_zRow]. unfold n'. lia.
    + unfold p2. cbn. lia.
    + unfold p2. cbn [f set_f]. rewrite unread_skip by exact Hpos.
      rewrite Hun, Hlck. rewrite Hparts at 1.
      rewrite <- app_assoc, skipn_app.
      replace (k - length chunk)%nat with O by lia.
      rewrite <- Hlck at 1. now rewrite skipn_all.
    + apply Forall_forall. intros c Hc. apply Hbytes.
      rewrite Hparts. apply in_or_app. now right.
    + unfold p2. cbn [maxRow set_f set_zRow]. unfold n'. lia.
    + unfold p2. cbn [db set_f set_zRow]. rewrite Hdb. unfold n'. lia.
    + lia.
    + unfold p2. cbn [db set_f set_zRow]. rewrite Hdb. exact Halloc.
    + exists q, n2, bS'. split; [exact Hrun|].
      apply (line_frame_trans _ p2); [|exact Hfrq].
      apply (line_frame_trans _ p1); [exact Hfr|].
      unfold line_frame, p2. cbn. rewrite Hf. tauto.
Qed.

(** csvNext over a run of bytes that exceeds the length limit. *)
Lemma csvNext_too_long_line (p : CSV) (c : CSVCursor) (line rest : list ascii) :
  table_ready p -> eof p = 0 ->
  Forall line_byte line ->
  unread (f p) = line ++ rest ->
  limit_length (db p) <= Z.of_nat (length line) ->
  maxRow p <= Z.of_nat (length line) ->
  100 <= Z.of_nat (length line) ->
  never_fails (db p) ->
  exists r,
    csvNext p c = Some r /\ site r = NoLine LineTooLong /\ rc r = SQLITE_OK /\
    csvEof (vtab r) (cursor r) = -1 /\ config_frame p (vtab r).
Proof.
  intros (Hpos & Hrow & _) He Hbytes Hun Hlim Hbuf H100 Halloc.
  unfold csvNext. rewrite He. cbn [Z.eqb negb].
  unfold csv_getline.
  set (p0 := if maxRow p <? 1 then _ else p).
  assert (H0 : line_frame p p0 /\ f p0 = f p /\ zRow p0 <> None /\
               Z.of_nat (length (row p0)) = maxRow p0 /\ 1 <= maxRow p0 /\
               maxRow p0 <= Z.of_nat (length line)).
  { unfold p0. destruct (maxRow p <? 1) eqn:E.
    - unfold sqlite3_alloc. rewrite Halloc by lia. cbn [Z.ltb Z.compare andb].
      unfold line_frame. cbn. repeat split; try lia; discriminate.
    - apply Z.ltb_ge in E. destruct (Hrow E) as [Hz Hl].
      repeat split; try apply line_frame_refl; auto. }
  destruct H0 as (Hfr0 & Hf0 & Hz0 & Hlen0 & Hmax0 & Hbuf0).
  destruct (zRow p0) as [b0|] eqn:Ez0; [clear Hz0 | congruence].
  assert (Hdb0 : db p0 = db p) by (unfold line_frame in Hfr0; tauto).
  assert (Hlenw : (length line <= length (fdata (f p)))%nat).
  { apply (f_equal (@length ascii)) in Hun.
    unfold unread in Hun. rewrite length_skipn, length_app in Hun. lia. }
  destruct (getline_loop_too_long (S (length (fdata (f p0)))) p0 0 false false line rest)
    as (q & n' & bS' & Hrun & Hfr);
    rewrite ?Hf0, ?Hdb0; try assumption; try lia.
  rewrite Hf0 in Hrun. rewrite Hrun.
  eexists. split; [reflexivity|]. cbn [site rc vtab cursor csvEof eof set_eof].
  split; [reflexivity|]. split; [reflexivity|]. split; [reflexivity|].
  pose proof (line_frame_trans _ _ _ Hfr0 Hfr) as Hfrq.
  unfold line_frame in Hfrq. unfold config_frame. cbn. tauto.
Qed.

(** X17. A row that is too long ends the scan without an error: when the
    file goes on with bytes without NUL, newline or carriage return that
    are at least as many as the length limit of the host, as the cells of
    the row buffer and as 100, csv_getline gives up before the buffer
    reaches the limit, and csvNext sets the end-of-data flag and returns
    SQLITE_OK, as it does at the end of the file. *)
Theorem csvNext_row_too_long (p : CSV) (c : CSVCursor) (line rest : list ascii) :
  table_ready p -> eof p = 0 ->
  Forall line_byte line ->
  unread (f p) = line ++ rest ->
  limit_length (db p) <= Z.of_nat (length line) ->
  maxRow p <= Z.of_nat (length line) ->
  100 <= Z.of_nat (length line) ->
  never_fails (db p) ->
  exists r,
    csvNext p c = Some r /\ site r = NoLine LineTooLong /\ rc r = SQLITE_OK /\
    csvEof (vtab r) (cursor r) = -1 /\ config_frame p (vtab r).
Proof. exact (csvNext_too_long_line p c line rest). Qed.
(** ** The further properties at sample data *)

Lemma csv_getline_row_bytes_witness :
  exists taken,
    unread (f (sample_table crlf_file))
    = taken ++ unread (f (line_after (sample_table crlf_file))) /\
    (line_of taken (string_at (row (line_after (sample_table crlf_file))) 0) \/
     (string_at (row (line_after (sample_table crlf_file))) 0 = taken /\
      unread (f (line_after (sample_table crlf_file))) = [])).
Proof.
  assert (Hok : table_ok (sample_table crlf_file)) by ok_by_compute.
  assert (Hnul : ~ In NUL (unread (f (sample_table crlf_file))))
    by (vm_compute; intuition discriminate).
  assert (E : csv_getline (sample_table crlf_file)
              = Some (LineRead, line_after (sample_table crlf_file)))
    by (vm_compute; reflexivity).
  exact (proj1 (csv_getline_row_bytes _ _ _ Hok Hnul E) eq_refl).
Defined.

Lemma csv_getline_buffer_bound_witness :
  maxRow (line_after (sample_table crlf_file))
  <= Z.max (Z.max 100 (maxRow (sample_table crlf_file)))
           (limit_length (db (sample_table crlf_file)) - 1) /\
  (LineRead = LineRead ->
   strlen (row (line_after (sample_table crlf_file))) 0
   < maxRow (line_after (sample_table crlf_file))).
Proof.
  assert (Hok : table_ok (sample_table crlf_file)) by ok_by_compute.
  assert (E : csv_getline (sample_table crlf_file)
              = Some (LineRead, line_after (sample_table crlf_file)))
    by (vm_compute; reflexivity).
  exact (csv_getline_buffer_bound _ _ _ Hok E).
Defined.

Lemma csvNext_columns_in_row_witness :
  1 <= nCol (vtab (next_of (after_filter (sample_table abc_file))))
  <= maxCol (vtab (next_of (after_filter (sample_table abc_file)))) /\
  forall i, 0 <= i < nCol (vtab (next_of (after_filter (sample_table abc_file)))) ->
            column_in_row (vtab (next_of (after_filter (sample_table abc_file)))) i /\
            snd (fst (csvColumn (vtab (next_of (after_filter (sample_table abc_file)))) i))
            <> result_null.
Proof.
  assert (Hready : table_ready (after_filter (sample_table abc_file))) by ready_by_compute.
  assert (He : eof (after_filter (sample_table abc_file)) = 0) by by_compute.
  assert (E : csvNext (after_filter (sample_table abc_file)) (mkCursor 0)
              = Some (next_of (after_filter (sample_table abc_file))))
    by (vm_compute; reflexivity).
  assert (Hrc : rc (next_of (after_filter (sample_table abc_file))) = SQLITE_OK)
    by by_compute.
  assert (Hf : csvEof (vtab (next_of (after_filter (sample_table abc_file))))
                      (cursor (next_of (after_filter (sample_table abc_file)))) = 0)
    by by_compute.
  exact (csvNext_columns_in_row _ _ _ Hready He E Hrc Hf).
Defined.

Lemma csvInit_argv_returns_witness :
  exists r,
    csvInit_argv people_env default_host people_argv true = Some r /\
    csvCreate people_env default_host people_argv
    = csvConnect people_env default_host people_argv /\
    isite r <> NoColumnName /\
    (irc r = SQLITE_OK \/ irc r = SQLITE_ERROR \/ irc r = SQLITE_NOMEM) /\
    (irc r = SQLITE_OK <-> ppVtab r <> None) /\
    (irc r = SQLITE_OK -> pzErr r = None) /\
    (forall t, ppVtab r = Some t ->
               db t = default_host /\ nBusy t = 1 /\ eof t = 0 /\ 1 <= nCol t /\
               cDelim t = cDelim_of people_argv /\ table_ok t /\
               offsetFirstRow t
               = if bUseHeaderRow_of people_argv then fpos (f t) else 0).
Proof.
  assert (H : arg people_argv 3 <> [SQUOTE]) by (vm_compute; discriminate).
  exact (csvInit_argv_returns people_env default_host people_argv true H).
Defined.

Lemma csvInit_without_delimiter_witness :
  irc (init_of people_env default_host no_delimiter_argv) <> SQLITE_OK /\
  ppVtab (init_of people_env default_host no_delimiter_argv) = None /\
  (isite (init_of people_env default_host no_delimiter_argv) = NoTable \/
   isite (init_of people_env default_host no_delimiter_argv) = NoFile \/
   isite (init_of people_env default_host no_delimiter_argv) = NoColumns).
Proof.
  assert (H1 : Z.of_nat (length no_delimiter_argv) > 4) by reflexivity.
  assert (H2 : arg no_delimiter_argv 4 = [] \/ arg no_delimiter_argv 4 = [SQUOTE])
    by (left; reflexivity).
  assert (E : csvInit_argv people_env default_host no_delimiter_argv true
              = Some (init_of people_env default_host no_delimiter_argv))
    by (vm_compute; reflexivity).
  exact (csvInit_without_delimiter _ _ _ _ _ H1 H2 E).
Defined.

Lemma schema_statement_witness :
  schema_loop people_env (sample_table abc_file) false 3 0
              (sqlite3_mprintf people_env (bytes "CREATE TABLE x("))
  = Schema (Some (bytes "CREATE TABLE x(col1, col2, col3);")).
Proof.
  assert (Hm : forall s, mprintf_ok people_env s = true) by reflexivity.
  assert (Hn : 1 <= nCol (sample_table abc_file)) by by_compute.
  exact (proj1 (schema_statement people_env (sample_table abc_file) Hm Hn)).
Defined.

Lemma csvCreate_then_scan_witness :
  exists t scanned t' c',
    csvCreate people_env default_host people_argv
    = Some (mkInit Created SQLITE_OK (Some t) None) /\
    full_scan 2 t (mkCursor 0) = Some (scanned, SQLITE_OK, Some t', c') /\
    map row_values scanned
    = [[text (bytes "1"); text (bytes "ann")]; [text (bytes "2"); text (bytes "bob")]].
Proof.
  assert (H1 : 4 <= Z.of_nat (length people_argv)) by by_compute.
  assert (H2 : zFile_of (arg people_argv 3) = Some (bytes "people.csv")) by reflexivity.
  assert (H3 : fopen people_env (bytes "people.csv")
               = Some (plain_lines (cDelim_of people_argv)
                                   ([bytes "id"; bytes "name"]
                                      :: [[bytes "1"; bytes "ann"]; [bytes "2"; bytes "bob"]])))
    by reflexivity.
  assert (H4 : never_fails default_host) by (intros k _; reflexivity).
  assert (H5 : forall s, mprintf_ok people_env s = true) by reflexivity.
  assert (H6 : delimiter_ok (cDelim_of people_argv) = true) by reflexivity.
  assert (H7 : forallb (plain_rowb default_host (cDelim_of people_argv))
                       ([bytes "id"; bytes "name"]
                          :: [[bytes "1"; bytes "ann"]; [bytes "2"; bytes "bob"]]) = true)
    by (vm_compute; reflexivity).
  assert (H8 : declare_vtab people_env
                 (schema_of (if bUseHeaderRow_of people_argv
                             then map quoted_name [bytes "id"; bytes "name"]
                             else default_names (length [bytes "id"; bytes "name"])))
               = SQLITE_OK) by reflexivity.
  exact (csvCreate_then_scan people_env default_host people_argv (bytes "people.csv")
           [bytes "id"; bytes "name"] [[bytes "1"; bytes "ann"]; [bytes "2"; bytes "bob"]]
           2 (mkCursor 0) H1 H2 H3 H4 H5 H6 H7 H8).
Defined.

Lemma full_scan_plain_repeats_witness :
  exists scanned t c' again t' c'',
    full_scan 3 (sample_table long_row_file) (mkCursor 0)
    = Some (scanned, SQLITE_OK, Some t, c') /\
    full_scan 3 t c' = Some (again, SQLITE_OK, Some t', c'') /\
    map row_values scanned
    = map (plain_values 3) [[bytes "h"]; long_fields; [bytes "t"]] /\
    map row_id scanned = [0; 2; 256] /\
    map row_values again = map row_values scanned /\
    map row_id again = map row_id scanned.
Proof.
  assert (H1 : table_ready (sample_table long_row_file)) by ready_by_compute.
  assert (H2 : never_fails (db (sample_table long_row_file)))
    by (intros k _; vm_compute; reflexivity).
  assert (H3 : delimiter_ok (cDelim (sample_table long_row_file)) = true) by by_compute.
  assert (H4 : 1 <= nBusy (sample_table long_row_file)) by by_compute.
  assert (H5 : 0 <= offsetFirstRow (sample_table long_row_file)) by by_compute.
  assert (H6 : skipn (Z.to_nat (offsetFirstRow (sample_table long_row_file)))
                     (fdata (f (sample_table long_row_file)))
               = plain_lines (cDelim (sample_table long_row_file))
                             [[bytes "h"]; long_fields; [bytes "t"]])
    by (vm_compute; reflexivity).
  assert (H7 : forallb (plain_rowb (db (sample_table long_row_file))
                                   (cDelim (sample_table long_row_file)))
                       [[bytes "h"]; long_fields; [bytes "t"]] = true)
    by (vm_compute; reflexivity).
  exact (full_scan_plain_repeats 3 (sample_table long_row_file) (mkCursor 0)
           [[bytes "h"]; long_fields; [bytes "t"]] H1 H2 H3 H4 H5 H6 H7).
Defined.

Lemma csvNext_crlf_row_witness :
  exists r,
    csvNext (sample_table crlf_file) (mkCursor 0) = Some r /\
    rc r = SQLITE_OK /\ csvEof (vtab r) (cursor r) = 0 /\
    unread (f (vtab r)) = bytes "t" ++ [LF] /\
    nCol (vtab r) = 2 /\
    forall i, (i < 2)%nat ->
              csvColumn (vtab r) (Z.of_nat i)
              = (SQLITE_OK,
                 result_text (nth i [bytes "a"; bytes "b"] []) SQLITE_TRANSIENT, []).
Proof.
  assert (H1 : table_ready (sample_table crlf_file)) by ready_by_compute.
  assert (H2 : eof (sample_table crlf_file) = 0) by by_compute.
  assert (H3 : delimiter_ok (cDelim (sample_table crlf_file)) = true) by by_compute.
  assert (H4 : [bytes "a"; bytes "b"] <> []) by discriminate.
  assert (H5 : forallb (unquotedb (cDelim (sample_table crlf_file)))
                       [bytes "a"; bytes "b"] = true) by by_compute.
  assert (H6 : unread (f (sample_table crlf_file))
               = join (cDelim (sample_table crlf_file)) [bytes "a"; bytes "b"]
                      ++ CR :: LF :: bytes "t" ++ [LF]) by by_compute.
  assert (H7 : never_fails (db (sample_table crlf_file)))
    by (intros k _; vm_compute; reflexivity).
  assert (H8 : Z.of_nat (length (join (cDelim (sample_table crlf_file))
                                      [bytes "a"; bytes "b"])) + 2 <= 99) by by_compute.
  assert (H9 : 300 <= limit_length (db (sample_table crlf_file))) by by_compute.
  assert (H10 : Z.of_nat (length [bytes "a"; bytes "b"])
                <= limit_column (db (sample_table crlf_file))) by by_compute.
  exact (csvNext_crlf_row _ (mkCursor 0) [bytes "a"; bytes "b"] _
           H1 H2 H3 H4 H5 H6 H7 H8 H9 H10).
Defined.

Lemma csvNext_quoted_row_witness :
  exists r,
    csvNext (sample_table note_file) (mkCursor 0) = Some r /\
    rc r = SQLITE_OK /\ csvEof (vtab r) (cursor r) = 0 /\
    unread (f (vtab r)) = bytes "t" ++ [LF] /\
    csvRowid (cursor r) = (SQLITE_OK, 2) /\
    nCol (vtab r) = 3 /\
    forall i, (i < 3)%nat ->
              csvColumn (vtab r) (Z.of_nat i)
              = (SQLITE_OK, value_of (nth i note_fields (Bare [])),
                 allocs_of (nth i note_fields (Bare []))).
Proof.
  assert (H1 : table_ready (sample_table note_file)) by ready_by_compute.
  assert (H2 : eof (sample_table note_file) = 0) by by_compute.
  assert (H3 : delimiter_ok (cDelim (sample_table note_file)) = true) by by_compute.
  assert (H4 : note_fields <> []) by discriminate.
  assert (H5 : forallb (field_okb (cDelim (sample_table note_file))) note_fields = true)
    by by_compute.
  assert (H6 : unread (f (sample_table note_file))
               = encode_row (cDelim (sample_table note_file)) note_fields
                            ++ bytes "t" ++ [LF]) by by_compute.
  assert (H7 : lines_within 99 99 (encode_row (cDelim (sample_table note_file)) note_fields)
               = true) by by_compute.
  assert (H8 : never_fails (db (sample_table note_file)))
    by (intros k _; vm_compute; reflexivity).
  assert (H9 : 2 * Z.of_nat (length (encode_row (cDelim (sample_table note_file))
                                                note_fields)) + 300
               <= limit_length (db (sample_table note_file))) by by_compute.
  assert (H10 : Z.of_nat (length note_fields)
                <= limit_column (db (sample_table note_file))) by by_compute.
  exact (csvNext_quoted_row _ (mkCursor 0) note_fields _
           H1 H2 H3 H4 H5 H6 H7 H8 H9 H10).
Defined.

Lemma full_scan_quoted_rows_witness :
  exists scanned t c' again t' c'',
    full_scan 3 (sample_table note_file) (mkCursor 0)
    = Some (scanned, SQLITE_OK, Some t, c') /\
    full_scan 3 t c' = Some (again, SQLITE_OK, Some t', c'') /\
    map row_values scanned
    = [[text (bytes "h"); result_null; result_null];
       [text (bytes "1");
        result_text (bytes "x," ++ [DQUOTE] ++ bytes "y" ++ [DQUOTE; LF] ++ bytes "z")
                    sqlite3_free;
        text (bytes "3")];
       [text (bytes "t"); result_null; result_null]] /\
    map row_id scanned = [0; 2; 18] /\
    map row_values again = map row_values scanned /\
    map row_id again = map row_id scanned.
Proof.
  assert (H1 : table_ready (sample_table note_file)) by ready_by_compute.
  assert (H2 : never_fails (db (sample_table note_file)))
    by (intros k _; vm_compute; reflexivity).
  assert (H3 : delimiter_ok (cDelim (sample_table note_file)) = true) by by_compute.
  assert (H4 : 1 <= nBusy (sample_table note_file)) by by_compute.
  assert (H5 : 0 <= offsetFirstRow (sample_table note_file)) by by_compute.
  assert (H6 : skipn (Z.to_nat (offsetFirstRow (sample_table note_file)))
                     (fdata (f (sample_table note_file)))
               = field_lines (cDelim (sample_table note_file))
                             [[Bare (bytes "h")]; note_fields; [Bare (bytes "t")]])
    by (vm_compute; reflexivity).
  assert (H7 : forallb (field_rowb (db (sample_table note_file))
                                   (cDelim (sample_table note_file)))
                       [[Bare (bytes "h")]; note_fields; [Bare (bytes "t")]] = true)
    by (vm_compute; reflexivity).
  exact (full_scan_quoted_rows 3 (sample_table note_file) (mkCursor 0)
           [[Bare (bytes "h")]; note_fields; [Bare (bytes "t")]] H1 H2 H3 H4 H5 H6 H7).
Defined.

Lemma csvInit_without_data_witness :
  csvInit_argv people_env default_host
               [bytes "csv"; bytes "main"; bytes "t"; bytes "'nowhere.csv'"] true
  = Some (mkInit NoFile SQLITE_ERROR None
                 (Some (bytes "Error opening CSV file: 'nowhere.csv'"))).
Proof.
  assert (H1 : 4 <= Z.of_nat (length [bytes "csv"; bytes "main"; bytes "t";
                                       bytes "'nowhere.csv'"])) by by_compute.
  assert (H2 : never_fails default_host) by (intros k _; reflexivity).
  assert (H3 : zFile_of (arg [bytes "csv"; bytes "main"; bytes "t"; bytes "'nowhere.csv'"] 3)
               = Some (bytes "nowhere.csv")) by reflexivity.
  assert (H4 : fopen people_env (bytes "nowhere.csv") = None) by reflexivity.
  exact (proj1 (csvInit_without_data people_env default_host _ true _ H1 H2 H3) H4).
Defined.

Lemma csvNext_row_without_newline_witness :
  exists r,
    csvNext (sample_table no_newline_file) (mkCursor 0) = Some r /\
    site r = NoColDelimiter /\ rc r = SQLITE_ERROR /\
    csvEof (vtab r) (cursor r) = -1 /\ unread (f (vtab r)) = [].
Proof.
  assert (H1 : table_ready (sample_table no_newline_file)) by ready_by_compute.
  assert (H2 : eof (sample_table no_newline_file) = 0) by by_compute.
  assert (H3 : delimiter_ok (cDelim (sample_table no_newline_file)) = true) by by_compute.
  assert (H4 : forallb (unquotedb (cDelim (sample_table no_newline_file)))
                       [bytes "a"; bytes "b"] = true) by by_compute.
  assert (H5 : last [bytes "a"; bytes "b"] [] <> []) by (vm_compute; discriminate).
  assert (H6 : unread (f (sample_table no_newline_file))
               = join (cDelim (sample_table no_newline_file)) [bytes "a"; bytes "b"])
    by by_compute.
  assert (H7 : never_fails (db (sample_table no_newline_file)))
    by (intros k _; vm_compute; reflexivity).
  assert (H8 : 2 * (Z.of_nat (length (join (cDelim (sample_table no_newline_file))
                                           [bytes "a"; bytes "b"])) + 1) + 300
               <= limit_length (db (sample_table no_newline_file))) by by_compute.
  assert (H9 : Z.of_nat (length [bytes "a"; bytes "b"])
               <= limit_column (db (sample_table no_newline_file))) by by_compute.
  exact (csvNext_row_without_newline _ (mkCursor 0) [bytes "a"; bytes "b"]
           H1 H2 H3 H4 H5 H6 H7 H8 H9).
Defined.

Lemma csvNext_row_too_long_witness :
  exists r,
    csvNext over_long_table (mkCursor 0) = Some r /\ site r = NoLine LineTooLong /\
    rc r = SQLITE_OK /\ csvEof (vtab r) (cursor r) = -1 /\
    config_frame over_long_table (vtab r).
Proof.
  assert (H1 : table_ready over_long_table) by ready_by_compute.
  assert (H2 : eof over_long_table = 0) by by_compute.
  assert (H3 : Forall line_byte (repeat "a"%char 300)).
  { apply Forall_forall. intros x Hx. apply repeat_spec in Hx. subst x.
    repeat split; discriminate. }
  assert (H4 : unread (f over_long_table) = repeat "a"%char 300 ++ [LF])
    by (vm_compute; reflexivity).
  assert (H5 : limit_length (db over_long_table) <= Z.of_nat (length (repeat "a"%char 300)))
    by by_compute.
  assert (H6 : maxRow over_long_table <= Z.of_nat (length (repeat "a"%char 300)))
    by by_compute.
  assert (H7 : 100 <= Z.of_nat (length (repeat "a"%char 300))) by by_compute.
  assert (H8 : never_fails (db over_long_table)) by (intros k _; vm_compute; reflexivity).
  exact (csvNext_row_too_long over_long_table (mkCursor 0) _ _ H1 H2 H3 H4 H5 H6 H7 H8).
Defined.

(** * The count of users, row identifiers and the end-of-data flag *)

(** The theorems of this part run the tokenizer, so they start from a
    table whose buffers have the sizes recorded for them ([table_ready]):
    every store and load of csvNext is then inside its array.  A call that
    leaves the cursor on a row keeps that invariant whatever the allocator
    does ([csvNext_row_ready]), so every call of a scan starts from such a
    table. *)

(** ** The reference count *)

(** C6, counterexample.  Opening a cursor on a table leaves its count of
    users as it was; the specification has it incremented. *)
Lemma csvOpen_keeps_the_count :
  ~ (nBusy (snd (fst (csvOpen (sample_table abc_file))))
     = nBusy (sample_table abc_file) + 1).
Proof. vm_compute. discriminate. Qed.

(** C6, amended.  A table that csvInit has built has a count of users of
    one.  Opening and closing a cursor leave the count unchanged.
    Disconnecting or destroying the table decrements it, and the table is
    released exactly when the decremented count is below one.  csvFilter
    increments the count before its read and decrements it after, so a
    table with at least one user, whose buffers have their recorded sizes,
    is still there afterwards, with the count it had. *)
Theorem reference_count_moves (p : CSV) (c : CSVCursor) :
  (forall h nNames file d bUseHeaderRow rc0 t,
      csvInit h nNames file d bUseHeaderRow = Some (rc0, Some t) -> nBusy t = 1) /\
  nBusy (snd (fst (csvOpen p))) = nBusy p /\
  nBusy (snd (csvClose p c)) = nBusy p /\
  csvDestroy p = csvDisconnect p /\
  (snd (csvDisconnect p) = None <-> nBusy p - 1 < 1) /\
  (forall q, snd (csvDisconnect p) = Some q -> q = set_nBusy p (nBusy p - 1)) /\
  (table_ready p -> 1 <= nBusy p ->
   exists r q, csvFilter p c = Some r /\ fvtab r = Some q /\ nBusy q = nBusy p).
Proof.
  split.
  { intros h nNames file d hdr rc0 t. unfold csvInit.
    destruct (sqlite3_alloc h _); cbn [negb]; [|discriminate].
    destruct file as [file|]; [|discriminate].
    set (p0 := mkCSV h 1 (mkFILE file 0) 0 0 0 None d 0 0 None None).
    assert (H0 : table_ok p0) by (unfold table_ok, p0; cbn; split; [lia | congruence]).
    destruct (csvNext_spec p0 (mkCursor 0) H0 eq_refl) as (r & -> & Hcfg & _).
    destruct Hcfg as (_ & Hb & _).
    destruct (_ || _); [discriminate|].
    destruct hdr; intros [= _ <-]; exact Hb. }
  split; [unfold csvOpen; destruct (sqlite3_alloc _ _); reflexivity|].
  split; [reflexivity|]. split; [reflexivity|].
  assert (Hfilter : table_ready p -> 1 <= nBusy p ->
                    exists r q, csvFilter p c = Some r /\ fvtab r = Some q /\
                                nBusy q = nBusy p).
  { intros Hready Hn.
    destruct (csvFilter_spec p c (table_ready_ok _ Hready)) as (r0 & _ & -> & Hcfg & _).
    destruct Hcfg as (_ & Hb & _). unfold rewound in Hb. cbn in Hb.
    unfold csvRelease. cbn [nBusy set_nBusy fvtab]. rewrite Hb.
    replace (nBusy p + 1 - 1 <? 1) with false by (symmetry; apply Z.ltb_ge; lia).
    do 2 eexists. split; [reflexivity|]. split; [reflexivity|]. cbn. lia. }
  unfold csvDisconnect, csvRelease. cbn [nBusy set_nBusy].
  destruct (nBusy p - 1 <? 1) eqn:E; cbn [snd].
  - apply Z.ltb_lt in E. repeat split; auto; discriminate.
  - apply Z.ltb_ge in E. split; [split; [discriminate | lia]|].
    split; [intros q [= <-]; reflexivity | exact Hfilter].
Qed.

Lemma reference_count_moves_witness :
  nBusy (sample_table abc_file) = 1 /\
  exists r q,
    csvFilter (sample_table abc_file) (mkCursor 0) = Some r /\ fvtab r = Some q /\
    nBusy q = nBusy (sample_table abc_file).
Proof.
  assert (Hinit : csvInit default_host 16 (Some abc_file) COMMA false
                  = Some (SQLITE_OK, Some (sample_table abc_file))) by by_compute.
  assert (Hready : table_ready (sample_table abc_file)) by ready_by_compute.
  assert (Hn : 1 <= nBusy (sample_table abc_file)) by by_compute.
  pose proof (reference_count_moves (sample_table abc_file) (mkCursor 0))
    as (Hbuilt & _ & _ & _ & _ & _ & Hfilter).
  split; [exact (Hbuilt _ _ _ _ _ _ _ Hinit) | exact (Hfilter Hready Hn)].
Defined.

(** ** Row identifiers *)

(** C8. On a table whose buffers have their recorded sizes, csvNext stores
    in the cursor the position of the file before it reads, which is where
    the row it then exposes begins; when it leaves the cursor on a row the
    file has moved past that position and the buffers again have their
    recorded sizes.  A full scan of such a table, csvFilter and then csvNext
    until the end of data, ends, and the row identifiers it shows are
    strictly increasing. *)
Theorem rowids_strictly_increase (nDecl : nat) (p : CSV) (c : CSVCursor) :
  table_ready p ->
  (eof p = 0 ->
   exists r,
     csvNext p c = Some r /\
     csvRowid (cursor r) = (SQLITE_OK, csv_tell p) /\
     (rc r = SQLITE_OK -> csvEof (vtab r) (cursor r) = 0 ->
      csv_tell p < csv_tell (vtab r) /\ table_ready (vtab r))) /\
  (exists rows e t c',
     full_scan nDecl p c = Some (rows, e, t, c') /\
     StronglySorted Z.lt (map row_id rows)).
Proof.
  intros Hready. pose proof (table_ready_ok _ Hready) as Hok.
  split; [|now apply full_scan_spec].
  intros He.
  destruct (csvNext_spec p c Hok He) as (r & E & _ & _ & Hc & _ & _ & Hex).
  exists r. split; [exact E|]. rewrite Hc. split; [reflexivity|].
  pose proof (csvNext_row_ready p c r Hready E) as Hkeep.
  unfold next_exit, csvEof, csv_tell, ftell in *.
  unfold SQLITE_OK, SQLITE_ERROR, SQLITE_NOMEM in *.
  intros Hrc Heof. destruct (site r); try tauto; lia.
Qed.

Lemma rowids_strictly_increase_witness :
  exists rows e t c',
    full_scan 3 (sample_table abc_file) (mkCursor 0) = Some (rows, e, t, c') /\
    map row_id rows = [0; 6] /\
    StronglySorted Z.lt (map row_id rows).
Proof.
  assert (Hready : table_ready (sample_table abc_file)) by ready_by_compute.
  destruct (rowids_strictly_increase 3 _ (mkCursor 0) Hready)
    as (_ & rows & e & t & c' & E & Hs).
  exists rows, e, t, c'. split; [exact E|]. split; [|exact Hs].
  vm_compute in E. injection E as <- _ _ _. reflexivity.
Defined.

(** ** The end-of-data flag *)

(** C10. The end-of-data flag is the table's.  csvEof answers the same
    for every cursor of a table.  Once csvNext on one cursor has left the
    flag set, by the end of the file or by a malformed row, csvEof is true
    for any other cursor; and while the flag is set csvNext fails on any
    cursor with SQLITE_ERROR and changes nothing.  csvFilter clears the
    flag before it reads: what it does is the same whatever the flag was,
    and on a table whose data start with a row of unquoted fields it
    returns SQLITE_OK with the flag clear, for every cursor, and that row
    in the columns. *)
Theorem eof_flag_is_shared (p : CSV) (c1 c2 : CSVCursor) :
  table_ready p ->
  csvEof p c1 = csvEof p c2 /\
  (forall r, csvNext p c1 = Some r -> csvEof (vtab r) (cursor r) <> 0 ->
             csvEof (vtab r) c2 <> 0 /\
             csvNext (vtab r) c2 = Some (mkNext AtEnd SQLITE_ERROR (vtab r) c2)) /\
  (csvEof p c1 <> 0 -> csvNext p c2 = Some (mkNext AtEnd SQLITE_ERROR p c2)) /\
  (forall v, csvFilter (set_eof p v) c2 = csvFilter p c2) /\
  (forall fields rest,
      1 <= nBusy p -> 0 <= offsetFirstRow p -> never_fails (db p) ->
      delimiter_ok (cDelim p) = true -> fields <> [] ->
      forallb (unquotedb (cDelim p)) fields = true ->
      skipn (Z.to_nat (offsetFirstRow p)) (fdata (f p))
      = join (cDelim p) fields ++ LF :: rest ->
      2 * (Z.of_nat (length (join (cDelim p) fields)) + 1) + 300 <= limit_length (db p) ->
      Z.of_nat (length fields) <= limit_column (db p) ->
      exists r q,
        csvFilter p c2 = Some r /\ frc r = SQLITE_OK /\ fvtab r = Some q /\
        csvEof q c1 = 0 /\ csvEof q (fcursor r) = 0 /\
        nCol q = Z.of_nat (length fields) /\
        forall i, (i < length fields)%nat ->
                  csvColumn q (Z.of_nat i) = (SQLITE_OK, text (nth i fields []), [])).
Proof.
  intros Hready. split; [reflexivity|]. split.
  { intros r _ He. unfold csvEof in *. split; [exact He|]. now apply csvNext_at_end. }
  split; [intros He; now apply csvNext_at_end|].
  split; [intros v; destruct p; reflexivity|].
  intros fields rest Hbusy Hoff Halloc Hdelim Hne Hb Hdata Hlim Hlimc.
  assert (Hplain : Forall (unquoted (cDelim p)) fields).
  { rewrite forallb_forall in Hb. apply Forall_forall. intros x Hx.
    apply unquotedb_unquoted. now apply Hb. }
  destruct (rewound_ready p Hready Hoff) as (Hready0 & He0 & Hf0 & Hdb0 & Hd0 & Hb0 & _).
  assert (Hun0 : unread (f (rewound p)) = join (cDelim p) fields ++ LF :: rest).
  { rewrite Hf0. exact Hdata. }
  unfold csvFilter. cbv zeta.
  change (csv_seek (set_eof (csvReference p) 0) _) with (rewound p).
  destruct (csvNext_plain_row (rewound p) c2 fields rest Hready0 He0)
    as (r & E & Hrc & _ & _ & _ & Hcfg & Her & _ & _ & Hnr & Hcolsr);
    rewrite ?Hd0, ?Hdb0; try assumption.
  rewrite E. destruct Hcfg as (_ & Hbr & _).
  unfold csvRelease. cbn [nBusy set_nBusy].
  replace (nBusy (vtab r) - 1 <? 1) with false by (symmetry; apply Z.ltb_ge; lia).
  do 2 eexists. split; [reflexivity|]. cbn [frc fvtab fcursor snd].
  split; [exact Hrc|]. split; [reflexivity|]. unfold csvEof. cbn [eof set_nBusy].
  split; [exact Her|]. split; [exact Her|]. split; [exact Hnr|].
  intros i Hi. rewrite <- (Hcolsr i Hi). reflexivity.
Qed.

Lemma eof_flag_is_shared_witness :
  csvEof stopped_table (mkCursor 0) <> 0 /\
  csvNext stopped_table (mkCursor 7)
  = Some (mkNext AtEnd SQLITE_ERROR stopped_table (mkCursor 7)) /\
  exists r q,
    csvFilter stopped_table (mkCursor 7) = Some r /\ frc r = SQLITE_OK /\
    fvtab r = Some q /\ csvEof q (mkCursor 0) = 0 /\ csvEof q (fcursor r) = 0 /\
    nCol q = 1 /\ csvColumn q 0 = (SQLITE_OK, text (bytes "h"), []).
Proof.
  assert (Hready : table_ready stopped_table) by ready_by_compute.
  assert (He : csvEof stopped_table (mkCursor 0) <> 0) by (vm_compute; discriminate).
  destruct (eof_flag_is_shared stopped_table (mkCursor 0) (mkCursor 7) Hready)
    as (_ & _ & Hnext & _ & Hopen).
  split; [exact He|]. split; [exact (Hnext He)|].
  assert (H1 : 1 <= nBusy stopped_table) by by_compute.
  assert (H2 : 0 <= offsetFirstRow stopped_table) by by_compute.
  assert (H3 : never_fails (db stopped_table)) by (intros k _; vm_compute; reflexivity).
  assert (H4 : delimiter_ok (cDelim stopped_table) = true) by by_compute.
  assert (H5 : [bytes "h"] <> []) by discriminate.
  assert (H6 : forallb (unquotedb (cDelim stopped_table)) [bytes "h"] = true) by by_compute.
  assert (H7 : skipn (Z.to_nat (offsetFirstRow stopped_table)) (fdata (f stopped_table))
               = join (cDelim stopped_table) [bytes "h"]
                      ++ LF :: DQUOTE :: bytes "abc" ++ [LF]) by by_compute.
  assert (H8 : 2 * (Z.of_nat (length (join (cDelim stopped_table) [bytes "h"])) + 1) + 300
               <= limit_length (db stopped_table)) by by_compute.
  assert (H9 : Z.of_nat (length [bytes "h"]) <= limit_column (db stopped_table))
    by by_compute.
  destruct (Hopen _ _ H1 H2 H3 H4 H5 H6 H7 H8 H9)
    as (r & q & E & Hrc & Hq & Hq1 & Hq2 & Hn & Hcols).
  exists r, q. repeat (split; [assumption|]).
  exact (Hcols 0%nat (Nat.lt_0_succ 0)).
Defined.

(** * Rows that csvNext does not show *)

(** ** The line reader up to the end of the file *)





(** ** A quoted field that is never closed *)











(** ** More columns than the host allows *)



(** ** Failed rows *)



